(** * Scholar-Athen: the paragraph-to-citation pipeline

    A shallow embedding of the Python sources of the pipeline (citation
    formatter, query builder, paragraph cleaner, LLM keyword extraction and
    ranking, semantic ranker, orchestrator) together with the properties
    stated about them.

    Conventions of the embedding:
    - a Python [str] is a list of Unicode code points ([str := list N]);
    - a Python exception is a value of [exn], a computation that may raise
      returns a [result];
    - Python objects read by the code (JSON data, paper dictionaries) are
      values of [value]; dictionaries that the code copies or updates live
      in a store;
    - NumPy [float32] scalars are IEEE-754 binary32 numbers ([spec_float]
      with precision 24 and maximal exponent 128). *)

From Stdlib Require Import ZArith NArith List String Ascii Bool Lia.
From Stdlib Require Import DecimalString Sorting.Sorted.
From Stdlib.Floats Require Import SpecFloat.
From stdpp Require Import base option list gmap sorting.

Set Default Proof Using "Type".
Set Warnings "-register-all".
Local Open Scope Z_scope.

(* ===================================================================== *)
(** * Python basics: exceptions, strings, sequences                       *)
(* ===================================================================== *)

Module Py.

(** Exceptions raised by the modelled code. *)
Inductive exn :=
  | KeyError | IndexError | TypeError | ValueError | AttributeError
  | JSONDecodeError | RuntimeError | ConnectionError.

Inductive result (A : Type) :=
  | Ok (a : A)
  | Raise (e : exn).
Arguments Ok {A} a.
Arguments Raise {A} e.

Definition bind {A B} (r : result A) (k : A -> result B) : result B :=
  match r with
  | Ok a => k a
  | Raise e => Raise e
  end.

Definition is_ok {A} (r : result A) : bool :=
  match r with Ok _ => true | Raise _ => false end.

Fixpoint mapM {A B} (f : A -> result B) (l : list A) : result (list B) :=
  match l with
  | [] => Ok []
  | x :: r => bind (f x) (fun y => bind (mapM f r) (fun ys => Ok (y :: ys)))
  end.

(** ** Strings *)

Definition char := N.
Definition str := list char.

(** A string literal of the source, as code points. *)
Definition py (s : string) : str := map N_of_ascii (list_ascii_of_string s).
Arguments py : simpl never.

(** The double quote character, which the literals above cannot hold. *)
Definition dq : str := [34%N].

(** [str.isspace] on one code point: the Unicode white space of CPython,
    which is also what [\s] matches in [re] and what [str.split()] and
    [str.strip()] cut at. *)
Definition isspace (c : char) : bool :=
  ((9 <=? c) && (c <=? 13) || (28 <=? c) && (c <=? 32)
   || (c =? 133) || (c =? 160) || (c =? 5760)
   || (8192 <=? c) && (c <=? 8202)
   || (c =? 8232) || (c =? 8233) || (c =? 8239) || (c =? 8287)
   || (c =? 12288))%N.

(** The character class [[a-zA-Z0-9]]. *)
Definition is_ascii_alnum (c : char) : bool :=
  ((48 <=? c) && (c <=? 57) || (65 <=? c) && (c <=? 90)
   || (97 <=? c) && (c <=? 122))%N.

Fixpoint drop_space (s : str) : str :=
  match s with
  | [] => []
  | c :: r => if isspace c then drop_space r else s
  end.

(** [s.strip()] *)
Definition strip (s : str) : str := rev (drop_space (rev (drop_space s))).

(** [s.split()]: the maximal runs of non-space characters. [cur] holds the
    run being read, reversed. *)
Fixpoint split_from (cur : str) (s : str) : list str :=
  match s with
  | [] => match cur with [] => [] | _ => [rev cur] end
  | c :: r =>
      if isspace c
      then match cur with
           | [] => split_from [] r
           | _ => rev cur :: split_from [] r
           end
      else split_from (c :: cur) r
  end.

Definition split (s : str) : list str := split_from [] s.

(** [s.split(sep)] for a one-character separator: empty pieces are kept. *)
Fixpoint split_on_from (sep : char) (cur : str) (s : str) : list str :=
  match s with
  | [] => [rev cur]
  | c :: r =>
      if (c =? sep)%N then rev cur :: split_on_from sep [] r
      else split_on_from sep (c :: cur) r
  end.

Definition split_on (sep : char) (s : str) : list str := split_on_from sep [] s.

(** [sep.join(l)] *)
Fixpoint join (sep : str) (l : list str) : str :=
  match l with
  | [] => []
  | [x] => x
  | x :: r => x ++ sep ++ join sep r
  end.

(** ** Sequences *)

(** [l[:n]] for a Python [int] [n]: a negative bound counts from the end. *)
Definition slice_to {A} (n : Z) (l : list A) : list A :=
  if 0 <=? n then take (Z.to_nat n) l
  else take (Z.to_nat (Z.of_nat (length l) + n)) l.

(** [l[0]] and [l[-1]] *)
Definition first {A} (l : list A) : result A :=
  match l with
  | x :: _ => Ok x
  | [] => Raise IndexError
  end.

Definition final {A} (l : list A) : result A :=
  match last l with
  | Some x => Ok x
  | None => Raise IndexError
  end.

(** Decimal rendering of an [int]. *)
Definition str_of_Z (z : Z) : str := py (NilZero.string_of_int (Z.to_int z)).

(** ** Objects *)

(** The Python values the code handles: JSON data and the fields of paper
    dictionaries. A [VDict] keeps its items in insertion order. *)
Inductive value :=
  | VNone
  | VBool (b : bool)
  | VInt (z : Z)
  | VFloat (f : spec_float)
  | VStr (s : str)
  | VList (l : list value)
  | VDict (d : list (str * value)).

Definition is_str (v : value) (s : str) : bool :=
  match v with
  | VStr t => bool_decide (t = s)
  | _ => false
  end.

End Py.
Import Py.

#[export] Instance result_ret : MRet result := @Ok.
#[export] Instance result_bind : MBind result := fun A B k r => Py.bind r k.

(** The library functions the sources call and whose code is not part of
    the repository. *)
Class Library := {
  (** [str(v)] for an object that is not a string *)
  py_repr : value -> str;
  (** [c.isalnum()] on one character *)
  isalnum : char -> bool;
  (** [datetime.now().strftime(fmt)] *)
  clock : str -> str;
  (** [json.loads]; [None] stands for [json.JSONDecodeError] *)
  json_loads : str -> option value;
  (** the texts of [nlp(text).sents] (spaCy sentence segmentation) *)
  nlp_sents : str -> list str;
  (** [SentenceTransformer.encode] on one text *)
  encode : str -> list spec_float;
  (** [os.getenv] of the API key *)
  api_key : value;
  (** the paragraphs [TextExtractor(file_path, doc_type).extract()] reads *)
  extract_paragraphs : str -> str -> result (list str);
  (** [os.path.splitext(path)[0]] *)
  splitext_root : str -> str;
  (** [np.dot(u, v)] of two float32 vectors: the order in which the
      routine behind it adds the products, and with it the rounding of
      the sum, is the library's; shapes that do not fit raise *)
  np_dot : list spec_float -> list spec_float -> result spec_float;
  (** [np.linalg.norm(u)] of a float32 vector *)
  np_norm : list spec_float -> spec_float;
  (** the places that [list.sort] gives to the items of a list of pairs
      sorted by a float key, when a key is a NaN: the arrangement then
      depends on the comparisons that the algorithm of the interpreter
      makes *)
  sort_places : list (nat * spec_float) -> list nat
}.

(** A paper dictionary. *)
Abbreviation dict := (gmap str value).

(** [d.get(k, default)] *)
Definition dict_get (d : dict) (k : str) (default : value) : value :=
  match d !! k with
  | Some v => v
  | None => default
  end.

(** [f"{v}"] *)
Definition to_str `{Library} (v : value) : str :=
  match v with
  | VStr s => s
  | _ => py_repr v
  end.

(** The items of a sequence object; [len], indexing and iteration of the
    formatter go through it. A string is the sequence of its characters.
    Any other object in the place of the list of authors is outside the
    records the code builds, and is answered with [TypeError]; the
    formatters themselves are less uniform there (a dict is read as the
    sequence of its keys where it is only iterated, and [None] gives the
    empty author string in [_format_authors_apa] and
    [_format_authors_mla]), which no statement below depends on. *)
Definition items (v : value) : result (list value) :=
  match v with
  | VList l => Ok l
  | VStr s => Ok (map (fun c => VStr [c]) s)
  | _ => Raise TypeError
  end.

(** [a.split()] on an item *)
Definition split_of (v : value) : result (list str) :=
  match v with
  | VStr s => Ok (split s)
  | _ => Raise AttributeError
  end.

(** An item handed to [str.join] or [+] has to be a string. *)
Definition as_str (v : value) : result str :=
  match v with
  | VStr s => Ok s
  | _ => Raise TypeError
  end.

(* ===================================================================== *)
(** * papers/CitationFormatter.py                                         *)
(* ===================================================================== *)

Module CitationFormatter.
Section Formatter.
Context `{Library}.

(** [f"{a[-1]}, {a[0][0]}"] for [a = author.split()] *)
Definition last_initial (a : list str) : result str :=
  l ← final a;
  f ← first a;
  c ← first f;
  Ok (l ++ py ", " ++ [c]).

Definition _format_authors (authors_list : list value) : result str :=
  match authors_list with
  | [] => Ok []
  | [x] =>
      a ← split_of x;
      s ← last_initial a;
      Ok (s ++ py ".")
  | [x1; x2] =>
      a1 ← split_of x1;
      a2 ← split_of x2;
      s1 ← last_initial a1;
      s2 ← last_initial a2;
      Ok (s1 ++ py ". and " ++ s2 ++ py ".")
  | [x1; x2; x3] =>
      a1 ← split_of x1;
      a2 ← split_of x2;
      a3 ← split_of x3;
      s1 ← last_initial a1;
      s2 ← last_initial a2;
      s3 ← last_initial a3;
      Ok (s1 ++ py "., " ++ s2 ++ py " and " ++ s3 ++ py ".")
  | x1 :: _ =>
      a1 ← split_of x1;
      s1 ← last_initial a1;
      Ok (s1 ++ py ". et al.")
  end.

(** [' '.join([p[0]+'.' for p in parts[:-1]])] *)
Definition apa_initials (parts : list str) : result str :=
  l ← mapM (fun p => c ← first p; Ok ([c] ++ py ".")) (slice_to (-1) parts);
  Ok (join (py " ") l).

Definition _format_authors_apa (authors_list : list value) : result str :=
  match authors_list with
  | [] => Ok []
  | _ =>
      formatted ← mapM (fun a =>
                           parts ← split_of a;
                           l ← final parts;
                           i ← apa_initials parts;
                           Ok (l ++ py ", " ++ i))
                        (slice_to 7 authors_list);
      let formatted :=
        if (7 <? length authors_list)%nat then formatted ++ [py "et al."]
        else formatted in
      Ok (join (py ", & ") formatted)
  end.

Definition _format_authors_mla (authors_list : list value) : result str :=
  match authors_list with
  | [] => Ok []
  | _ =>
      formatted ← mapM (fun a =>
                           parts ← split_of a;
                           l ← final parts;
                           Ok (l ++ py ", " ++ join (py " ") (slice_to (-1) parts)))
                        authors_list;
      Ok (join (py ", ") formatted)
  end.

Definition authors_of (paper : dict) : value :=
  dict_get paper (py "authors") (VList []).
Definition year_of (paper : dict) : value :=
  dict_get paper (py "year") (VStr (py "n.d.")).
Definition title_of (paper : dict) : value :=
  dict_get paper (py "title") (VStr (py "No title")).
Definition link_of (paper : dict) : value :=
  dict_get paper (py "link") (VStr []).

Definition harvard (paper : dict) : result str :=
  l ← items (authors_of paper);
  authors_str ← _format_authors l;
  let accessed := clock (py "%d %b %Y") in
  Ok (authors_str ++ py " (" ++ to_str (year_of paper) ++ py ") '"
        ++ to_str (title_of paper) ++ py "', arXiv. Available at: "
        ++ to_str (link_of paper) ++ py " (Accessed: " ++ accessed ++ py ").").

Definition apa (paper : dict) : result str :=
  l ← items (authors_of paper);
  authors_str ← _format_authors_apa l;
  Ok (authors_str ++ py " (" ++ to_str (year_of paper) ++ py "). "
        ++ to_str (title_of paper) ++ py ". arXiv. " ++ to_str (link_of paper)).

Definition mla (paper : dict) : result str :=
  l ← items (authors_of paper);
  authors_str ← _format_authors_mla l;
  let accessed := clock (py "%d %b %Y") in
  Ok (authors_str ++ py ". " ++ dq ++ to_str (title_of paper) ++ py "." ++ dq
        ++ py " arXiv, " ++ to_str (year_of paper) ++ py ". Web. Accessed "
        ++ accessed ++ py ". " ++ to_str (link_of paper) ++ py ".").

Definition chicago (paper : dict) : result str :=
  l ← items (authors_of paper);
  authors_str ← _format_authors l;
  let accessed := clock (py "%B %d, %Y") in
  Ok (authors_str ++ py ". " ++ dq ++ to_str (title_of paper) ++ py "." ++ dq
        ++ py " arXiv, " ++ to_str (year_of paper) ++ py ". Accessed "
        ++ accessed ++ py ". " ++ to_str (link_of paper) ++ py ".").

(** [a.split()[-1] + ' ' + a.split()[0][0] + '.'] *)
Definition ieee_author (a : value) : result str :=
  parts ← split_of a;
  l ← final parts;
  f ← first parts;
  c ← first f;
  Ok (l ++ py " " ++ [c] ++ py ".").

Definition ieee (paper : dict) (number : Z) : result str :=
  authors_list ← items (authors_of paper);
  l ← mapM ieee_author authors_list;
  let authors_str := join (py ", ") l in
  Ok (py "[" ++ str_of_Z number ++ py "] " ++ authors_str ++ py ", " ++ dq
        ++ to_str (title_of paper) ++ py "," ++ dq ++ py " arXiv, "
        ++ to_str (year_of paper) ++ py ". " ++ to_str (link_of paper)).

Definition bibtex (paper : dict) : result str :=
  authors_list ← items (authors_of paper);
  names ← mapM as_str authors_list;
  let authors_str := join (py " and ") names in
  let year := year_of paper in
  let title := title_of paper in
  let link := link_of paper in
  t ← as_str title;
  y ← as_str year;
  let citation_key := slice_to 20 (filter (fun e => isalnum e = true) t) ++ y in
  Ok (py "@misc{" ++ citation_key ++ py ("," ++ String "010" "  author = {")
        ++ authors_str ++ py ("}," ++ String "010" "  title = {") ++ t
        ++ py ("}," ++ String "010" "  year = {") ++ y
        ++ py ("}," ++ String "010" "  howpublished = {arXiv},"
                 ++ String "010" "  note = {Available at: ")
        ++ to_str link ++ py ("}" ++ String "010" "}")).

(** [format(paper, style="harvard")] *)
Definition format (paper : dict) (style : value) : result str :=
  if is_str style (py "harvard") then harvard paper
  else if is_str style (py "apa") then apa paper
  else if is_str style (py "mla") then mla paper
  else if is_str style (py "chicago") then chicago paper
  else if is_str style (py "bibtex") then bibtex paper
  else harvard paper.

End Formatter.
End CitationFormatter.

(* ===================================================================== *)
(** * papers/Cleaner.py                                                   *)
(* ===================================================================== *)

Module ParagraphCleaner.
Section Cleaner.
Context `{Library}.

(** The length of the shortest match of [.*?>] at the head of [s];
    [.] does not match a newline. *)
Fixpoint tag_end (s : str) : option nat :=
  match s with
  | [] => None
  | c :: r =>
      if (c =? 62)%N then Some 1%nat
      else if (c =? 10)%N then None
      else S <$> tag_end r
  end.

(** [re.sub(r'<.*?>', '', text)]; [skip] counts the characters of the
    match being removed. *)
Fixpoint remove_tags_from (skip : nat) (text : str) : str :=
  match text with
  | [] => []
  | c :: r =>
      match skip with
      | S k => remove_tags_from k r
      | O =>
          if (c =? 60)%N
          then match tag_end r with
               | Some n => remove_tags_from n r
               | None => c :: remove_tags_from 0 r
               end
          else c :: remove_tags_from 0 r
      end
  end.

Definition remove_tags (text : str) : str := remove_tags_from 0 text.

(** [re.sub(r'\s+', ' ', text)] *)
Fixpoint collapse_from (in_space : bool) (text : str) : str :=
  match text with
  | [] => []
  | c :: r =>
      if isspace c
      then if in_space then collapse_from true r
           else 32%N :: collapse_from true r
      else c :: collapse_from false r
  end.

Definition collapse_spaces (text : str) : str := collapse_from false text.

(** The text handed to the segmenter. *)
Definition normalise (text : str) : str :=
  strip (collapse_spaces (remove_tags text)).

(** [[s.text.strip() for s in doc.sents]] *)
Definition segmented (text : str) : list str :=
  map strip (nlp_sents (normalise text)).

(** [[s for s in sentences if len(s.split()) >= self.min_words]] *)
Definition long_enough (min_words : Z) (s : str) : bool :=
  min_words <=? Z.of_nat (length (split s)).

Definition kept (min_words : Z) (text : str) : list str :=
  filter (fun s => long_enough min_words s = true) (segmented text).

Definition _clean (min_words : Z) (text : str) : str :=
  join (py " ") (kept min_words text).

(** [clean()]: the cleaned paragraphs that are not empty *)
Definition clean (min_words : Z) (paragraphs : list str) : list str :=
  filter (fun p => p <> []) (map (_clean min_words) paragraphs).

End Cleaner.
End ParagraphCleaner.

(* ===================================================================== *)
(** * The world outside the process, and the store                        *)
(* ===================================================================== *)

(** Objects that the code shares and updates in place are held in a store
    and named by their address. *)
Definition loc := nat.

Inductive obj :=
  | ODict (d : dict)
  | OList (l : list loc).

(** An entry of the Atom feed: the [.text] of its elements. *)
Record entry := {
  e_title : option str;
  e_id : option str;
  e_summary : option str;
  e_authors : list (option str);
  e_published : option str
}.

(** The LLM endpoint and the arXiv API answer the successive requests with
    the next reply of a script; the requests sent are logged, latest
    first. A reply is the text of [choices[0].message.content] (resp. the
    parsed feed), or the exception the request ends in. *)
Record world := {
  llm_replies : list (result str);
  llm_prompts : list str;
  arxiv_replies : list (result (list entry));
  arxiv_queries : list str;
  heap : list obj
}.

Definition M (A : Type) : Type := world -> result A * world.

#[export] Instance M_ret : MRet M := fun A a w => (Ok a, w).
#[export] Instance M_bind : MBind M := fun A B k m w =>
  match m w with
  | (Ok a, w') => k a w'
  | (Raise e, w') => (Raise e, w')
  end.

Definition lift {A} (r : result A) : M A := fun w => (r, w).
Definition raise {A} (e : exn) : M A := fun w => (Raise e, w).

(** [try: m except E: h], where [catches e] tells whether the clause
    handles [e]. *)
Definition try_except {A} (m : M A) (catches : exn -> bool) (h : M A) : M A :=
  fun w =>
    match m w with
    | (Ok a, w') => (Ok a, w')
    | (Raise e, w') => if catches e then h w' else (Raise e, w')
    end.

(** [for i, x in enumerate(l)] threading the variables the body updates *)
Fixpoint for_each {A St} (body : nat -> A -> St -> M St) (i : nat)
    (l : list A) (s : St) : M St :=
  match l with
  | [] => mret s
  | x :: r => s' ← body i x s; for_each body (S i) r s'
  end.

Definition set_heap (h : list obj) (w : world) : world :=
  {| llm_replies := llm_replies w; llm_prompts := llm_prompts w;
     arxiv_replies := arxiv_replies w; arxiv_queries := arxiv_queries w;
     heap := h |}.

(** Allocation of a new object, reading and updating one. An address
    that [alloc] has not handed out holds nothing: reading it is an error
    of the embedding, writing to it does nothing. *)
Definition alloc (o : obj) : M loc := fun w =>
  (Ok (length (heap w)), set_heap (heap w ++ [o]) w).

Definition load (l : loc) : M obj := fun w =>
  match heap w !! l with
  | Some o => (Ok o, w)
  | None => (Raise RuntimeError, w)
  end.

Definition store (l : loc) (o : obj) : M unit := fun w =>
  (Ok tt, set_heap (<[l := o]> (heap w)) w).

Definition load_dict (l : loc) : M dict :=
  o ← load l;
  match o with
  | ODict d => mret d
  | OList _ => raise TypeError
  end.

Definition load_list (l : loc) : M (list loc) :=
  o ← load l;
  match o with
  | OList ls => mret ls
  | ODict _ => raise TypeError
  end.

(** [requests.post] to the LLM endpoint, up to the content of the answer *)
Definition post (prompt : str) : M str := fun w =>
  let w' reps :=
    {| llm_replies := reps; llm_prompts := prompt :: llm_prompts w;
       arxiv_replies := arxiv_replies w; arxiv_queries := arxiv_queries w;
       heap := heap w |} in
  match llm_replies w with
  | [] => (Raise ConnectionError, w' [])
  | r :: reps => (r, w' reps)
  end.

(** [requests.get] to the arXiv API, up to the parsed feed *)
Definition get_feed (query : str) : M (list entry) := fun w =>
  let w' reps :=
    {| llm_replies := llm_replies w; llm_prompts := llm_prompts w;
       arxiv_replies := reps; arxiv_queries := query :: arxiv_queries w;
       heap := heap w |} in
  match arxiv_replies w with
  | [] => (Raise ConnectionError, w' [])
  | r :: reps => (r, w' reps)
  end.

(** ** Helpers shared by the LLM callers *)

Definition backtick : char := 96%N.

(** The length of a match of [```json|```] (with [re.IGNORECASE]) at the
    head of [s]. *)
Definition fence_len (s : str) : option nat :=
  match s with
  | a :: b :: c :: r =>
      if ((a =? backtick) && (b =? backtick) && (c =? backtick))%N
      then match r with
           | j :: s' :: o :: n :: _ =>
               if (((j =? 106) || (j =? 74))
                   && ((s' =? 115) || (s' =? 83) || (s' =? 383))
                   && ((o =? 111) || (o =? 79))
                   && ((n =? 110) || (n =? 78)))%N
               then Some 7%nat else Some 3%nat
           | _ => Some 3%nat
           end
      else None
  | _ => None
  end.

(** [re.sub(r"```json|```", "", text, flags=re.IGNORECASE)] *)
Fixpoint remove_fences_from (skip : nat) (text : str) : str :=
  match text with
  | [] => []
  | c :: r =>
      match skip with
      | S k => remove_fences_from k r
      | O =>
          match fence_len text with
          | Some (S n) => remove_fences_from n r
          | _ => c :: remove_fences_from 0 r
          end
      end
  end.

Definition clean_reply (llm_text : str) : str :=
  strip (remove_fences_from 0 llm_text).

(** The value of the first item of [d] with the key [k]. *)
Fixpoint assoc {K A} `{EqDecision K} (k : K) (d : list (K * A)) : option A :=
  match d with
  | [] => None
  | (k', v) :: r => if decide (k = k') then Some v else assoc k r
  end.

(** [v.get(k, default)]: only a dict has the method. *)
Definition value_get (v : value) (k : str) (default : value) : result value :=
  match v with
  | VDict d => Ok (match assoc k d with Some x => x | None => default end)
  | _ => Raise AttributeError
  end.

(** [v[k]] for a string key *)
Definition subscript (v : value) (k : str) : result value :=
  match v with
  | VDict d => match assoc k d with Some x => Ok x | None => Raise KeyError end
  | _ => Raise TypeError
  end.

(** The elements [for x in v] runs over. *)
Definition iter_of (v : value) : result (list value) :=
  match v with
  | VList l => Ok l
  | VStr s => Ok (map (fun c => VStr [c]) s)
  | VDict d => Ok (map (fun kv => VStr (fst kv)) d)
  | _ => Raise TypeError
  end.

(** [len(v)] *)
Definition len (v : value) : result nat :=
  match v with
  | VList l => Ok (length l)
  | VStr s => Ok (length s)
  | VDict d => Ok (length d)
  | _ => Raise TypeError
  end.

(** A dictionary keyed by paragraph index, in insertion order. *)
Abbreviation index_dict := (list (nat * value)).

(** [d[idx] = v] *)
Fixpoint index_set (idx : nat) (v : value) (d : index_dict) : index_dict :=
  match d with
  | [] => [(idx, v)]
  | (i, x) :: r => if decide (i = idx) then (i, v) :: r
                   else (i, x) :: index_set idx v r
  end.

(** [d[idx]] *)
Definition index_get (idx : nat) (d : index_dict) : result value :=
  match assoc idx d with
  | Some v => Ok v
  | None => Raise KeyError
  end.

Definition nl : str := [10%N].
(** One line of a triple-quoted prompt, indented by [n] spaces. *)
Definition line (n : nat) (s : str) : str := repeat 32%N n ++ s ++ nl.

(* ===================================================================== *)
(** * Doc-Scraper/archive/ver0/ver4_extract_key_ele.py                    *)
(* ===================================================================== *)

Module ExtractKeyEle.
Section Extract.
Context `{Library}.

(** [call_llm(prompt, headers)], applied to the positional arguments
    [args]: a call that does not supply both parameters raises
    [TypeError] before the body runs. *)
Definition call_llm (args : list value) : M str :=
  match args with
  | [prompt; headers] =>
      llm_text ← post (to_str prompt);
      mret (strip llm_text)
  | _ => raise TypeError
  end.

Definition headers : value :=
  VDict [(py "Authorization", VStr (py "Bearer " ++ to_str api_key));
         (py "Content-Type", VStr (py "application/json"))].

Definition json_shape (n : nat) : str :=
  line n (py "{")
  ++ line (n + 4) (dq ++ py "keywords" ++ dq ++ py ": [" ++ dq ++ py "keyword1"
                     ++ dq ++ py ", " ++ dq ++ py "keyword2" ++ dq ++ py ", ...],")
  ++ line (n + 4) (dq ++ py "summary" ++ dq ++ py ": " ++ dq
                     ++ py "short summary here" ++ dq)
  ++ line n (py "}").

Definition prompt_of (get_summary : bool) (paragraph : str) : str :=
  nl
  ++ line 8 (py "Extract keywords and "
               ++ (if get_summary then py "a summary" else [])
               ++ py " from the paragraph below.")
  ++ line 8 (py "Respond ONLY in valid JSON inside a ```json ... ``` code block, with this structure:")
  ++ nl
  ++ json_shape 8
  ++ nl
  ++ line 8 (py "Paragraph:")
  ++ line 8 paragraph
  ++ repeat 32%N 8.

Definition prompt_retry_of (paragraph : str) : str :=
  nl
  ++ line 16 (py "RESPOND ONLY in JSON, STRICTLY following this format (no extra text):")
  ++ nl
  ++ json_shape 16
  ++ nl
  ++ line 16 (py "Paragraph:")
  ++ line 16 paragraph
  ++ repeat 32%N 16.

(** The two dictionaries the loop fills; the second one is [None] when no
    summary is asked for. *)
Definition tables : Type := index_dict * option index_dict.

(** The body of a [try] block: the assignments from a parsed answer. *)
Definition record_parsed (get_summary : bool) (idx : nat) (llm_json : value)
    (t : tables) : result tables :=
  k ← value_get llm_json (py "keywords") (VList []);
  let kw := index_set idx k (fst t) in
  if get_summary
  then s ← value_get llm_json (py "summary") VNone;
       Ok (kw, index_set idx s <$> snd t)
  else Ok (kw, snd t).

(** [[s.strip().split()[0] for s in sentences if s.strip() != ""][:8]] *)
Definition heuristic_keywords (sentences : list str) : result (list str) :=
  ws ← mapM (fun s => first (split (strip s)))
            (filter (fun s => strip s <> []) sentences);
  Ok (slice_to 8 ws).

(** [sentences[0].strip() if sentences else None] *)
Definition heuristic_summary (sentences : list str) : value :=
  match sentences with
  | s :: _ => VStr (strip s)
  | [] => VNone
  end.

Definition fallback (get_summary : bool) (idx : nat) (paragraph : str)
    (t : tables) : result tables :=
  let sentences := split_on 46%N paragraph in
  ks ← heuristic_keywords sentences;
  let kw := index_set idx (VList (map VStr ks)) (fst t) in
  if get_summary
  then Ok (kw, index_set idx (heuristic_summary sentences) <$> snd t)
  else Ok (kw, snd t).

(** One iteration of the loop over the paragraphs. *)
Definition extract_one (get_summary retry_on_fail : bool) (idx : nat)
    (paragraph : str) (t : tables) : M tables :=
  let prompt := prompt_of get_summary paragraph in
  llm_text ← call_llm [VStr prompt; headers];
  let llm_text_clean := clean_reply llm_text in
  match json_loads llm_text_clean with
  | Some llm_json => lift (record_parsed get_summary idx llm_json t)
  | None =>
      if retry_on_fail
      then
        let prompt_retry := prompt_retry_of paragraph in
        llm_text ← call_llm [];
        let llm_text_clean := clean_reply llm_text in
        match json_loads llm_text_clean with
        | Some llm_json => lift (record_parsed get_summary idx llm_json t)
        | None => lift (fallback get_summary idx paragraph t)
        end
      else lift (fallback get_summary idx paragraph t)
  end.

Definition extract_keywords_and_summary (paragraphs : list str)
    (get_summary retry_on_fail : bool) : M tables :=
  for_each (extract_one get_summary retry_on_fail) 0 paragraphs
           ([], if get_summary then Some [] else None).

End Extract.
End ExtractKeyEle.

(* ===================================================================== *)
(** * Doc-Scraper/archive/ver0/ver5_rank_keyword.py                       *)
(* ===================================================================== *)

(** The later revision of the extractor, in which the retry sends
    [prompt_retry]. *)
Module RankKeyword.
Section Extract.
Context `{Library}.

(** [call_llm(prompt)] *)
Definition call_llm (args : list value) : M str :=
  match args with
  | [prompt] =>
      llm_text ← post (to_str prompt);
      mret (strip llm_text)
  | _ => raise TypeError
  end.

Definition extract_one (get_summary retry_on_fail : bool) (idx : nat)
    (paragraph : str) (t : ExtractKeyEle.tables) : M ExtractKeyEle.tables :=
  let prompt := ExtractKeyEle.prompt_of get_summary paragraph in
  llm_text ← call_llm [VStr prompt];
  let llm_text_clean := clean_reply llm_text in
  match json_loads llm_text_clean with
  | Some llm_json => lift (ExtractKeyEle.record_parsed get_summary idx llm_json t)
  | None =>
      if retry_on_fail
      then
        let prompt_retry := ExtractKeyEle.prompt_retry_of paragraph in
        llm_text ← call_llm [VStr prompt_retry];
        let llm_text_clean := clean_reply llm_text in
        match json_loads llm_text_clean with
        | Some llm_json =>
            lift (ExtractKeyEle.record_parsed get_summary idx llm_json t)
        | None => lift (ExtractKeyEle.fallback get_summary idx paragraph t)
        end
      else lift (ExtractKeyEle.fallback get_summary idx paragraph t)
  end.

Definition extract_keywords_and_summary (paragraphs : list str)
    (get_summary retry_on_fail : bool) : M ExtractKeyEle.tables :=
  for_each (extract_one get_summary retry_on_fail) 0 paragraphs
           ([], if get_summary then Some [] else None).

End Extract.
End RankKeyword.

(* ===================================================================== *)
(** * Doc-Scraper/archive/ver1/LLMClient.py                               *)
(* ===================================================================== *)

Module LLMClient.
Section Client.
Context `{Library}.

(** [call(self, prompt)] *)
Definition call (prompt : str) : M str :=
  text ← post prompt;
  mret (strip text).

Definition extract_prompt (get_summary : bool) (para : str) : str :=
  nl
  ++ line 12 (py "Extract keywords and "
                ++ (if get_summary then py "a summary" else [])
                ++ py " from the paragraph below.")
  ++ line 12 (py "Respond ONLY in JSON:")
  ++ line 12 (py "{")
  ++ line 16 (dq ++ py "keywords" ++ dq ++ py ": [" ++ dq ++ py "keyword1" ++ dq
                ++ py ", " ++ dq ++ py "keyword2" ++ dq ++ py "],")
  ++ line 16 (dq ++ py "summary" ++ dq ++ py ": " ++ dq ++ py "short summary" ++ dq)
  ++ line 12 (py "}")
  ++ line 12 (py "Paragraph:")
  ++ line 12 para
  ++ repeat 32%N 12.

Definition extract_one (get_summary : bool) (idx : nat) (para : str)
    (t : ExtractKeyEle.tables) : M ExtractKeyEle.tables :=
  let prompt := extract_prompt get_summary para in
  text ← call prompt;
  let text_clean := clean_reply text in
  match json_loads text_clean with
  | Some data => lift (ExtractKeyEle.record_parsed get_summary idx data t)
  | None =>
      let keywords := index_set idx (VList []) (fst t) in
      if get_summary
      then mret (keywords, index_set idx (VStr []) <$> snd t)
      else mret (keywords, snd t)
  end.

Definition extract_keywords_and_summary (paragraphs : list str)
    (get_summary : bool) : M ExtractKeyEle.tables :=
  for_each (extract_one get_summary) 0 paragraphs
           ([], if get_summary then Some [] else None).

Definition rank_prompt (paragraph : str) (keywords : value) : str :=
  nl
  ++ line 8 (py "Rank these keywords by relevance to paragraph:")
  ++ line 8 (py "Paragraph: " ++ paragraph)
  ++ line 8 (py "Keywords: " ++ to_str keywords)
  ++ line 8 (py "Respond ONLY in JSON with: {" ++ dq ++ py "ranked_keywords" ++ dq
               ++ py ":[{" ++ dq ++ py "keyword" ++ dq ++ py ":" ++ dq ++ py "example"
               ++ dq ++ py "," ++ dq ++ py "relevance" ++ dq ++ py ":0.9}]}")
  ++ repeat 32%N 8.

(** [[(kw["keyword"], kw["relevance"]) for kw in data["ranked_keywords"]]] *)
Definition ranked_of (data : value) : result (list (value * value)) :=
  rk ← subscript data (py "ranked_keywords");
  kws ← iter_of rk;
  mapM (fun kw =>
          k ← subscript kw (py "keyword");
          r ← subscript kw (py "relevance");
          Ok (k, r)) kws.

(** [[(kw, None) for kw in keywords]] *)
Definition unranked (keywords : value) : result (list (value * value)) :=
  kws ← iter_of keywords;
  Ok (map (fun kw => (kw, VNone)) kws).

(** [rank_keywords(self, paragraph, keywords)]: the [try] block holds
    [json.loads] and the comprehension, and a bare [except] follows. *)
Definition rank_keywords (paragraph : str) (keywords : value)
    : M (list (value * value)) :=
  let prompt := rank_prompt paragraph keywords in
  text ← call prompt;
  let text_clean := clean_reply text in
  try_except
    (match json_loads text_clean with
     | Some data => lift (ranked_of data)
     | None => raise JSONDecodeError
     end)
    (fun _ => true)
    (lift (unranked keywords)).

End Client.
End LLMClient.

(* ===================================================================== *)
(** * NumPy float32 arithmetic                                            *)
(* ===================================================================== *)

Module F32.

Definition prec : Z := 24.
Definition emax : Z := 128.

Definition zero : spec_float := S754_zero false.
Definition add : spec_float -> spec_float -> spec_float := SFadd prec emax.
Definition mul : spec_float -> spec_float -> spec_float := SFmul prec emax.
Definition div : spec_float -> spec_float -> spec_float := SFdiv prec emax.
Definition sqrt : spec_float -> spec_float := SFsqrt prec emax.
Definition ltb : spec_float -> spec_float -> bool := SFltb.
Definition leb : spec_float -> spec_float -> bool := SFleb.

(** The float32 of an integer. *)
Definition of_Z (z : Z) : spec_float := binary_normalize prec emax z 0 false.

(** [np.rint]: the nearest integer, ties to even, with the sign kept. *)
Definition rint (x : spec_float) : spec_float :=
  match x with
  | S754_finite s m e =>
      if 0 <=? e then x
      else
        let mrs := fst (shr (Build_shr_record (Zpos m) false false) e (- e)) in
        match round_nearest_even (shr_m mrs) (loc_of_shr_record mrs) with
        | Z0 => S754_zero s
        | n => binary_normalize prec emax (cond_Zopp s n) 0 s
        end
  | _ => x
  end.

(** [round(x, 2)] on a float32 scalar, which NumPy computes as
    [rint(x * 100) / 100]. *)
Definition round2 (x : spec_float) : spec_float :=
  div (rint (mul x (of_Z 100))) (of_Z 100).

Definition is_nan (x : spec_float) : bool :=
  match x with
  | S754_nan => true
  | _ => false
  end.

End F32.

(* ===================================================================== *)
(** * papers/SemanticRanker.py                                            *)
(* ===================================================================== *)

Fixpoint mapMM {A B} (f : A -> M B) (l : list A) : M (list B) :=
  match l with
  | [] => mret []
  | x :: r => y ← f x; ys ← mapMM f r; mret (y :: ys)
  end.

(** [enumerate(l)] *)
Definition enumerate {A} (l : list A) : list (nat * A) := imap (fun i x => (i, x)) l.

(** [d[k]] on a paper dictionary *)
Definition dict_index (d : dict) (k : str) : result value :=
  match d !! k with
  | Some v => Ok v
  | None => Raise KeyError
  end.

(** [l[i]] on a list *)
Definition list_index {A} (l : list A) (i : nat) : result A :=
  match l !! i with
  | Some x => Ok x
  | None => Raise IndexError
  end.

Module SemanticRanker.
Section Ranker.
Context `{Library}.

(** [np.dot(a, b)/(np.linalg.norm(a)*np.linalg.norm(b))]: the product and
    the quotient are operations on float32 scalars. *)
Definition cosine (para_emb pe : list spec_float) : result spec_float :=
  d ← np_dot para_emb pe;
  Ok (F32.div d (F32.mul (np_norm para_emb) (np_norm pe))).

(** [round(sim*100, 2)] *)
Definition relevance_of (sim : spec_float) : spec_float :=
  F32.round2 (F32.mul sim (F32.of_Z 100)).

(** The stable sort into descending order of the key, by insertion. *)
Fixpoint insert_desc (x : nat * spec_float) (l : list (nat * spec_float))
    : list (nat * spec_float) :=
  match l with
  | [] => [x]
  | y :: r =>
      if F32.ltb (snd x) (snd y) then y :: insert_desc x r
      else x :: y :: r
  end.

Definition sort_desc (l : list (nat * spec_float)) : list (nat * spec_float) :=
  foldr insert_desc [] l.

(** Insertion by ascending place, before the items of the same place. *)
Fixpoint insert_place {A} (x : nat * A) (l : list (nat * A)) : list (nat * A) :=
  match l with
  | [] => [x]
  | y :: r =>
      if (fst x <=? fst y)%nat then x :: l else y :: insert_place x r
  end.

(** The items of [l] by ascending place, [places] giving the place of
    each; a missing place counts as 0. Whatever the places are, the
    result is a rearrangement of [l], and every rearrangement is the
    result for some places. *)
Definition arrange {A} (places : list nat) (l : list A) : list A :=
  map snd (foldr insert_place [] (zip (places ++ replicate (length l) O) l)).

(** [sims.sort(key=lambda x: x[1], reverse=True)]. When no key is a NaN,
    [<] is a strict weak order on the keys and a stable sort has one
    result: the items in descending order of the key, those of equal key
    in the order they had. When a key is a NaN the result is a
    rearrangement of the list that depends on the algorithm: the places
    are the library's. *)
Definition sort_sims (sims : list (nat * spec_float)) : list (nat * spec_float) :=
  if forallb (fun x => negb (F32.is_nan (snd x))) sims then sort_desc sims
  else arrange (sort_places sims) sims.

(** [p['summary']] of the paper at [p], as the text handed to [encode] *)
Definition abstract_of (p : loc) : M str :=
  d ← load_dict p;
  v ← lift (dict_index d (py "summary"));
  lift (as_str v).

(** [sims]: the index of each paper with its cosine similarity *)
Definition similarities (para_emb : list spec_float)
    (paper_embs : list (list spec_float)) : result (list (nat * spec_float)) :=
  mapM (fun ipe => c ← cosine para_emb (snd ipe); Ok (fst ipe, c))
       (enumerate paper_embs).

(** The body of the loop over [sims[:top_k]]. *)
Definition annotate (papers top_papers : loc) (_ : nat)
    (it : nat * spec_float) (_ : unit) : M unit :=
  ps ← load_list papers;
  p ← lift (list_index ps (fst it));
  d ← load_dict p;
  paper ← alloc (ODict d);
  d' ← load_dict paper;
  store paper (ODict (<[py "relevance" := VFloat (relevance_of (snd it))]> d'));;
  l ← load_list top_papers;
  store top_papers (OList (l ++ [paper])).

(** [rank(self, paragraph_summary, papers, top_k=3)]; [papers] is the
    address of the list of paper dictionaries, the result the address of
    the new list. *)
Definition rank (paragraph_summary : value) (papers : loc) (top_k : Z) : M loc :=
  ps ← load_list papers;
  match ps with
  | [] => alloc (OList [])
  | _ =>
      s ← lift (as_str paragraph_summary);
      let para_emb := encode s in
      abstracts ← mapMM abstract_of ps;
      let paper_embs := map encode abstracts in
      sims ← lift (similarities para_emb paper_embs);
      let sims := sort_sims sims in
      top_papers ← alloc (OList []);
      for_each (annotate papers top_papers) 0 (slice_to top_k sims) tt;;
      mret top_papers
  end.

End Ranker.
End SemanticRanker.

(* ===================================================================== *)
(** * papers/QueryAPI.py                                                  *)
(* ===================================================================== *)

Module ArxivSearcher.

(** [re.sub(r"[^a-zA-Z0-9\s]", "", combined)] *)
Definition strip_symbols (combined : str) : str :=
  filter (fun c => is_ascii_alnum c || isspace c = true) combined.

(** [build_query(self, ranked_keywords, summary, top_n=5)]; the same body
    is [build_arxiv_query] of webUI/papers/pipeline.py. *)
Definition build_query (ranked_keywords : list (value * value))
    (summary : value) (top_n : Z) : result str :=
  kws ← mapM as_str (map fst (slice_to top_n ranked_keywords));
  s ← as_str summary;
  let combined := join (py " ") kws ++ py " " ++ s in
  let combined := strip_symbols combined in
  Ok (join (py "+") (split combined)).

(** [t.strip()] on the text of an element, which is [None] when empty *)
Definition strip_text (t : option str) : result str :=
  match t with
  | Some s => Ok (strip s)
  | None => Raise AttributeError
  end.

(** The dictionary built from one entry of the feed. *)
Definition paper_of (e : entry) : result dict :=
  authors ← mapM strip_text (e_authors e);
  year ← match e_published e with
          | Some p => Ok (slice_to 4 p)
          | None => Raise TypeError
          end;
  title ← strip_text (e_title e);
  link ← strip_text (e_id e);
  summary ← strip_text (e_summary e);
  Ok (<[py "title" := VStr title]>
        (<[py "link" := VStr link]>
           (<[py "summary" := VStr summary]>
              (<[py "authors" := VList (map VStr authors)]>
                 (<[py "year" := VStr year]> ∅))))).

Definition url_of (query : str) (max_results : Z) : str :=
  py "http://export.arxiv.org/api/query?search_query=all:" ++ query
  ++ py "&start=0&max_results=" ++ str_of_Z max_results.

(** [search(self, query, max_results=20)]: the address of the list of the
    paper dictionaries *)
Definition search (query : str) (max_results : Z) : M loc :=
  entries ← get_feed (url_of query max_results);
  results ← alloc (OList []);
  for_each (fun _ e _ =>
              d ← lift (paper_of e);
              p ← alloc (ODict d);
              l ← load_list results;
              store results (OList (l ++ [p])))
           0 entries tt;;
  mret results.

End ArxivSearcher.

(* ===================================================================== *)
(** * papers/pipeline.py (ver5): the orchestrator                         *)
(* ===================================================================== *)

Module Pipeline.

(** An entry of [all_results]: [{"paragraph": para, "papers": [...]}] *)
Record paragraph_result := {
  paragraph : str;
  papers : list dict
}.

(** What [pipeline_run] hands to the export writers. *)
Inductive export_content :=
  | ExportNone
  | ExportJson (results : list paragraph_result)
  | ExportCsv (rows : list (list value))
  | ExportBibtex (text : str)
  | ExportPdf (cells : list str).

Record output := {
  results : list paragraph_result;
  export : export_content
}.

Section Run.
Context `{Library}.

(** The truth value of an object *)
Definition truthy (v : value) : bool :=
  match v with
  | VNone => false
  | VBool b => b
  | VInt z => negb (z =? 0)
  | VFloat f => negb (SFeqb f F32.zero)
  | VStr s => negb (bool_decide (s = []))
  | VList l => negb (bool_decide (l = []))
  | VDict d => negb (bool_decide (d = []))
  end.

(** [all(len(kw) == 0 for kw in keywords_dict.values())] *)
Fixpoint all_empty (vs : list value) : result bool :=
  match vs with
  | [] => Ok true
  | kw :: r =>
      n ← len kw;
      match n with
      | O => all_empty r
      | S _ => Ok false
      end
  end.

(** The dictionary built for one ranked paper. *)
Definition paper_result_of (citation_style : value) (paper : loc) : M dict :=
  d ← load_dict paper;
  citation_text ← lift (CitationFormatter.format d citation_style);
  title ← lift (dict_index d (py "title"));
  authors ← lift (dict_index d (py "authors"));
  year ← lift (dict_index d (py "year"));
  link ← lift (dict_index d (py "link"));
  relevance ← lift (dict_index d (py "relevance"));
  mret (<[py "title" := title]>
          (<[py "authors" := authors]>
             (<[py "year" := year]>
                (<[py "link" := link]>
                   (<[py "relevance" := relevance]>
                      (<[py "citation" := VStr citation_text]> ∅)))))).

(** The body of the loop over the cleaned paragraphs. *)
Definition process_paragraph (top_k : Z) (citation_style : value)
    (keywords_dict summaries_dict : index_dict) (idx : nat) (para : str)
    (all_results : list paragraph_result) : M (list paragraph_result) :=
  kws ← lift (index_get idx keywords_dict);
  ranked_keywords ← LLMClient.rank_keywords para kws;
  summary ← lift (index_get idx summaries_dict);
  query ← lift (ArxivSearcher.build_query ranked_keywords summary 5);
  found ← ArxivSearcher.search query 20;
  summary ← lift (index_get idx summaries_dict);
  top_papers ← SemanticRanker.rank summary found top_k;
  tops ← load_list top_papers;
  prs ← mapMM (paper_result_of citation_style) tops;
  mret (all_results ++ [{| paragraph := para; papers := prs |}]).

(** [s.lower()], on the letters that decide the comparisons below *)
Definition lower (s : str) : str :=
  map (fun c => if ((65 <=? c) && (c <=? 90))%N then (c + 32)%N else c) s.

(** A row of the CSV export. *)
Definition csv_row (para_result : paragraph_result) (paper : dict)
    : result (list value) :=
  title ← dict_index paper (py "title");
  authors ← dict_index paper (py "authors");
  names ← iter_of authors;
  names ← mapM as_str names;
  year ← dict_index paper (py "year");
  link ← dict_index paper (py "link");
  relevance ← dict_index paper (py "relevance");
  citation ← dict_index paper (py "citation");
  Ok [VStr (paragraph para_result); title; VStr (join (py ", ") names);
      year; link; relevance; citation].

Definition csv_header : list value :=
  map (fun s => VStr s)
      [py "Paragraph"; py "Title"; py "Authors"; py "Year"; py "Link";
       py "Relevance"; py "Citation"].

Definition pdf_cells (para_result : paragraph_result) : result (list str) :=
  cs ← mapM (fun paper =>
               c ← dict_index paper (py "citation");
               Ok (to_str c ++ nl))
            (papers para_result);
  Ok ((py "Paragraph: " ++ paragraph para_result ++ nl) :: cs).

Definition export_of (export_type : value)
    (all_results : list paragraph_result) : result export_content :=
  if truthy export_type
  then
    match export_type with
    | VStr s =>
        let export_type := lower s in
        if bool_decide (export_type = py "json") then Ok (ExportJson all_results)
        else if bool_decide (export_type = py "csv") then
          rows ← mapM (fun para_result =>
                         mapM (csv_row para_result) (papers para_result))
                      all_results;
          Ok (ExportCsv (csv_header :: concat rows))
        else if bool_decide (export_type = py "bibtex") then
          bib_entries ← mapM (fun para_result =>
                                mapM CitationFormatter.bibtex (papers para_result))
                             all_results;
          Ok (ExportBibtex (join (nl ++ nl) (concat bib_entries)))
        else if bool_decide (export_type = py "pdf") then
          cells ← mapM pdf_cells all_results;
          Ok (ExportPdf (concat cells))
        else Raise ValueError
    | _ => Raise AttributeError
    end
  else Ok ExportNone.

Definition empty_output : output := {| results := []; export := ExportNone |}.

(** [pipeline_run(file_path, doc_type, top_k=3, export_type=None,
    citation_style="harvard")] *)
Definition pipeline_run (file_path doc_type : str) (top_k : Z)
    (export_type citation_style : value) : M output :=
  citation_style ← lift (match citation_style with
                         | VDict _ =>
                             value_get citation_style (py "citation_style")
                                       (VStr (py "harvard"))
                         | _ => Ok citation_style
                         end);
  paragraphs ← lift (extract_paragraphs file_path doc_type);
  match paragraphs with
  | [] => mret empty_output
  | _ =>
      let cleaned_paragraphs := ParagraphCleaner.clean 10 paragraphs in
      match cleaned_paragraphs with
      | [] => mret empty_output
      | _ =>
          t ← LLMClient.extract_keywords_and_summary cleaned_paragraphs true;
          let keywords_dict := fst t in
          let summaries_dict := default [] (snd t) in
          no_keywords ← lift (match keywords_dict with
                               | [] => Ok true
                               | _ => all_empty (map snd keywords_dict)
                               end);
          if (no_keywords : bool) then raise RuntimeError
          else
            all_results ← for_each (process_paragraph top_k citation_style
                                       keywords_dict summaries_dict)
                                    0 cleaned_paragraphs [];
            export_content ← lift (export_of export_type all_results);
            mret {| results := all_results; export := export_content |}
      end
  end.

End Run.
End Pipeline.

(* ===================================================================== *)
(** * Doc-Scraper/webUI/papers/pipeline.py                                *)
(* ===================================================================== *)

Module WebPipeline.
Section Run.
Context `{Library}.

(** [call_llm(prompt)]; the status checks of the body are part of what
    the scripted reply stands for. *)
Definition call_llm (prompt : str) : M str :=
  text ← post prompt;
  mret (strip text).

Definition rank_prompt (paragraph : str) (keywords : value) : str :=
  nl
  ++ line 4 (py "Rank the following keywords by relevance to the paragraph.")
  ++ line 4 (py "Paragraph: " ++ paragraph)
  ++ line 4 (py "Keywords: " ++ to_str keywords)
  ++ line 4 (py "Respond ONLY in JSON: {" ++ dq ++ py "ranked_keywords" ++ dq
               ++ py ":[{" ++ dq ++ py "keyword" ++ dq ++ py ":" ++ dq ++ py "example"
               ++ dq ++ py "," ++ dq ++ py "relevance" ++ dq ++ py ":0.95}]}")
  ++ repeat 32%N 4.

Definition is_json_error (e : exn) : bool :=
  match e with
  | JSONDecodeError => true
  | _ => false
  end.

(** [rank_keywords_llm(paragraph, keywords)]: only
    [json.JSONDecodeError] is handled. *)
Definition rank_keywords_llm (paragraph : str) (keywords : value)
    : M (list (value * value)) :=
  let prompt := rank_prompt paragraph keywords in
  llm_text ← call_llm prompt;
  let llm_text_clean := clean_reply llm_text in
  try_except
    (match json_loads llm_text_clean with
     | Some llm_json => lift (LLMClient.ranked_of llm_json)
     | None => raise JSONDecodeError
     end)
    is_json_error
    (lift (LLMClient.unranked keywords)).

Definition extract_prompt (get_summary : bool) (para : str) : str :=
  nl
  ++ line 8 (py "Extract keywords and "
               ++ (if get_summary then py "a summary" else [])
               ++ py " from the paragraph below.")
  ++ line 8 (py "Respond ONLY in valid JSON inside a ```json ... ``` code block, with this structure:")
  ++ ExtractKeyEle.json_shape 8
  ++ line 8 (py "Paragraph:")
  ++ line 8 para
  ++ repeat 32%N 8.

Definition extract_one (get_summary : bool) (idx : nat) (para : str)
    (t : ExtractKeyEle.tables) : M ExtractKeyEle.tables :=
  let prompt := extract_prompt get_summary para in
  llm_text ← call_llm prompt;
  let llm_text_clean := clean_reply llm_text in
  match json_loads llm_text_clean with
  | Some llm_json =>
      lift (ExtractKeyEle.record_parsed get_summary idx llm_json t)
  | None =>
      let keywords := index_set idx (VList []) (fst t) in
      if get_summary
      then mret (keywords, index_set idx (VStr []) <$> snd t)
      else mret (keywords, snd t)
  end.

Definition extract_keywords_and_summary (paragraphs : list str)
    (get_summary : bool) : M ExtractKeyEle.tables :=
  for_each (extract_one get_summary) 0 paragraphs
           ([], if get_summary then Some [] else None).

(** The dictionary [search_arxiv] builds from one entry of the feed. *)
Definition paper_of (e : entry) : result dict :=
  authors ← mapM ArxivSearcher.strip_text (e_authors e);
  let year := match e_published e with
              | Some (c :: published) => slice_to 4 (c :: published)
              | _ => py "n.d."
              end in
  title ← ArxivSearcher.strip_text (e_title e);
  link ← ArxivSearcher.strip_text (e_id e);
  summary ← ArxivSearcher.strip_text (e_summary e);
  Ok (<[py "title" := VStr title]>
        (<[py "link" := VStr link]>
           (<[py "summary" := VStr summary]>
              (<[py "authors" := VList (map VStr authors)]>
                 (<[py "year" := VStr year]> ∅))))).

(** [search_arxiv(query, max_results=20)] *)
Definition search_arxiv (query : str) (max_results : Z) : M loc :=
  entries ← get_feed (ArxivSearcher.url_of query max_results);
  results ← alloc (OList []);
  for_each (fun _ e _ =>
              d ← lift (paper_of e);
              p ← alloc (ODict d);
              l ← load_list results;
              store results (OList (l ++ [p])))
           0 entries tt;;
  mret results.

(** [rank_papers_by_relevance] has the body of [SemanticRanker.rank], and
    [format_harvard] the one of [CitationFormatter.harvard] with
    [_format_authors] written in line. *)
Definition rank_papers_by_relevance : value -> loc -> Z -> M loc :=
  SemanticRanker.rank.

Definition format_harvard : dict -> result str := CitationFormatter.harvard.

(** [para_processing(filename, doc_type)]; the library function gives no
    paragraph for a file that does not exist. *)
Definition para_processing (filename doc_type : str) : result (list str) :=
  let file := filename ++ py "." ++ doc_type in
  paras ← extract_paragraphs file doc_type;
  Ok (ParagraphCleaner.clean 10 paras).

(** The entry appended to [results] for one ranked paper. *)
Definition result_of (para : str) (paper : loc) : M dict :=
  d ← load_dict paper;
  title ← lift (dict_index d (py "title"));
  authors ← lift (dict_index d (py "authors"));
  year ← lift (dict_index d (py "year"));
  citation ← lift (format_harvard d);
  link ← lift (dict_index d (py "link"));
  relevance ← lift (dict_index d (py "relevance"));
  mret (<[py "title" := title]>
          (<[py "authors" := authors]>
             (<[py "year" := year]>
                (<[py "citation" := VStr citation]>
                   (<[py "link" := link]>
                      (<[py "relevance" := relevance]>
                         (<[py "matched_text" := VStr para]> ∅))))))).

Definition process_paragraph (keywords summaries : index_dict) (idx : nat)
    (para : str) (results : list dict) : M (list dict) :=
  kws ← lift (index_get idx keywords);
  ranked ← rank_keywords_llm para kws;
  summary ← lift (index_get idx summaries);
  query ← lift (ArxivSearcher.build_query ranked summary 5);
  found ← search_arxiv query 20;
  summary ← lift (index_get idx summaries);
  top_papers ← rank_papers_by_relevance summary found 3;
  tops ← load_list top_papers;
  rs ← mapMM (result_of para) tops;
  mret (results ++ rs).

(** [pipeline_run(file_path, doc_type)]: the flat list of the papers found,
    each with the paragraph it was found for. *)
Definition pipeline_run (file_path doc_type : str) : M (list dict) :=
  let filename := splitext_root file_path in
  cleaned_paras ← lift (para_processing filename doc_type);
  match cleaned_paras with
  | [] => mret []
  | _ =>
      t ← extract_keywords_and_summary cleaned_paras true;
      let keywords := fst t in
      let summaries := default [] (snd t) in
      for_each (process_paragraph keywords summaries) 0 cleaned_paras []
  end.

End Run.
End WebPipeline.

(* ===================================================================== *)
(** * Vocabulary of the statements                                        *)
(* ===================================================================== *)

(** ** Names and citations *)

(** A word: a non-empty string without white space. *)
Definition is_word (w : str) : bool :=
  match w with
  | [] => false
  | _ => forallb (fun c => negb (isspace c)) w
  end.

(** A full name: one word or more. *)
Definition is_name (t : list str) : bool :=
  match t with
  | [] => false
  | _ => forallb is_word t
  end.

(** The author string of a name, its words separated by one space. *)
Definition full_name (t : list str) : value := VStr (join (py " ") t).

(** "Last, F": the last word of a name, then the initial of the first. *)
Definition last_f (t : list str) : str :=
  default [] (last t) ++ py ", " ++ take 1 (default [] (head t)).

(** The styles that [CitationFormatter.format] dispatches on. *)
Definition known_style (style : value) : bool :=
  is_str style (py "harvard") || is_str style (py "apa")
  || is_str style (py "mla") || is_str style (py "chicago")
  || is_str style (py "bibtex").

(** ** Queries *)



(** ** Requests to the endpoint *)

(** [w] after the request [prompt] has been answered: the reply is
    consumed and the prompt logged. *)
Definition answered (prompt : str) (w : world) : world := {|
  llm_replies := tail (llm_replies w);
  llm_prompts := prompt :: llm_prompts w;
  arxiv_replies := arxiv_replies w;
  arxiv_queries := arxiv_queries w;
  heap := heap w
|}.

(** [w] after two requests, [first] then [second], have been answered. *)
Definition answered_twice (first second : str) (w : world) : world :=
  answered second (answered first w).

(** The ranking that an answer of the endpoint holds, if it has the
    expected shape. *)
Definition parsed_ranking `{Library} (text : str) : option (list (value * value)) :=
  match json_loads (clean_reply (strip text)) with
  | Some data =>
      match LLMClient.ranked_of data with
      | Ok ranked => Some ranked
      | Raise _ => None
      end
  | None => None
  end.

(** [[(kw, None) for kw in keywords]] *)
Definition with_null_scores (keywords : list value) : list (value * value) :=
  map (fun kw => (kw, VNone)) keywords.

(** The computation [m] sends no request to the arXiv API. *)
Definition arxiv_quiet {A} (m : M A) : Prop :=
  forall w, arxiv_replies (snd (m w)) = arxiv_replies w.

(** ** Floats *)

(** A float with the sign [s]; a NaN has none. *)
Definition has_sign (s : bool) (x : spec_float) : Prop :=
  match x with
  | S754_zero s' | S754_infinity s' | S754_finite s' _ _ => s' = s
  | S754_nan => False
  end.


(** The float32 of 100. *)
Definition hundred : spec_float := S754_finite false 13107200 (-17).

(** A float32 as the arithmetic gives them: a finite one has the
    mantissa and the exponent of the format, so that comparing exponents,
    then mantissas, compares the numbers. *)
Definition valid32 (x : spec_float) : bool := valid_binary F32.prec F32.emax x.

(** The exponent the format gives to a number whose leading bit has the
    weight [2 ^ (e - 1)]. *)
Definition fexp32 (e : Z) : Z := fexp F32.prec F32.emax e.

(** The place [l] of the rational [a / b] between the integers [m] and
    [m + 1]: at [m], below the middle, at the middle or above it. *)
Definition locates (m : Z) (l : location) (a b : Z) : Prop :=
  match l with
  | loc_Exact => a = m * b
  | loc_Inexact Lt => m * b < a /\ 2 * a < (2 * m + 1) * b
  | loc_Inexact Eq => 2 * a = (2 * m + 1) * b
  | loc_Inexact Gt => (2 * m + 1) * b < 2 * a /\ a < (m + 1) * b
  end.

(** The float that rounding ends in, from the rounded mantissa [k] and
    the exponent [c]: a mantissa of 25 bits is cut by one, and an exponent
    above the largest is an overflow. *)
Definition pack32 (s : bool) (k c : Z) : spec_float :=
  match k with
  | Z0 => S754_zero s
  | Zpos p =>
      if k =? 2 ^ 24
      then if c + 1 <=? 104 then S754_finite s (2 ^ 23)%positive (c + 1)
           else S754_infinity s
      else if c <=? 104 then S754_finite s p c else S754_infinity s
  | Zneg _ => S754_nan
  end.

(** The order of the sort of [rank]. *)
Definition by_similarity (a b : nat * spec_float) : Prop :=
  F32.leb (snd b) (snd a) = true.

(** Descending order of floats. *)
Definition descending (xs : list spec_float) : Prop :=
  StronglySorted (fun a b => F32.leb b a = true) xs.

Definition no_nan (xs : list spec_float) : bool :=
  forallb (fun x => negb (F32.is_nan x)) xs.


(** ** The store around a call of the ranker *)

(** The input of [rank] is well formed: [papers] is the address of a list
    of the addresses [ps] of the dictionaries [dicts], which hold the
    texts [abstracts] under the key "summary". *)
Record rank_input (w : world) (papers : loc) (ps : list loc)
    (dicts : list dict) (abstracts : list str) : Prop := {
  ri_list : heap w !! papers = Some (OList ps);
  ri_dicts : Forall2 (fun p d => heap w !! p = Some (ODict d)) ps dicts;
  ri_abstracts :
    Forall2 (fun (d : dict) a => d !! py "summary" = Some (VStr a)) dicts abstracts
}.

(** The copy of the [fst it]-th input dictionary, with the relevance of
    the similarity [snd it] under the key "relevance". *)
Definition annotated (dicts : list dict) (it : nat * spec_float) : obj :=
  ODict (<[py "relevance" := VFloat (SemanticRanker.relevance_of (snd it))]>
           (default ∅ (dicts !! fst it))).

(** The store after [rank]: the new list, then the annotated copies. *)
Definition ranked_heap (h : list obj) (dicts : list dict)
    (top : list (nat * spec_float)) : list obj :=
  h ++ OList (seq (S (length h)) (length top)) :: map (annotated dicts) top.

(** The record at [t] in the world [w'] is a copy of an input paper of
    [ps], as it was in [w], with one key more: "relevance", which holds
    [relevance_of sim] for the cosine similarity [sim] of the embeddings
    of the summary [s] and of the abstract of the paper. *)
Definition annotated_copy `{Library} (w w' : world) (ps : list loc) (s : str)
    (t : loc) (sim : spec_float) : Prop :=
  exists i p d a,
    ps !! i = Some p
    /\ heap w !! p = Some (ODict d)
    /\ d !! py "summary" = Some (VStr a)
    /\ SemanticRanker.cosine (encode s) (encode a) = Ok sim
    /\ heap w' !! t
       = Some (ODict (<[py "relevance" := VFloat (SemanticRanker.relevance_of sim)]> d)).

(** Nothing but the store differs between [w] and [w'], and the objects
    of [w] are in [w'] as they were. *)
Definition extends (w w' : world) : Prop :=
  heap w `prefix_of` heap w'
  /\ llm_replies w' = llm_replies w /\ llm_prompts w' = llm_prompts w
  /\ arxiv_replies w' = arxiv_replies w /\ arxiv_queries w' = arxiv_queries w.

(** The computation [m], run from a world whose store begins with [h0],
    ends in a world whose store begins with [h0], touches nothing else of
    the world, and returns a value satisfying [Q] if it returns. *)
Definition keeps (h0 : list obj) {A} (m : M A) (Q : A -> Prop) : Prop :=
  forall w, h0 `prefix_of` heap w ->
    h0 `prefix_of` heap (snd (m w))
    /\ llm_replies (snd (m w)) = llm_replies w
    /\ llm_prompts (snd (m w)) = llm_prompts w
    /\ arxiv_replies (snd (m w)) = arxiv_replies w
    /\ arxiv_queries (snd (m w)) = arxiv_queries w
    /\ forall a, fst (m w) = Ok a -> Q a.

(** ** The run in which no search finds a paper *)

(** The answer [text] of the endpoint decodes to an object that holds the
    keywords [ks], all strings, and the summary [s]. *)
Definition extraction_of `{Library} (answer : str * list str * str) : Prop :=
  let '(text, ks, s) := answer in
  exists data,
    json_loads (clean_reply (strip text)) = Some data
    /\ value_get data (py "keywords") (VList []) = Ok (VList (map VStr ks))
    /\ value_get data (py "summary") VNone = Ok (VStr s).

(** The dictionaries that the extraction fills from such answers. *)
Definition keyword_table (answers : list (str * list str * str)) : index_dict :=
  imap (fun j a => (j, VList (map VStr (snd (fst a))))) answers.

Definition summary_table (answers : list (str * list str * str)) : index_dict :=
  imap (fun j a => (j, VStr (snd a))) answers.

(** The entry of a paragraph for which no paper was found. *)
Definition empty_entry (para : str) : Pipeline.paragraph_result :=
  {| Pipeline.paragraph := para; Pipeline.papers := [] |}.

(* ===================================================================== *)
(** * Sample data                                                         *)
(* ===================================================================== *)

(** ** Answers of the endpoint *)

Definition keywords_and_summary : str :=
  py "{" ++ dq ++ py "keywords" ++ dq ++ py ": [" ++ dq ++ py "graphs" ++ dq
  ++ py "], " ++ dq ++ py "summary" ++ dq ++ py ": " ++ dq ++ py "near" ++ dq
  ++ py "}".

Definition one_ranked_keyword : str :=
  py "{" ++ dq ++ py "ranked_keywords" ++ dq ++ py ": [{" ++ dq ++ py "keyword"
  ++ dq ++ py ": " ++ dq ++ py "graphs" ++ dq ++ py ", " ++ dq ++ py "relevance"
  ++ dq ++ py ": 1}]}".

(** The JSON texts of the examples with the objects they denote; every
    other text of the examples is prose. *)
Definition json_table : list (str * value) :=
  [ (one_ranked_keyword,
     VDict [(py "ranked_keywords",
             VList [VDict [(py "keyword", VStr (py "graphs"));
                           (py "relevance", VInt 1)]])]);
    (keywords_and_summary,
     VDict [(py "keywords", VList [VStr (py "graphs")]);
            (py "summary", VStr (py "near"))]);
    (py "{}", VDict []) ].

(** ** A library *)

Definition sample_document : list str :=
  [py "Graphs are everywhere in the study of networks and of data.";
   py "Too short.";
   py "Trees are the graphs that hold no cycle at all in them."].

(** Embeddings in the plane: "far" lies opposite to every other text,
    "aside" across, "void" at the origin. *)
Definition sample_encode (s : str) : list spec_float :=
  if bool_decide (s = py "far") then [F32.of_Z (-1); F32.zero]
  else if bool_decide (s = py "aside") then [F32.zero; F32.of_Z 1]
  else if bool_decide (s = py "void") then [F32.zero; F32.zero]
  else [F32.of_Z 1; F32.zero].

(** A dot product and a norm that add from the left. On the vectors of
    [sample_encode], whose entries are -1, 0 and 1, no sum is rounded. *)
Definition sample_dot (u v : list spec_float) : result spec_float :=
  if decide (length u = length v)
  then Ok (fold_left (fun acc xy => F32.add acc (F32.mul (fst xy) (snd xy)))
                     (zip u v) F32.zero)
  else Raise ValueError.

Definition sample_norm (u : list spec_float) : spec_float :=
  F32.sqrt (fold_left (fun acc x => F32.add acc (F32.mul x x)) u F32.zero).

(** The clock stands at 3 November 2026, the segmenter cuts at each full
    stop, the JSON decoder knows the texts of [json_table], every path
    leads to the sample document, and a sort with a NaN among the keys
    leaves the list as it is, as CPython leaves a list of two pairs of
    which one has the key NaN. *)
#[local] Instance sample_lib : Library := {|
  py_repr := fun _ => py "?";
  isalnum := is_ascii_alnum;
  clock := fun fmt => if bool_decide (fmt = py "%B %d, %Y")
                      then py "November 03, 2026" else py "03 Nov 2026";
  json_loads := fun s => assoc s json_table;
  nlp_sents := fun s => filter (fun x => x <> []) (split_on 46%N s);
  encode := sample_encode;
  api_key := VStr (py "key");
  extract_paragraphs := fun _ _ => Ok sample_document;
  splitext_root := fun path => take (length path - 4) path;
  np_dot := sample_dot;
  np_norm := sample_norm;
  sort_places := fun l => seq 0 (length l)
|}.

(** ** Papers *)

Definition lovelace : list str := [py "Ada"; py "Lovelace"].
Definition turing : list str := [py "Alan"; py "Mathison"; py "Turing"].
Definition hopper : list str := [py "Grace"; py "Hopper"].

Definition sample_paper : dict :=
  <[py "title" := VStr (py "On Graphs")]>
    (<[py "link" := VStr (py "http://arxiv.org/abs/1")]>
       (<[py "summary" := VStr (py "near")]>
          (<[py "authors" := VList [full_name lovelace; full_name turing]]>
             (<[py "year" := VStr (py "2020")]> ∅)))).

Definition paper_with_abstract (a : str) : dict :=
  <[py "summary" := VStr a]> sample_paper.

Definition sample_entry : entry := {|
  e_title := Some (py " On Graphs ");
  e_id := Some (py "http://arxiv.org/abs/1");
  e_summary := Some (py "near");
  e_authors := [Some (py "Ada Lovelace"); Some (py "Alan Mathison Turing")];
  e_published := Some (py "2020-01-01T00:00:00Z")
|}.

Definition three_dicts : list dict :=
  [paper_with_abstract (py "far"); paper_with_abstract (py "aside");
   paper_with_abstract (py "near")].

Definition three_abstracts : list str := [py "far"; py "aside"; py "near"].

(** The similarities of the three papers to the summary "near": -1, 0
    and 1. *)
Definition three_sims : list (nat * spec_float) :=
  [(0%nat, F32.of_Z (-1)); (1%nat, F32.zero); (2%nat, F32.of_Z 1)].

(** ** Worlds *)

(** The endpoint answers twice with prose, then with JSON. *)
Definition prose_world : world := {|
  llm_replies := [Ok (py "Sure! The keywords are graphs and trees.");
                  Ok (py "As I said: graphs and trees.");
                  Ok keywords_and_summary];
  llm_prompts := [];
  arxiv_replies := [];
  arxiv_queries := [];
  heap := []
|}.

(** The endpoint ranks one keyword, inside a code fence. *)
Definition short_ranking_world : world := {|
  llm_replies := [Ok (py "```json" ++ nl ++ one_ranked_keyword ++ nl ++ py "```")];
  llm_prompts := [];
  arxiv_replies := [];
  arxiv_queries := [];
  heap := []
|}.

(** The endpoint answers with the empty JSON object. *)
Definition empty_object_world : world := {|
  llm_replies := [Ok (py "{}")];
  llm_prompts := [];
  arxiv_replies := [];
  arxiv_queries := [];
  heap := []
|}.

(** Three papers at the addresses 0, 1 and 2, and the list of them at
    address 3. For the summary "near", the abstract of the first is
    embedded opposite to the summary, the one of the second across it, the
    one of the third along it. *)
Definition three_papers_world : world := {|
  llm_replies := [];
  llm_prompts := [];
  arxiv_replies := [];
  arxiv_queries := [];
  heap := [ODict (paper_with_abstract (py "far"));
           ODict (paper_with_abstract (py "aside"));
           ODict (paper_with_abstract (py "near"));
           OList [0%nat; 1%nat; 2%nat]]
|}.


(** Two papers and the list of them: the abstract of the first is
    embedded at the origin, the one of the second along the summary
    "near". *)
Definition void_world : world := {|
  llm_replies := [];
  llm_prompts := [];
  arxiv_replies := [];
  arxiv_queries := [];
  heap := [ODict (paper_with_abstract (py "void"));
           ODict (paper_with_abstract (py "near"));
           OList [0%nat; 1%nat]]
|}.

(** A run of the pipeline on the sample document: the endpoint extracts
    keywords and a summary from the two paragraphs that survive the
    cleaning, then ranks the keywords of each; the arXiv API finds one
    paper for the first paragraph and none for the second. *)
Definition pipeline_world : world := {|
  llm_replies := [Ok keywords_and_summary; Ok keywords_and_summary;
                  Ok one_ranked_keyword; Ok (py "graphs first")];
  llm_prompts := [];
  arxiv_replies := [Ok [sample_entry]; Ok []];
  arxiv_queries := [];
  heap := []
|}.

(* ===================================================================== *)
(** * Vocabulary of the further properties                                *)
(* ===================================================================== *)

(** A string without white space at either end. *)
Definition trimmed (s : str) : Prop :=
  drop_space s = s /\ drop_space (rev s) = rev s.

(** The string [p] occurs in the string [s]. *)
Definition occurs_in (p s : str) : Prop := exists pre post, s = pre ++ p ++ post.

(** The marker of a code block. *)
Definition fence : str := [backtick; backtick; backtick].

(** ** Author strings of the other styles *)

(** "Last, F. M.": the last word of a name, then the initials of the
    words before it. *)
Definition apa_name (t : list str) : str :=
  default [] (last t) ++ py ", "
  ++ join (py " ") (map (fun p => take 1 p ++ py ".") (slice_to (-1) t)).

(** "Last, First Middle" *)
Definition mla_name (t : list str) : str :=
  default [] (last t) ++ py ", " ++ join (py " ") (slice_to (-1) t).

(** An author string without a word: empty, or white space only. *)
Definition blank (s : str) : bool := forallb isspace s.

(** ** The extraction of keywords and summaries *)

(** What the extraction records for the answer [text] of the endpoint:
    the keywords [k] and the summary [s] of the object it decodes to
    (an empty list and [None] where the object lacks them), or no keyword
    and the empty summary when it is not JSON. *)
Definition recorded `{Library} (a : str * value * value) : Prop :=
  let '(text, k, s) := a in
  match json_loads (clean_reply (strip text)) with
  | Some data =>
      value_get data (py "keywords") (VList []) = Ok k
      /\ value_get data (py "summary") VNone = Ok s
  | None => k = VList [] /\ s = VStr []
  end.

(** The dictionaries filled from such answers, keyed by the index of the
    paragraph. *)
Definition keywords_of (answers : list (str * value * value)) : index_dict :=
  imap (fun j a => (j, snd (fst a))) answers.

Definition summaries_of (answers : list (str * value * value)) : index_dict :=
  imap (fun j a => (j, snd a)) answers.

(** [w] after the requests [prompts] have been answered, in that order. *)
Definition answered_all (prompts : list str) (w : world) : world :=
  fold_left (fun w p => answered p w) prompts w.

(** ** Sample worlds of the further properties *)

(** The endpoint answers the two extraction requests with keywords and a
    summary and the two ranking requests with prose; the arXiv API finds
    nothing. *)
Definition no_papers_world : world := {|
  llm_replies := [Ok keywords_and_summary; Ok keywords_and_summary;
                  Ok (py "graphs first"); Ok (py "graphs first")];
  llm_prompts := [];
  arxiv_replies := [Ok []; Ok []];
  arxiv_queries := [];
  heap := []
|}.

(** The first answer of the endpoint is an object without keywords and
    without summary. *)
Definition no_summary_world : world := {|
  llm_replies := [Ok (py "{}"); Ok keywords_and_summary; Ok (py "graphs first")];
  llm_prompts := [];
  arxiv_replies := [Ok [sample_entry]];
  arxiv_queries := [];
  heap := []
|}.

(** The two paragraphs that remain of the sample document. *)
Definition first_paragraph : str :=
  py "Graphs are everywhere in the study of networks and of data".
Definition second_paragraph : str :=
  py "Trees are the graphs that hold no cycle at all in them".

(** What the extraction records for the answers of [prose_world],
    [no_papers_world] and [no_summary_world]. *)
Definition prose_answers : list (str * value * value) :=
  [(py "Sure! The keywords are graphs and trees.", VList [], VStr []);
   (py "As I said: graphs and trees.", VList [], VStr [])].

Definition no_summary_answers : list (str * value * value) :=
  [(py "{}", VList [], VNone);
   (keywords_and_summary, VList [VStr (py "graphs")], VStr (py "near"))].

Definition graphs_answers : list (str * list str * str) :=
  [(keywords_and_summary, [py "graphs"], py "near");
   (keywords_and_summary, [py "graphs"], py "near")].

(** A library whose JSON decoder also knows the empty array. *)
Definition array_lib : Library := {|
  py_repr := fun _ => py "?";
  isalnum := is_ascii_alnum;
  clock := fun _ => py "03 Nov 2026";
  json_loads := fun s => assoc s ((py "[]", VList []) :: json_table);
  nlp_sents := fun s => filter (fun x => x <> []) (split_on 46%N s);
  encode := sample_encode;
  api_key := VStr (py "key");
  extract_paragraphs := fun _ _ => Ok sample_document;
  splitext_root := fun path => take (length path - 4) path;
  np_dot := sample_dot;
  np_norm := sample_norm;
  sort_places := fun l => seq 0 (length l)
|}.

(** The endpoint answers with the empty array. *)
Definition array_world : world := {|
  llm_replies := [Ok (py "[]")];
  llm_prompts := [];
  arxiv_replies := [];
  arxiv_queries := [];
  heap := []
|}.

(** ** The store around a search *)

(** [w] after the request [url] to the arXiv API has been answered. *)
Definition fed (url : str) (w : world) : world := {|
  llm_replies := llm_replies w;
  llm_prompts := llm_prompts w;
  arxiv_replies := tail (arxiv_replies w);
  arxiv_queries := url :: arxiv_queries w;
  heap := heap w
|}.

(** The store after a search: the new list, then the dictionaries of the
    papers found. *)
Definition found_heap (h : list obj) (dicts : list dict) : list obj :=
  h ++ OList (seq (S (length h)) (length dicts)) :: map ODict dicts.

(** The abstract of an entry of the feed, as the search keeps it. *)
Definition abstract_of_entry (e : entry) : str :=
  strip (default [] (e_summary e)).

(** Every element of the entry that the search reads has a text. *)
Definition complete (e : entry) : bool :=
  forallb (fun a : option str => bool_decide (is_Some a)) (e_authors e)
  && bool_decide (is_Some (e_published e))
  && bool_decide (is_Some (e_title e))
  && bool_decide (is_Some (e_id e))
  && bool_decide (is_Some (e_summary e)).

(** ** The heuristic fallback *)

(** The keywords the heuristic gives for a paragraph: the first word of
    each of its sentences that has one, eight at most. *)
Definition heuristic_words (paragraph : str) : list str :=
  match ExtractKeyEle.heuristic_keywords (split_on 46%N paragraph) with
  | Ok ks => ks
  | Raise _ => []
  end.

(** The dictionaries the fallback fills for the paragraphs. *)
Definition heuristic_tables (paragraphs : list str) : ExtractKeyEle.tables :=
  (imap (fun j p => (j, VList (map VStr (heuristic_words p)))) paragraphs,
   Some (imap (fun j p =>
                 (j, ExtractKeyEle.heuristic_summary (split_on 46%N p)))
              paragraphs)).

(** A ranked paper, and a world that holds it at address 0. *)
Definition ranked_paper : dict :=
  <[py "relevance" := VFloat (F32.of_Z 100)]> sample_paper.

Definition ranked_world : world := {|
  llm_replies := [];
  llm_prompts := [];
  arxiv_replies := [];
  arxiv_queries := [];
  heap := [ODict ranked_paper]
|}.

(** An entry of the feed whose title has no text, and a world whose feed
    holds it after a complete entry. *)
Definition untitled_entry : entry := {|
  e_title := None;
  e_id := Some (py "http://arxiv.org/abs/2");
  e_summary := Some (py "far");
  e_authors := [Some (py "Grace Hopper")];
  e_published := Some (py "2021-01-01T00:00:00Z")
|}.

Definition untitled_world : world := {|
  llm_replies := [];
  llm_prompts := [];
  arxiv_replies := [Ok [sample_entry; untitled_entry]];
  arxiv_queries := [];
  heap := []
|}.

(* ===================================================================== *)
(** * Doc-Scraper/archive/ver1/Extractor.py                               *)
(* ===================================================================== *)

(** The same bodies are [extract_pdf_text] and [extract_docx_text] of
    webUI/papers/pipeline.py. *)
Module TextExtractor.

(** [s.endswith(c)] for a suffix of one character *)
Definition endswith (c : char) (s : str) : bool :=
  match last s with
  | Some x => (x =? c)%N
  | None => false
  end.

(** The body of the loop over the lines; the state holds the paragraphs
    found so far and the buffer. *)
Definition pdf_line (st : list str * str) (line : str) : list str * str :=
  let '(paras, buffer) := st in
  let line := strip line in
  match line with
  | [] =>
      match buffer with
      | [] => (paras, buffer)
      | _ => (paras ++ [strip buffer], [])
      end
  | _ =>
      if endswith 45%N line then (paras, buffer ++ slice_to (-1) line)
      else if endswith 46%N line || endswith 63%N line || endswith 33%N line
      then (paras ++ [strip (buffer ++ py " " ++ line)], [])
      else (paras, buffer ++ py " " ++ line)
  end.

(** [_extract_pdf(self)], from the texts of the pages of the file *)
Definition _extract_pdf (pages : list str) : list str :=
  let text := concat (map (fun page => page ++ nl) pages) in
  let lines := split_on 10%N text in
  let '(paras, buffer) := fold_left pdf_line lines ([], []) in
  match buffer with
  | [] => paras
  | _ => paras ++ [strip buffer]
  end.

(** [_extract_docx(self)], from the texts of the paragraphs of the file *)
Definition _extract_docx (texts : list str) : list str :=
  map strip (filter (fun t => strip t <> []) texts).

(** [extract(self)]; [pages] and [texts] are what the PDF and the DOCX
    reader give for the file. *)
Definition extract (doc_type : str) (pages texts : list str)
    : result (list str) :=
  if bool_decide (doc_type = py "pdf") then Ok (_extract_pdf pages)
  else if bool_decide (doc_type = py "docx") then Ok (_extract_docx texts)
  else Raise ValueError.

End TextExtractor.

(* ===================================================================== *)
(** * Doc-Scraper/archive/ver1/Runner.py: the choices of the user         *)
(* ===================================================================== *)

Module Runner.
Section Choices.

(** [int(s)]; [None] stands for [ValueError]. *)
Variable int_of : str -> option Z.

Definition styles : list str :=
  [py "harvard"; py "apa"; py "mla"; py "chicago"; py "ieee"].

(** [choose_top_k(self)], from the line the user typed *)
Definition choose_top_k (typed : str) : Z :=
  let s := match strip typed with
           | [] => py "3"
           | s => s
           end in
  match int_of s with
  | Some k => Z.max 1 k
  | None => 3
  end.

(** The body of the loop over the numbers typed. *)
Definition choose_style (chosen : list str) (num : str) : list str :=
  match int_of (strip num) with
  | Some n =>
      let idx := n - 1 in
      if (0 <=? idx) && (idx <? Z.of_nat (length styles))
      then match styles !! Z.to_nat idx with
           | Some style => chosen ++ [style]
           | None => chosen
           end
      else chosen
  | None => chosen
  end.

(** [choose_citation_styles(self)], from the line the user typed *)
Definition choose_citation_styles (typed : str) : list str :=
  let selected := strip typed in
  match selected with
  | [] => styles
  | _ =>
      let chosen := fold_left choose_style (split_on 44%N selected) [] in
      match chosen with
      | [] => styles
      | _ => chosen
      end
  end.

End Choices.
End Runner.

(** ** Vocabulary of the extractor *)

(** A buffer of the loop: empty, or with a character that is not white
    space. *)
Definition solid (s : str) : Prop :=
  s = [] \/ exists c, c ∈ s /\ isspace c = false.

(** A paragraph as the extractor returns them: not empty, and without
    white space at either end. *)
Definition proper (p : str) : Prop := p <> [] /\ trimmed p.

(** ** More sample data *)

(** A paper without abstract, and a world that holds a list of one
    complete paper and that one. *)
Definition bare_paper : dict :=
  <[py "title" := VStr (py "On Trees")]> ∅.

Definition bare_world : world := {|
  llm_replies := [];
  llm_prompts := [];
  arxiv_replies := [];
  arxiv_queries := [];
  heap := [ODict sample_paper; ODict bare_paper; OList [0%nat; 1%nat]]
|}.

(** The export types that [pipeline_run] knows, in lower case. *)
Definition export_types : list str :=
  [py "json"; py "csv"; py "bibtex"; py "pdf"].

(* ===================================================================== *)
(** * papers/tasks.py (ver10): the pipeline behind an uploaded paper      *)
(* ===================================================================== *)

Module Tasks.
Import Pipeline.

(** A row of [UploadedPaper], as far as [process_paper] reads and writes
    it. [file_name] is [paper.file.name] (empty when the row has no file),
    [file_path] is [paper.file.path]; [error_message] is [None] or the text
    [str(e)] of an exception, kept as the exception it is the text of. *)
Record uploaded_paper := {
  file_name : str;
  file_path : str;
  processing : bool;
  error_message : option exn
}.

(** A row of [Citation]: the keyword arguments of
    [Citation.objects.create], but [paper]. *)
Record citation := {
  paragraph_number : nat;
  paragraph_text : str;
  title : value;
  authors : str;
  year : value;
  harvard_citation : str;
  link : value;
  relevance : value
}.

(** The two tables: the uploaded papers by id, and the citations in the
    order of their creation, each with the id of its paper. The tables
    take every row that is handed to them. *)
Record database := {
  uploaded_papers : gmap nat uploaded_paper;
  citations : list (nat * citation)
}.

(** [paper.save()] *)
Definition save (paper_id : nat) (paper : uploaded_paper) (db : database)
    : database :=
  {| uploaded_papers := <[paper_id := paper]> (uploaded_papers db);
     citations := citations db |}.

(** [paper.citations.all().delete()] *)
Definition delete_citations (paper_id : nat) (db : database) : database :=
  {| uploaded_papers := uploaded_papers db;
     citations := filter (fun r => fst r <> paper_id) (citations db) |}.

(** [Citation.objects.create(paper=paper, ...)] *)
Definition create (paper_id : nat) (row : citation) (db : database)
    : database :=
  {| uploaded_papers := uploaded_papers db;
     citations := citations db ++ [(paper_id, row)] |}.

(** [settings_dict.get(key, default) if settings_dict else default] *)
Definition setting (settings_dict : value) (key default : str) : result value :=
  if truthy settings_dict then value_get settings_dict key (VStr default)
  else Ok (VStr default).

(** The reversed text up to its first dot, and what follows the dot. *)
Fixpoint cut_dot (s : str) : option (str * str) :=
  match s with
  | [] => None
  | c :: r =>
      if (c =? 46)%N then Some ([], r)
      else match cut_dot r with
           | Some (a, b) => Some (c :: a, b)
           | None => None
           end
  end.

(** [name.rsplit(".", 1)] *)
Definition rsplit_dot (name : str) : list str :=
  match cut_dot (rev name) with
  | Some (ext, root) => [rev root; rev ext]
  | None => [name]
  end.

Section Process.
Context `{Library}.

(** The row made for one paper of one paragraph. *)
Definition citation_of (citation_style : value) (idx : nat)
    (para_result : paragraph_result) (paper_data : dict) : result citation :=
  citation_text ← CitationFormatter.format paper_data citation_style;
  names ← iter_of (dict_get paper_data (py "authors") (VList []));
  names ← mapM as_str names;
  Ok {| paragraph_number := idx;
        paragraph_text := paragraph para_result;
        title := dict_get paper_data (py "title") (VStr []);
        authors := join (py ", ") names;
        year := dict_get paper_data (py "year") (VStr []);
        harvard_citation := citation_text;
        link := dict_get paper_data (py "link") (VStr []);
        relevance := dict_get paper_data (py "relevance") (VInt 0) |}.

(** The inner loop, over the papers of one paragraph; it stops at the
    first exception, with the rows created so far in the table. *)
Fixpoint create_papers (citation_style : value) (paper_id idx : nat)
    (para_result : paragraph_result) (ps : list dict)
    (citations_created : nat) (db : database) : result nat * database :=
  match ps with
  | [] => (Ok citations_created, db)
  | paper_data :: r =>
      match citation_of citation_style idx para_result paper_data with
      | Ok row =>
          create_papers citation_style paper_id idx para_result r
                        (S citations_created) (create paper_id row db)
      | Raise e => (Raise e, db)
      end
  end.

(** The outer loop, [for idx, para_result in enumerate(all_results,
    start=1)]. *)
Fixpoint create_all (citation_style : value) (paper_id idx : nat)
    (all_results : list paragraph_result) (citations_created : nat)
    (db : database) : result nat * database :=
  match all_results with
  | [] => (Ok citations_created, db)
  | para_result :: r =>
      match create_papers citation_style paper_id idx para_result
                          (papers para_result) citations_created db with
      | (Ok n, db') => create_all citation_style paper_id (S idx) r n db'
      | (Raise e, db') => (Raise e, db')
      end
  end.

(** The body of the [try] block, up to the last [paper.save()]. The
    extension is put in lower case on the letters that decide the
    comparison with "pdf" and "docx". *)
Definition process_file (paper_id : nat) (paper : uploaded_paper)
    (citation_style export_type : value) (top_k : Z) (db : database)
    (w : world) : (result unit * database) * world :=
  if bool_decide (file_name paper = []) || bool_decide (file_path paper = [])
  then ((Raise RuntimeError, db), w)
  else
    match rsplit_dot (file_name paper) with
    | [_; ext] =>
        let doc_type := lower ext in
        if bool_decide (doc_type ∈ [py "pdf"; py "docx"])
        then
          match pipeline_run (file_path paper) doc_type top_k export_type
                             citation_style w with
          | (Raise e, w') => ((Raise e, db), w')
          | (Ok results_dict, w') =>
              match results results_dict with
              | [] => ((Raise RuntimeError, db), w')
              | all_results =>
                  let db := delete_citations paper_id db in
                  match create_all citation_style paper_id 1 all_results 0 db
                  with
                  | (Raise e, db') => ((Raise e, db'), w')
                  | (Ok O, db') => ((Raise RuntimeError, db'), w')
                  | (Ok (S _), db') => ((Ok tt, db'), w')
                  end
              end
          end
        else ((Raise RuntimeError, db), w)
    | _ => ((Raise RuntimeError, db), w)
    end.

(** [process_paper(paper_id, settings_dict=None, top_k=3)]: a paper that
    is not in the table gives [RuntimeError]; the settings are read before
    the [try] block, whose handler records the exception and raises it
    again. *)
Definition process_paper (paper_id : nat) (settings_dict : value) (top_k : Z)
    (db : database) (w : world) : (result unit * database) * world :=
  match uploaded_papers db !! paper_id with
  | None => ((Raise RuntimeError, db), w)
  | Some paper =>
      let paper := {| file_name := file_name paper; file_path := file_path paper;
                      processing := true; error_message := None |} in
      let db := save paper_id paper db in
      match setting settings_dict (py "citation_style") (py "harvard") with
      | Raise e => ((Raise e, db), w)
      | Ok citation_style =>
          match setting settings_dict (py "export_type") (py "csv") with
          | Raise e => ((Raise e, db), w)
          | Ok export_type =>
              match process_file paper_id paper citation_style export_type
                                 top_k db w with
              | ((Ok _, db'), w') =>
                  let paper := {| file_name := file_name paper;
                                  file_path := file_path paper;
                                  processing := false;
                                  error_message := None |} in
                  ((Ok tt, save paper_id paper db'), w')
              | ((Raise e, db'), w') =>
                  let paper := {| file_name := file_name paper;
                                  file_path := file_path paper;
                                  processing := false;
                                  error_message := Some e |} in
                  ((Raise e, save paper_id paper db'), w')
              end
          end
      end
  end.

(** The six keys of the dictionaries that [pipeline_run] builds for the
    papers of its results. *)
Definition result_keys : list str :=
  [py "title"; py "authors"; py "year"; py "link"; py "relevance";
   py "citation"].

(** What the row [row] holds of the paper [d], a paper of the paragraph
    [para_result] with the number [idx]: no default of [process_paper]
    stands in for a field of the paper. *)
Definition stored (citation_style : value) (idx : nat)
    (para_result : paragraph_result) (d : dict) (row : citation) : Prop :=
  paragraph_number row = idx
  /\ paragraph_text row = paragraph para_result
  /\ d !! py "title" = Some (title row)
  /\ d !! py "year" = Some (year row)
  /\ d !! py "link" = Some (link row)
  /\ d !! py "relevance" = Some (relevance row)
  /\ CitationFormatter.format d citation_style = Ok (harvard_citation row)
  /\ exists v names,
       d !! py "authors" = Some v
       /\ (l ← iter_of v; mapM as_str l) = Ok names
       /\ authors row = join (py ", ") names.

End Process.

(** ** Sample data *)

(** One uploaded paper, with a citation of an earlier run, and a citation
    of another paper. *)
Definition old_citation : citation := {|
  paragraph_number := 1;
  paragraph_text := py "An earlier paragraph of the paper.";
  title := VStr (py "On Trees");
  authors := py "Grace Hopper";
  year := VStr (py "2019");
  harvard_citation := py "Hopper, G. (2019) 'On Trees'";
  link := VStr (py "http://arxiv.org/abs/0");
  relevance := VInt 0
|}.

Definition sample_database : database := {|
  uploaded_papers :=
    {[ 7%nat := {| file_name := py "uploads/paper.PDF";
                   file_path := py "/media/uploads/paper.PDF";
                   processing := true;
                   error_message := None |} ]};
  citations := [(7%nat, old_citation); (8%nat, old_citation)]
|}.

End Tasks.

(* ===================================================================== *)
(** * Facts about the string functions                                    *)
(* ===================================================================== *)

Module PyFacts.

Lemma Ok_inj {A} (a b : A) : Ok a = Ok b -> a = b.
Proof. by intros [= ->]. Qed.

Lemma mapM_map_ok {A B C} (f : B -> result C) (h : A -> B) (g : A -> C)
    (l : list A) :
  (forall x, x ∈ l -> f (h x) = Ok (g x)) -> mapM f (map h l) = Ok (map g l).
Proof.
  induction l as [|x l IH]; intros Hf; [done|].
  simpl. rewrite (Hf x) by left. simpl. rewrite IH; [done|].
  intros y Hy. apply Hf. by right.
Qed.

Lemma split_from_word w cur s :
  forallb (fun c => negb (isspace c)) w = true ->
  split_from cur (w ++ s) = split_from (rev w ++ cur) s.
Proof.
  revert cur. induction w as [|c w IH]; intros cur Hw; simpl in *; [done|].
  apply andb_true_iff in Hw as [Hc Hw].
  apply negb_true_iff in Hc. rewrite Hc, IH by done.
  by rewrite <- app_assoc.
Qed.

Lemma is_word_chars w :
  is_word w = true -> w <> [] /\ forallb (fun c => negb (isspace c)) w = true.
Proof. destruct w; [done|]. intros Hw. split; [done|exact Hw]. Qed.

Lemma rev_not_nil {A} (l : list A) : l <> [] -> rev l <> [].
Proof.
  destruct l; [done|]. simpl. intros _ Hn.
  by apply app_eq_nil in Hn as [_ ?].
Qed.

(** Splitting the author string of a name gives back its words. *)
Lemma split_join (t : list str) :
  forallb is_word t = true -> split (join (py " ") t) = t.
Proof.
  unfold split. induction t as [|w t IH]; intros Ht; [done|].
  simpl in Ht. apply andb_true_iff in Ht as [Hw Ht].
  apply is_word_chars in Hw as [Hne Hw].
  destruct t as [|w' t].
  - simpl. rewrite <- (app_nil_r w) at 1. rewrite split_from_word by done.
    rewrite app_nil_r. simpl. destruct (rev w) eqn:E.
    + by apply rev_not_nil in Hne.
    + rewrite <- E. by rewrite rev_involutive.
  - change (join (py " ") (w :: w' :: t))
      with (w ++ 32%N :: join (py " ") (w' :: t)).
    rewrite split_from_word by done. rewrite app_nil_r. simpl.
    destruct (rev w) eqn:E.
    + by apply rev_not_nil in Hne.
    + rewrite <- E, rev_involutive. f_equal. by apply IH.
Qed.

Lemma split_full_name (t : list str) :
  is_name t = true -> split_of (full_name t) = Ok t.
Proof.
  intros Ht. unfold full_name, split_of. f_equal. apply split_join.
  by destruct t.
Qed.

End PyFacts.

(* ===================================================================== *)
(** * The citation formatter                                              *)
(* ===================================================================== *)

Module FormatterFacts.
Import CitationFormatter PyFacts.
Section Facts.
Context `{Library}.

Lemma last_initial_name (t : list str) :
  is_name t = true -> last_initial t = Ok (last_f t).
Proof.
  intros Ht. unfold last_initial, last_f, final.
  destruct t as [|w t]; [done|].
  simpl in Ht. apply andb_true_iff in Ht as [Hw _].
  destruct (last (w :: t)) as [l|] eqn:El.
  - simpl. destruct w as [|c w]; [done|]. reflexivity.
  - by apply last_None in El.
Qed.

(** No author: the empty string. *)
Lemma format_authors_none : _format_authors [] = Ok [].
Proof. reflexivity. Qed.

(** One author: "Last, F." *)
Lemma format_authors_one (t : list str) :
  is_name t = true ->
  _format_authors [full_name t] = Ok (last_f t ++ py ".").
Proof.
  intros Ht. unfold _format_authors.
  rewrite split_full_name by done. simpl.
  by rewrite last_initial_name.
Qed.

(** Two authors: "Last1, F1. and Last2, F2." *)
Lemma format_authors_two (t1 t2 : list str) :
  is_name t1 = true -> is_name t2 = true ->
  _format_authors [full_name t1; full_name t2]
  = Ok (last_f t1 ++ py ". and " ++ last_f t2 ++ py ".").
Proof.
  intros H1 H2. unfold _format_authors.
  rewrite !split_full_name by done. simpl.
  by rewrite !last_initial_name.
Qed.

(** Four authors or more: "Last1, F1. et al." *)
Lemma format_authors_many (t1 : list str) (x2 x3 x4 : value) (rest : list value) :
  is_name t1 = true ->
  _format_authors (full_name t1 :: x2 :: x3 :: x4 :: rest)
  = Ok (last_f t1 ++ py ". et al.").
Proof.
  intros H1. unfold _format_authors.
  rewrite split_full_name by done. simpl.
  by rewrite last_initial_name.
Qed.

(** C1. For three authors the Harvard formatter returns
    "Last1, F1., Last2, F2 and Last3, F3.": no full stop follows the
    initial of the second author, so the result is not the rendering
    "Last1, F1., Last2, F2. and Last3, F3." of the other branches' rule. *)
Theorem format_authors_three (t1 t2 t3 : list str) :
  is_name t1 = true -> is_name t2 = true -> is_name t3 = true ->
  _format_authors [full_name t1; full_name t2; full_name t3]
  = Ok (last_f t1 ++ py "., " ++ last_f t2 ++ py " and " ++ last_f t3 ++ py ".")
  /\ _format_authors [full_name t1; full_name t2; full_name t3]
     <> Ok (last_f t1 ++ py "., " ++ last_f t2 ++ py ". and " ++ last_f t3 ++ py ".").
Proof.
  intros H1 H2 H3.
  assert (_format_authors [full_name t1; full_name t2; full_name t3]
          = Ok (last_f t1 ++ py "., " ++ last_f t2 ++ py " and "
                  ++ last_f t3 ++ py ".")) as E.
  { unfold _format_authors. rewrite !split_full_name by done. simpl.
    by rewrite !last_initial_name. }
  split; [exact E|]. rewrite E. intros Heq. apply Ok_inj in Heq.
  do 3 apply app_inv_head in Heq.
  apply (f_equal head) in Heq. vm_compute in Heq. discriminate Heq.
Qed.

(** C2, as the code has it. [format] renders the styles harvard, apa, mla,
    chicago and bibtex with the function of that name, and every other
    style, "ieee" included, with [harvard]. *)
Theorem format_dispatch (paper : dict) :
  format paper (VStr (py "harvard")) = harvard paper
  /\ format paper (VStr (py "apa")) = apa paper
  /\ format paper (VStr (py "mla")) = mla paper
  /\ format paper (VStr (py "chicago")) = chicago paper
  /\ format paper (VStr (py "bibtex")) = bibtex paper
  /\ format paper (VStr (py "ieee")) = harvard paper
  /\ forall style, known_style style = false ->
       format paper style = harvard paper.
Proof.
  repeat split; try reflexivity.
  intros style Hs. unfold known_style in Hs.
  repeat (apply orb_false_iff in Hs as [Hs ?]).
  unfold format. by repeat match goal with E : _ = false |- _ => rewrite E; clear E end.
Qed.

End Facts.

Lemma format_authors_three_witness :
  (is_name lovelace = true /\ is_name turing = true /\ is_name hopper = true)
  /\ _format_authors [full_name lovelace; full_name turing; full_name hopper]
     = Ok (py "Lovelace, A., Turing, A and Hopper, G.").
Proof.
  split; [by repeat split|].
  exact (proj1 (format_authors_three lovelace turing hopper
                  eq_refl eq_refl eq_refl)).
Defined.

Lemma format_dispatch_witness :
  known_style (VStr (py "IEEE")) = false
  /\ format sample_paper (VStr (py "IEEE")) = harvard sample_paper.
Proof.
  split; [reflexivity|].
  apply (format_dispatch sample_paper); reflexivity.
Defined.

(** C2, as stated, fails: with the style "ieee", [format] does not return
    the IEEE rendering of the paper but its Harvard rendering. *)
Lemma format_ieee_is_not_ieee :
  format sample_paper (VStr (py "ieee"))
  = Ok (py "Lovelace, A. and Turing, A. (2020) 'On Graphs', arXiv. Available at: http://arxiv.org/abs/1 (Accessed: 03 Nov 2026).")
  /\ ieee sample_paper 1
     = Ok (py "[1] Lovelace A., Turing A., " ++ dq ++ py "On Graphs," ++ dq
             ++ py " arXiv, 2020. http://arxiv.org/abs/1")
  /\ format sample_paper (VStr (py "ieee")) <> ieee sample_paper 1.
Proof. repeat split; [vm_compute; reflexivity ..| vm_compute; discriminate]. Qed.

End FormatterFacts.

(* ===================================================================== *)
(** * The query builder                                                   *)
(* ===================================================================== *)

Module QueryFacts.
Import ArxivSearcher PyFacts.

Lemma slice_to_map {A B} (f : A -> B) (n : Z) (l : list A) :
  slice_to n (map f l) = map f (slice_to n l).
Proof.
  unfold slice_to. rewrite length_map.
  destruct (0 <=? n); by rewrite firstn_map.
Qed.

Lemma split_from_Forall (Q : char -> Prop) (s cur : str) :
  Forall Q cur ->
  Forall (fun c => isspace c = false -> Q c) s ->
  Forall (Forall Q) (split_from cur s).
Proof.
  revert cur. induction s as [|c s IH]; intros cur Hcur Hs; simpl.
  - destruct cur; [constructor|].
    constructor; [|constructor]. apply Forall_forall. intros x Hx.
    rewrite Forall_forall in Hcur. apply Hcur.
    apply list_elem_of_In. apply list_elem_of_In in Hx. by apply in_rev.
  - inversion Hs as [|? ? Hc Hs']; subst.
    destruct (isspace c) eqn:Ec.
    + destruct cur as [|c' cur].
      * by apply IH.
      * constructor; [|by apply IH].
        apply Forall_forall. intros x Hx.
        rewrite Forall_forall in Hcur. apply Hcur.
        apply list_elem_of_In. apply list_elem_of_In in Hx. by apply in_rev.
    + apply IH; [|done]. constructor; [by apply Hc | done].
Qed.




End QueryFacts.

(* ===================================================================== *)
(** * The paragraph cleaner                                               *)
(* ===================================================================== *)

Module CleanerFacts.
Import ParagraphCleaner.
Section Facts.
Context `{Library}.

Lemma kept_long_enough (min_words : Z) (text : str) :
  Forall (fun s => min_words <= Z.of_nat (length (split s)))
         (kept min_words text).
Proof.
  apply Forall_forall. intros s Hs.
  apply list_elem_of_filter in Hs as [Hs _].
  unfold long_enough in Hs. lia.
Qed.

(** C9. [_clean] joins, with one space, the sentences of the segmentation
    that have [min_words] words or more: each kept sentence has that many
    words, the kept sentences are a subsequence of the segmented ones (so
    they are not more numerous), and the result is the empty string when
    no sentence is kept. *)
Theorem clean_spec (min_words : Z) (text : str) :
  _clean min_words text = join (py " ") (kept min_words text)
  /\ Forall (fun s => min_words <= Z.of_nat (length (split s)))
            (kept min_words text)
  /\ kept min_words text `sublist_of` segmented text
  /\ (length (kept min_words text) <= length (segmented text))%nat
  /\ (kept min_words text = [] -> _clean min_words text = []).
Proof.
  split; [reflexivity|]. split; [apply kept_long_enough|].
  split; [apply sublist_filter|]. split; [apply length_filter|].
  intros Hk. unfold _clean. by rewrite Hk.
Qed.

End Facts.

Lemma clean_spec_witness :
  kept 10 (py "Too short.  Also <b>short</b>.") = []
  /\ _clean 10 (py "Too short.  Also <b>short</b>.") = [].
Proof.
  split; [vm_compute; reflexivity|].
  apply (clean_spec 10 (py "Too short.  Also <b>short</b>.")).
  vm_compute; reflexivity.
Defined.

(** A run of the cleaner at threshold 3: the tag goes, the white space
    collapses, and only the sentence of four words remains. *)
Example clean_sample :
  segmented (py "a <b>  c d e.   f g.  h i j k.")
  = [py "a c d e"; py "f g"; py "h i j k"]
  /\ _clean 4 (py "a <b>  c d e.   f g.  h i j k.") = py "a c d e h i j k".
Proof. split; vm_compute; reflexivity. Qed.

End CleanerFacts.

(* ===================================================================== *)
(** * The monad of effects                                                *)
(* ===================================================================== *)

Module MFacts.

Lemma bind_run {A B} (m : M A) (k : A -> M B) (w : world) :
  (m ≫= k) w = match m w with
               | (Ok a, w') => k a w'
               | (Raise e, w') => (Raise e, w')
               end.
Proof. reflexivity. Qed.

Lemma post_answered (prompt text : str) (w : world) :
  head (llm_replies w) = Some (Ok text) ->
  post prompt w = (Ok text, answered prompt w).
Proof.
  unfold post, answered. destruct (llm_replies w) as [|r reps]; [done|].
  by intros [= ->].
Qed.

End MFacts.

(* ===================================================================== *)
(** * Keyword and summary extraction                                      *)
(* ===================================================================== *)

Module ExtractFacts.
Import ExtractKeyEle MFacts.
Section Facts.
Context `{Library}.

(** C3. In ver4_extract_key_ele.py the retry calls [call_llm()] without
    its arguments. When the first answer for a paragraph is not JSON, the
    extraction therefore raises [TypeError]: one request has been sent, no
    stricter prompt follows, no heuristic keywords are computed, and the
    paragraphs after it are not processed. *)
Theorem extract_retry_raises (paragraph : str) (rest : list str)
    (get_summary : bool) (text : str) (w : world) :
  head (llm_replies w) = Some (Ok text) ->
  json_loads (clean_reply (strip text)) = None ->
  extract_keywords_and_summary (paragraph :: rest) get_summary true w
  = (Raise TypeError, answered (prompt_of get_summary paragraph) w).
Proof.
  intros Hr Hj. unfold extract_keywords_and_summary. simpl.
  rewrite bind_run. unfold extract_one, call_llm.
  rewrite bind_run, bind_run. rewrite (post_answered _ text) by done.
  simpl. unfold mret, M_ret. by rewrite Hj.
Qed.

End Facts.

Lemma extract_retry_raises_witness :
  (head (llm_replies prose_world)
   = Some (Ok (py "Sure! The keywords are graphs and trees."))
   /\ json_loads (clean_reply (strip (py "Sure! The keywords are graphs and trees.")))
      = None)
  /\ fst (extract_keywords_and_summary
            [py "Graphs are everywhere. Trees are graphs."; py "Second paragraph."]
            true true prose_world)
     = Raise TypeError.
Proof.
  split; [split; reflexivity|].
  rewrite (extract_retry_raises _ _ true
             (py "Sure! The keywords are graphs and trees.") prose_world);
    reflexivity.
Defined.

End ExtractFacts.

(* ===================================================================== *)
(** * Keyword ranking                                                     *)
(* ===================================================================== *)

Module RankingFacts.
Import MFacts.
Section Facts.
Context `{Library}.

Lemma with_null_scores_length (keywords : list value) :
  length (with_null_scores keywords) = length keywords.
Proof. apply length_map. Qed.

Lemma with_null_scores_order (keywords : list value) :
  map fst (with_null_scores keywords) = keywords.
Proof.
  unfold with_null_scores. rewrite map_map. simpl. apply map_id.
Qed.

(** C4, as the code has it. Once the endpoint has answered,
    [LLMClient.rank_keywords] does not raise. An answer that is not JSON,
    or not of the expected shape, gives the input keywords in their order,
    each with the score [None], hence a list of the length of the input.
    An answer of the expected shape gives the pairs of the answer, in the
    order and number of the answer. *)
Theorem rank_keywords_result (paragraph : str) (keywords : list value)
    (text : str) (w : world) :
  head (llm_replies w) = Some (Ok text) ->
  LLMClient.rank_keywords paragraph (VList keywords) w
  = (Ok (match parsed_ranking text with
         | Some ranked => ranked
         | None => with_null_scores keywords
         end),
     answered (LLMClient.rank_prompt paragraph (VList keywords)) w)
  /\ (parsed_ranking text = None ->
      exists ranked,
        fst (LLMClient.rank_keywords paragraph (VList keywords) w) = Ok ranked
        /\ map fst ranked = keywords
        /\ Forall (fun ks => snd ks = VNone) ranked
        /\ length ranked = length keywords).
Proof.
  intros Hr.
  assert (LLMClient.rank_keywords paragraph (VList keywords) w
          = (Ok (match parsed_ranking text with
                 | Some ranked => ranked
                 | None => with_null_scores keywords
                 end),
             answered (LLMClient.rank_prompt paragraph (VList keywords)) w)) as E.
  { unfold LLMClient.rank_keywords, LLMClient.call, parsed_ranking.
    rewrite bind_run, bind_run. rewrite (post_answered _ text) by done.
    simpl. unfold try_except.
    destruct (json_loads (clean_reply (strip text))) as [data|]; [|done].
    unfold lift. by destruct (LLMClient.ranked_of data). }
  split; [exact E|]. intros Hp. rewrite E, Hp. simpl.
  exists (with_null_scores keywords). split; [done|].
  split; [apply with_null_scores_order|].
  split; [|apply with_null_scores_length].
  unfold with_null_scores. by apply Forall_map, Forall_forall.
Qed.

(** The ranker of webUI/papers/pipeline.py handles the answer that is not
    JSON in the same way. *)
Lemma rank_keywords_llm_not_json (paragraph : str) (keywords : list value)
    (text : str) (w : world) :
  head (llm_replies w) = Some (Ok text) ->
  json_loads (clean_reply (strip text)) = None ->
  WebPipeline.rank_keywords_llm paragraph (VList keywords) w
  = (Ok (with_null_scores keywords),
     answered (WebPipeline.rank_prompt paragraph (VList keywords)) w).
Proof.
  intros Hr Hj.
  unfold WebPipeline.rank_keywords_llm, WebPipeline.call_llm.
  rewrite bind_run, bind_run. rewrite (post_answered _ text) by done.
  simpl. unfold try_except. by rewrite Hj.
Qed.

End Facts.

Lemma rank_keywords_result_witness :
  (head (llm_replies prose_world)
   = Some (Ok (py "Sure! The keywords are graphs and trees."))
   /\ parsed_ranking (py "Sure! The keywords are graphs and trees.") = None)
  /\ exists ranked,
       fst (LLMClient.rank_keywords (py "Graphs are everywhere.")
              (VList [VStr (py "trees"); VStr (py "graphs")]) prose_world)
       = Ok ranked
       /\ map fst ranked = [VStr (py "trees"); VStr (py "graphs")]
       /\ Forall (fun ks => snd ks = VNone) ranked
       /\ length ranked = length [VStr (py "trees"); VStr (py "graphs")].
Proof.
  split; [split; reflexivity|].
  apply (rank_keywords_result (py "Graphs are everywhere.")
           [VStr (py "trees"); VStr (py "graphs")]
           (py "Sure! The keywords are graphs and trees.") prose_world);
    reflexivity.
Defined.

(** C4, as stated, fails: the endpoint answers two keywords with a valid
    ranking of one of them, and the ranker returns a list of length one. *)
Lemma rank_keywords_shorter :
  fst (LLMClient.rank_keywords (py "Graphs are everywhere.")
         (VList [VStr (py "trees"); VStr (py "graphs")]) short_ranking_world)
  = Ok [(VStr (py "graphs"), VInt 1)]
  /\ length [(VStr (py "graphs"), VInt 1)]
     <> length [VStr (py "trees"); VStr (py "graphs")].
Proof. split; [vm_compute; reflexivity | discriminate]. Qed.

(** An answer that is JSON without the key "ranked_keywords": the ranker
    of LLMClient.py falls back, the one of webUI/papers/pipeline.py lets
    the [KeyError] through. *)
Example rank_keywords_wrong_shape :
  fst (LLMClient.rank_keywords (py "Graphs are everywhere.")
         (VList [VStr (py "trees"); VStr (py "graphs")]) empty_object_world)
  = Ok [(VStr (py "trees"), VNone); (VStr (py "graphs"), VNone)]
  /\ fst (WebPipeline.rank_keywords_llm (py "Graphs are everywhere.")
            (VList [VStr (py "trees"); VStr (py "graphs")]) empty_object_world)
     = Raise KeyError.
Proof. split; vm_compute; reflexivity. Qed.

End RankingFacts.

(* ===================================================================== *)
(** * Float32 facts: order and sign                                       *)
(* ===================================================================== *)

Module FloatFacts.

Ltac cmp_cases :=
  repeat match goal with
  | |- context [(?a ?= ?b)%Z] => destruct (Z.compare_spec a b)
  | H : context [(?a ?= ?b)%Z] |- _ => destruct (Z.compare_spec a b)
  | |- context [(?a ?= ?b)%positive] => destruct (Pos.compare_spec a b)
  | H : context [(?a ?= ?b)%positive] |- _ => destruct (Pos.compare_spec a b)
  end.

Ltac float_order :=
  unfold F32.leb, F32.ltb, SFleb, SFltb, SFcompare in *;
  repeat match goal with
  | x : spec_float |- _ => destruct x as [[]|[]| |[] ? ?]
  end;
  simpl in *; try done;
  change (Pos.compare_cont Eq) with Pos.compare in *;
  cmp_cases; simpl in *; try done; try lia.

(** On numbers that are not NaN, [<=] is total and transitive, and [<] is
    its strict part. *)
Lemma leb_total (x y : spec_float) :
  F32.is_nan x = false -> F32.is_nan y = false ->
  F32.ltb x y = false -> F32.leb y x = true.
Proof. intros Hx Hy Hlt. float_order. Qed.

Lemma ltb_leb (x y : spec_float) : F32.ltb x y = true -> F32.leb x y = true.
Proof. intros Hlt. float_order. Qed.

Lemma leb_trans (x y z : spec_float) :
  F32.leb x y = true -> F32.leb y z = true -> F32.leb x z = true.
Proof. intros Hxy Hyz. float_order. Qed.

End FloatFacts.

(** The sign of a product, a quotient and a rounding: what decides whether
    a relevance is negative. *)
Module SignFacts.

Lemma shr_1_nonneg mrs : 0 <= shr_m mrs -> 0 <= shr_m (shr_1 mrs).
Proof.
  destruct mrs as [m r s]. simpl. destruct m as [|p|p]; [done| |lia].
  intros _. destruct p; simpl; lia.
Qed.

Lemma iter_shr_1_nonneg p mrs :
  0 <= shr_m mrs -> 0 <= shr_m (SpecFloat.iter_pos shr_1 p mrs).
Proof.
  revert mrs. induction p as [p IH|p IH|]; intros mrs Hm; simpl.
  - apply IH, IH. by apply shr_1_nonneg.
  - by apply IH, IH.
  - by apply shr_1_nonneg.
Qed.

Lemma shr_nonneg mrs e n : 0 <= shr_m mrs -> 0 <= shr_m (fst (shr mrs e n)).
Proof.
  intros Hm. unfold shr. destruct n; simpl; [done| |done].
  by apply iter_shr_1_nonneg.
Qed.

Lemma shr_record_of_loc_m m l : shr_m (shr_record_of_loc m l) = m.
Proof. by destruct l as [|[]]. Qed.

Lemma shr_fexp_nonneg prec emax m e l :
  0 <= m -> 0 <= shr_m (fst (shr_fexp prec emax m e l)).
Proof.
  intros Hm. unfold shr_fexp. apply shr_nonneg.
  by rewrite shr_record_of_loc_m.
Qed.

Lemma round_nearest_even_nonneg m l : 0 <= m -> 0 <= round_nearest_even m l.
Proof.
  intros Hm. unfold round_nearest_even.
  destruct l as [|[]]; try done; [destruct (Z.even m)|]; lia.
Qed.

Lemma binary_round_aux_sign prec emax s mx ex lx :
  0 <= mx -> has_sign s (binary_round_aux prec emax s mx ex lx).
Proof.
  intros Hm. unfold binary_round_aux.
  pose proof (shr_fexp_nonneg prec emax mx ex lx Hm) as H1.
  destruct (shr_fexp prec emax mx ex lx) as [mrs' e']. simpl in H1.
  pose proof (shr_fexp_nonneg prec emax
                (round_nearest_even (shr_m mrs') (loc_of_shr_record mrs'))
                e' loc_Exact (round_nearest_even_nonneg _ _ H1)) as H2.
  destruct (shr_fexp prec emax _ e' loc_Exact) as [mrs'' e'']. simpl in H2.
  destruct (shr_m mrs'') as [|m|m]; [done| |lia].
  by destruct (e'' <=? emax - prec).
Qed.

Lemma binary_round_sign prec emax s mx ex :
  has_sign s (binary_round prec emax s mx ex).
Proof.
  unfold binary_round. destruct (shl_align _ _ _) as [mz ez].
  by apply binary_round_aux_sign.
Qed.

Lemma of_Z_100 : F32.of_Z 100 = hundred.
Proof. reflexivity. Qed.

Lemma mul_hundred_sign s x : has_sign s x -> has_sign s (F32.mul x hundred).
Proof.
  destruct x as [s'|s'| |s' m e]; simpl; try done.
  - intros ->. by destruct s.
  - intros ->. by destruct s.
  - intros ->. unfold F32.mul, SFmul, hundred.
    replace (xorb s false) with s by by destruct s.
    by apply binary_round_aux_sign.
Qed.

Lemma div_hundred_sign s x : has_sign s x -> has_sign s (F32.div x hundred).
Proof.
  destruct x as [s'|s'| |s' m e]; simpl; try done.
  - intros ->. by destruct s.
  - intros ->. by destruct s.
  - intros ->. unfold F32.div, SFdiv, hundred.
    replace (xorb s false) with s by by destruct s.
    destruct (SFdiv_core_binary _ _ _ _ _ _) as [[mz ez] lz] eqn:E.
    apply binary_round_aux_sign.
    unfold SFdiv_core_binary in E.
    match type of E with
    | (let '(q, r) := Z.div_eucl ?a ?b in _) = _ =>
        pose proof (Z_div_mod a b eq_refl) as Hd;
        assert (0 <= a) as Ha; [|destruct (Z.div_eucl a b) as [q r]]
    end.
    { match goal with |- 0 <= match ?s with _ => _ end => destruct s end;
        try done. apply Z.shiftl_nonneg. lia. }
    inversion E; subst. nia.
Qed.

Lemma rint_sign s x : has_sign s x -> has_sign s (F32.rint x).
Proof.
  destruct x as [s'|s'| |s' m e]; simpl; try done.
  intros ->. destruct (0 <=? e); [done|].
  pose proof (round_nearest_even_nonneg
                (shr_m (fst (shr (Build_shr_record (Zpos m) false false) e (- e))))
                (loc_of_shr_record
                   (fst (shr (Build_shr_record (Zpos m) false false) e (- e)))))
    as Hn.
  destruct (round_nearest_even _ _) as [|n|n]; [done| |].
  - unfold binary_normalize. destruct s; simpl; apply binary_round_sign.
  - exfalso. assert (0 <= Z.neg n); [|lia]. apply Hn. by apply shr_nonneg.
Qed.





End SignFacts.

(* ===================================================================== *)
(** * The store                                                           *)
(* ===================================================================== *)

Module HeapFacts.
Import MFacts.

Lemma map_fmap {A B} (f : A -> B) (l : list A) : map f l = f <$> l.
Proof. reflexivity. Qed.

Lemma set_heap_id (w : world) : set_heap (heap w) w = w.
Proof. by destruct w. Qed.

Lemma alloc_run (o : obj) (h : list obj) (w : world) :
  alloc o (set_heap h w) = (Ok (length h), set_heap (h ++ [o]) w).
Proof. reflexivity. Qed.

Lemma load_run (l : loc) (o : obj) (h : list obj) (w : world) :
  h !! l = Some o -> load l (set_heap h w) = (Ok o, set_heap h w).
Proof. intros Hl. unfold load. simpl. by rewrite Hl. Qed.

Lemma load_dict_run (l : loc) (d : dict) (h : list obj) (w : world) :
  h !! l = Some (ODict d) -> load_dict l (set_heap h w) = (Ok d, set_heap h w).
Proof. intros Hl. unfold load_dict. by rewrite bind_run, (load_run _ _ _ _ Hl). Qed.

Lemma load_list_run (l : loc) (ls : list loc) (h : list obj) (w : world) :
  h !! l = Some (OList ls) -> load_list l (set_heap h w) = (Ok ls, set_heap h w).
Proof. intros Hl. unfold load_list. by rewrite bind_run, (load_run _ _ _ _ Hl). Qed.

Lemma store_run (l : loc) (o : obj) (h : list obj) (w : world) :
  store l o (set_heap h w) = (Ok tt, set_heap (<[l := o]> h) w).
Proof. reflexivity. Qed.

End HeapFacts.

(* ===================================================================== *)
(** * The semantic ranker                                                 *)
(* ===================================================================== *)

Module RankerFacts.
Import SemanticRanker MFacts HeapFacts.
Section Facts.
Context `{Library}.

(** Reading the abstracts leaves the world as it is. *)
Lemma abstracts_run (w : world) (ps : list loc) (dicts : list dict)
    (abstracts : list str) :
  Forall2 (fun p d => heap w !! p = Some (ODict d)) ps dicts ->
  Forall2 (fun (d : dict) a => d !! py "summary" = Some (VStr a)) dicts abstracts ->
  mapMM abstract_of ps w = (Ok abstracts, w).
Proof.
  intros Hd. revert abstracts.
  induction Hd as [|p d ps dicts Hp Hd IH]; intros abstracts Ha.
  - by inversion Ha.
  - inversion Ha as [|? a ? abstracts' Hs Ha']; subst. simpl.
    rewrite bind_run. unfold abstract_of at 1.
    rewrite bind_run, <- (set_heap_id w), (load_dict_run _ d) by done.
    rewrite set_heap_id. rewrite bind_run. unfold dict_index, lift at 1.
    rewrite Hs. unfold lift at 1. simpl.
    rewrite bind_run, (IH _ Ha'). reflexivity.
Qed.

(** One more copy: the loop over [sims[:top_k]] from a store that already
    holds [done] copies. *)
Lemma annotate_loop (w : world) (h : list obj) (papers : loc) (ps : list loc)
    (dicts : list dict) (top done : list (nat * spec_float)) (i : nat) :
  h !! papers = Some (OList ps) ->
  Forall2 (fun p d => h !! p = Some (ODict d)) ps dicts ->
  Forall (fun it => (fst it < length ps)%nat) top ->
  for_each (annotate papers (length h)) i top tt
           (set_heap (ranked_heap h dicts done) w)
  = (Ok tt, set_heap (ranked_heap h dicts (done ++ top)) w).
Proof.
  intros Hps Hd. revert done i.
  induction top as [|it top IH]; intros done i Htop.
  - simpl. by rewrite app_nil_r.
  - inversion Htop as [|? ? Hit Htop']; subst. simpl.
    destruct (lookup_lt_is_Some_2 ps (fst it) Hit) as [p Hp].
    destruct (Forall2_lookup_l _ _ _ _ _ Hd Hp) as (d & Hdi & Hpd).
    rewrite bind_run. unfold annotate at 1. unfold ranked_heap at 1.
    rewrite bind_run, (load_list_run papers ps)
      by (by apply lookup_app_l_Some).
    rewrite bind_run. unfold list_index, lift at 1. rewrite Hp.
    rewrite bind_run, (load_dict_run p d) by (by apply lookup_app_l_Some).
    rewrite bind_run, alloc_run.
    rewrite bind_run, (load_dict_run _ d).
    2:{ rewrite lookup_app_r by lia. by rewrite Nat.sub_diag. }
    rewrite bind_run, store_run.
    rewrite bind_run, (load_list_run (length h) (seq (S (length h)) (length done))).
    2:{ rewrite list_lookup_insert_ne.
        - rewrite <- app_assoc. by apply list_lookup_middle.
        - rewrite length_app. simpl. lia. }
    rewrite store_run.
    replace (<[length h:=OList (seq (S (length h)) (length done)
                                ++ [length (h ++ OList (seq (S (length h)) (length done))
                                              :: map (annotated dicts) done)])]>
               (<[length (h ++ OList (seq (S (length h)) (length done))
                            :: map (annotated dicts) done)
                  := ODict (<[py "relevance" := VFloat (relevance_of (snd it))]> d)]>
                  ((h ++ OList (seq (S (length h)) (length done))
                      :: map (annotated dicts) done)
                     ++ [ODict d])))
      with (ranked_heap h dicts (done ++ [it])).
    { rewrite (IH (done ++ [it]) (S i) Htop'). by rewrite <- app_assoc. }
    unfold ranked_heap.
    rewrite insert_app_r_alt by lia. rewrite Nat.sub_diag. simpl.
    rewrite <- app_assoc. simpl.
    rewrite (insert_app_r_alt h) by lia. rewrite Nat.sub_diag. simpl.
    f_equal. f_equal.
    + f_equal. rewrite !length_app. simpl. rewrite length_map, seq_app.
      simpl. do 2 f_equal. lia.
    + rewrite map_app. simpl. do 2 f_equal. unfold annotated. by rewrite Hdi.
Qed.

Lemma mapM_Forall2 {A B} (f : A -> result B) (l : list A) (l' : list B) :
  mapM f l = Ok l' -> Forall2 (fun y x => f x = Ok y) l' l.
Proof.
  revert l'. induction l as [|x l IH]; intros l' Hm; simpl in Hm.
  - inversion Hm. constructor.
  - destruct (f x) as [y|] eqn:Ex; [|discriminate]. simpl in Hm.
    destruct (mapM f l) as [ys|]; [|discriminate]. inversion Hm; subst.
    constructor; [done | by apply IH].
Qed.

(** [sims] pairs the index of each paper with its similarity. *)
Lemma similarities_lookup (e : list spec_float) (embs : list (list spec_float))
    (sims : list (nat * spec_float)) :
  similarities e embs = Ok sims ->
  length sims = length embs
  /\ forall j it, sims !! j = Some it ->
       fst it = j /\ exists pe, embs !! j = Some pe /\ cosine e pe = Ok (snd it).
Proof.
  intros Hs. apply mapM_Forall2 in Hs. split.
  - rewrite (Forall2_length _ _ _ Hs). unfold enumerate. apply length_imap.
  - intros j it Hj.
    destruct (Forall2_lookup_l _ _ _ _ _ Hs Hj) as (ipe & Hipe & Hc).
    unfold enumerate in Hipe. rewrite list_lookup_imap in Hipe.
    destruct (embs !! j) as [pe|] eqn:Epe; [|discriminate].
    simpl in Hipe. inversion Hipe; subst. simpl in Hc.
    destruct (cosine e pe) as [c|] eqn:Ec; [|discriminate].
    simpl in Hc. inversion Hc; subst. simpl. eauto.
Qed.

Lemma insert_desc_perm (x : nat * spec_float) (l : list (nat * spec_float)) :
  insert_desc x l ≡ₚ x :: l.
Proof.
  induction l as [|y l IH]; [done|]. simpl.
  destruct (F32.ltb (snd x) (snd y)); [|done].
  rewrite IH. apply Permutation_swap.
Qed.

(** Sorting keeps the pairs. *)
Lemma sort_desc_perm (l : list (nat * spec_float)) : sort_desc l ≡ₚ l.
Proof.
  induction l as [|x l IH]; [done|]. simpl.
  rewrite insert_desc_perm. by rewrite IH.
Qed.

(** Whatever the places, [arrange] keeps the items. *)
Lemma insert_place_perm {A} (x : nat * A) (l : list (nat * A)) :
  insert_place x l ≡ₚ x :: l.
Proof.
  induction l as [|y l IH]; [done|]. simpl.
  destruct (fst x <=? fst y)%nat; [done|].
  rewrite IH. apply Permutation_swap.
Qed.

Lemma arrange_perm {A} (places : list nat) (l : list A) : arrange places l ≡ₚ l.
Proof.
  unfold arrange.
  assert (forall z : list (nat * A), foldr insert_place [] z ≡ₚ z) as Hz.
  { induction z as [|x z IH]; [done|]. simpl.
    by rewrite insert_place_perm, IH. }
  rewrite map_fmap, Hz, snd_zip; [done|].
  rewrite length_app, length_replicate. lia.
Qed.

(** The sort of [rank] keeps the pairs, with or without NaN. *)
Lemma sort_sims_perm (l : list (nat * spec_float)) : sort_sims l ≡ₚ l.
Proof.
  unfold sort_sims. destruct (forallb _ l); [apply sort_desc_perm|].
  apply arrange_perm.
Qed.

(** Without NaN it is the stable sort into descending order. *)
Lemma sort_sims_no_nan (l : list (nat * spec_float)) :
  no_nan (map snd l) = true -> sort_sims l = sort_desc l.
Proof.
  unfold no_nan, sort_sims. intros Hn.
  assert (forallb (fun x : nat * spec_float => negb (F32.is_nan (snd x))) l
          = true) as ->; [|done].
  induction l as [|x l IH]; [done|]. simpl in *.
  apply andb_true_iff in Hn as [-> Hn]. by apply IH.
Qed.

(** A slice [l[:n]] is a prefix of [l]. *)
Lemma slice_to_prefix {A} (n : Z) (l : list A) : exists k, slice_to n l = take k l.
Proof. unfold slice_to. destruct (0 <=? n); eauto. Qed.

Lemma slice_to_nonneg {A} (n : Z) (l : list A) :
  0 <= n -> slice_to n l = take (Z.to_nat n) l.
Proof. intros Hn. unfold slice_to. destruct (Z.leb_spec 0 n); [done|lia]. Qed.

Lemma elem_of_slice_to {A} (n : Z) (l : list A) (x : A) :
  x ∈ slice_to n l -> x ∈ l.
Proof.
  destruct (slice_to_prefix n l) as [k ->]. apply subseteq_take.
Qed.

(** The paper a pair of [sims] points to, and its similarity. *)
Lemma sims_elem (e : list spec_float) (embs : list (list spec_float))
    (sims : list (nat * spec_float)) (it : nat * spec_float) :
  similarities e embs = Ok sims -> it ∈ sims ->
  exists pe, embs !! fst it = Some pe /\ cosine e pe = Ok (snd it).
Proof.
  intros Hs Hit. apply list_elem_of_lookup in Hit as [j Hj].
  destruct (similarities_lookup _ _ _ Hs) as [_ Hl].
  destruct (Hl j it Hj) as (<- & pe & Hpe & Hc). eauto.
Qed.

(** What [rank] does on a well-formed input with papers: it returns the
    address of a new list, which holds the addresses of the annotated
    copies of the [top_k] papers of greatest similarity. *)
Lemma rank_run (w : world) (papers : loc) (ps : list loc) (dicts : list dict)
    (abstracts : list str) (s : str) (sims : list (nat * spec_float))
    (top_k : Z) :
  rank_input w papers ps dicts abstracts ->
  ps <> [] ->
  similarities (encode s) (map encode abstracts) = Ok sims ->
  rank (VStr s) papers top_k w
  = (Ok (length (heap w)),
     set_heap (ranked_heap (heap w) dicts (slice_to top_k (sort_sims sims))) w).
Proof.
  intros [Hl Hd Ha] Hne Hs. unfold rank.
  rewrite bind_run, <- (set_heap_id w) at 1.
  rewrite (load_list_run papers ps) by done. rewrite set_heap_id.
  destruct ps as [|p0 ps0]; [done|].
  rewrite bind_run. unfold lift at 1, as_str at 1. cbv beta iota.
  rewrite bind_run, (abstracts_run w _ dicts abstracts) by done.
  rewrite bind_run. unfold lift at 1. rewrite Hs.
  rewrite bind_run, <- (set_heap_id w) at 1. rewrite alloc_run.
  rewrite bind_run.
  change (heap w ++ [OList []]) with (ranked_heap (heap w) dicts []).
  rewrite (annotate_loop w (heap w) papers (p0 :: ps0) dicts) by first
    [ done
    | apply Forall_forall; intros it Hit;
      apply elem_of_slice_to in Hit; rewrite sort_sims_perm in Hit;
      destruct (sims_elem _ _ _ _ Hs Hit) as (pe & Hpe & _);
      apply lookup_lt_Some in Hpe; rewrite length_map in Hpe;
      rewrite (Forall2_length _ _ _ Hd), (Forall2_length _ _ _ Ha); done ].
  reflexivity.
Qed.

(** With no paper, [rank] returns a new empty list. *)
Lemma rank_empty (w : world) (papers : loc) (summary : value) (top_k : Z) :
  heap w !! papers = Some (OList []) ->
  rank summary papers top_k w
  = (Ok (length (heap w)), set_heap (heap w ++ [OList []]) w).
Proof.
  intros Hl. unfold rank.
  rewrite bind_run, <- (set_heap_id w) at 1.
  rewrite (load_list_run papers []) by done. by rewrite set_heap_id.
Qed.

End Facts.
End RankerFacts.

(* ===================================================================== *)
(** * Float32 facts: rounding keeps the order                             *)
(* ===================================================================== *)

Module RoundingFacts.
Import FloatFacts SignFacts.

(** ** Digits *)

Lemma digits2_pos_bounds (p : positive) :
  2 ^ (Zpos (digits2_pos p) - 1) <= Zpos p < 2 ^ Zpos (digits2_pos p).
Proof.
  induction p as [p IH|p IH|]; simpl digits2_pos.
  - rewrite Pos2Z.inj_succ.
    replace (Z.succ (Zpos (digits2_pos p)) - 1) with (Zpos (digits2_pos p)) by lia.
    rewrite Z.pow_succ_r by lia.
    replace (2 ^ Zpos (digits2_pos p))
      with (2 * 2 ^ (Zpos (digits2_pos p) - 1)) in *.
    2:{ rewrite <- Z.pow_succ_r by lia. f_equal. lia. }
    lia.
  - rewrite Pos2Z.inj_succ.
    replace (Z.succ (Zpos (digits2_pos p)) - 1) with (Zpos (digits2_pos p)) by lia.
    rewrite Z.pow_succ_r by lia.
    replace (2 ^ Zpos (digits2_pos p))
      with (2 * 2 ^ (Zpos (digits2_pos p) - 1)) in *.
    2:{ rewrite <- Z.pow_succ_r by lia. f_equal. lia. }
    lia.
  - simpl. lia.
Qed.

(** The number of bits of a natural number. *)
Lemma Zdigits2_bounds (m : Z) :
  0 < m -> 2 ^ (Zdigits2 m - 1) <= m < 2 ^ Zdigits2 m.
Proof.
  destruct m as [|p|p]; [lia| |lia]. intros _. apply digits2_pos_bounds.
Qed.

Lemma Zdigits2_nonneg (m : Z) : 0 <= Zdigits2 m.
Proof. destruct m; simpl; lia. Qed.

Lemma Zdigits2_pos (m : Z) : 0 < m -> 0 < Zdigits2 m.
Proof. destruct m; simpl; lia. Qed.

Lemma pow2_lt_mono (a b : Z) : 0 <= a -> 2 ^ a < 2 ^ b -> a < b.
Proof.
  intros Ha Hlt. destruct (Z.lt_ge_cases a b) as [|Hge]; [done|].
  assert (2 ^ b <= 2 ^ a); [|lia].
  destruct (Z.lt_ge_cases b 0) as [Hb|Hb].
  - rewrite (Z.pow_neg_r 2 b) by done. apply Z.pow_nonneg. lia.
  - apply Z.pow_le_mono_r; lia.
Qed.

(** A number below [2 ^ k] has at most [k] bits, one from [2 ^ k] on has
    more. *)
Lemma Zdigits2_le (m k : Z) : 0 <= m -> 0 <= k -> m < 2 ^ k -> Zdigits2 m <= k.
Proof.
  intros Hm Hk Hlt. destruct (Z.eq_dec m 0) as [->|Hne]; [simpl; lia|].
  pose proof (Zdigits2_bounds m ltac:(lia)) as [Hlo _].
  pose proof (Zdigits2_pos m ltac:(lia)).
  assert (Zdigits2 m - 1 < k); [|lia].
  apply pow2_lt_mono; lia.
Qed.

Lemma Zdigits2_gt (m k : Z) : 0 <= k -> 2 ^ k <= m -> k < Zdigits2 m.
Proof.
  intros Hk Hle.
  assert (0 < m) as Hm. { pose proof (Z.pow_pos_nonneg 2 k). lia. }
  pose proof (Zdigits2_bounds m Hm) as [_ Hhi].
  apply pow2_lt_mono; lia.
Qed.

(** ** Shifting to the right *)

Lemma shr_1_spec (mrs : shr_record) (a b : Z) :
  0 <= shr_m mrs -> 0 < b ->
  locates (shr_m mrs) (loc_of_shr_record mrs) a b ->
  0 <= shr_m (shr_1 mrs)
  /\ shr_m (shr_1 mrs) = shr_m mrs / 2
  /\ locates (shr_m (shr_1 mrs)) (loc_of_shr_record (shr_1 mrs)) a (2 * b).
Proof.
  destruct mrs as [m r s]. simpl shr_m at 1 2. intros Hm Hb Hl.
  destruct m as [|p|p]; [| |lia].
  - destruct r, s; simpl in *; (split; [done|]); (split; [done|]); lia.
  - destruct p as [p|p|].
    + assert (Z.pos p~1 / 2 = Z.pos p) as Hd.
      { rewrite Pos2Z.inj_xI. symmetry.
        apply (Z.div_unique (2 * Z.pos p + 1) 2 (Z.pos p) 1); lia. }
      destruct r, s; simpl in *; rewrite Pos2Z.inj_xI in *;
        (split; [lia|]); (split; [lia|]); lia.
    + assert (Z.pos p~0 / 2 = Z.pos p) as Hd.
      { rewrite Pos2Z.inj_xO. symmetry.
        apply (Z.div_unique (2 * Z.pos p) 2 (Z.pos p) 0); lia. }
      destruct r, s; simpl in *; rewrite Pos2Z.inj_xO in *;
        (split; [lia|]); (split; [lia|]); lia.
    + destruct r, s; simpl in *; (split; [lia|]); (split; [done|]); lia.
Qed.

Lemma iter_shr_1_spec (p : positive) (mrs : shr_record) (a b : Z) :
  0 <= shr_m mrs -> 0 < b ->
  locates (shr_m mrs) (loc_of_shr_record mrs) a b ->
  0 <= shr_m (SpecFloat.iter_pos shr_1 p mrs)
  /\ shr_m (SpecFloat.iter_pos shr_1 p mrs) = shr_m mrs / 2 ^ Zpos p
  /\ locates (shr_m (SpecFloat.iter_pos shr_1 p mrs))
             (loc_of_shr_record (SpecFloat.iter_pos shr_1 p mrs))
             a (2 ^ Zpos p * b).
Proof.
  revert mrs b. induction p as [p IH|p IH|]; intros mrs b Hm Hb Hl; simpl.
  - destruct (shr_1_spec mrs a b Hm Hb Hl) as (H1 & E1 & L1).
    destruct (IH _ (2 * b) H1 ltac:(lia) L1) as (H2 & E2 & L2).
    assert (0 < 2 ^ Z.pos p) as Hp by (apply Z.pow_pos_nonneg; lia).
    destruct (IH _ (2 ^ Z.pos p * (2 * b)) H2 ltac:(lia) L2) as (H3 & E3 & L3).
    split; [done|].
    assert (2 ^ Z.pos p~1 = 2 * 2 ^ Z.pos p * 2 ^ Z.pos p) as Hpow.
    { assert (Z.pos p~1 = Z.pos p + Z.pos p + 1) as -> by lia.
      rewrite !Z.pow_add_r, Z.pow_1_r by lia. lia. }
    split.
    + rewrite E3, E2, E1, Hpow.
      rewrite !Z.div_div by lia. f_equal. lia.
    + rewrite Hpow.
      replace (2 * 2 ^ Z.pos p * 2 ^ Z.pos p * b)
        with (2 ^ Z.pos p * (2 ^ Z.pos p * (2 * b))) by lia.
      exact L3.
  - destruct (IH _ b Hm Hb Hl) as (H2 & E2 & L2).
    assert (0 < 2 ^ Z.pos p) as Hp by (apply Z.pow_pos_nonneg; lia).
    destruct (IH _ (2 ^ Z.pos p * b) H2 ltac:(lia) L2) as (H3 & E3 & L3).
    split; [done|].
    assert (2 ^ Z.pos p~0 = 2 ^ Z.pos p * 2 ^ Z.pos p) as Hpow.
    { assert (Z.pos p~0 = Z.pos p + Z.pos p) as -> by lia.
      by rewrite Z.pow_add_r by lia. }
    split.
    + rewrite E3, E2, Hpow. rewrite !Z.div_div by lia. done.
    + rewrite Hpow.
      replace (2 ^ Z.pos p * 2 ^ Z.pos p * b)
        with (2 ^ Z.pos p * (2 ^ Z.pos p * b)) by lia.
      exact L3.
  - destruct (shr_1_spec mrs a b Hm Hb Hl) as (H1 & E1 & L1).
    split; [done|]. split; [|exact L1]. by rewrite E1.
Qed.

Lemma loc_of_record_of_loc (m : Z) (l : location) :
  loc_of_shr_record (shr_record_of_loc m l) = l.
Proof. by destruct l as [|[]]. Qed.

(** Shifting by [n >= 0] places: the mantissa is divided by [2 ^ n], the
    exponent grows by [n], and the place of the number is kept. *)
Lemma shr_spec (m e n : Z) (l : location) (a b : Z) :
  0 <= m -> 0 < b -> 0 <= n -> locates m l a b ->
  let r := shr (shr_record_of_loc m l) e n in
  snd r = e + n
  /\ 0 <= shr_m (fst r)
  /\ shr_m (fst r) = m / 2 ^ n
  /\ locates (shr_m (fst r)) (loc_of_shr_record (fst r)) a (2 ^ n * b).
Proof.
  intros Hm Hb Hn Hl. unfold shr. destruct n as [|p|p]; [| |lia]; simpl.
  - rewrite shr_record_of_loc_m, loc_of_record_of_loc, Z.div_1_r.
    split; [lia|]. split; [done|]. split; [done|].
    replace (2 ^ 0 * b) with b by lia. exact Hl.
  - pose proof (iter_shr_1_spec p (shr_record_of_loc m l) a b) as Hi.
    rewrite shr_record_of_loc_m, loc_of_record_of_loc in Hi.
    destruct (Hi Hm Hb Hl) as (H1 & E1 & L1). done.
Qed.

(** ** Rounding to nearest, ties to even *)

Lemma locates_bounds (m : Z) (l : location) (a b : Z) :
  0 < b -> locates m l a b -> m * b <= a < (m + 1) * b.
Proof. intros Hb Hl. destruct l as [|[]]; simpl in Hl; nia. Qed.

Lemma round_nearest_even_range (m : Z) (l : location) :
  m <= round_nearest_even m l <= m + 1.
Proof. destruct l as [|[]]; simpl; try destruct (Z.even m); lia. Qed.

(** Of two rationals in order, the greater is rounded to the greater
    integer. *)
Lemma round_nearest_even_mono (m1 m2 : Z) (l1 l2 : location) (a1 b1 a2 b2 : Z) :
  0 < b1 -> 0 < b2 ->
  locates m1 l1 a1 b1 -> locates m2 l2 a2 b2 ->
  a1 * b2 <= a2 * b1 ->
  round_nearest_even m1 l1 <= round_nearest_even m2 l2.
Proof.
  intros Hb1 Hb2 H1 H2 Hle.
  pose proof (locates_bounds _ _ _ _ Hb1 H1) as B1.
  pose proof (locates_bounds _ _ _ _ Hb2 H2) as B2.
  assert (0 < b1 * b2) as Hbb by nia.
  assert (m1 <= m2) as Hm by nia.
  destruct (Z.eq_dec m1 m2) as [->|Hne].
  - destruct l1 as [|[]], l2 as [|[]]; simpl in *;
      try destruct (Z.even m2); try lia; nia.
  - pose proof (round_nearest_even_range m1 l1).
    pose proof (round_nearest_even_range m2 l2). lia.
Qed.

(** ** The exponent of the format *)

Lemma fexp32_eq (e : Z) : fexp32 e = Z.max (e - 24) (-149).
Proof. reflexivity. Qed.

Lemma fexp32_mono (e1 e2 : Z) : e1 <= e2 -> fexp32 e1 <= fexp32 e2.
Proof. rewrite !fexp32_eq. lia. Qed.

(** ** The result of a rounding *)

(** When the mantissa has the bits it takes ([e <= c]), the rounding
    shifts it to the exponent [c] of the format, rounds it there and
    packs the result. *)
Lemma binary_round_aux_pack (s : bool) (m e : Z) (l : location) (a b : Z) :
  0 <= m -> 0 < b -> locates m l a b ->
  e <= fexp32 (Zdigits2 m + e) ->
  exists m' l',
    locates m' l' a (2 ^ (fexp32 (Zdigits2 m + e) - e) * b)
    /\ m' = m / 2 ^ (fexp32 (Zdigits2 m + e) - e)
    /\ binary_round_aux F32.prec F32.emax s m e l
       = pack32 s (round_nearest_even m' l') (fexp32 (Zdigits2 m + e)).
Proof.
  intros Hm Hb Hl Hn.
  set (c := fexp32 (Zdigits2 m + e)) in *.
  unfold binary_round_aux, shr_fexp.
  change (fexp F32.prec F32.emax (Zdigits2 m + e)) with c.
  pose proof (shr_spec m e (c - e) l a b Hm Hb ltac:(lia) Hl) as Hs.
  destruct (shr (shr_record_of_loc m l) e (c - e)) as [mrs' e'] eqn:Es.
  simpl in Hs. destruct Hs as (-> & Hm' & Em' & Hl').
  replace (e + (c - e)) with c by lia.
  exists (shr_m mrs'), (loc_of_shr_record mrs').
  split; [exact Hl'|]. split; [exact Em'|].
  set (k := round_nearest_even (shr_m mrs') (loc_of_shr_record mrs')).
  pose proof (round_nearest_even_range (shr_m mrs') (loc_of_shr_record mrs'))
    as Hk. fold k in Hk.
  assert (-149 <= c) as Hc by (unfold c; rewrite fexp32_eq; lia).
  assert (shr_m mrs' < 2 ^ 24) as Hlt.
  { rewrite Em'. destruct (Z.eq_dec m 0) as [->|Hne].
    - rewrite Z.div_0_l; [lia|]. apply Z.pow_nonzero; lia.
    - pose proof (Zdigits2_bounds m ltac:(lia)) as [_ Hhi].
      assert (Zdigits2 m - 24 <= c - e) as Hd
        by (unfold c; rewrite fexp32_eq; lia).
      apply Z.div_lt_upper_bound; [apply Z.pow_pos_nonneg; lia|].
      rewrite <- Z.pow_add_r by lia.
      eapply Z.lt_le_trans; [exact Hhi|].
      apply Z.pow_le_mono_r; lia. }
  assert (0 <= k <= 2 ^ 24) as Hk' by lia.
  unfold pack32.
  destruct k as [|p|p] eqn:Ek; [| |lia].
  - assert (fexp F32.prec F32.emax (Zdigits2 0 + c) - c <= 0) as Hn0.
    { change (fexp F32.prec F32.emax (Zdigits2 0 + c)) with (fexp32 (0 + c)).
      rewrite fexp32_eq. lia. }
    unfold shr.
    destruct (fexp F32.prec F32.emax (Zdigits2 0 + c) - c)
      as [|q|q]; [| lia |]; simpl; reflexivity.
  - destruct (Z.eqb_spec (Z.pos p) (2 ^ 24)) as [E24|N24].
    + assert (fexp F32.prec F32.emax (Zdigits2 (Z.pos p) + c) - c = 1) as ->.
      { rewrite E24. change (Zdigits2 (2 ^ 24)) with 25.
        change (fexp F32.prec F32.emax (25 + c)) with (fexp32 (25 + c)).
        rewrite fexp32_eq. lia. }
      injection E24 as ->. simpl. reflexivity.
    + assert (fexp F32.prec F32.emax (Zdigits2 (Z.pos p) + c) - c <= 0) as Hn2.
      { change (fexp F32.prec F32.emax (Zdigits2 (Z.pos p) + c))
          with (fexp32 (Zdigits2 (Z.pos p) + c)).
        rewrite fexp32_eq.
        pose proof (Zdigits2_le (Z.pos p) 24 ltac:(lia) ltac:(lia) ltac:(lia)).
        lia. }
      unfold shr.
      destruct (fexp F32.prec F32.emax (Zdigits2 (Z.pos p) + c) - c)
        as [|q|q]; [| lia |]; simpl; reflexivity.
Qed.

(** The rounded mantissa has at most 24 bits, or is [2 ^ 24]; above the
    least exponent it has 24 bits at least. *)
Lemma rounded_range (m e : Z) (l : location) :
  0 <= m -> e <= fexp32 (Zdigits2 m + e) ->
  let c := fexp32 (Zdigits2 m + e) in
  let k := round_nearest_even (m / 2 ^ (c - e)) l in
  -149 <= c /\ 0 <= k <= 2 ^ 24 /\ (-149 < c -> 2 ^ 23 <= k).
Proof.
  intros Hm Hn c k.
  assert (-149 <= c) as Hc by (unfold c; rewrite fexp32_eq; lia).
  pose proof (round_nearest_even_range (m / 2 ^ (c - e)) l) as Hk. fold k in Hk.
  assert (0 < 2 ^ (c - e)) as Hp by (apply Z.pow_pos_nonneg; lia).
  assert (0 <= m / 2 ^ (c - e)) as H0 by (apply Z.div_pos; lia).
  split; [done|]. split.
  - split; [lia|].
    assert (m / 2 ^ (c - e) < 2 ^ 24); [|lia].
    destruct (Z.eq_dec m 0) as [->|Hne].
    + rewrite Z.div_0_l; lia.
    + pose proof (Zdigits2_bounds m ltac:(lia)) as [_ Hhi].
      assert (Zdigits2 m - 24 <= c - e) as Hd
        by (unfold c; rewrite fexp32_eq; lia).
      apply Z.div_lt_upper_bound; [done|].
      rewrite <- Z.pow_add_r by lia.
      eapply Z.lt_le_trans; [exact Hhi|].
      apply Z.pow_le_mono_r; lia.
  - intros Hc'.
    assert (c = Zdigits2 m + e - 24) as Ec
      by (unfold c in *; rewrite fexp32_eq in *; lia).
    assert (0 < m) as Hpos.
    { destruct (Z.eq_dec m 0) as [->|]; [|lia]. simpl in Ec. lia. }
    pose proof (Zdigits2_bounds m Hpos) as [Hlo _].
    assert (2 ^ 23 <= m / 2 ^ (c - e)); [|lia].
    apply Z.div_le_lower_bound; [done|].
    rewrite <- Z.pow_add_r by lia.
    replace (c - e + 23) with (Zdigits2 m - 1) by lia. exact Hlo.
Qed.

Ltac pack_cases :=
  repeat match goal with
  | |- context [Z.eqb ?a ?b] => destruct (Z.eqb_spec a b)
  | |- context [Z.leb ?a ?b] => destruct (Z.leb_spec a b)
  end.

Lemma pack32_valid (s : bool) (k c : Z) :
  -149 <= c -> 0 <= k <= 2 ^ 24 -> (-149 < c -> 2 ^ 23 <= k) ->
  valid32 (pack32 s k c) = true.
Proof.
  intros Hc Hk Hn. unfold pack32. destruct k as [|p|p]; [done| |lia].
  pack_cases; try done; unfold valid32, valid_binary, bounded, canonical_mantissa.
  - change (Z.pos (digits2_pos (2 ^ 23))) with 24.
    change (fexp F32.prec F32.emax (24 + (c + 1))) with (fexp32 (24 + (c + 1))).
    rewrite fexp32_eq. apply andb_true_iff. split; [|apply Z.leb_le].
    + apply Z.eqb_eq. lia.
    + change (F32.emax - F32.prec) with 104. lia.
  - change (fexp F32.prec F32.emax (Z.pos (digits2_pos p) + c))
      with (fexp32 (Zdigits2 (Z.pos p) + c)).
    rewrite fexp32_eq. apply andb_true_iff. split; [|apply Z.leb_le].
    + apply Z.eqb_eq.
      pose proof (Zdigits2_le (Z.pos p) 24 ltac:(lia) ltac:(lia) ltac:(lia)).
      destruct (Z.eq_dec c (-149)) as [->|Hne]; [lia|].
      pose proof (Zdigits2_gt (Z.pos p) 23 ltac:(lia) ltac:(lia)). lia.
    + change (F32.emax - F32.prec) with 104. lia.
Qed.

(** A float from a mantissa and an exponent, with the overflow. *)
Lemma pack32_pos (s : bool) (k c : Z) :
  0 < k <= 2 ^ 24 ->
  exists p c',
    pack32 s k c
    = (if c' <=? 104 then S754_finite s p c' else S754_infinity s)
    /\ ((k = 2 ^ 24 /\ Z.pos p = 2 ^ 23 /\ c' = c + 1)
        \/ (k < 2 ^ 24 /\ Z.pos p = k /\ c' = c)).
Proof.
  intros Hk. unfold pack32. destruct k as [|p|p]; [lia| |lia].
  destruct (Z.eqb_spec (Z.pos p) (2 ^ 24)) as [E|N].
  - exists (2 ^ 23)%positive, (c + 1). split; [done|]. left. by repeat split.
  - exists p, c. split; [done|]. right. repeat split; lia.
Qed.

Lemma finite_le (p1 p2 : positive) (c1 c2 : Z) :
  c1 < c2 \/ (c1 = c2 /\ Z.pos p1 <= Z.pos p2) ->
  SFleb (if c1 <=? 104 then S754_finite false p1 c1 else S754_infinity false)
        (if c2 <=? 104 then S754_finite false p2 c2 else S754_infinity false)
  = true
  /\ SFleb (if c2 <=? 104 then S754_finite true p2 c2 else S754_infinity true)
           (if c1 <=? 104 then S754_finite true p1 c1 else S754_infinity true)
     = true.
Proof.
  intros Hord.
  destruct (Z.leb_spec c1 104), (Z.leb_spec c2 104);
    unfold SFleb, SFcompare; try done; [|lia].
  change (Pos.compare_cont Eq) with Pos.compare.
  destruct (Z.compare_spec c1 c2), (Z.compare_spec c2 c1); try lia; try done.
  destruct (Pos.compare_spec p1 p2), (Pos.compare_spec p2 p1);
    try done; lia.
Qed.

(** Packing keeps the order: a smaller exponent, or a smaller mantissa
    at the same exponent, gives the smaller float, and the greater one
    with the sign turned. *)
Lemma pack32_le (k1 c1 k2 c2 : Z) :
  -149 <= c1 -> 0 <= k1 <= 2 ^ 24 -> (-149 < c1 -> 2 ^ 23 <= k1) ->
  -149 <= c2 -> 0 <= k2 <= 2 ^ 24 -> (-149 < c2 -> 2 ^ 23 <= k2) ->
  c1 < c2 \/ (c1 = c2 /\ k1 <= k2) ->
  SFleb (pack32 false k1 c1) (pack32 false k2 c2) = true
  /\ SFleb (pack32 true k2 c2) (pack32 true k1 c1) = true.
Proof.
  intros Hc1 Hk1 Hn1 Hc2 Hk2 Hn2 Hord.
  assert (2 ^ 23 < 2 ^ 24) as Hpow by done.
  assert (0 < 2 ^ 23) as Hpow' by done.
  destruct (Z.eq_dec k1 0) as [->|N1].
  { destruct (Z.eq_dec k2 0) as [->|N2]; [done|].
    destruct (pack32_pos false k2 c2 ltac:(lia)) as (p & c' & -> & _).
    destruct (pack32_pos true k2 c2 ltac:(lia)) as (p' & c'' & -> & _).
    simpl. by destruct (c' <=? 104), (c'' <=? 104). }
  assert (0 < k2) as P2 by lia.
  destruct (pack32_pos false k1 c1 ltac:(lia)) as (p1 & c1' & -> & H1).
  destruct (pack32_pos true k1 c1 ltac:(lia)) as (q1 & d1' & -> & G1).
  destruct (pack32_pos false k2 c2 ltac:(lia)) as (p2 & c2' & -> & H2).
  destruct (pack32_pos true k2 c2 ltac:(lia)) as (q2 & d2' & -> & G2).
  generalize dependent (2 ^ 23). generalize dependent (2 ^ 24).
  intros T24 Hk1 Hk2 T23 Hn1 Hn2 Hpow Hpow' H1 G1 H2 G2.
  assert (c1' < c2' \/ (c1' = c2' /\ Z.pos p1 <= Z.pos p2)) as Hc by lia.
  assert (d1' < d2' \/ (d1' = d2' /\ Z.pos q1 <= Z.pos q2)) as Hd by lia.
  split; [apply (finite_le p1 p2 c1' c2' Hc) | apply (finite_le q1 q2 d1' d2' Hd)].
Qed.

(** The exponent that the format gives grows with the number. *)
Lemma magnitude_mono (m1 e1 a1 b1 m2 e2 a2 b2 e0 : Z) (l1 l2 : location) :
  0 <= m1 -> 0 < b1 -> locates m1 l1 a1 b1 ->
  e1 <= fexp32 (Zdigits2 m1 + e1) ->
  0 <= m2 -> 0 < b2 -> locates m2 l2 a2 b2 ->
  e0 <= e1 -> e0 <= e2 ->
  a1 * b2 * 2 ^ (e1 - e0) <= a2 * b1 * 2 ^ (e2 - e0) ->
  fexp32 (Zdigits2 m1 + e1) <= fexp32 (Zdigits2 m2 + e2).
Proof.
  intros Hm1 Hb1 Hl1 Hn1 Hm2 Hb2 Hl2 He1 He2 Hle.
  destruct (Z.eq_dec m1 0) as [->|Hne].
  { simpl in *. rewrite !fexp32_eq in *. lia. }
  apply fexp32_mono.
  pose proof (Zdigits2_bounds m1 ltac:(lia)) as [Hlo _].
  pose proof (Zdigits2_pos m1 ltac:(lia)) as Hd1.
  pose proof (Zdigits2_nonneg m2) as Hd2.
  assert (m2 + 1 <= 2 ^ Zdigits2 m2) as Hhi.
  { destruct (Z.eq_dec m2 0) as [->|Hne2]; [simpl; lia|].
    pose proof (Zdigits2_bounds m2 ltac:(lia)). lia. }
  pose proof (locates_bounds _ _ _ _ Hb1 Hl1) as B1.
  pose proof (locates_bounds _ _ _ _ Hb2 Hl2) as B2.
  assert (0 < 2 ^ (e1 - e0)) as HP1 by (apply Z.pow_pos_nonneg; lia).
  assert (0 < 2 ^ (e2 - e0)) as HP2 by (apply Z.pow_pos_nonneg; lia).
  assert (2 ^ (Zdigits2 m1 - 1 + (e1 - e0)) < 2 ^ (Zdigits2 m2 + (e2 - e0)))
    as Hpow.
  { rewrite !Z.pow_add_r by lia.
    set (X := 2 ^ (Zdigits2 m1 - 1)) in *. set (Y := 2 ^ Zdigits2 m2) in *.
    set (P1 := 2 ^ (e1 - e0)) in *. set (P2 := 2 ^ (e2 - e0)) in *.
    assert (0 < b1 * b2) as Hbb by nia.
    assert (X * b1 <= a1) as S0 by nia.
    assert (0 < b2 * P1) as Q1 by nia.
    assert (X * b1 * (b2 * P1) <= a1 * (b2 * P1)) as S1
      by (apply Z.mul_le_mono_nonneg_r; lia).
    assert (a2 < Y * b2) as T0 by nia.
    assert (0 < b1 * P2) as Q2 by nia.
    assert (a2 * (b1 * P2) < Y * b2 * (b1 * P2)) as S2
      by (apply Z.mul_lt_mono_pos_r; lia).
    assert (X * P1 * (b1 * b2) < Y * P2 * (b1 * b2)) as S3 by lia.
    nia. }
  apply pow2_lt_mono in Hpow; lia.
Qed.

(** Rounding keeps the order: of two numbers, each given by a mantissa
    that has the bits it takes, an exponent and the place of the number
    above the mantissa, the greater is rounded to the greater float; with
    the sign turned, to the smaller. *)
Lemma binary_round_aux_mono (m1 e1 a1 b1 m2 e2 a2 b2 e0 : Z) (l1 l2 : location) :
  0 <= m1 -> 0 < b1 -> locates m1 l1 a1 b1 ->
  e1 <= fexp32 (Zdigits2 m1 + e1) ->
  0 <= m2 -> 0 < b2 -> locates m2 l2 a2 b2 ->
  e2 <= fexp32 (Zdigits2 m2 + e2) ->
  e0 <= e1 -> e0 <= e2 ->
  a1 * b2 * 2 ^ (e1 - e0) <= a2 * b1 * 2 ^ (e2 - e0) ->
  SFleb (binary_round_aux F32.prec F32.emax false m1 e1 l1)
        (binary_round_aux F32.prec F32.emax false m2 e2 l2) = true
  /\ SFleb (binary_round_aux F32.prec F32.emax true m2 e2 l2)
           (binary_round_aux F32.prec F32.emax true m1 e1 l1) = true.
Proof.
  intros Hm1 Hb1 Hl1 Hn1 Hm2 Hb2 Hl2 Hn2 He1 He2 Hle.
  pose proof (magnitude_mono _ _ _ _ _ _ _ _ _ _ _
                Hm1 Hb1 Hl1 Hn1 Hm2 Hb2 Hl2 He1 He2 Hle) as Hc.
  destruct (binary_round_aux_pack false m1 e1 l1 a1 b1 Hm1 Hb1 Hl1 Hn1)
    as (m1' & l1' & L1 & E1 & ->).
  destruct (binary_round_aux_pack true m1 e1 l1 a1 b1 Hm1 Hb1 Hl1 Hn1)
    as (m1'' & l1'' & L1' & E1' & ->).
  destruct (binary_round_aux_pack false m2 e2 l2 a2 b2 Hm2 Hb2 Hl2 Hn2)
    as (m2' & l2' & L2 & E2 & ->).
  destruct (binary_round_aux_pack true m2 e2 l2 a2 b2 Hm2 Hb2 Hl2 Hn2)
    as (m2'' & l2'' & L2' & E2' & ->).
  pose proof (rounded_range m1 e1 l1' Hm1 Hn1) as (C1 & K1 & N1).
  pose proof (rounded_range m1 e1 l1'' Hm1 Hn1) as (_ & K1' & N1').
  pose proof (rounded_range m2 e2 l2' Hm2 Hn2) as (C2 & K2 & N2).
  pose proof (rounded_range m2 e2 l2'' Hm2 Hn2) as (_ & K2' & N2').
  rewrite <- E1 in K1, N1. rewrite <- E1' in K1', N1'.
  rewrite <- E2 in K2, N2. rewrite <- E2' in K2', N2'.
  set (c1 := fexp32 (Zdigits2 m1 + e1)) in *.
  set (c2 := fexp32 (Zdigits2 m2 + e2)) in *.
  assert (c1 = c2 ->
          a1 * (2 ^ (c2 - e2) * b2) <= a2 * (2 ^ (c1 - e1) * b1)) as Hsame.
  { intros Ec. rewrite <- Ec.
    assert (0 < 2 ^ (c1 - e1)) as HN1 by (apply Z.pow_pos_nonneg; lia).
    assert (0 < 2 ^ (c1 - e2)) as HN2 by (apply Z.pow_pos_nonneg; lia).
    assert (0 < 2 ^ (e1 - e0)) as HP1 by (apply Z.pow_pos_nonneg; lia).
    assert (0 < 2 ^ (e2 - e0)) as HP2 by (apply Z.pow_pos_nonneg; lia).
    assert (2 ^ (e1 - e0) * 2 ^ (c1 - e1) = 2 ^ (e2 - e0) * 2 ^ (c1 - e2)) as EK.
    { rewrite <- !Z.pow_add_r by lia. f_equal. lia. }
    set (U1 := 2 ^ (c1 - e1)) in *. set (U2 := 2 ^ (c1 - e2)) in *.
    set (P1 := 2 ^ (e1 - e0)) in *. set (P2 := 2 ^ (e2 - e0)) in *.
    assert (P1 * U1 * (a1 * (U2 * b2)) <= P1 * U1 * (a2 * (U1 * b1))) as HK.
    { replace (P1 * U1 * (a1 * (U2 * b2)))
        with (a1 * b2 * P1 * (U1 * U2)) by lia.
      replace (P1 * U1 * (a2 * (U1 * b1)))
        with (a2 * b1 * (P1 * U1) * U1) by lia.
      rewrite EK.
      replace (a2 * b1 * (P2 * U2) * U1)
        with (a2 * b1 * P2 * (U1 * U2)) by lia.
      apply Z.mul_le_mono_nonneg_r; [nia | exact Hle]. }
    apply Z.mul_le_mono_pos_l in HK; [done | nia]. }
  assert (0 < 2 ^ (c1 - e1) * b1) as D1.
  { assert (0 < 2 ^ (c1 - e1)) by (apply Z.pow_pos_nonneg; lia). nia. }
  assert (0 < 2 ^ (c2 - e2) * b2) as D2.
  { assert (0 < 2 ^ (c2 - e2)) by (apply Z.pow_pos_nonneg; lia). nia. }
  split.
  - apply pack32_le; try done.
    destruct (Z.eq_dec c1 c2) as [Ec|Nc]; [right|left; lia].
    split; [done|].
    eapply round_nearest_even_mono; [exact D1 | exact D2 | exact L1 | exact L2 |].
    by apply Hsame.
  - apply pack32_le; try done.
    destruct (Z.eq_dec c1 c2) as [Ec|Nc]; [right|left; lia].
    split; [done|].
    eapply round_nearest_even_mono; [exact D1 | exact D2 | exact L1' | exact L2' |].
    by apply Hsame.
Qed.

End RoundingFacts.

Module OrderFacts.
Import FloatFacts SignFacts RoundingFacts.

(** ** The order of the floats of the format *)

Lemma valid32_finite (s : bool) (m : positive) (e : Z) :
  valid32 (S754_finite s m e) = true ->
  fexp32 (Zdigits2 (Z.pos m) + e) = e /\ e <= 104.
Proof.
  unfold valid32, valid_binary, bounded, canonical_mantissa.
  intros Hv. apply andb_true_iff in Hv as [Hc He].
  apply Z.eqb_eq in Hc. apply Z.leb_le in He. split; [exact Hc|].
  exact He.
Qed.

(** A valid mantissa has 24 bits at most, and 24 above the least
    exponent. *)
Lemma valid32_mantissa (s : bool) (m : positive) (e : Z) :
  valid32 (S754_finite s m e) = true ->
  -149 <= e /\ Z.pos m < 2 ^ 24 /\ (-149 < e -> 2 ^ 23 <= Z.pos m).
Proof.
  intros Hv. apply valid32_finite in Hv as [Hc _].
  rewrite fexp32_eq in Hc.
  pose proof (Zdigits2_bounds (Z.pos m) ltac:(lia)) as [Hlo Hhi].
  split; [lia|]. split.
  - eapply Z.lt_le_trans; [exact Hhi|]. apply Z.pow_le_mono_r; lia.
  - intros He. replace (Zdigits2 (Z.pos m)) with 24 in Hlo by lia. exact Hlo.
Qed.

(** Exponents first, then mantissas: the order of the numbers. *)
Lemma finite_le_value (m1 m2 : positive) (e1 e2 e0 : Z) :
  valid32 (S754_finite false m1 e1) = true ->
  valid32 (S754_finite false m2 e2) = true ->
  SFleb (S754_finite false m1 e1) (S754_finite false m2 e2) = true ->
  e0 <= e1 -> e0 <= e2 ->
  Z.pos m1 * 2 ^ (e1 - e0) <= Z.pos m2 * 2 ^ (e2 - e0).
Proof.
  intros V1 V2 Hle H1 H2.
  apply valid32_mantissa in V1 as (L1 & U1 & N1).
  apply valid32_mantissa in V2 as (L2 & U2 & N2).
  unfold SFleb, SFcompare in Hle.
  change (Pos.compare_cont Eq) with Pos.compare in Hle.
  destruct (Z.compare_spec e1 e2) as [->|Hlt|Hgt]; [| |done].
  - destruct (Pos.compare_spec m1 m2) as [->|Hm|Hm]; [lia| |done].
    apply Z.mul_le_mono_nonneg_r; [apply Z.pow_nonneg|]; lia.
  - assert (2 ^ (e2 - e0) = 2 ^ (e2 - e1) * 2 ^ (e1 - e0)) as ->.
    { rewrite <- Z.pow_add_r by lia. f_equal. lia. }
    assert (2 <= 2 ^ (e2 - e1)) as Hp.
    { change 2 with (2 ^ 1) at 1. apply Z.pow_le_mono_r; lia. }
    assert (0 < 2 ^ (e1 - e0)) as Hq by (apply Z.pow_pos_nonneg; lia).
    specialize (N2 ltac:(lia)).
    change (2 ^ 24) with (2 * 2 ^ 23) in U1.
    assert (Z.pos m1 <= Z.pos m2 * 2 ^ (e2 - e1)) as Hm by nia.
    rewrite Z.mul_assoc. apply Z.mul_le_mono_nonneg_r; lia.
Qed.

(** With the minus sign the order turns. *)
Lemma finite_le_neg (m1 m2 : positive) (e1 e2 : Z) :
  SFleb (S754_finite true m1 e1) (S754_finite true m2 e2)
  = SFleb (S754_finite false m2 e2) (S754_finite false m1 e1).
Proof.
  unfold SFleb, SFcompare. change (Pos.compare_cont Eq) with Pos.compare.
  rewrite (Z.compare_antisym e1 e2), (Pos.compare_antisym m1 m2).
  by destruct (e1 ?= e2).
Qed.

(** ** Signs and the order *)

Lemma sign_le (a b : spec_float) :
  has_sign true a -> has_sign false b -> SFleb a b = true.
Proof. destruct a as [[]|[]| |[] ? ?], b as [[]|[]| |[] ? ?]; done. Qed.

Lemma zero_le (s : bool) (b : spec_float) :
  has_sign false b -> SFleb (S754_zero s) b = true.
Proof. destruct b as [[]|[]| |[] ? ?]; done. Qed.

Lemma le_zero (s : bool) (a : spec_float) :
  has_sign true a -> SFleb a (S754_zero s) = true.
Proof. destruct a as [[]|[]| |[] ? ?]; done. Qed.

Lemma le_infinity (s : bool) (a : spec_float) :
  has_sign s a -> SFleb a (S754_infinity false) = true.
Proof. destruct a as [[]|[]| |[] ? ?]; done. Qed.

Lemma infinity_le (s : bool) (b : spec_float) :
  has_sign s b -> SFleb (S754_infinity true) b = true.
Proof. destruct b as [[]|[]| |[] ? ?]; done. Qed.

(** An operation that keeps zeros, infinities and signs keeps the order
    of all floats as soon as it keeps the order of the finite ones of
    each sign. *)
Lemma mono_lift (op : spec_float -> spec_float) :
  (forall s, op (S754_zero s) = S754_zero s) ->
  (forall s, op (S754_infinity s) = S754_infinity s) ->
  (forall s m e, has_sign s (op (S754_finite s m e))) ->
  (forall m1 e1 m2 e2,
     valid32 (S754_finite false m1 e1) = true ->
     valid32 (S754_finite false m2 e2) = true ->
     SFleb (S754_finite false m1 e1) (S754_finite false m2 e2) = true ->
     SFleb (op (S754_finite false m1 e1)) (op (S754_finite false m2 e2)) = true
     /\ SFleb (op (S754_finite true m2 e2)) (op (S754_finite true m1 e1)) = true) ->
  forall x y,
    valid32 x = true -> valid32 y = true ->
    SFleb x y = true -> SFleb (op x) (op y) = true.
Proof.
  intros Hz Hi Hs Hf x y Vx Vy Hle.
  destruct x as [sx|sx| |sx mx ex], y as [sy|sy| |sy my ey];
    rewrite ?Hz, ?Hi; try done.
  - destruct sy; [done|]. by apply zero_le, Hs.
  - destruct sx; [|done]. by apply (infinity_le sy), Hs.
  - destruct sx; [|done]. by apply le_zero, Hs.
  - destruct sy; [by destruct sx|]. by apply (le_infinity sx), Hs.
  - destruct sx, sy.
    + rewrite finite_le_neg in Hle.
      by destruct (Hf my ey mx ex Vy Vx Hle) as [_ H2].
    + by apply sign_le; apply Hs.
    + done.
    + by destruct (Hf mx ex my ey Vx Vy Hle) as [H1 _].
Qed.

End OrderFacts.

Module HundredFacts.
Import FloatFacts SignFacts RoundingFacts OrderFacts.

Lemma locates_exists (m : Z) (l : location) :
  exists a b, 0 < b /\ locates m l a b.
Proof.
  destruct l as [|[]].
  - exists m, 1. simpl. lia.
  - exists (2 * m + 1), 2. simpl. lia.
  - exists (4 * m + 1), 4. simpl. lia.
  - exists (4 * m + 3), 4. simpl. lia.
Qed.

(** A rounding from a mantissa that has the bits it takes gives a float
    of the format. *)
Lemma binary_round_aux_valid (s : bool) (m e : Z) (l : location) :
  0 <= m -> e <= fexp32 (Zdigits2 m + e) ->
  valid32 (binary_round_aux F32.prec F32.emax s m e l) = true.
Proof.
  intros Hm Hn. destruct (locates_exists m l) as (a & b & Hb & Hl).
  destruct (binary_round_aux_pack s m e l a b Hm Hb Hl Hn)
    as (m' & l' & _ & E & ->).
  pose proof (rounded_range m e l' Hm Hn) as (C & K & N). rewrite <- E in K, N.
  by apply pack32_valid.
Qed.

(** ** Multiplying by 100 *)

Lemma mul_hundred_finite (s : bool) (m : positive) (e : Z) :
  F32.mul (S754_finite s m e) hundred
  = binary_round_aux F32.prec F32.emax s (Z.pos (m * 13107200)) (e + -17)
                     loc_Exact.
Proof. unfold F32.mul, SFmul, hundred. by destruct s. Qed.

Lemma mul_hundred_enough (m : positive) (e : Z) :
  e + -17 <= fexp32 (Zdigits2 (Z.pos (m * 13107200)) + (e + -17)).
Proof.
  assert (23 < Zdigits2 (Z.pos (m * 13107200))) as Hd.
  { apply Zdigits2_gt; [lia|]. rewrite Pos2Z.inj_mul.
    change (2 ^ 23) with 8388608. lia. }
  rewrite fexp32_eq. lia.
Qed.

Lemma mul_hundred_valid (x : spec_float) :
  valid32 (F32.mul x hundred) = true.
Proof.
  destruct x as [s|s| |s m e]; try done.
  rewrite mul_hundred_finite.
  apply binary_round_aux_valid; [lia | apply mul_hundred_enough].
Qed.

Lemma mul_hundred_mono (x y : spec_float) :
  valid32 x = true -> valid32 y = true -> SFleb x y = true ->
  SFleb (F32.mul x hundred) (F32.mul y hundred) = true.
Proof.
  apply (mono_lift (fun x => F32.mul x hundred)).
  - by intros [].
  - by intros [].
  - intros s m e. by apply mul_hundred_sign.
  - intros m1 e1 m2 e2 V1 V2 Hle. rewrite !mul_hundred_finite.
    pose proof (finite_le_value m1 m2 e1 e2 (Z.min e1 e2) V1 V2 Hle
                  ltac:(lia) ltac:(lia)) as Hv.
    apply (binary_round_aux_mono
             (Z.pos (m1 * 13107200)) (e1 + -17) (Z.pos (m1 * 13107200)) 1
             (Z.pos (m2 * 13107200)) (e2 + -17) (Z.pos (m2 * 13107200)) 1
             (Z.min e1 e2 + -17));
      try lia; try (simpl; lia); try apply mul_hundred_enough.
    replace (e1 + -17 - (Z.min e1 e2 + -17)) with (e1 - Z.min e1 e2) by lia.
    replace (e2 + -17 - (Z.min e1 e2 + -17)) with (e2 - Z.min e1 e2) by lia.
    rewrite !Pos2Z.inj_mul. nia.
Qed.

(** ** Dividing *)

Lemma new_location_locates (q r b : Z) :
  0 < b -> 0 <= r < b -> locates q (new_location b r) (q * b + r) b.
Proof.
  intros Hb Hr. unfold new_location. destruct (Z.even b) eqn:Ev.
  - unfold new_location_even. destruct (Z.eqb_spec r 0) as [->|Hne]; simpl.
    + lia.
    + destruct (Z.compare_spec (2 * r) b); simpl; lia.
  - unfold new_location_odd. destruct (Z.eqb_spec r 0) as [->|Hne]; simpl.
    + lia.
    + assert (Z.odd b = true) as Ho by (by rewrite <- Z.negb_even, Ev).
      apply Z.odd_spec in Ho as [k Hk].
      destruct (Z.compare_spec (2 * r + 1) b); simpl; lia.
Qed.

(** The quotient that the division hands to the rounding: it is not
    negative, has the bits it takes, and comes with the place of the
    exact quotient above it. *)
Lemma div_core_spec (m1 m2 : positive) (e1 e2 : Z) :
  exists q e' l,
    SFdiv_core_binary F32.prec F32.emax (Z.pos m1) e1 (Z.pos m2) e2 = (q, e', l)
    /\ 0 <= q
    /\ e' <= e1 - e2
    /\ e' <= fexp32 (Zdigits2 q + e')
    /\ locates q l (Z.pos m1 * 2 ^ (e1 - e2 - e')) (Z.pos m2).
Proof.
  unfold SFdiv_core_binary.
  set (d1 := Zdigits2 (Z.pos m1)). set (d2 := Zdigits2 (Z.pos m2)).
  change (fexp F32.prec F32.emax (d1 + e1 - (d2 + e2)))
    with (fexp32 (d1 + e1 - (d2 + e2))).
  set (e' := Z.min (fexp32 (d1 + e1 - (d2 + e2))) (e1 - e2)).
  set (s := e1 - e2 - e').
  assert (0 <= s) as Hs by (unfold s, e'; lia).
  assert (match s with
          | 0 => Z.pos m1
          | Z.pos _ => Z.shiftl (Z.pos m1) s
          | Z.neg _ => 0
          end = Z.pos m1 * 2 ^ s) as ->.
  { destruct s as [|p|p] eqn:Es; [simpl; lia| |lia].
    by rewrite Z.shiftl_mul_pow2. }
  assert (0 < 2 ^ s) as Hp by (apply Z.pow_pos_nonneg; lia).
  pose proof (Z_div_mod (Z.pos m1 * 2 ^ s) (Z.pos m2) ltac:(lia)) as Hd.
  destruct (Z.div_eucl (Z.pos m1 * 2 ^ s) (Z.pos m2)) as [q r].
  destruct Hd as [Eq Hr].
  assert (0 <= q) as Hq by nia.
  exists q, e', (new_location (Z.pos m2) r).
  split; [done|]. split; [done|]. split; [unfold e'; lia|]. split.
  - assert (d1 + s <= Zdigits2 q + d2) as Hdig.
    { pose proof (Zdigits2_bounds (Z.pos m1) ltac:(lia)) as [L1 _].
      pose proof (Zdigits2_bounds (Z.pos m2) ltac:(lia)) as [_ U2].
      pose proof (Zdigits2_pos (Z.pos m1) ltac:(lia)) as P1. fold d1 in L1, P1.
      fold d2 in U2.
      pose proof (Zdigits2_nonneg q) as Nq.
      assert (q + 1 <= 2 ^ Zdigits2 q) as Uq.
      { destruct (Z.eq_dec q 0) as [->|Hne]; [simpl; lia|].
        pose proof (Zdigits2_bounds q ltac:(lia)). lia. }
      pose proof (Zdigits2_nonneg (Z.pos m2)) as N2. fold d2 in N2.
      assert (2 ^ (d1 - 1 + s) < 2 ^ (Zdigits2 q + d2)) as Hlt.
      { rewrite !Z.pow_add_r by lia.
        set (X := 2 ^ (d1 - 1)) in *. set (Y := 2 ^ Zdigits2 q) in *.
        set (Z2 := 2 ^ d2) in *. set (S := 2 ^ s) in *.
        assert (X * S <= Z.pos m1 * S) by nia.
        assert (Z.pos m1 * S < (q + 1) * Z.pos m2) by nia.
        assert ((q + 1) * Z.pos m2 < Y * Z2) by nia.
        lia. }
      apply pow2_lt_mono in Hlt; lia. }
    eapply Z.le_trans; [|apply fexp32_mono with (e1 := d1 + e1 - (d2 + e2))].
    + unfold e'. lia.
    + unfold s in Hdig. lia.
  - change (e1 - e2 - e') with s. rewrite Eq.
    replace (Z.pos m2 * q + r) with (q * Z.pos m2 + r) by lia.
    apply new_location_locates; lia.
Qed.

Lemma div_finite (s1 s2 : bool) (m1 m2 : positive) (e1 e2 : Z) :
  F32.div (S754_finite s1 m1 e1) (S754_finite s2 m2 e2)
  = let '(q, e', l) :=
      SFdiv_core_binary F32.prec F32.emax (Z.pos m1) e1 (Z.pos m2) e2 in
    binary_round_aux F32.prec F32.emax (xorb s1 s2) q e' l.
Proof. reflexivity. Qed.

(** Every quotient is a float of the format. *)
Lemma div_valid (x y : spec_float) : valid32 (F32.div x y) = true.
Proof.
  destruct x as [s1|s1| |s1 m1 e1], y as [s2|s2| |s2 m2 e2]; try done.
  rewrite div_finite.
  destruct (div_core_spec m1 m2 e1 e2) as (q & e' & l & -> & Hq & _ & Hn & _).
  by apply binary_round_aux_valid.
Qed.

(** ** Dividing by 100 *)

Lemma div_hundred_mono (x y : spec_float) :
  valid32 x = true -> valid32 y = true -> SFleb x y = true ->
  SFleb (F32.div x hundred) (F32.div y hundred) = true.
Proof.
  apply (mono_lift (fun x => F32.div x hundred)).
  - by intros [].
  - by intros [].
  - intros s m e. by apply div_hundred_sign.
  - intros m1 e1 m2 e2 V1 V2 Hle. unfold hundred. rewrite !div_finite.
    destruct (div_core_spec m1 13107200 e1 (-17))
      as (q1 & e1' & l1 & -> & Hq1 & He1 & Hn1 & L1).
    destruct (div_core_spec m2 13107200 e2 (-17))
      as (q2 & e2' & l2 & -> & Hq2 & He2 & Hn2 & L2).
    simpl xorb.
    pose proof (finite_le_value m1 m2 e1 e2 (Z.min e1 e2) V1 V2 Hle
                  ltac:(lia) ltac:(lia)) as Hv.
    apply (binary_round_aux_mono
             q1 e1' (Z.pos m1 * 2 ^ (e1 - -17 - e1')) 13107200
             q2 e2' (Z.pos m2 * 2 ^ (e2 - -17 - e2')) 13107200
             (Z.min e1' e2') l1 l2
             Hq1 ltac:(lia) L1 Hn1 Hq2 ltac:(lia) L2 Hn2 ltac:(lia) ltac:(lia)).
    set (e0 := Z.min e1 e2) in *. set (e0' := Z.min e1' e2') in *.
    assert (0 < 2 ^ (e1 - e0)) as P1 by (apply Z.pow_pos_nonneg; lia).
    assert (0 < 2 ^ (e2 - e0)) as P2 by (apply Z.pow_pos_nonneg; lia).
    assert (2 ^ (e1 - -17 - e1') * 2 ^ (e1' - e0')
            = 2 ^ (e1 - e0) * 2 ^ (e0 + 17 - e0')) as E1.
    { rewrite <- !Z.pow_add_r by lia. f_equal. lia. }
    assert (2 ^ (e2 - -17 - e2') * 2 ^ (e2' - e0')
            = 2 ^ (e2 - e0) * 2 ^ (e0 + 17 - e0')) as E2.
    { rewrite <- !Z.pow_add_r by lia. f_equal. lia. }
    assert (0 < 2 ^ (e0 + 17 - e0')) as P0 by (apply Z.pow_pos_nonneg; lia).
    replace (Z.pos m1 * 2 ^ (e1 - -17 - e1') * 13107200 * 2 ^ (e1' - e0'))
      with (Z.pos m1 * 13107200 * (2 ^ (e1 - -17 - e1') * 2 ^ (e1' - e0')))
      by lia.
    replace (Z.pos m2 * 2 ^ (e2 - -17 - e2') * 13107200 * 2 ^ (e2' - e0'))
      with (Z.pos m2 * 13107200 * (2 ^ (e2 - -17 - e2') * 2 ^ (e2' - e0')))
      by lia.
    rewrite E1, E2. nia.
Qed.

End HundredFacts.

Module RintFacts.
Import FloatFacts SignFacts RoundingFacts OrderFacts HundredFacts.

(** ** Rounding to an integer *)

Lemma pos_iter_xO (p d : positive) :
  Z.pos (Pos.iter xO p d) = Z.pos p * 2 ^ Z.pos d.
Proof.
  induction d as [|d IH] using Pos.peano_ind.
  - simpl. rewrite Pos2Z.inj_xO. lia.
  - rewrite Pos.iter_succ, Pos2Z.inj_xO, IH, Pos2Z.inj_succ, Z.pow_succ_r; lia.
Qed.

(** Rounding a float of the format gives it back. *)
Lemma binary_round_aux_id (s : bool) (m : positive) (e : Z) :
  valid32 (S754_finite s m e) = true ->
  binary_round_aux F32.prec F32.emax s (Z.pos m) e loc_Exact
  = S754_finite s m e.
Proof.
  intros Hv. apply valid32_finite in Hv as [Hc He].
  unfold binary_round_aux, shr_fexp.
  change (fexp F32.prec F32.emax (Zdigits2 (Z.pos m) + e))
    with (fexp32 (Zdigits2 (Z.pos m) + e)).
  rewrite Hc, Z.sub_diag. simpl.
  change (fexp F32.prec F32.emax (Z.pos (digits2_pos m) + e))
    with (fexp32 (Zdigits2 (Z.pos m) + e)).
  rewrite Hc, Z.sub_diag. simpl.
  change (F32.emax - F32.prec) with 104.
  by destruct (Z.leb_spec e 104); [|lia].
Qed.

(** The float of a positive integer: a rounding of a mantissa that has
    the bits it takes, at an exponent that is not positive. *)
Lemma binary_round_int (s : bool) (p : positive) :
  exists mz ez,
    binary_round F32.prec F32.emax s p 0
    = binary_round_aux F32.prec F32.emax s (Z.pos mz) ez loc_Exact
    /\ ez <= 0
    /\ Z.pos mz = Z.pos p * 2 ^ (- ez)
    /\ ez <= fexp32 (Zdigits2 (Z.pos mz) + ez).
Proof.
  unfold binary_round.
  change (fexp F32.prec F32.emax (Z.pos (digits2_pos p) + 0))
    with (fexp32 (Zdigits2 (Z.pos p) + 0)).
  set (c := fexp32 (Zdigits2 (Z.pos p) + 0)).
  pose proof (Zdigits2_pos (Z.pos p) ltac:(lia)) as Hd.
  pose proof (Zdigits2_bounds (Z.pos p) ltac:(lia)) as [Hlo _].
  assert (c = Z.max (Zdigits2 (Z.pos p) - 24) (-149)) as Ec.
  { unfold c. rewrite fexp32_eq. lia. }
  unfold shl_align. destruct (c - 0) as [|d|d] eqn:Ed.
  - exists p, 0. split; [done|]. split; [lia|]. split; [simpl; lia|].
    fold c. lia.
  - exists p, 0. split; [done|]. split; [lia|]. split; [simpl; lia|].
    fold c. lia.
  - exists (Pos.iter xO p d), c. split; [done|]. split; [lia|].
    assert (- c = Z.pos d) as Ecd by lia.
    split; [by rewrite pos_iter_xO, Ecd|].
    assert (23 < Zdigits2 (Z.pos (Pos.iter xO p d))) as Hdig.
    { apply Zdigits2_gt; [lia|]. rewrite pos_iter_xO, <- Ecd.
      assert (c = Zdigits2 (Z.pos p) - 24) as Ec' by lia.
      replace 23 with (Zdigits2 (Z.pos p) - 1 + - c) by lia.
      rewrite Z.pow_add_r by lia.
      apply Z.mul_le_mono_nonneg_r; [apply Z.pow_nonneg; lia | exact Hlo]. }
    rewrite fexp32_eq. lia.
Qed.

(** What [rint] does to a finite float with a fractional part. *)
Lemma rint_finite (s : bool) (m : positive) (e : Z) :
  e < 0 ->
  exists m' l',
    locates m' l' (Z.pos m) (2 ^ (- e))
    /\ 0 <= m'
    /\ F32.rint (S754_finite s m e)
       = match round_nearest_even m' l' with
         | Z0 => S754_zero s
         | Z.pos k => binary_round F32.prec F32.emax s k 0
         | Z.neg k => binary_round F32.prec F32.emax (negb s) k 0
         end.
Proof.
  intros He. unfold F32.rint.
  destruct (Z.leb_spec 0 e) as [|_]; [lia|].
  pose proof (shr_spec (Z.pos m) e (- e) loc_Exact (Z.pos m) 1
                ltac:(lia) ltac:(lia) ltac:(lia) ltac:(simpl; lia)) as Hs.
  simpl shr_record_of_loc in Hs. cbv zeta in Hs.
  destruct Hs as (_ & Hm' & _ & Hl).
  set (mrs := fst (shr {| shr_m := Z.pos m; shr_r := false; shr_s := false |}
                       e (- e))) in *.
  exists (shr_m mrs), (loc_of_shr_record mrs).
  rewrite Z.mul_1_r in Hl. split; [exact Hl|]. split; [exact Hm'|].
  destruct (round_nearest_even (shr_m mrs) (loc_of_shr_record mrs)) as [|k|k];
    [done| |]; unfold binary_normalize; by destruct s.
Qed.

Lemma rint_id (s : bool) (m : positive) (e : Z) :
  0 <= e -> F32.rint (S754_finite s m e) = S754_finite s m e.
Proof. intros He. unfold F32.rint. by destruct (Z.leb_spec 0 e); [|lia]. Qed.

(** The floats of two integers in order are in order. *)
Lemma int_float_mono (k1 k2 : positive) :
  Z.pos k1 <= Z.pos k2 ->
  SFleb (binary_round F32.prec F32.emax false k1 0)
        (binary_round F32.prec F32.emax false k2 0) = true
  /\ SFleb (binary_round F32.prec F32.emax true k2 0)
           (binary_round F32.prec F32.emax true k1 0) = true.
Proof.
  intros Hk.
  destruct (binary_round_int false k1) as (mz1 & ez1 & -> & Z1 & V1 & N1).
  destruct (binary_round_int false k2) as (mz2 & ez2 & -> & Z2 & V2 & N2).
  destruct (binary_round_int true k1) as (mz1' & ez1' & -> & Z1' & V1' & N1').
  destruct (binary_round_int true k2) as (mz2' & ez2' & -> & Z2' & V2' & N2').
  assert (forall mz1 ez1 mz2 ez2,
            ez1 <= 0 -> Z.pos mz1 = Z.pos k1 * 2 ^ (- ez1) ->
            ez2 <= 0 -> Z.pos mz2 = Z.pos k2 * 2 ^ (- ez2) ->
            Z.pos mz1 * 1 * 2 ^ (ez1 - Z.min ez1 ez2)
            <= Z.pos mz2 * 1 * 2 ^ (ez2 - Z.min ez1 ez2)) as Hval.
  { clear -Hk. intros mz1 ez1 mz2 ez2 Z1 V1 Z2 V2. rewrite V1, V2, !Z.mul_1_r.
    rewrite <- !Z.mul_assoc, <- !Z.pow_add_r by lia.
    replace (- ez1 + (ez1 - Z.min ez1 ez2)) with (- Z.min ez1 ez2) by lia.
    replace (- ez2 + (ez2 - Z.min ez1 ez2)) with (- Z.min ez1 ez2) by lia.
    apply Z.mul_le_mono_nonneg_r; [apply Z.pow_nonneg; lia | exact Hk]. }
  split.
  - apply (binary_round_aux_mono (Z.pos mz1) ez1 (Z.pos mz1) 1
             (Z.pos mz2) ez2 (Z.pos mz2) 1 (Z.min ez1 ez2));
      try lia; try (simpl; lia); try done. by apply Hval.
  - apply (binary_round_aux_mono (Z.pos mz1') ez1' (Z.pos mz1') 1
             (Z.pos mz2') ez2' (Z.pos mz2') 1 (Z.min ez1' ez2'));
      try lia; try (simpl; lia); try done. by apply Hval.
Qed.

(** The float of an integer that is at most an integral float is at
    most that float. *)
Lemma int_float_le (k m : positive) (e : Z) :
  valid32 (S754_finite false m e) = true -> 0 <= e ->
  Z.pos k <= Z.pos m * 2 ^ e ->
  SFleb (binary_round F32.prec F32.emax false k 0) (S754_finite false m e) = true
  /\ SFleb (S754_finite true m e) (binary_round F32.prec F32.emax true k 0)
     = true.
Proof.
  intros Hv He Hk.
  assert (valid32 (S754_finite true m e) = true) as Hv' by exact Hv.
  rewrite <- (binary_round_aux_id false m e Hv).
  rewrite <- (binary_round_aux_id true m e Hv').
  pose proof (valid32_finite false m e Hv) as [Hc _].
  destruct (binary_round_int false k) as (mz1 & ez1 & -> & Z1 & V1 & N1).
  destruct (binary_round_int true k) as (mz1' & ez1' & -> & Z1' & V1' & N1').
  assert (forall mz1 ez1,
            ez1 <= 0 -> Z.pos mz1 = Z.pos k * 2 ^ (- ez1) ->
            Z.pos mz1 * 1 * 2 ^ (ez1 - ez1) <= Z.pos m * 1 * 2 ^ (e - ez1))
    as Hval.
  { intros mz ez Hz Hm. rewrite Hm, Z.sub_diag, !Z.mul_1_r.
    replace (e - ez) with (e + - ez) by lia. rewrite Z.pow_add_r by lia.
    rewrite Z.mul_assoc.
    apply Z.mul_le_mono_nonneg_r; [apply Z.pow_nonneg; lia | exact Hk]. }
  split.
  - apply (binary_round_aux_mono (Z.pos mz1) ez1 (Z.pos mz1) 1
             (Z.pos m) e (Z.pos m) 1 ez1);
      try lia; try (simpl; lia); try done. by apply Hval.
  - apply (binary_round_aux_mono (Z.pos mz1') ez1' (Z.pos mz1') 1
             (Z.pos m) e (Z.pos m) 1 ez1');
      try lia; try (simpl; lia); try done. by apply Hval.
Qed.

Lemma rint_valid (x : spec_float) :
  valid32 x = true -> valid32 (F32.rint x) = true.
Proof.
  destruct x as [s|s| |s m e]; try done. intros Hv.
  destruct (Z.leb_spec 0 e) as [He|He]; [by rewrite rint_id|].
  destruct (rint_finite s m e He) as (m' & l' & _ & Hm' & ->).
  pose proof (round_nearest_even_range m' l') as Hk.
  destruct (round_nearest_even m' l') as [|k|k]; [done| |lia].
  destruct (binary_round_int s k) as (mz & ez & -> & _ & _ & Hn).
  apply binary_round_aux_valid; [lia | exact Hn].
Qed.

Lemma rint_mono (x y : spec_float) :
  valid32 x = true -> valid32 y = true -> SFleb x y = true ->
  SFleb (F32.rint x) (F32.rint y) = true.
Proof.
  apply (mono_lift F32.rint).
  - done.
  - done.
  - intros s m e. by apply rint_sign.
  - intros m1 e1 m2 e2 V1 V2 Hle.
    pose proof (finite_le_value m1 m2 e1 e2 (Z.min e1 e2) V1 V2 Hle
                  ltac:(lia) ltac:(lia)) as Hv.
    destruct (Z.leb_spec 0 e1) as [He1|He1], (Z.leb_spec 0 e2) as [He2|He2].
    + rewrite !rint_id by done. split; [exact Hle|].
      by rewrite finite_le_neg.
    + exfalso. unfold SFleb, SFcompare in Hle.
      destruct (Z.compare_spec e1 e2); try lia; done.
    + rewrite !(rint_id _ m2 e2) by done.
      destruct (rint_finite false m1 e1 He1) as (m1' & l1 & L1 & P1 & ->).
      destruct (rint_finite true m1 e1 He1) as (m1'' & l1' & L1' & P1' & ->).
      assert (forall m' l', locates m' l' (Z.pos m1) (2 ^ (- e1)) ->
                round_nearest_even m' l' <= Z.pos m2 * 2 ^ e2) as Hr.
      { intros m' l' L.
        change (Z.pos m2 * 2 ^ e2)
          with (round_nearest_even (Z.pos m2 * 2 ^ e2) loc_Exact).
        assert (0 < 2 ^ (- e1)) by (apply Z.pow_pos_nonneg; lia).
        apply (round_nearest_even_mono m' _ l' loc_Exact (Z.pos m1) (2 ^ (- e1))
                 (Z.pos m2 * 2 ^ e2) 1); [done | lia | exact L | simpl; lia |].
        replace (Z.min e1 e2) with e1 in Hv by lia.
        rewrite Z.sub_diag in Hv. simpl in Hv.
        replace (e2 - e1) with (e2 + - e1) in Hv by lia.
        rewrite Z.pow_add_r in Hv by lia. lia. }
      pose proof (round_nearest_even_range m1' l1) as R1.
      pose proof (round_nearest_even_range m1'' l1') as R1'.
      specialize (Hr m1' l1 L1) as Hk. specialize (Hr m1'' l1' L1') as Hk'.
      split.
      * destruct (round_nearest_even m1' l1) as [|k|k]; [done| |lia].
        by apply int_float_le.
      * destruct (round_nearest_even m1'' l1') as [|k|k]; [done| |lia].
        by apply int_float_le.
    + destruct (rint_finite false m1 e1 He1) as (m1' & l1 & L1 & P1 & ->).
      destruct (rint_finite true m1 e1 He1) as (m1'' & l1' & L1' & P1' & ->).
      destruct (rint_finite false m2 e2 He2) as (m2' & l2 & L2 & P2 & ->).
      destruct (rint_finite true m2 e2 He2) as (m2'' & l2' & L2' & P2' & ->).
      assert (0 < 2 ^ (- e1)) as Q1 by (apply Z.pow_pos_nonneg; lia).
      assert (0 < 2 ^ (- e2)) as Q2 by (apply Z.pow_pos_nonneg; lia).
      assert (Z.pos m1 * 2 ^ (- e2) <= Z.pos m2 * 2 ^ (- e1)) as Hord.
      { set (e0 := Z.min e1 e2) in *.
        assert (2 ^ (- e2) = 2 ^ (e1 - e0) * 2 ^ (- e1 - e2 + e0)) as ->.
        { rewrite <- Z.pow_add_r by lia. f_equal. lia. }
        assert (2 ^ (- e1) = 2 ^ (e2 - e0) * 2 ^ (- e1 - e2 + e0)) as ->.
        { rewrite <- Z.pow_add_r by lia. f_equal. lia. }
        rewrite !Z.mul_assoc.
        apply Z.mul_le_mono_nonneg_r; [apply Z.pow_nonneg; lia | exact Hv]. }
      pose proof (round_nearest_even_mono _ _ _ _ _ _ _ _ Q1 Q2 L1 L2 Hord) as K.
      pose proof (round_nearest_even_mono _ _ _ _ _ _ _ _ Q1 Q2 L1' L2' Hord)
        as K'.
      pose proof (round_nearest_even_range m1' l1) as R1.
      pose proof (round_nearest_even_range m1'' l1') as R1'.
      pose proof (round_nearest_even_range m2' l2) as R2.
      pose proof (round_nearest_even_range m2'' l2') as R2'.
      split.
      * destruct (round_nearest_even m1' l1) as [|k1|k1],
                 (round_nearest_even m2' l2) as [|k2|k2]; try lia; try done.
        -- apply zero_le. apply binary_round_sign.
        -- by apply int_float_mono.
      * destruct (round_nearest_even m1'' l1') as [|k1|k1],
                 (round_nearest_even m2'' l2') as [|k2|k2]; try lia; try done.
        -- apply le_zero. apply binary_round_sign.
        -- by apply int_float_mono.
Qed.

End RintFacts.

Module RelevanceOrder.
Import PyFacts FloatFacts SignFacts RoundingFacts OrderFacts HundredFacts RintFacts.

(** The relevance of a similarity is a float of the format. *)
Lemma relevance_of_valid (x : spec_float) :
  valid32 (SemanticRanker.relevance_of x) = true.
Proof. apply div_valid. Qed.

(** Rounding to the relevance keeps the order of the similarities. *)
Lemma relevance_of_mono (x y : spec_float) :
  valid32 x = true -> valid32 y = true -> F32.leb x y = true ->
  F32.leb (SemanticRanker.relevance_of x) (SemanticRanker.relevance_of y) = true.
Proof.
  intros Vx Vy Hle. unfold SemanticRanker.relevance_of, F32.round2, F32.leb.
  rewrite of_Z_100.
  apply div_hundred_mono.
  - apply rint_valid, mul_hundred_valid.
  - apply rint_valid, mul_hundred_valid.
  - apply rint_mono; [apply mul_hundred_valid ..|].
    apply mul_hundred_mono; [apply mul_hundred_valid ..|].
    by apply mul_hundred_mono.
Qed.

Section Cosine.
Context `{Library}.

(** A cosine similarity is a quotient of floats. *)
Lemma cosine_valid (e pe : list spec_float) (c : spec_float) :
  SemanticRanker.cosine e pe = Ok c -> valid32 c = true.
Proof.
  unfold SemanticRanker.cosine. destruct (np_dot e pe) as [d|]; [|done].
  simpl. intros Hc. apply Ok_inj in Hc. subst c. apply div_valid.
Qed.

End Cosine.
End RelevanceOrder.

(* ===================================================================== *)
(** * What [rank] leaves untouched                                        *)
(* ===================================================================== *)

Module FrameFacts.
Import MFacts HeapFacts.

Lemma keeps_ret (h0 : list obj) {A} (a : A) (Q : A -> Prop) :
  Q a -> keeps h0 (mret a) Q.
Proof. intros Ha w Hw. repeat split; try done. by intros ? [= <-]. Qed.

Lemma keeps_lift (h0 : list obj) {A} (r : result A) :
  keeps h0 (lift r) (fun _ => True).
Proof. intros w Hw. by repeat split. Qed.

Lemma keeps_load (h0 : list obj) (l : loc) : keeps h0 (load l) (fun _ => True).
Proof.
  intros w Hw. unfold load. by destruct (heap w !! l); repeat split.
Qed.

Lemma keeps_alloc (h0 : list obj) (o : obj) :
  keeps h0 (alloc o) (fun l => (length h0 <= l)%nat).
Proof.
  intros w Hw. unfold alloc. simpl. repeat split; try done.
  - by apply prefix_app_r.
  - intros a [= <-]. by apply prefix_length.
Qed.

Lemma keeps_store (h0 : list obj) (l : loc) (o : obj) :
  (length h0 <= l)%nat -> keeps h0 (store l o) (fun _ => True).
Proof.
  intros Hl w [k Hk]. unfold store. simpl. repeat split; try done.
  rewrite Hk, insert_app_r_alt by done. by apply prefix_app_r.
Qed.

Lemma keeps_bind (h0 : list obj) {A B} (m : M A) (k : A -> M B)
    (Q : A -> Prop) (R : B -> Prop) :
  keeps h0 m Q -> (forall a, Q a -> keeps h0 (k a) R) ->
  keeps h0 (m ≫= k) R.
Proof.
  intros Hm Hk w Hw. rewrite bind_run.
  destruct (Hm w Hw) as (Hp & H1 & H2 & H3 & H4 & HQ).
  destruct (m w) as [[a|e] w']; simpl in *.
  - destruct (Hk a (HQ a eq_refl) w' Hp) as (Hp' & H1' & H2' & H3' & H4' & HR).
    repeat split; try congruence; done.
  - repeat split; try done.
Qed.

Lemma keeps_weaken (h0 : list obj) {A} (m : M A) (Q : A -> Prop) :
  keeps h0 m Q -> keeps h0 m (fun _ => True).
Proof.
  intros Hm w Hw. destruct (Hm w Hw) as (? & ? & ? & ? & ? & _).
  by repeat split.
Qed.

Lemma keeps_load_dict (h0 : list obj) (l : loc) :
  keeps h0 (load_dict l) (fun _ => True).
Proof.
  unfold load_dict. eapply keeps_bind; [apply keeps_load|].
  intros [d|ls] _; [by apply keeps_ret | apply (keeps_lift h0 (Raise TypeError))].
Qed.

Lemma keeps_load_list (h0 : list obj) (l : loc) :
  keeps h0 (load_list l) (fun _ => True).
Proof.
  unfold load_list. eapply keeps_bind; [apply keeps_load|].
  intros [d|ls] _; [apply (keeps_lift h0 (Raise TypeError)) | by apply keeps_ret].
Qed.

Lemma keeps_for_each (h0 : list obj) {A St} (body : nat -> A -> St -> M St)
    (i : nat) (l : list A) (s : St) :
  (forall i x s, keeps h0 (body i x s) (fun _ => True)) ->
  keeps h0 (for_each body i l s) (fun _ => True).
Proof.
  intros Hb. revert i s. induction l as [|x l IH]; intros i s; simpl.
  - by apply keeps_ret.
  - eapply keeps_bind; [apply Hb|]. intros s' _. apply IH.
Qed.

Lemma keeps_mapMM (h0 : list obj) {A B} (f : A -> M B) (l : list A) :
  (forall x, keeps h0 (f x) (fun _ => True)) ->
  keeps h0 (mapMM f l) (fun _ => True).
Proof.
  intros Hf. induction l as [|x l IH]; simpl.
  - by apply keeps_ret.
  - eapply keeps_bind; [apply Hf|]. intros y _.
    eapply keeps_bind; [apply IH|]. intros ys _. by apply keeps_ret.
Qed.

Section Rank.
Context `{Library}.

Lemma keeps_annotate (h0 : list obj) (papers top_papers : loc) (i : nat)
    (it : nat * spec_float) (u : unit) :
  (length h0 <= top_papers)%nat ->
  keeps h0 (SemanticRanker.annotate papers top_papers i it u) (fun _ => True).
Proof.
  intros Ht. unfold SemanticRanker.annotate.
  eapply keeps_bind; [apply keeps_load_list|]. intros ps _.
  eapply keeps_bind; [apply keeps_lift|]. intros p _.
  eapply keeps_bind; [apply keeps_load_dict|]. intros d _.
  eapply keeps_bind; [apply keeps_alloc|]. intros paper Hpaper.
  eapply keeps_bind; [apply keeps_load_dict|]. intros d' _.
  eapply keeps_bind; [by apply keeps_store|]. intros _ _.
  eapply keeps_bind; [apply keeps_load_list|]. intros l _.
  by apply keeps_store.
Qed.

(** Whatever its arguments and its outcome, [rank] only adds objects to
    the store. *)
Lemma keeps_rank (h0 : list obj) (summary : value) (papers : loc) (top_k : Z) :
  keeps h0 (SemanticRanker.rank summary papers top_k) (fun _ => True).
Proof.
  unfold SemanticRanker.rank.
  eapply keeps_bind; [apply keeps_load_list|]. intros ps _.
  destruct ps as [|p ps].
  { eapply keeps_weaken, keeps_alloc. }
  eapply keeps_bind; [apply keeps_lift|]. intros s _.
  eapply keeps_bind.
  { apply keeps_mapMM. intros x. unfold SemanticRanker.abstract_of.
    eapply keeps_bind; [apply keeps_load_dict|]. intros d _.
    eapply keeps_bind; [apply keeps_lift|]. intros v _. apply keeps_lift. }
  intros abstracts _.
  eapply keeps_bind; [apply keeps_lift|]. intros sims _.
  eapply keeps_bind; [apply keeps_alloc|]. intros top_papers Htop.
  eapply keeps_bind.
  { apply keeps_for_each. intros i x s'. by apply keeps_annotate. }
  intros _ _. by apply keeps_ret.
Qed.

End Rank.
End FrameFacts.

(* ===================================================================== *)
(** * The semantic ranker: the statements                                 *)
(* ===================================================================== *)

Module RankerSpec.
Import SemanticRanker MFacts HeapFacts RankerFacts FloatFacts SignFacts FrameFacts.
Import OrderFacts RelevanceOrder.
Section Spec.
Context `{Library}.

Lemma insert_desc_sorted (x : nat * spec_float) (l : list (nat * spec_float)) :
  F32.is_nan (snd x) = false ->
  Forall (fun y => F32.is_nan (snd y) = false) l ->
  StronglySorted by_similarity l ->
  StronglySorted by_similarity (insert_desc x l).
Proof.
  intros Hx Hl Hs. induction l as [|y l IH]; simpl.
  - repeat constructor.
  - inversion Hl as [|? ? Hy Hl']; subst.
    apply StronglySorted_inv in Hs as [Hs Hyl].
    destruct (F32.ltb (snd x) (snd y)) eqn:Elt.
    + constructor; [by apply IH|].
      rewrite insert_desc_perm. constructor; [|done].
      by apply ltb_leb.
    + constructor; [by constructor|].
      assert (F32.leb (snd y) (snd x) = true) as Hyx by by apply leb_total.
      constructor; [done|].
      eapply Forall_impl; [exact Hyl|]. intros z Hz. unfold by_similarity in *.
      by eapply leb_trans.
Qed.

(** Without NaN, [sort_desc] sorts into descending similarity. *)
Lemma sort_desc_sorted (l : list (nat * spec_float)) :
  Forall (fun y => F32.is_nan (snd y) = false) l ->
  StronglySorted by_similarity (sort_desc l).
Proof.
  induction l as [|x l IH]; intros Hl; simpl; [constructor|].
  inversion Hl; subst. apply insert_desc_sorted; [done| |by apply IH].
  by rewrite sort_desc_perm.
Qed.

Lemma sorted_take {A} (R : A -> A -> Prop) (k : nat) (l : list A) :
  StronglySorted R l -> StronglySorted R (take k l).
Proof.
  intros Hs. rewrite <- (take_drop k l) in Hs.
  by apply StronglySorted_app_1_l in Hs.
Qed.

Lemma sorted_map {A B} (R : A -> A -> Prop) (R' : B -> B -> Prop) (f : A -> B)
    (l : list A) :
  (forall x y, x ∈ l -> y ∈ l -> R x y -> R' (f x) (f y)) ->
  StronglySorted R l -> StronglySorted R' (map f l).
Proof.
  intros Hf Hs. induction Hs as [|x l Hs IH Hx]; simpl; [constructor|].
  constructor.
  - apply IH. intros a b Ha Hb. apply Hf; by right.
  - rewrite map_fmap. apply Forall_fmap, Forall_forall. intros y Hy. simpl.
    rewrite Forall_forall in Hx. apply Hf; [by left | by right | by apply Hx].
Qed.

Lemma no_nan_Forall (sims : list (nat * spec_float)) :
  no_nan (map snd sims) = true ->
  Forall (fun y => F32.is_nan (snd y) = false) sims.
Proof.
  unfold no_nan. rewrite forallb_forall. intros Hn.
  apply Forall_forall. intros y Hy. apply negb_true_iff, Hn.
  apply in_map. by apply list_elem_of_In.
Qed.

(** The similarities are floats of the format. *)
Lemma sims_valid (e : list spec_float) (embs : list (list spec_float))
    (sims : list (nat * spec_float)) :
  similarities e embs = Ok sims ->
  Forall (fun it => valid32 (snd it) = true) sims.
Proof.
  intros Hs. apply Forall_forall. intros it Hit.
  destruct (sims_elem _ _ _ _ Hs Hit) as (pe & _ & Hc).
  by eapply cosine_valid.
Qed.

Lemma top_sims_descending (sims : list (nat * spec_float)) (top_k : Z) :
  no_nan (map snd sims) = true ->
  descending (map snd (slice_to top_k (sort_sims sims))).
Proof.
  intros Hn. unfold descending. rewrite sort_sims_no_nan by done.
  destruct (slice_to_prefix top_k (sort_desc sims)) as [k ->].
  apply (sorted_map by_similarity).
  - by intros x y _ _ Hxy.
  - apply sorted_take, sort_desc_sorted. by apply no_nan_Forall.
Qed.

(** The relevances of the papers that [rank] returns are in descending
    order, as soon as no similarity is a NaN: the rounding keeps the
    order. *)
Lemma top_descending (e : list spec_float) (embs : list (list spec_float))
    (sims : list (nat * spec_float)) (top_k : Z) :
  similarities e embs = Ok sims ->
  no_nan (map snd sims) = true ->
  descending (map relevance_of (map snd (slice_to top_k (sort_sims sims)))).
Proof.
  intros Hs Hn. unfold descending. rewrite map_map.
  rewrite sort_sims_no_nan by done.
  destruct (slice_to_prefix top_k (sort_desc sims)) as [k ->].
  pose proof (sims_valid _ _ _ Hs) as Hv. rewrite Forall_forall in Hv.
  apply (sorted_map by_similarity).
  - intros x y Hx Hy Hxy. unfold by_similarity in Hxy.
    apply subseteq_take in Hx, Hy. rewrite sort_desc_perm in Hx, Hy.
    apply relevance_of_mono; [by apply Hv | by apply Hv | done].
  - apply sorted_take, sort_desc_sorted. by apply no_nan_Forall.
Qed.

(** [rank] on a well-formed input, with or without papers. *)
Lemma rank_result (w : world) (papers : loc) (ps : list loc) (dicts : list dict)
    (abstracts : list str) (s : str) (sims : list (nat * spec_float))
    (top_k : Z) :
  rank_input w papers ps dicts abstracts ->
  similarities (encode s) (map encode abstracts) = Ok sims ->
  let top := slice_to top_k (sort_sims sims) in
  let w' := set_heap (ranked_heap (heap w) dicts top) w in
  let tops := seq (S (length (heap w))) (length top) in
  rank (VStr s) papers top_k w = (Ok (length (heap w)), w')
  /\ heap w' !! length (heap w) = Some (OList tops)
  /\ Forall2 (annotated_copy w w' ps s) tops (map snd top).
Proof.
  intros Hin Hs top w' tops. split; [|split].
  - destruct (decide (ps = [])) as [->|Hne]; [|by eapply rank_run].
    destruct Hin as [Hl Hd Ha]. rewrite (rank_empty w papers) by done.
    apply Forall2_nil_inv_l in Hd as ->. apply Forall2_nil_inv_l in Ha as ->.
    destruct (similarities_lookup _ _ _ Hs) as [Hlen _].
    destruct sims; [|done].
    assert (top = []) as Etop.
    { unfold top, slice_to. simpl. destruct (0 <=? top_k); apply take_nil. }
    unfold w'. by rewrite Etop.
  - unfold w', ranked_heap. simpl. by apply list_lookup_middle.
  - destruct Hin as [Hl Hd Ha].
    apply Forall2_same_length_lookup_2.
    { unfold tops. by rewrite length_seq, length_map. }
    intros j t sim Ht Hsim. unfold tops in Ht.
    apply lookup_seq in Ht as [-> Hj].
    rewrite map_fmap, list_lookup_fmap in Hsim.
    destruct (top !! j) as [it|] eqn:Eit; [|discriminate].
    simpl in Hsim. inversion Hsim; subst sim.
    assert (it ∈ sims) as Hit.
    { rewrite <- (sort_sims_perm sims). apply (elem_of_slice_to top_k).
      by eapply list_elem_of_lookup_2. }
    destruct (sims_elem _ _ _ _ Hs Hit) as (pe & Hpe & Hc).
    rewrite map_fmap, list_lookup_fmap in Hpe.
    destruct (abstracts !! fst it) as [a|] eqn:Ea; [|discriminate].
    simpl in Hpe. inversion Hpe; subst pe.
    destruct (Forall2_lookup_r _ _ _ _ _ Ha Ea) as (d & Hdi & Hda).
    destruct (Forall2_lookup_r _ _ _ _ _ Hd Hdi) as (p & Hp & Hpd).
    exists (fst it), p, d, a. repeat split; try done.
    unfold w', ranked_heap. simpl.
    rewrite lookup_app_r by lia.
    match goal with
    | |- context [(?a - ?b)%nat] => replace (a - b)%nat with (S j) by lia
    end.
    simpl. rewrite map_fmap, list_lookup_fmap, Eit. simpl.
    unfold annotated. by rewrite Hdi.
Qed.

(** C5, as the code has it. On a well-formed input whose embeddings
    have one dimension, [rank] returns a new list of records. Each of
    them is a copy of a paper of the input, annotated with
    [round(similarity * 100, 2)] for the cosine similarity of the summary
    and of the abstract of that paper. There are at most [top_k] of them,
    for a count [top_k >= 0]. Whenever no similarity is a NaN, their
    similarities are in descending order and so are their relevances.
    With no paper the list is empty. *)
Theorem rank_top_k (w : world) (papers : loc) (ps : list loc)
    (dicts : list dict) (abstracts : list str) (s : str)
    (sims : list (nat * spec_float)) (top_k : Z) :
  rank_input w papers ps dicts abstracts ->
  similarities (encode s) (map encode abstracts) = Ok sims ->
  exists out w' tops top_sims,
    rank (VStr s) papers top_k w = (Ok out, w')
    /\ heap w' !! out = Some (OList tops)
    /\ Forall2 (annotated_copy w w' ps s) tops top_sims
    /\ (0 <= top_k -> Z.of_nat (length tops) <= top_k)
    /\ (no_nan (map snd sims) = true ->
        descending top_sims /\ descending (map relevance_of top_sims))
    /\ (ps = [] -> tops = []).
Proof.
  intros Hin Hs.
  destruct (rank_result w papers ps dicts abstracts s sims top_k Hin Hs)
    as (Hr & Hout & Hcopies).
  eexists _, _, _, _. split; [exact Hr|]. split; [exact Hout|].
  split; [exact Hcopies|]. split; [|split].
  - intros Hk. rewrite length_seq, slice_to_nonneg, length_take by done. lia.
  - intros Hn. split; [by apply top_sims_descending|].
    by eapply top_descending.
  - intros ->. destruct Hin as [_ Hd Ha].
    apply Forall2_nil_inv_l in Hd as ->. apply Forall2_nil_inv_l in Ha as ->.
    destruct (similarities_lookup _ _ _ Hs) as [Hlen _].
    destruct sims; [|done]. simpl.
    change (sort_sims []) with (@nil (nat * spec_float)).
    unfold slice_to. simpl. by destruct (0 <=? top_k); rewrite take_nil.
Qed.




(** C10. Whatever its arguments and its outcome, [rank] leaves every
    object of the store as it was, the list of papers and the
    dictionaries in it among them, and touches nothing else of the world;
    on a well-formed input each record it returns is a new object, equal
    to a dictionary of the input but for the key "relevance". *)
Theorem rank_frame (summary : value) (papers : loc) (top_k : Z) (w : world) :
  extends w (snd (rank summary papers top_k w))
  /\ (forall l o, heap w !! l = Some o ->
       heap (snd (rank summary papers top_k w)) !! l = Some o)
  /\ forall ps dicts abstracts s sims,
       summary = VStr s ->
       rank_input w papers ps dicts abstracts ->
       similarities (encode s) (map encode abstracts) = Ok sims ->
       exists out tops top_sims,
         fst (rank summary papers top_k w) = Ok out
         /\ heap (snd (rank summary papers top_k w)) !! out = Some (OList tops)
         /\ Forall2 (annotated_copy w (snd (rank summary papers top_k w)) ps s)
                    tops top_sims
         /\ Forall (fun t => (length (heap w) <= t)%nat) tops.
Proof.
  destruct (keeps_rank (heap w) summary papers top_k w) as
    (Hp & H1 & H2 & H3 & H4 & _); [done|].
  split; [by repeat split|]. split.
  - intros l o Hl. destruct Hp as [k ->]. by apply lookup_app_l_Some.
  - intros ps dicts abstracts s sims -> Hin Hs.
    destruct (rank_result w papers ps dicts abstracts s sims top_k Hin Hs)
      as (Hr & Hout & Hcopies).
    rewrite Hr. simpl. eexists _, _, _. split; [done|].
    split; [exact Hout|]. split; [exact Hcopies|].
    apply Forall_forall. intros t Ht. apply list_elem_of_lookup in Ht as [j Hj].
    apply lookup_seq in Hj as [-> _]. lia.
Qed.

End Spec.
End RankerSpec.

Module RankerExamples.
Import SemanticRanker RankerSpec.

Lemma rank_top_k_witness :
  exists out w' tops top_sims,
    rank (VStr (py "near")) 3%nat 2 three_papers_world = (Ok out, w')
    /\ heap w' !! out = Some (OList tops)
    /\ Forall2 (annotated_copy three_papers_world w' [0; 1; 2]%nat (py "near"))
               tops top_sims
    /\ Z.of_nat (length tops) <= 2
    /\ descending top_sims
    /\ descending (map relevance_of top_sims).
Proof.
  destruct (rank_top_k three_papers_world 3%nat [0; 1; 2]%nat three_dicts
              three_abstracts (py "near") three_sims 2)
    as (out & w' & tops & top_sims & Hr & Ho & Hc & Hlen & Hdesc & _).
  - split; [reflexivity | repeat constructor ..].
  - vm_compute; reflexivity.
  - exists out, w', tops, top_sims.
    split; [exact Hr|]. split; [exact Ho|]. split; [exact Hc|]. split.
    + apply Hlen. lia.
    + apply Hdesc. vm_compute; reflexivity.
Defined.

(** C5, as stated, fails: a paper whose abstract is embedded at the
    origin has the cosine similarity 0/0, a NaN, and [rank] returns it
    first, with the relevance NaN, before a paper of relevance 100: the
    list is not in descending order. *)
Lemma rank_nan_unsorted :
  similarities (encode (py "near")) (map encode [py "void"; py "near"])
  = Ok [(0%nat, S754_nan); (1%nat, F32.of_Z 1)]
  /\ fst (rank (VStr (py "near")) 2%nat 3 void_world) = Ok 3%nat
  /\ heap (snd (rank (VStr (py "near")) 2%nat 3 void_world)) !! 3%nat
     = Some (OList [4%nat; 5%nat])
  /\ heap (snd (rank (VStr (py "near")) 2%nat 3 void_world)) !! 4%nat
     = Some (ODict (<[py "relevance" := VFloat S754_nan]>
                      (paper_with_abstract (py "void"))))
  /\ heap (snd (rank (VStr (py "near")) 2%nat 3 void_world)) !! 5%nat
     = Some (ODict (<[py "relevance" := VFloat (F32.of_Z 100)]>
                      (paper_with_abstract (py "near"))))
  /\ ~ descending [S754_nan; F32.of_Z 100].
Proof.
  repeat split; try (vm_compute; reflexivity).
  intros Hd. apply StronglySorted_inv in Hd as [_ Hd].
  apply Forall_cons in Hd as [Hd _]. vm_compute in Hd. discriminate Hd.
Qed.



Lemma rank_frame_witness :
  heap (snd (rank (VStr (py "near")) 3%nat 2 three_papers_world)) !! 3%nat
  = Some (OList [0; 1; 2]%nat)
  /\ heap (snd (rank (VStr (py "near")) 3%nat 2 three_papers_world)) !! 0%nat
     = Some (ODict (paper_with_abstract (py "far")))
  /\ exists out tops top_sims,
       fst (rank (VStr (py "near")) 3%nat 2 three_papers_world) = Ok out
       /\ heap (snd (rank (VStr (py "near")) 3%nat 2 three_papers_world)) !! out
          = Some (OList tops)
       /\ Forall2 (annotated_copy three_papers_world
                     (snd (rank (VStr (py "near")) 3%nat 2 three_papers_world))
                     [0; 1; 2]%nat (py "near"))
                  tops top_sims
       /\ Forall (fun t => (length (heap three_papers_world) <= t)%nat) tops.
Proof.
  destruct (rank_frame (VStr (py "near")) 3%nat 2 three_papers_world)
    as (_ & Hold & Hnew).
  split; [apply Hold; reflexivity|]. split; [apply Hold; reflexivity|].
  apply (Hnew [0; 1; 2]%nat three_dicts three_abstracts (py "near") three_sims).
  - reflexivity.
  - split; [reflexivity | repeat constructor ..].
  - vm_compute; reflexivity.
Defined.

End RankerExamples.

(* ===================================================================== *)
(** * The orchestrator                                                    *)
(* ===================================================================== *)

Module PipelineFacts.
Import Pipeline MFacts HeapFacts FrameFacts.

Lemma bind_ok_inv {A B} (m : M A) (k : A -> M B) (w w' : world) (b : B) :
  (m ≫= k) w = (Ok b, w') ->
  exists a w1, m w = (Ok a, w1) /\ k a w1 = (Ok b, w').
Proof.
  rewrite bind_run. destruct (m w) as [[a|e] w1]; [eauto | discriminate].
Qed.

Lemma lift_ok_inv {A} (r : result A) (w w' : world) (a : A) :
  lift r w = (Ok a, w') -> r = Ok a /\ w' = w.
Proof. unfold lift. by intros [= -> ->]. Qed.

Lemma quiet_ret {A} (a : A) : arxiv_quiet (mret a).
Proof. by intros w. Qed.

Lemma quiet_lift {A} (r : result A) : arxiv_quiet (lift r).
Proof. by intros w. Qed.

Lemma quiet_bind {A B} (m : M A) (k : A -> M B) :
  arxiv_quiet m -> (forall a, arxiv_quiet (k a)) -> arxiv_quiet (m ≫= k).
Proof.
  intros Hm Hk w. rewrite bind_run. specialize (Hm w).
  destruct (m w) as [[a|e] w1]; simpl in *; [|done].
  by rewrite Hk.
Qed.

Lemma quiet_post (prompt : str) : arxiv_quiet (post prompt).
Proof. intros w. unfold post. by destruct (llm_replies w). Qed.

Lemma quiet_try {A} (m h : M A) (catches : exn -> bool) :
  arxiv_quiet m -> arxiv_quiet h -> arxiv_quiet (try_except m catches h).
Proof.
  intros Hm Hh w. unfold try_except. specialize (Hm w).
  destruct (m w) as [[a|e] w1]; simpl in *; [done|].
  destruct (catches e); [|done]. by rewrite Hh.
Qed.

Lemma quiet_for_each {A St} (body : nat -> A -> St -> M St) (i : nat)
    (l : list A) (s : St) :
  (forall i x s, arxiv_quiet (body i x s)) -> arxiv_quiet (for_each body i l s).
Proof.
  intros Hb. revert i s. induction l as [|x l IH]; intros i s; simpl.
  - apply quiet_ret.
  - apply quiet_bind; [apply Hb|]. intros s'. apply IH.
Qed.

Lemma quiet_keeps {A} (m : M A) (Q : A -> Prop) : keeps [] m Q -> arxiv_quiet m.
Proof.
  intros Hm w. destruct (Hm w) as (_ & _ & _ & H3 & _); [|done].
  by apply prefix_nil.
Qed.

Section Facts.
Context `{Library}.

Lemma quiet_extract (paragraphs : list str) (get_summary : bool) :
  arxiv_quiet (LLMClient.extract_keywords_and_summary paragraphs get_summary).
Proof.
  apply quiet_for_each. intros i x s. unfold LLMClient.extract_one.
  apply quiet_bind.
  { unfold LLMClient.call. apply quiet_bind; [apply quiet_post|].
    intros a. apply quiet_ret. }
  intros text. destruct (json_loads _); [apply quiet_lift|].
  destruct get_summary; apply quiet_ret.
Qed.

Lemma quiet_rank_keywords (paragraph : str) (keywords : value) :
  arxiv_quiet (LLMClient.rank_keywords paragraph keywords).
Proof.
  unfold LLMClient.rank_keywords. apply quiet_bind.
  { unfold LLMClient.call. apply quiet_bind; [apply quiet_post|].
    intros a. apply quiet_ret. }
  intros text. apply quiet_try; [|apply quiet_lift].
  destruct (json_loads _); apply quiet_lift.
Qed.

(** A search consumes one reply of the arXiv API; after an empty feed the
    list it returns is empty. *)
Lemma search_run (query : str) (max_results : Z) (w w' : world) (found : loc) :
  ArxivSearcher.search query max_results w = (Ok found, w') ->
  arxiv_replies w' = tail (arxiv_replies w)
  /\ (head (arxiv_replies w) = Some (Ok []) -> heap w' !! found = Some (OList [])).
Proof.
  unfold ArxivSearcher.search. intros Hs.
  apply bind_ok_inv in Hs as (entries & w1 & Hg & Hs).
  assert (arxiv_replies w1 = tail (arxiv_replies w)
          /\ head (arxiv_replies w) = Some (Ok entries)) as [Hw1 Hhd].
  { unfold get_feed in Hg. destruct (arxiv_replies w) as [|r reps]; [done|].
    by inversion Hg; subst. }
  split.
  - rewrite <- Hw1.
    assert (arxiv_quiet
              (results ← alloc (OList []);
               for_each (fun _ e _ =>
                           d ← lift (ArxivSearcher.paper_of e);
                           p ← alloc (ODict d);
                           l ← load_list results;
                           store results (OList (l ++ [p])))
                        0 entries tt;;
               mret results)) as Hq.
    { eapply quiet_keeps.
      eapply keeps_bind; [apply keeps_alloc|]. intros results _.
      eapply keeps_bind.
      - apply keeps_for_each. intros i e u.
        eapply keeps_bind; [apply keeps_lift|]. intros d _.
        eapply keeps_bind; [apply keeps_alloc|]. intros p _.
        eapply keeps_bind; [apply keeps_load_list|]. intros l _.
        apply keeps_store. simpl. lia.
      - intros _ _. by apply (keeps_ret [] results (fun _ => True)). }
    specialize (Hq w1). by rewrite Hs in Hq.
  - intros Hhd'. rewrite Hhd in Hhd'. inversion Hhd'; subst entries.
    rewrite <- (set_heap_id w1) in Hs. rewrite bind_run, alloc_run in Hs.
    simpl in Hs. inversion Hs; subst. simpl.
    by apply list_lookup_middle.
Qed.

Lemma quiet_paper_result_of (citation_style : value) (paper : loc) :
  arxiv_quiet (paper_result_of citation_style paper).
Proof.
  unfold paper_result_of. apply quiet_bind.
  { eapply quiet_keeps, keeps_load_dict. }
  intros d. repeat (apply quiet_bind; [apply quiet_lift|]; intros ?).
  apply quiet_ret.
Qed.

Lemma quiet_mapMM {A B} (f : A -> M B) (l : list A) :
  (forall x, arxiv_quiet (f x)) -> arxiv_quiet (mapMM f l).
Proof.
  intros Hf. induction l as [|x l IH]; simpl; [apply quiet_ret|].
  apply quiet_bind; [apply Hf|]. intros y.
  apply quiet_bind; [apply IH|]. intros ys. apply quiet_ret.
Qed.

Lemma quiet_run {A} (m : M A) (w w' : world) (r : result A) :
  arxiv_quiet m -> m w = (r, w') -> arxiv_replies w' = arxiv_replies w.
Proof. intros Hm Hr. specialize (Hm w). by rewrite Hr in Hm. Qed.

(** One iteration of the loop adds one entry, which holds the paragraph,
    and consumes one reply of the arXiv API; after an empty feed the entry
    has no paper. *)
Lemma process_paragraph_run (top_k : Z) (citation_style : value)
    (keywords_dict summaries_dict : index_dict) (idx : nat) (para : str)
    (acc acc' : list paragraph_result) (w w' : world) :
  process_paragraph top_k citation_style keywords_dict summaries_dict
                    idx para acc w = (Ok acc', w') ->
  exists prs,
    acc' = acc ++ [{| paragraph := para; papers := prs |}]
    /\ arxiv_replies w' = tail (arxiv_replies w)
    /\ (head (arxiv_replies w) = Some (Ok []) -> prs = []).
Proof.
  unfold process_paragraph. intros Hp.
  apply bind_ok_inv in Hp as (kws & w1 & Hk & Hp).
  apply lift_ok_inv in Hk as [_ ->].
  apply bind_ok_inv in Hp as (ranked & w2 & Hr & Hp).
  apply (quiet_run _ _ _ _ (quiet_rank_keywords para kws)) in Hr.
  apply bind_ok_inv in Hp as (summary & w3 & Hs & Hp).
  apply lift_ok_inv in Hs as [_ ->].
  apply bind_ok_inv in Hp as (query & w3 & Hq & Hp).
  apply lift_ok_inv in Hq as [_ ->].
  apply bind_ok_inv in Hp as (found & w3 & Hf & Hp).
  apply search_run in Hf as [Hf1 Hf2].
  apply bind_ok_inv in Hp as (summary' & w4 & Hs' & Hp).
  apply lift_ok_inv in Hs' as [_ ->].
  apply bind_ok_inv in Hp as (top_papers & w4 & Hrk & Hp).
  apply bind_ok_inv in Hp as (tops & w5 & Hl & Hp).
  apply bind_ok_inv in Hp as (prs & w6 & Hm & Hp).
  inversion Hp; subst acc' w'. exists prs. split; [done|].
  assert (arxiv_replies w4 = arxiv_replies w3) as E4.
  { eapply quiet_run; [|exact Hrk]. eapply quiet_keeps, keeps_rank. }
  assert (arxiv_replies w5 = arxiv_replies w4) as E5.
  { eapply quiet_run; [|exact Hl]. eapply quiet_keeps, keeps_load_list. }
  assert (arxiv_replies w6 = arxiv_replies w5) as E6.
  { eapply quiet_run; [|exact Hm].
    apply quiet_mapMM, quiet_paper_result_of. }
  split; [congruence|].
  rewrite Hr in Hf2. intros Hhd. specialize (Hf2 Hhd).
  rewrite (RankerFacts.rank_empty w3 found) in Hrk by done.
  inversion Hrk; subst top_papers w4.
  rewrite (load_list_run _ []) in Hl by (by apply list_lookup_middle).
  inversion Hl; subst tops w5. simpl in Hm.
  by inversion Hm.
Qed.

(** The loop over the cleaned paragraphs. *)
Lemma loop_run (top_k : Z) (citation_style : value)
    (keywords_dict summaries_dict : index_dict) (l : list str) (i : nat)
    (acc res : list paragraph_result) (w w' : world) :
  for_each (process_paragraph top_k citation_style keywords_dict summaries_dict)
           i l acc w = (Ok res, w') ->
  exists new,
    res = acc ++ new
    /\ map paragraph new = l
    /\ forall j e, new !! j = Some e ->
         arxiv_replies w !! j = Some (Ok []) -> papers e = [].
Proof.
  revert i acc w. induction l as [|para l IH]; intros i acc w Hl; simpl in Hl.
  - inversion Hl; subst. exists []. by rewrite app_nil_r.
  - apply bind_ok_inv in Hl as (acc1 & w1 & Hp & Hl).
    apply process_paragraph_run in Hp as (prs & -> & Hw1 & Hprs).
    apply IH in Hl as (new & -> & Hnew & Hempty).
    exists ({| paragraph := para; papers := prs |} :: new).
    split; [by rewrite <- app_assoc|]. split; [simpl; by f_equal|].
    intros [|j] e He Hj; simpl in *.
    + inversion He; subst e. simpl. apply Hprs.
      by destruct (arxiv_replies w).
    + apply (Hempty j e He). rewrite Hw1.
      by destruct (arxiv_replies w).
Qed.

(** C8. When [pipeline_run] returns, its results hold one entry for each
    cleaned paragraph of the document, in the order of the document, each
    with the text of its paragraph; the entry of a paragraph whose search
    came back with an empty feed is there as well, with an empty list of
    papers. *)
Theorem pipeline_run_order (file_path doc_type : str) (top_k : Z)
    (export_type citation_style : value) (paragraphs : list str)
    (w w' : world) (out : output) :
  extract_paragraphs file_path doc_type = Ok paragraphs ->
  pipeline_run file_path doc_type top_k export_type citation_style w
  = (Ok out, w') ->
  map paragraph (results out) = ParagraphCleaner.clean 10 paragraphs
  /\ forall j e, results out !! j = Some e ->
       arxiv_replies w !! j = Some (Ok []) ->
       Some (paragraph e) = ParagraphCleaner.clean 10 paragraphs !! j
       /\ papers e = [].
Proof.
  intros Hx Hrun. unfold pipeline_run in Hrun.
  apply bind_ok_inv in Hrun as (style & w1 & Hst & Hrun).
  apply lift_ok_inv in Hst as [_ ->].
  apply bind_ok_inv in Hrun as (ps & w1 & Hps & Hrun).
  apply lift_ok_inv in Hps as [Hps ->].
  rewrite Hx in Hps. inversion Hps; subst ps.
  assert (forall o : output,
            results o = [] -> ParagraphCleaner.clean 10 paragraphs = [] ->
            map paragraph (results o) = ParagraphCleaner.clean 10 paragraphs
            /\ forall j e, results o !! j = Some e ->
                 arxiv_replies w !! j = Some (Ok []) ->
                 Some (paragraph e) = ParagraphCleaner.clean 10 paragraphs !! j
                 /\ papers e = []) as Hnone.
  { intros o Ho Hc. rewrite Ho, Hc. split; [done|]. by intros j e. }
  destruct paragraphs as [|p0 paragraphs'] eqn:Eps.
  { inversion Hrun; subst. by apply Hnone. }
  rewrite <- Eps in *. clear Eps.
  destruct (ParagraphCleaner.clean 10 paragraphs) as [|c0 cleaned'] eqn:Ecl.
  { inversion Hrun; subst. by apply Hnone. }
  rewrite <- Ecl in *.
  apply bind_ok_inv in Hrun as (t & w1 & Ht & Hrun).
  apply (quiet_run _ _ _ _ (quiet_extract _ true)) in Ht.
  apply bind_ok_inv in Hrun as (nk & w2 & Hnk & Hrun).
  apply lift_ok_inv in Hnk as [_ ->].
  destruct nk; [discriminate|].
  apply bind_ok_inv in Hrun as (all_results & w2 & Hloop & Hrun).
  apply bind_ok_inv in Hrun as (content & w3 & Hex & Hrun).
  inversion Hrun; subst out w'. simpl.
  apply loop_run in Hloop as (new & -> & Hnew & Hempty). simpl.
  split; [done|]. intros j e He Hj. split.
  - rewrite <- Hnew, map_fmap, list_lookup_fmap, He. done.
  - apply (Hempty j e He). by rewrite Ht.
Qed.

End Facts.
End PipelineFacts.

Module PipelineExamples.
Import Pipeline PipelineFacts.

Lemma pipeline_run_order_witness :
  exists out w',
    pipeline_run (py "paper.pdf") (py "pdf") 3 VNone (VStr (py "harvard"))
                 pipeline_world = (Ok out, w')
    /\ map paragraph (results out)
       = [py "Graphs are everywhere in the study of networks and of data";
          py "Trees are the graphs that hold no cycle at all in them"]
    /\ exists e, results out !! 1%nat = Some e
         /\ paragraph e = py "Trees are the graphs that hold no cycle at all in them"
         /\ papers e = [].
Proof.
  destruct (pipeline_run (py "paper.pdf") (py "pdf") 3 VNone
              (VStr (py "harvard")) pipeline_world) as [r w'] eqn:Hrun.
  assert (is_ok r = true) as Hok.
  { change r with (fst (r, w')). rewrite <- Hrun. vm_compute. reflexivity. }
  destruct r as [out|e]; [|discriminate Hok].
  destruct (@pipeline_run_order sample_lib (py "paper.pdf") (py "pdf") 3 VNone
              (VStr (py "harvard")) sample_document pipeline_world w' out
              eq_refl Hrun)
    as [Hpar Hempty].
  change (ParagraphCleaner.clean 10 _)
    with [py "Graphs are everywhere in the study of networks and of data";
          py "Trees are the graphs that hold no cycle at all in them"]
    in Hpar, Hempty.
  exists out, w'. split; [reflexivity|]. split; [exact Hpar|].
  destruct (results out) as [|e0 [|e1 rest]]; try discriminate Hpar.
  exists e1. split; [reflexivity|].
  destruct (Hempty 1%nat e1 eq_refl eq_refl) as [Hp He].
  split; [by inversion Hp | exact He].
Defined.

End PipelineExamples.

(* ===================================================================== *)
(** * The retry and the heuristic fallback                                *)
(* ===================================================================== *)

Module FallbackFacts.
Import ExtractKeyEle MFacts PyFacts.

Lemma drop_space_head (s r : str) (c : char) :
  drop_space s = c :: r -> isspace c = false.
Proof.
  induction s as [|x s IH]; simpl; [done|].
  destruct (isspace x) eqn:Ex; [done|]. by intros [= <- _].
Qed.

Lemma split_from_nonempty (cur s : str) :
  cur <> [] \/ (exists c, c ∈ s /\ isspace c = false) ->
  split_from cur s <> [].
Proof.
  revert cur. induction s as [|x s IH]; intros cur Hc; simpl.
  - destruct Hc as [Hc|(c & Hc & _)]; [by destruct cur | by inversion Hc].
  - destruct (isspace x) eqn:Ex.
    + destruct cur as [|y cur]; [|done]. apply IH. right.
      destruct Hc as [Hc|(c & Hc & Hsp)]; [done|].
      exists c. split; [|done]. inversion Hc; subst; [congruence | done].
    + apply IH. by left.
Qed.

(** A stripped sentence that is not empty has a first word. *)
Lemma first_word_ok (s : str) :
  strip s <> [] -> exists w, first (split (strip s)) = Ok w.
Proof.
  intros Hs.
  assert (split (strip s) <> []) as Hne.
  { apply split_from_nonempty. right. unfold strip in *.
    destruct (drop_space (rev (drop_space s))) as [|c r] eqn:E; [done|].
    exists c. split; [|by eapply drop_space_head].
    apply list_elem_of_In, in_rev. rewrite rev_involutive. by left. }
  destruct (split (strip s)) as [|w ws]; [done|]. by exists w.
Qed.

Lemma slice_to_length_le {A} (n : nat) (l : list A) :
  (length (slice_to (Z.of_nat n) l) <= n)%nat.
Proof.
  unfold slice_to. destruct (Z.leb_spec 0 (Z.of_nat n)); [|lia].
  rewrite length_take. lia.
Qed.

(** The heuristic does not raise; it gives at most eight keywords, each
    the first word of a sentence of the paragraph. *)
Lemma heuristic_keywords_ok (sentences : list str) :
  exists ks,
    heuristic_keywords sentences = Ok ks
    /\ (length ks <= 8)%nat
    /\ Forall (fun k => exists s, s ∈ sentences
                         /\ first (split (strip s)) = Ok k) ks.
Proof.
  unfold heuristic_keywords.
  assert (exists ws,
            mapM (fun s => first (split (strip s)))
                 (filter (fun s => strip s <> []) sentences) = Ok ws
            /\ Forall (fun k => exists s, s ∈ sentences
                                 /\ first (split (strip s)) = Ok k) ws)
    as (ws & -> & Hws).
  { induction sentences as [|s sentences (ws & IH & Hws)]; [by exists []|].
    rewrite filter_cons. destruct (decide (strip s <> [])) as [Hs|Hs].
    - destruct (first_word_ok s Hs) as [w Hw].
      exists (w :: ws). simpl. rewrite Hw. simpl. rewrite IH. simpl.
      split; [done|]. constructor.
      + exists s. split; [by left | done].
      + eapply Forall_impl; [exact Hws|].
        intros k (s' & Hs' & Hk). exists s'. split; [by right | done].
    - exists ws. split; [done|].
      eapply Forall_impl; [exact Hws|].
      intros k (s' & Hs' & Hk). exists s'. split; [by right | done]. }
  simpl. exists (slice_to 8 ws). split; [done|]. split.
  - apply (slice_to_length_le 8).
  - apply Forall_forall. intros k Hk. rewrite Forall_forall in Hws.
    apply Hws. by eapply RankerFacts.elem_of_slice_to.
Qed.

Section Facts.
Context `{Library}.

(** The fallback records the heuristic keywords and, as summary, the
    stripped first sentence of the paragraph. *)
Lemma fallback_ok (idx : nat) (paragraph : str) (t : tables) :
  exists ks,
    fallback true idx paragraph t
    = Ok (index_set idx (VList (map VStr ks)) (fst t),
          index_set idx (heuristic_summary (split_on 46%N paragraph)) <$> snd t)
    /\ (length ks <= 8)%nat.
Proof.
  unfold fallback.
  destruct (heuristic_keywords_ok (split_on 46%N paragraph)) as (ks & -> & Hk & _).
  by exists ks.
Qed.

(** In ver4_extract_key_ele.py with [retry_on_fail=False], an answer that
    is not JSON leads to the fallback, and the loop goes on. *)
Lemma extract_one_no_retry (idx : nat) (paragraph text : str) (t : tables)
    (w : world) :
  head (llm_replies w) = Some (Ok text) ->
  json_loads (clean_reply (strip text)) = None ->
  extract_one true false idx paragraph t w
  = (fallback true idx paragraph t, answered (prompt_of true paragraph) w).
Proof.
  intros Hr Hj. unfold extract_one, call_llm.
  rewrite bind_run, bind_run, (post_answered _ text) by done.
  simpl. unfold mret, M_ret. by rewrite Hj.
Qed.

(** In ver5_rank_keyword.py the retry sends the stricter prompt: after
    two answers that are not JSON, the iteration ends in the fallback
    without raising, both prompts have been sent, and the loop goes on
    with the next paragraph. *)
Lemma retry_then_fallback (idx : nat) (paragraph text1 text2 : str)
    (t : tables) (w : world) :
  head (llm_replies w) = Some (Ok text1) ->
  head (tail (llm_replies w)) = Some (Ok text2) ->
  json_loads (clean_reply (strip text1)) = None ->
  json_loads (clean_reply (strip text2)) = None ->
  RankKeyword.extract_one true true idx paragraph t w
  = (fallback true idx paragraph t,
     answered_twice (prompt_of true paragraph) (prompt_retry_of paragraph) w)
  /\ is_ok (fallback true idx paragraph t) = true.
Proof.
  intros Hr1 Hr2 Hj1 Hj2. split.
  - unfold RankKeyword.extract_one, RankKeyword.call_llm.
    rewrite bind_run, bind_run, (post_answered _ text1) by done.
    simpl. unfold mret at 1, M_ret at 1. rewrite Hj1.
    rewrite bind_run, bind_run, (post_answered _ text2) by done.
    simpl. unfold mret, M_ret. by rewrite Hj2.
  - by destruct (fallback_ok idx paragraph t) as (ks & -> & _).
Qed.

End Facts.

(** The two revisions on the same input: two paragraphs, and an endpoint
    that answers with prose. ver5_rank_keyword.py falls back for the first
    paragraph and goes on to the second; ver4_extract_key_ele.py raises. *)
Example retry_revisions :
  fst (RankKeyword.extract_keywords_and_summary
         [py "Graphs are everywhere. Trees are graphs."; py "Second paragraph."]
         true true prose_world)
  = Ok ([(0%nat, VList [VStr (py "Graphs"); VStr (py "Trees")]);
         (1%nat, VList [VStr (py "graphs")])],
        Some [(0%nat, VStr (py "Graphs are everywhere"));
              (1%nat, VStr (py "near"))])
  /\ fst (extract_keywords_and_summary
            [py "Graphs are everywhere. Trees are graphs."; py "Second paragraph."]
            true true prose_world)
     = Raise TypeError.
Proof. repeat split; vm_compute; reflexivity. Qed.

End FallbackFacts.

(* ===================================================================== *)
(** * The earlier orchestrator of webUI/papers/pipeline.py                *)
(* ===================================================================== *)

Module WebPipelineFacts.
Import WebPipeline MFacts PipelineFacts.
Section Facts.
Context `{Library}.

Lemma result_of_matched_text (para : str) (paper : loc) (w w' : world)
    (d : dict) :
  result_of para paper w = (Ok d, w') ->
  d !! py "matched_text" = Some (VStr para).
Proof.
  unfold result_of. intros Hr.
  apply bind_ok_inv in Hr as (d0 & w1 & _ & Hr).
  repeat (apply bind_ok_inv in Hr as (? & ? & _ & Hr)).
  inversion Hr; subst.
  repeat (rewrite lookup_insert_ne by (vm_compute; discriminate)).
  apply lookup_insert_eq.
Qed.

Lemma results_matched_text (para : str) (tops : list loc) (w w' : world)
    (rs : list dict) :
  mapMM (result_of para) tops w = (Ok rs, w') ->
  Forall (fun d : dict => d !! py "matched_text" = Some (VStr para)) rs.
Proof.
  revert w rs. induction tops as [|t tops IH]; intros w rs Hm; simpl in Hm.
  - inversion Hm. constructor.
  - apply bind_ok_inv in Hm as (d & w1 & Hd & Hm).
    apply bind_ok_inv in Hm as (ds & w2 & Hds & Hm).
    inversion Hm; subst. constructor.
    + by eapply result_of_matched_text.
    + by eapply IH.
Qed.

(** The flat list keeps the order of the paragraphs: it is made of one
    group of entries for each cleaned paragraph, in the order of the
    document, and a group may be empty. *)
Lemma web_loop_run (keywords summaries : index_dict) (l : list str) (i : nat)
    (acc res : list dict) (w w' : world) :
  for_each (process_paragraph keywords summaries) i l acc w = (Ok res, w') ->
  exists groups,
    res = acc ++ concat groups
    /\ Forall2 (fun (g : list dict) para =>
                  Forall (fun d : dict =>
                            d !! py "matched_text" = Some (VStr para)) g)
               groups l.
Proof.
  revert i acc w. induction l as [|para l IH]; intros i acc w Hl; simpl in Hl.
  - inversion Hl; subst. exists []. split; [by rewrite app_nil_r | constructor].
  - apply bind_ok_inv in Hl as (acc1 & w1 & Hp & Hl).
    unfold process_paragraph in Hp.
    do 8 (apply bind_ok_inv in Hp as (? & ? & _ & Hp)).
    apply bind_ok_inv in Hp as (rs & w2 & Hrs & Hp).
    inversion Hp; subst acc1 w1. apply results_matched_text in Hrs.
    apply IH in Hl as (groups & -> & Hg).
    exists (rs :: groups). split; [simpl; by rewrite <- app_assoc|].
    by constructor.
Qed.

Lemma web_pipeline_run_order (file_path doc_type : str) (paragraphs : list str)
    (w w' : world) (res : list dict) :
  extract_paragraphs (splitext_root file_path ++ py "." ++ doc_type) doc_type
  = Ok paragraphs ->
  pipeline_run file_path doc_type w = (Ok res, w') ->
  exists groups,
    res = concat groups
    /\ Forall2 (fun (g : list dict) para =>
                  Forall (fun d : dict =>
                            d !! py "matched_text" = Some (VStr para)) g)
               groups (ParagraphCleaner.clean 10 paragraphs).
Proof.
  intros Hx Hrun. unfold pipeline_run in Hrun.
  apply bind_ok_inv in Hrun as (cleaned & w1 & Hc & Hrun).
  apply lift_ok_inv in Hc as [Hc ->].
  unfold para_processing in Hc. rewrite Hx in Hc. simpl in Hc.
  inversion Hc; subst cleaned.
  destruct (ParagraphCleaner.clean 10 paragraphs) as [|c0 cleaned'] eqn:Ecl.
  { inversion Hrun; subst. exists []. split; [done | constructor]. }
  rewrite <- Ecl in *.
  apply bind_ok_inv in Hrun as (t & w1 & _ & Hrun).
  apply web_loop_run in Hrun as (groups & -> & Hg). by exists groups.
Qed.

End Facts.

(** On the sample document, for which ver5 returns two entries, the
    earlier orchestrator returns the one paper of the first paragraph and
    nothing for the second paragraph. *)
Example web_pipeline_run_flat :
  (fun r => match r with
            | Ok res => Ok (map (fun d : dict => d !! py "matched_text") res)
            | Raise e => Raise e
            end)
    (fst (pipeline_run (py "paper.pdf") (py "pdf") pipeline_world))
  = Ok [Some (VStr (py "Graphs are everywhere in the study of networks and of data"))].
Proof. vm_compute; reflexivity. Qed.

End WebPipelineFacts.

(* ===================================================================== *)
(** * The scenario without search results                                 *)
(* ===================================================================== *)

Module ScenarioFacts.
Import Pipeline MFacts HeapFacts PipelineFacts.

Lemma assoc_app_fresh {A} (k : nat) (v : A) (d : list (nat * A)) :
  Forall (fun kv => fst kv <> k) d -> assoc k (d ++ [(k, v)]) = Some v.
Proof.
  induction d as [|[k' v'] d IH]; intros Hd; simpl.
  - by rewrite decide_True.
  - inversion Hd; subst. simpl in *. rewrite decide_False by congruence.
    by apply IH.
Qed.

Lemma assoc_app_l {A} (k : nat) (v : A) (d d' : list (nat * A)) :
  assoc k d = Some v -> assoc k (d ++ d') = Some v.
Proof.
  induction d as [|[k' v'] d IH]; simpl; [done|].
  destruct (decide (k = k')); [done | apply IH].
Qed.

Lemma index_set_fresh (idx : nat) (v : value) (d : index_dict) :
  Forall (fun kv => fst kv <> idx) d -> index_set idx v d = d ++ [(idx, v)].
Proof.
  induction d as [|[i x] d IH]; intros Hd; simpl; [done|].
  inversion Hd; subst. simpl in *. rewrite decide_False by done.
  by rewrite IH.
Qed.

Lemma imap_keys_below {A} (f : A -> value) (l : list A) :
  Forall (fun kv => fst kv <> length l) (imap (fun j a => (j, f a)) l).
Proof.
  apply Forall_forall. intros [k v] Hkv. simpl.
  apply list_elem_of_lookup in Hkv as [j Hj].
  rewrite list_lookup_imap in Hj.
  destruct (l !! j) as [a|] eqn:Ea; [|discriminate].
  apply lookup_lt_Some in Ea. simpl in Hj. inversion Hj; subst. lia.
Qed.

Lemma imap_snoc {A} (f : A -> value) (l : list A) (a : A) :
  imap (fun j a => (j, f a)) (l ++ [a])
  = imap (fun j a => (j, f a)) l ++ [(length l, f a)].
Proof. rewrite imap_app. simpl. by rewrite Nat.add_0_r. Qed.

Lemma imap_values {A} (f : A -> value) (l : list A) :
  map snd (imap (fun j a => (j, f a)) l) = map f l.
Proof.
  apply list_eq. intros i.
  rewrite !map_fmap, !list_lookup_fmap, list_lookup_imap.
  by destruct (l !! i).
Qed.

Lemma index_get_imap {A} (f : A -> value) (l : list A) (j : nat) (a : A) :
  l !! j = Some a -> index_get j (imap (fun j a => (j, f a)) l) = Ok (f a).
Proof.
  revert j. induction l as [|x l IH] using rev_ind; intros j Hj; [done|].
  rewrite imap_snoc. unfold index_get.
  destruct (decide (j = length l)) as [->|Hne].
  - rewrite list_lookup_middle in Hj by done. inversion Hj; subst.
    by rewrite assoc_app_fresh by apply imap_keys_below.
  - assert (l !! j = Some a) as Hl.
    { rewrite lookup_app_l in Hj; [done|].
      apply lookup_lt_Some in Hj. rewrite length_app in Hj. simpl in Hj. lia. }
    specialize (IH j Hl). unfold index_get in IH.
    destruct (assoc j (imap (fun j a => (j, f a)) l)) as [v|] eqn:Ev;
      [|discriminate].
    by rewrite (assoc_app_l _ _ _ _ Ev).
Qed.

Section Facts.
Context `{Library}.

Lemma bind_run_ok {A B} (m : M A) (k : A -> M B) (w w' : world) (a : A) :
  m w = (Ok a, w') -> (m ≫= k) w = k a w'.
Proof. intros Hm. by rewrite bind_run, Hm. Qed.

(** One step of the extraction, on an answer of the expected shape. *)
Lemma extract_one_run (para : str) (done : list (str * list str * str))
    (text : str) (ks : list str) (s : str) (w : world) :
  head (llm_replies w) = Some (Ok text) ->
  extraction_of (text, ks, s) ->
  LLMClient.extract_one true (length done) para
    (keyword_table done, Some (summary_table done)) w
  = (Ok (keyword_table (done ++ [(text, ks, s)]),
         Some (summary_table (done ++ [(text, ks, s)]))),
     answered (LLMClient.extract_prompt true para) w).
Proof.
  intros Hr (data & Hj & Hk & Hs).
  unfold LLMClient.extract_one, LLMClient.call.
  rewrite bind_run, bind_run. rewrite (post_answered _ text) by done.
  simpl. rewrite Hj. unfold lift, ExtractKeyEle.record_parsed.
  rewrite Hk, Hs. simpl.
  unfold keyword_table, summary_table.
  rewrite !index_set_fresh by apply imap_keys_below.
  by rewrite !imap_snoc.
Qed.

(** The extraction loop, on answers of the expected shape. *)
Lemma extract_loop_run (paras : list str) :
  forall (done answers : list (str * list str * str)) (rest : list (result str))
         (w : world),
    length answers = length paras ->
    Forall extraction_of answers ->
    llm_replies w = map (fun a => Ok (fst (fst a))) answers ++ rest ->
    exists w',
      for_each (LLMClient.extract_one true) (length done) paras
               (keyword_table done, Some (summary_table done)) w
      = (Ok (keyword_table (done ++ answers),
             Some (summary_table (done ++ answers))), w')
      /\ llm_replies w' = rest
      /\ arxiv_replies w' = arxiv_replies w.
Proof.
  induction paras as [|para paras IH]; intros done answers rest w Hlen Hall Hw.
  - destruct answers; [|discriminate]. exists w.
    by rewrite app_nil_r.
  - destruct answers as [|[[text ks] s] answers]; [discriminate|].
    inversion Hall as [|? ? Ha Hall']; subst.
    simpl in Hw.
    destruct (IH (done ++ [(text, ks, s)]) answers rest
                 (answered (LLMClient.extract_prompt true para) w))
      as (w' & Hrun & Hl & Ha').
    { simpl in Hlen. lia. }
    { exact Hall'. }
    { simpl. by rewrite Hw. }
    exists w'. split; [|split; [exact Hl | exact Ha']].
    cbn [for_each].
    rewrite (bind_run_ok _ _ w _ _ (extract_one_run para done text ks s w
                                      ltac:(by rewrite Hw) Ha)).
    replace (S (length done)) with (length (done ++ [(text, ks, s)]))
      by (rewrite length_app; simpl; lia).
    by rewrite Hrun, <- app_assoc.
Qed.

(** The keyword ranker, whatever the answer. *)
Lemma rank_keywords_run (paragraph : str) (keywords : list value)
    (text : str) (w : world) :
  head (llm_replies w) = Some (Ok text) ->
  LLMClient.rank_keywords paragraph (VList keywords) w
  = (Ok (match parsed_ranking text with
         | Some ranked => ranked
         | None => with_null_scores keywords
         end),
     answered (LLMClient.rank_prompt paragraph (VList keywords)) w).
Proof.
  intros Hr.
  unfold LLMClient.rank_keywords, LLMClient.call, parsed_ranking.
  rewrite bind_run, bind_run. rewrite (post_answered _ text) by done.
  simpl. unfold try_except.
  destruct (json_loads (clean_reply (strip text))) as [data|]; [|done].
  unfold lift. by destruct (LLMClient.ranked_of data).
Qed.

(** The query of keywords without scores and a summary is built. *)
Lemma build_query_unranked (ks : list str) (s : str) (top_n : Z) :
  exists query,
    ArxivSearcher.build_query (with_null_scores (map VStr ks)) (VStr s) top_n
    = Ok query.
Proof.
  unfold ArxivSearcher.build_query, with_null_scores.
  rewrite !QueryFacts.slice_to_map, !map_map. simpl.
  rewrite (PyFacts.mapM_map_ok as_str VStr id) by done.
  simpl. eauto.
Qed.

(** A search that the API answers with an empty feed. *)
Lemma search_empty_run (query : str) (max_results : Z) (w : world) :
  head (arxiv_replies w) = Some (Ok []) ->
  ArxivSearcher.search query max_results w
  = (Ok (length (heap w)),
     {| llm_replies := llm_replies w; llm_prompts := llm_prompts w;
        arxiv_replies := tail (arxiv_replies w);
        arxiv_queries := ArxivSearcher.url_of query max_results :: arxiv_queries w;
        heap := heap w ++ [OList []] |}).
Proof.
  intros Hr. unfold ArxivSearcher.search. rewrite bind_run. unfold get_feed.
  destruct (arxiv_replies w) as [|r reps]; [discriminate|].
  simpl in Hr. injection Hr as ->. reflexivity.
Qed.

(** The body of the loop, when the ranking is not usable and the search
    finds nothing: the entry of the paragraph has no papers. *)
Lemma process_paragraph_no_papers (top_k : Z) (citation_style : value)
    (answers : list (str * list str * str)) (idx : nat) (para : str)
    (acc : list paragraph_result) (a : str * list str * str) (ranking : str)
    (w : world) :
  answers !! idx = Some a ->
  head (llm_replies w) = Some (Ok ranking) ->
  parsed_ranking ranking = None ->
  head (arxiv_replies w) = Some (Ok []) ->
  exists w',
    process_paragraph top_k citation_style (keyword_table answers)
                      (summary_table answers) idx para acc w
    = (Ok (acc ++ [empty_entry para]), w')
    /\ llm_replies w' = tail (llm_replies w)
    /\ arxiv_replies w' = tail (arxiv_replies w).
Proof.
  intros Ha Hr Hp Hx. destruct a as [[text ks] s].
  destruct (build_query_unranked ks s 5) as [query Hq].
  unfold process_paragraph, keyword_table, summary_table.
  rewrite (bind_run_ok _ _ w w (VList (map VStr ks)))
    by (unfold lift; by rewrite (index_get_imap _ _ _ _ Ha)).
  rewrite (bind_run_ok _ _ w _ _ (rank_keywords_run para _ ranking w Hr)).
  rewrite Hp.
  set (w1 := answered _ w).
  rewrite (bind_run_ok _ _ w1 w1 (VStr s))
    by (unfold lift; by rewrite (index_get_imap _ _ _ _ Ha)).
  rewrite (bind_run_ok _ _ w1 w1 query) by (unfold lift; by rewrite Hq).
  rewrite (bind_run_ok _ _ w1 _ _ (search_empty_run query 20 w1 Hx)).
  set (w2 := Build_world _ _ _ _ _).
  rewrite (bind_run_ok _ _ w2 w2 (VStr s))
    by (unfold lift; by rewrite (index_get_imap _ _ _ _ Ha)).
  assert (heap w2 !! length (heap w1) = Some (OList [])) as Hfound.
  { unfold w2. simpl. by rewrite list_lookup_middle. }
  rewrite (bind_run_ok _ _ w2 _ _
             (RankerFacts.rank_empty w2 _ (VStr s) top_k Hfound)).
  rewrite (bind_run_ok _ _ _ _ []
             (load_list_run (length (heap w2)) [] _ w2
                ltac:(by rewrite list_lookup_middle))).
  eexists. split; [reflexivity|]. split; reflexivity.
Qed.

(** The loop over the paragraphs, in that scenario. *)
Lemma loop_no_papers (top_k : Z) (citation_style : value)
    (answers : list (str * list str * str)) (paras : list str) :
  forall (idx : nat) (acc : list paragraph_result) (rankings : list str)
         (llm_rest : list (result str))
         (arxiv_rest : list (result (list entry))) (w : world),
    (idx + length paras <= length answers)%nat ->
    length rankings = length paras ->
    Forall (fun t => parsed_ranking t = None) rankings ->
    llm_replies w = map Ok rankings ++ llm_rest ->
    arxiv_replies w = replicate (length paras) (Ok []) ++ arxiv_rest ->
    exists w',
      for_each (process_paragraph top_k citation_style (keyword_table answers)
                                  (summary_table answers))
               idx paras acc w
      = (Ok (acc ++ map empty_entry paras), w').
Proof.
  induction paras as [|para paras IH];
    intros idx acc rankings llm_rest arxiv_rest w Hidx Hlen Hall Hl Hx.
  - exists w. simpl. by rewrite app_nil_r.
  - destruct rankings as [|ranking rankings]; [discriminate|].
    inversion Hall as [|? ? Hp Hall']; subst.
    simpl in Hidx, Hl, Hx.
    destruct (lookup_lt_is_Some_2 answers idx ltac:(lia)) as [a Ha].
    destruct (process_paragraph_no_papers top_k citation_style answers idx
                para acc a ranking w Ha ltac:(by rewrite Hl) Hp
                ltac:(by rewrite Hx))
      as (w1 & Hrun & Hl1 & Hx1).
    rewrite Hl in Hl1. rewrite Hx in Hx1. simpl in Hl1, Hx1.
    destruct (IH (S idx) (acc ++ [empty_entry para]) rankings llm_rest
                 arxiv_rest w1 ltac:(lia) ltac:(simpl in Hlen; lia) Hall'
                 Hl1 Hx1)
      as (w' & Hrest).
    exists w'. cbn [for_each].
    rewrite (bind_run_ok _ _ w _ _ Hrun), Hrest.
    by rewrite <- app_assoc.
Qed.

Lemma all_empty_keyword_table (answers : list (str * list str * str)) :
  Exists (fun a => snd (fst a) <> []) answers ->
  all_empty (map snd (keyword_table answers)) = Ok false.
Proof.
  unfold keyword_table.
  rewrite (imap_values (fun a => VList (map VStr (snd (fst a))))).
  induction 1 as [[[text ks] s] answers Hks | [[text ks] s] answers _ IH];
    simpl in *.
  - by destruct ks.
  - destruct ks; [exact IH | done].
Qed.

(** X13. A run in which the extraction is answered in the expected shape,
    with one keyword at least, no ranking is usable and every search comes
    back empty returns: one entry per cleaned paragraph, in their order,
    each without papers. *)
Theorem pipeline_run_no_papers (file_path doc_type : str) (top_k : Z)
    (export_type citation_style : value) (paragraphs : list str)
    (answers : list (str * list str * str)) (rankings : list str)
    (llm_rest : list (result str)) (arxiv_rest : list (result (list entry)))
    (w : world) :
  extract_paragraphs file_path doc_type = Ok paragraphs ->
  ParagraphCleaner.clean 10 paragraphs <> [] ->
  length answers = length (ParagraphCleaner.clean 10 paragraphs) ->
  Forall extraction_of answers ->
  Exists (fun a => snd (fst a) <> []) answers ->
  length rankings = length (ParagraphCleaner.clean 10 paragraphs) ->
  Forall (fun t => parsed_ranking t = None) rankings ->
  llm_replies w
  = map (fun a => Ok (fst (fst a))) answers ++ map Ok rankings ++ llm_rest ->
  arxiv_replies w
  = replicate (length (ParagraphCleaner.clean 10 paragraphs)) (Ok [])
    ++ arxiv_rest ->
  truthy export_type = false ->
  fst (pipeline_run file_path doc_type top_k export_type citation_style w)
  = Ok {| results := map empty_entry (ParagraphCleaner.clean 10 paragraphs);
          export := ExportNone |}.
Proof.
  intros Hdoc Hne Hlen Hall Hex Hlen' Hall' Hl Hx Hexp.
  unfold pipeline_run.
  set (style := match citation_style with VDict _ => _ | _ => _ end).
  assert (exists st, style = Ok st) as [st Hst].
  { unfold style. destruct citation_style; simpl; eauto. }
  rewrite (bind_run_ok _ _ w w st) by (unfold lift; by rewrite Hst).
  rewrite (bind_run_ok _ _ w w paragraphs) by (unfold lift; by rewrite Hdoc).
  destruct paragraphs as [|p0 paragraphs]; [done|].
  cbv zeta.
  remember (ParagraphCleaner.clean 10 (p0 :: paragraphs)) as cleaned eqn:Ec.
  clear Ec. destruct cleaned as [|c0 cleaned]; [done|].
  destruct (extract_loop_run (c0 :: cleaned) [] answers
              (map Ok rankings ++ llm_rest) w Hlen Hall Hl)
    as (w1 & Hrun & Hl1 & Hx1).
  unfold LLMClient.extract_keywords_and_summary.
  rewrite (bind_run_ok _ _ w _ _ Hrun). simpl app. cbn [fst snd default].
  unfold id.
  assert (match keyword_table answers with
          | [] => Ok true
          | _ :: _ => all_empty (map snd (keyword_table answers))
          end = Ok false) as Hkw.
  { rewrite <- (all_empty_keyword_table answers Hex).
    by destruct answers. }
  rewrite (bind_run_ok _ _ w1 w1 false) by (unfold lift; by rewrite Hkw).
  destruct (loop_no_papers top_k st answers (c0 :: cleaned) 0 [] rankings
              llm_rest arxiv_rest w1 ltac:(lia) Hlen' Hall' Hl1
              ltac:(by rewrite Hx1))
    as (w2 & Hloop).
  rewrite (bind_run_ok _ _ w1 _ _ Hloop).
  unfold export_of. rewrite Hexp. reflexivity.
Qed.

End Facts.
End ScenarioFacts.

(* ===================================================================== *)
(** * More facts about strings                                            *)
(* ===================================================================== *)

Module StrFacts.

Lemma drop_space_idem (s : str) : drop_space (drop_space s) = drop_space s.
Proof.
  induction s as [|c s IH]; [done|]. simpl.
  destruct (isspace c) eqn:Ec; [done|]. simpl. by rewrite Ec.
Qed.

Lemma drop_space_spaces (pre s : str) :
  Forall (fun c => isspace c = true) pre ->
  drop_space (pre ++ s) = drop_space s.
Proof.
  induction 1 as [|c pre Hc _ IH]; [done|]. simpl. by rewrite Hc.
Qed.

Lemma drop_space_suffix (s : str) :
  exists pre, s = pre ++ drop_space s /\ Forall (fun c => isspace c = true) pre.
Proof.
  induction s as [|c s (pre & IH & Hpre)]; [by exists []|]. simpl.
  destruct (isspace c) eqn:Ec.
  - exists (c :: pre). split; [simpl; by rewrite <- IH | by constructor].
  - by exists [].
Qed.

Lemma drop_space_keep (s : str) :
  (forall c r, s = c :: r -> isspace c = false) -> drop_space s = s.
Proof.
  destruct s as [|c r]; [done|]. intros Hc. simpl.
  by rewrite (Hc c r eq_refl).
Qed.

Lemma drop_space_nil (s : str) :
  Forall (fun c => isspace c = true) s -> drop_space s = [].
Proof. induction 1 as [|c s Hc _ IH]; [done|]. simpl. by rewrite Hc. Qed.

Lemma strip_trimmed (s : str) : trimmed s -> strip s = s.
Proof.
  intros [Hl Hr]. unfold strip. by rewrite Hl, Hr, rev_involutive.
Qed.

Lemma trimmed_strip (s : str) : trimmed (strip s).
Proof.
  unfold trimmed, strip. rewrite rev_involutive.
  split; [|apply drop_space_idem].
  destruct (drop_space_suffix (rev (drop_space s))) as (pre & E & _).
  set (u := drop_space (rev (drop_space s))) in *.
  apply drop_space_keep. intros c r Hu.
  assert (drop_space s = rev u ++ rev pre) as Ed.
  { by rewrite <- rev_app_distr, <- E, rev_involutive. }
  rewrite Hu in Ed. simpl in Ed.
  by apply (FallbackFacts.drop_space_head s (r ++ rev pre)).
Qed.

Lemma strip_idem (s : str) : strip (strip s) = strip s.
Proof. apply strip_trimmed, trimmed_strip. Qed.

(** [strip] cuts white space off both ends and nothing else. *)
Lemma strip_infix (s : str) :
  exists pre post,
    s = pre ++ strip s ++ post
    /\ Forall (fun c => isspace c = true) pre
    /\ Forall (fun c => isspace c = true) post.
Proof.
  destruct (drop_space_suffix s) as (pre & E1 & Hpre).
  destruct (drop_space_suffix (rev (drop_space s))) as (post & E2 & Hpost).
  exists pre, (rev post). split; [|split; [done|]].
  - unfold strip. rewrite <- rev_app_distr, <- E2, rev_involutive. exact E1.
  - apply Forall_forall. intros c Hc. rewrite Forall_forall in Hpost.
    apply Hpost. apply list_elem_of_In. apply list_elem_of_In in Hc.
    by apply in_rev.
Qed.

Lemma strip_spaces (pre s post : str) :
  Forall (fun c => isspace c = true) pre ->
  Forall (fun c => isspace c = true) post ->
  strip (pre ++ s ++ post) = strip s.
Proof.
  intros Hpre Hpost. unfold strip. rewrite drop_space_spaces by done.
  destruct (drop_space_suffix s) as (a & E & Ha).
  destruct (decide (drop_space s = [])) as [Hn|Hn].
  - assert (drop_space (s ++ post) = []) as ->.
    { rewrite E, <- app_assoc, drop_space_spaces by done.
      rewrite Hn. simpl. by apply drop_space_nil. }
    by rewrite Hn.
  - assert (drop_space (s ++ post) = drop_space s ++ post) as ->.
    { rewrite E at 1. rewrite <- app_assoc, drop_space_spaces by done.
      destruct (drop_space s) as [|c r] eqn:Ed; [done|].
      simpl. by rewrite (FallbackFacts.drop_space_head s r c Ed). }
    rewrite rev_app_distr, drop_space_spaces; [done|].
    apply Forall_forall. intros c Hc. rewrite Forall_forall in Hpost.
    apply Hpost. apply list_elem_of_In. apply list_elem_of_In in Hc.
    by apply in_rev.
Qed.

Lemma elem_of_strip (s : str) (c : char) :
  c ∈ s -> isspace c = false -> c ∈ strip s.
Proof.
  intros Hc Hsp. destruct (strip_infix s) as (pre & post & E & Hpre & Hpost).
  rewrite E in Hc. rewrite !elem_of_app in Hc.
  rewrite Forall_forall in Hpre, Hpost.
  destruct Hc as [Hc|[Hc|Hc]]; [|done|].
  - apply Hpre in Hc. congruence.
  - apply Hpost in Hc. congruence.
Qed.

Lemma strip_nil (s : str) :
  Forall (fun c => isspace c = true) s -> strip s = [].
Proof. intros Hs. unfold strip. by rewrite (drop_space_nil s Hs). Qed.

End StrFacts.

(* ===================================================================== *)
(** * The cleaner: tags and white space                                   *)
(* ===================================================================== *)

Module NormaliseFacts.
Import ParagraphCleaner PyFacts StrFacts.

Lemma split_from_words (s cur : str) :
  forallb (fun c => negb (isspace c)) cur = true ->
  forallb is_word (split_from cur s) = true.
Proof.
  assert (forall cur : str,
            cur <> [] -> forallb (fun c => negb (isspace c)) cur = true ->
            is_word (rev cur) = true) as Hrev.
  { intros cur' Hne Hc. unfold is_word.
    destruct (rev cur') eqn:E; [by apply rev_not_nil in Hne|].
    rewrite <- E. apply forallb_forall. intros x Hx.
    rewrite forallb_forall in Hc. apply Hc. by apply in_rev. }
  revert cur. induction s as [|c s IH]; intros cur Hcur; cbn [split_from].
  - destruct cur as [|x cur]; [done|]. cbn [forallb].
    by rewrite (Hrev (x :: cur)).
  - destruct (isspace c) eqn:Ec.
    + destruct cur as [|x cur]; [by apply IH|].
      cbn [forallb]. rewrite (Hrev (x :: cur)) by done. by apply IH.
    + apply IH. simpl. by rewrite Ec.
Qed.

Lemma split_words (s : str) : forallb is_word (split s) = true.
Proof. by apply split_from_words. Qed.

Lemma join_cons2 (sep x y : str) (l : list str) :
  join sep (x :: y :: l) = x ++ sep ++ join sep (y :: l).
Proof. reflexivity. Qed.

Lemma join_words_nonempty (ws : list str) :
  ws <> [] -> forallb is_word ws = true -> join (py " ") ws <> [].
Proof.
  destruct ws as [|w ws]; [done|]. intros _ Hw. simpl in Hw.
  apply andb_true_iff in Hw as [Hw _]. destruct w as [|c w]; [done|].
  by destruct ws.
Qed.

(** The words joined by one space have no white space at either end. *)
Lemma trimmed_join_words (ws : list str) :
  forallb is_word ws = true -> trimmed (join (py " ") ws).
Proof.
  intros Hws. split.
  - apply drop_space_keep. intros c r E.
    destruct ws as [|w ws]; [done|]. simpl in Hws.
    apply andb_true_iff in Hws as [Hw _].
    destruct w as [|c' w]; [done|].
    assert (c = c') as ->.
    { destruct ws; [by injection E | rewrite join_cons2 in E; by injection E]. }
    simpl in Hw. apply andb_true_iff in Hw as [Hc _].
    by apply negb_true_iff in Hc.
  - apply drop_space_keep. intros c r E.
    assert (join (py " ") ws = rev r ++ [c]) as E'.
    { by rewrite <- (rev_involutive (join _ ws)), E. }
    clear E. revert r E'. induction ws as [|w ws IH]; intros r E.
    + by destruct (rev r).
    + simpl in Hws. apply andb_true_iff in Hws as [Hw Hws].
      destruct ws as [|w2 ws].
      * simpl in E. apply is_word_chars in Hw as [_ Hw].
        rewrite forallb_forall in Hw.
        assert (In c w) as Hc by (rewrite E; apply in_app_iff; right; by left).
        apply Hw in Hc. by apply negb_true_iff in Hc.
      * rewrite join_cons2 in E.
        destruct (exists_last (join_words_nonempty (w2 :: ws) ltac:(done) Hws))
          as (r' & c' & E').
        rewrite E', !app_assoc in E. apply app_inj_tail in E as [_ <-].
        apply (IH Hws (rev r')). by rewrite rev_involutive.
Qed.

(** What [re.sub(r'\s+', ' ', text)] makes of a text, from the three
    states of the scan: inside a word, after a space, at the start. *)
Lemma collapse_words (s : str) :
  (forall cur, cur <> [] ->
     exists trail,
       rev cur ++ collapse_from false s
       = join (py " ") (split_from cur s) ++ trail
       /\ Forall (fun c => isspace c = true) trail)
  /\ (exists trail,
        collapse_from true s = join (py " ") (split_from [] s) ++ trail
        /\ Forall (fun c => isspace c = true) trail).
Proof.
  induction s as [|c s [IH1 IH2]].
  - split.
    + intros cur Hcur. exists []. destruct cur; [done|].
      simpl. by rewrite !app_nil_r.
    + by exists [].
  - simpl. destruct (isspace c) eqn:Ec.
    + split; [|exact IH2]. intros cur Hcur.
      destruct IH2 as (trail & E & Htrail). destruct cur as [|x cur]; [done|].
      destruct (split_from [] s) as [|w ws] eqn:Ews.
      * exists (32%N :: trail). rewrite E. split; [done|].
        by constructor.
      * exists trail. rewrite E, join_cons2, <- !app_assoc.
        split; [done | exact Htrail].
    + split.
      * intros cur Hcur. destruct (IH1 (c :: cur) ltac:(done)) as (trail & E & Ht).
        exists trail. split; [|done]. rewrite <- E. simpl.
        by rewrite <- app_assoc.
      * destruct (IH1 [c] ltac:(done)) as (trail & E & Ht).
        exists trail. split; [|done]. by rewrite <- E.
Qed.

Lemma collapse_spaces_words (s : str) :
  exists lead trail,
    collapse_spaces s = lead ++ join (py " ") (split s) ++ trail
    /\ Forall (fun c => isspace c = true) lead
    /\ Forall (fun c => isspace c = true) trail.
Proof.
  unfold collapse_spaces, split. destruct s as [|c s]; [by exists [], []|].
  simpl. destruct (collapse_words s) as [H1 H2]. destruct (isspace c) eqn:Ec.
  - destruct H2 as (trail & E & Ht). exists [32%N], trail.
    rewrite E. split; [done|]. split; [by repeat constructor | done].
  - destruct (H1 [c] ltac:(done)) as (trail & E & Ht).
    exists [], trail. split; [|done]. by rewrite <- E.
Qed.

Lemma remove_tags_from_drop (k : nat) (text : str) :
  remove_tags_from k text = remove_tags_from 0 (drop k text).
Proof.
  revert text. induction k as [|k IH]; intros text; [done|].
  destruct text as [|c r]; [done|]. simpl. apply IH.
Qed.

Lemma tag_end_le (s : str) (n : nat) : tag_end s = Some n -> (n <= length s)%nat.
Proof.
  revert n. induction s as [|c s IH]; intros n; simpl; [done|].
  destruct (c =? 62)%N; [intros [= <-]; lia|].
  destruct (c =? 10)%N; [done|].
  destruct (tag_end s) as [m|]; [|done]. intros [= <-].
  specialize (IH m eq_refl). lia.
Qed.

(** A line without [>] stays one when its tags are removed. *)
Lemma tag_end_remove_tags (s : str) :
  tag_end s = None -> tag_end (remove_tags_from 0 s) = None.
Proof.
  induction s as [|c s IH]; [done|]. simpl.
  destruct (c =? 62)%N eqn:E62; [done|].
  destruct (c =? 10)%N eqn:E10.
  - intros _. destruct (c =? 60)%N eqn:E60.
    + apply N.eqb_eq in E10, E60. congruence.
    + simpl. by rewrite E62, E10.
  - destruct (tag_end s) as [n|] eqn:Et; [done|]. intros _.
    destruct (c =? 60)%N; simpl; by rewrite E62, E10, IH.
Qed.

Lemma remove_tags_idem_le (n : nat) (s : str) :
  (length s <= n)%nat ->
  remove_tags_from 0 (remove_tags_from 0 s) = remove_tags_from 0 s.
Proof.
  revert s. induction n as [|n IH]; intros s Hn.
  - by destruct s; [|simpl in Hn; lia].
  - destruct s as [|c s]; [done|]. simpl in Hn. simpl.
    destruct (c =? 60)%N eqn:E60.
    + destruct (tag_end s) as [k|] eqn:Et.
      * rewrite (remove_tags_from_drop k s). apply IH. rewrite length_drop. lia.
      * simpl. rewrite E60, (tag_end_remove_tags s Et).
        f_equal. apply IH. lia.
    + simpl. rewrite E60. f_equal. apply IH. lia.
Qed.

Lemma remove_tags_sublist_le (n : nat) (s : str) :
  (length s <= n)%nat -> remove_tags_from 0 s `sublist_of` s.
Proof.
  revert s. induction n as [|n IH]; intros s Hn.
  - by destruct s; [|simpl in Hn; lia].
  - destruct s as [|c s]; [done|]. simpl in Hn. simpl.
    assert (remove_tags_from 0 s `sublist_of` s) as Hs by (apply IH; lia).
    destruct (c =? 60)%N; [|by apply sublist_skip].
    destruct (tag_end s) as [k|]; [|by apply sublist_skip].
    rewrite (remove_tags_from_drop k s). apply sublist_cons.
    transitivity (drop k s); [apply IH; rewrite length_drop; lia|].
    apply sublist_drop.
Qed.

Lemma remove_tags_plain (s : str) :
  60%N ∉ s -> remove_tags_from 0 s = s.
Proof.
  induction s as [|c s IH]; [done|]. intros Hs. simpl.
  apply not_elem_of_cons in Hs as [Hc Hs].
  destruct (c =? 60)%N eqn:E; [apply N.eqb_eq in E; congruence|].
  by rewrite IH.
Qed.

End NormaliseFacts.

(* ===================================================================== *)
(** * The answers of the endpoint: code fences                            *)
(* ===================================================================== *)

Module FenceFacts.
Import StrFacts.

Lemma fence_len_first (a : char) (t : str) :
  (a =? backtick)%N = false -> fence_len (a :: t) = None.
Proof. intros Ha. destruct t as [|b [|c r]]; simpl; by rewrite ?Ha. Qed.

Lemma fence_len_second (a b : char) (t : str) :
  (b =? backtick)%N = false -> fence_len (a :: b :: t) = None.
Proof.
  intros Hb. destruct t as [|c r]; simpl; [done|].
  by rewrite Hb, andb_false_r.
Qed.

Lemma fence_len_third (a b c : char) (t : str) :
  (c =? backtick)%N = false -> fence_len (a :: b :: c :: t) = None.
Proof. intros Hc. simpl. by rewrite Hc, andb_false_r. Qed.

Lemma fence_len_fence (post : str) : fence_len (fence ++ post) <> None.
Proof.
  destruct post as [|j [|s [|o [|n post]]]]; simpl; try done.
  by destruct (_ && _ && _ && _).
Qed.

Lemma fence_len_some (s : str) (n : nat) :
  fence_len s = Some n -> exists post, s = fence ++ post.
Proof.
  destruct s as [|a [|b [|c r]]]; try done.
  cbn [fence_len].
  destruct (a =? backtick)%N eqn:Ea; [|done].
  destruct (b =? backtick)%N eqn:Eb; [|done].
  destruct (c =? backtick)%N eqn:Ec; [|done].
  intros _. apply N.eqb_eq in Ea, Eb, Ec. subst. by exists r.
Qed.

Lemma fence_len_pos (s : str) : fence_len s <> Some O.
Proof.
  destruct s as [|a [|b [|c r]]]; try done. cbn [fence_len].
  destruct (_ && _ && _); [|done].
  destruct r as [|j [|s [|o [|n post]]]]; try done.
  by destruct (_ && _ && _ && _).
Qed.

Lemma remove_fences_cons (c : char) (r : str) :
  fence_len (c :: r) = None ->
  remove_fences_from 0 (c :: r) = c :: remove_fences_from 0 r.
Proof. intros E. cbn [remove_fences_from]. by rewrite E. Qed.

(** Where no fence starts in the text, none starts in the result. *)
Lemma fence_len_remove_fences (s : str) :
  fence_len s = None -> fence_len (remove_fences_from 0 s) = None.
Proof.
  intros E. destruct s as [|a r]; [done|].
  rewrite remove_fences_cons by done.
  destruct (a =? backtick)%N eqn:Ea; [|by apply fence_len_first].
  destruct r as [|b r]; [done|].
  destruct (b =? backtick)%N eqn:Eb.
  - destruct r as [|c r].
    + by rewrite remove_fences_cons.
    + destruct (c =? backtick)%N eqn:Ec.
      * apply N.eqb_eq in Ea, Eb, Ec. subst.
        by apply (fence_len_fence r) in E.
      * rewrite remove_fences_cons by (by apply fence_len_second).
        rewrite remove_fences_cons by (by apply fence_len_first).
        by apply fence_len_third.
  - rewrite remove_fences_cons by (by apply fence_len_first).
    by apply fence_len_second.
Qed.

Lemma remove_fences_from_drop (k : nat) (text : str) :
  remove_fences_from k text = remove_fences_from 0 (drop k text).
Proof.
  revert text. induction k as [|k IH]; intros text; [done|].
  destruct text as [|c r]; [done|]. simpl. apply IH.
Qed.

Lemma remove_fences_free_le (n : nat) (s : str) :
  (length s <= n)%nat -> ~ occurs_in fence (remove_fences_from 0 s).
Proof.
  revert s. induction n as [|n IH]; intros s Hn.
  - destruct s; [|simpl in Hn; lia]. intros (pre & post & E).
    by destruct pre.
  - destruct s as [|c s].
    { intros (pre & post & E). by destruct pre. }
    simpl in Hn. destruct (fence_len (c :: s)) as [k|] eqn:Ef.
    + destruct k as [|k]; [by apply fence_len_pos in Ef|].
      cbn [remove_fences_from]. rewrite Ef.
      rewrite remove_fences_from_drop. apply IH. rewrite length_drop. lia.
    + pose proof (fence_len_remove_fences _ Ef) as Hh.
      rewrite remove_fences_cons in * by done.
      intros (pre & post & E). destruct pre as [|p pre].
      * simpl in E. rewrite E in Hh. by apply (fence_len_fence post).
      * injection E as _ E. apply (IH s ltac:(lia)). by exists pre, post.
Qed.

Lemma remove_fences_plain (s : str) :
  ~ occurs_in fence s -> remove_fences_from 0 s = s.
Proof.
  induction s as [|c s IH]; [done|]. intros Hs.
  destruct (fence_len (c :: s)) as [k|] eqn:Ef.
  - destruct (fence_len_some _ _ Ef) as [post E].
    exfalso. apply Hs. by exists [], post.
  - rewrite remove_fences_cons by done. f_equal. apply IH.
    intros (pre & post & E). apply Hs. exists (c :: pre), post.
    by rewrite E.
Qed.

End FenceFacts.

(* ===================================================================== *)
(** * The citation formatter: the other cases                             *)
(* ===================================================================== *)

Module FormatterMore.
Import CitationFormatter PyFacts FormatterFacts NormaliseFacts.

Lemma split_from_blank (s : str) : blank s = true -> split_from [] s = [].
Proof.
  induction s as [|c s IH]; [done|]. simpl. intros Hs.
  apply andb_true_iff in Hs as [Hc Hs]. rewrite Hc. by apply IH.
Qed.

Lemma split_from_not_blank (s cur : str) :
  blank s = false -> split_from cur s <> [].
Proof.
  intros Hs. apply FallbackFacts.split_from_nonempty. right.
  induction s as [|c s IH]; [done|]. simpl in Hs.
  destruct (isspace c) eqn:Ec.
  - destruct (IH Hs) as (x & Hx & Hsp). exists x. split; [by right | done].
  - exists c. split; [by left | done].
Qed.

Lemma last_initial_words (a : list str) :
  a <> [] -> forallb is_word a = true -> exists s, last_initial a = Ok s.
Proof.
  intros Hne Ha. unfold last_initial, final.
  destruct a as [|w a]; [done|].
  destruct (last (w :: a)) as [l|] eqn:El; [|by apply last_None in El].
  simpl in Ha. apply andb_true_iff in Ha as [Hw _].
  destruct w as [|c w]; [done|]. simpl. eauto.
Qed.

Lemma last_initial_split (s : str) :
  (blank s = true /\ last_initial (split s) = Raise IndexError)
  \/ (blank s = false /\ exists r, last_initial (split s) = Ok r).
Proof.
  destruct (blank s) eqn:Es.
  - left. split; [done|]. unfold split. by rewrite split_from_blank.
  - right. split; [done|]. apply last_initial_words; [|apply split_words].
    by apply split_from_not_blank.
Qed.

Section Facts.
Context `{Library}.

Lemma apa_initials_name (t : list str) :
  forallb is_word t = true ->
  apa_initials t
  = Ok (join (py " ") (map (fun p => take 1 p ++ py ".") (slice_to (-1) t))).
Proof.
  intros Ht. unfold apa_initials.
  rewrite <- (map_id (slice_to (-1) t)) at 1.
  rewrite (mapM_map_ok _ id (fun p => take 1 p ++ py ".")); [done|].
  intros p Hp. unfold id.
  assert (p ∈ t) as Hpt.
  { by apply (RankerFacts.elem_of_slice_to (-1)). }
  rewrite forallb_forall in Ht. apply list_elem_of_In, Ht in Hpt.
  by destruct p.
Qed.

Lemma final_name (t : list str) :
  t <> [] -> final t = Ok (default [] (last t)).
Proof.
  intros Ht. unfold final.
  destruct (last t) eqn:E; [done | by apply last_None in E].
Qed.

Lemma is_name_words (t : list str) :
  is_name t = true -> t <> [] /\ forallb is_word t = true.
Proof. by destruct t. Qed.

Lemma format_reads (d d' : dict) :
  d !! py "authors" = d' !! py "authors" ->
  d !! py "year" = d' !! py "year" ->
  d !! py "title" = d' !! py "title" ->
  d !! py "link" = d' !! py "link" ->
  authors_of d = authors_of d' /\ year_of d = year_of d'
  /\ title_of d = title_of d' /\ link_of d = link_of d'.
Proof.
  intros Ha Hy Ht Hl. unfold authors_of, year_of, title_of, link_of, dict_get.
  by rewrite Ha, Hy, Ht, Hl.
Qed.

Lemma format_agree (d d' : dict) (style : value) :
  d !! py "authors" = d' !! py "authors" ->
  d !! py "year" = d' !! py "year" ->
  d !! py "title" = d' !! py "title" ->
  d !! py "link" = d' !! py "link" ->
  format d style = format d' style.
Proof.
  intros Ha Hy Ht Hl.
  destruct (format_reads d d' Ha Hy Ht Hl) as (Ea & Ey & Et & El).
  unfold format, harvard, apa, mla, chicago, bibtex.
  by rewrite Ea, Ey, Et, El.
Qed.

End Facts.
End FormatterMore.

Module FormatterSpec.
Import CitationFormatter PyFacts FormatterFacts FormatterMore.
Section Spec.
Context `{Library}.

(** X1. The author string of the Harvard and Chicago
    styles: empty for no author, "Last, F." for one, "Last1, F1. and
    Last2, F2." for two, and "Last1, F1. et al." for four or more, where
    only the first author is read, whatever the others are. *)
Theorem format_authors_cases (t1 t2 : list str) (x2 x3 x4 : value)
    (rest : list value) :
  is_name t1 = true -> is_name t2 = true ->
  _format_authors [] = Ok []
  /\ _format_authors [full_name t1] = Ok (last_f t1 ++ py ".")
  /\ _format_authors [full_name t1; full_name t2]
     = Ok (last_f t1 ++ py ". and " ++ last_f t2 ++ py ".")
  /\ _format_authors (full_name t1 :: x2 :: x3 :: x4 :: rest)
     = Ok (last_f t1 ++ py ". et al.").
Proof.
  intros H1 H2. split; [reflexivity|].
  split; [by apply format_authors_one|].
  split; [by apply format_authors_two | by apply format_authors_many].
Qed.

(** X2. With one, two or three authors, all of them
    strings, an author that is empty or made of white space only makes
    the formatter raise [IndexError]. *)
Theorem format_authors_blank (ss : list str) :
  (1 <= length ss <= 3)%nat ->
  Exists (fun s => blank s = true) ss ->
  _format_authors (map VStr ss) = Raise IndexError.
Proof.
  intros Hn Hb.
  destruct ss as [|s1 [|s2 [|s3 [|s4 ss]]]]; simpl in Hn; try lia;
    rewrite ?Exists_cons, Exists_nil in Hb; cbn [map _format_authors split_of];
    cbn [mbind result_bind Py.bind].
  - destruct (last_initial_split s1) as [[_ ->]|[E _]]; [done|].
    destruct Hb as [Hb|[]]. congruence.
  - destruct (last_initial_split s1) as [[_ ->]|[E1 [r1 ->]]]; [done|].
    destruct (last_initial_split s2) as [[_ ->]|[E2 _]]; [done|].
    destruct Hb as [Hb|[Hb|[]]]; congruence.
  - destruct (last_initial_split s1) as [[_ ->]|[E1 [r1 ->]]]; [done|].
    destruct (last_initial_split s2) as [[_ ->]|[E2 [r2 ->]]]; [done|].
    destruct (last_initial_split s3) as [[_ ->]|[E3 _]]; [done|].
    destruct Hb as [Hb|[Hb|[Hb|[]]]]; congruence.
Qed.

(** X3. The author string of the APA style lists the first
    seven authors as "Last, F. M.", joined by ", & ", and adds "et al."
    when there are more than seven; it is empty for no author. *)
Theorem format_authors_apa_names (names : list (list str)) :
  Forall (fun t => is_name t = true) names ->
  _format_authors_apa (map full_name names)
  = Ok (join (py ", & ")
             (map apa_name (take 7 names)
              ++ (if (7 <? length names)%nat then [py "et al."] else []))).
Proof.
  intros Hn. destruct names as [|t names]; [done|].
  unfold _format_authors_apa. cbn [map].
  change (full_name t :: map full_name names) with (map full_name (t :: names)).
  rewrite QueryFacts.slice_to_map, length_map.
  rewrite (mapM_map_ok _ full_name apa_name).
  - cbn [mbind result_bind Py.bind].
    change (slice_to 7 (t :: names)) with (take 7 (t :: names)).
    destruct (7 <? length (t :: names))%nat; [done|].
    by rewrite app_nil_r.
  - intros x Hx. apply (RankerFacts.elem_of_slice_to 7) in Hx.
    rewrite Forall_forall in Hn. specialize (Hn x Hx).
    rewrite split_full_name by done.
    apply is_name_words in Hn as [Hne Hw].
    cbn [mbind result_bind Py.bind].
    by rewrite final_name, apa_initials_name.
Qed.

(** X4. The author string of the MLA style lists every
    author as "Last, First Middle", joined by ", "; it is empty for no
    author. *)
Theorem format_authors_mla_names (names : list (list str)) :
  Forall (fun t => is_name t = true) names ->
  _format_authors_mla (map full_name names)
  = Ok (join (py ", ") (map mla_name names)).
Proof.
  intros Hn. destruct names as [|t names]; [done|].
  unfold _format_authors_mla. cbn [map].
  change (full_name t :: map full_name names) with (map full_name (t :: names)).
  rewrite (mapM_map_ok _ full_name mla_name).
  - reflexivity.
  - intros x Hx. rewrite Forall_forall in Hn. specialize (Hn x Hx).
    rewrite split_full_name by done.
    apply is_name_words in Hn as [Hne Hw].
    cbn [mbind result_bind Py.bind].
    by rewrite final_name.
Qed.

(** X5. A citation depends on four fields of the paper
    only (and on the clock): two papers with the same authors, year, title
    and link, present or absent alike, are rendered alike in every
    style. *)
Theorem format_reads_four_keys (d d' : dict) (style : value) :
  d !! py "authors" = d' !! py "authors" ->
  d !! py "year" = d' !! py "year" ->
  d !! py "title" = d' !! py "title" ->
  d !! py "link" = d' !! py "link" ->
  format d style = format d' style.
Proof.
  intros Ha Hy Ht Hl.
  destruct (format_reads d d' Ha Hy Ht Hl) as (Ea & Ey & Et & El).
  unfold format, harvard, apa, mla, chicago, bibtex.
  by rewrite Ea, Ey, Et, El.
Qed.

End Spec.

Lemma format_authors_cases_witness :
  (is_name lovelace = true /\ is_name turing = true)
  /\ _format_authors [full_name lovelace; full_name turing]
     = Ok (py "Lovelace, A. and Turing, A.")
  /\ _format_authors [full_name lovelace; VNone; VNone; VNone]
     = Ok (py "Lovelace, A. et al.").
Proof.
  split; [by split|].
  pose proof (format_authors_cases lovelace turing VNone VNone VNone []
                eq_refl eq_refl) as (_ & _ & H2 & H4).
  split; [exact H2 | exact H4].
Defined.

Lemma format_authors_blank_witness :
  ((1 <= length [py "Ada Lovelace"; py "  "] <= 3)%nat
   /\ Exists (fun s => blank s = true) [py "Ada Lovelace"; py "  "])
  /\ _format_authors [VStr (py "Ada Lovelace"); VStr (py "  ")]
     = Raise IndexError.
Proof.
  assert (Exists (fun s => blank s = true) [py "Ada Lovelace"; py "  "]) as Hb.
  { right. left. reflexivity. }
  split; [split; [simpl; lia | exact Hb]|].
  apply (format_authors_blank [py "Ada Lovelace"; py "  "]);
    [simpl; lia | exact Hb].
Defined.

Lemma format_authors_apa_names_witness :
  Forall (fun t => is_name t = true) [turing; hopper]
  /\ _format_authors_apa [full_name turing; full_name hopper]
     = Ok (py "Turing, A. M., & Hopper, G.").
Proof.
  assert (Forall (fun t => is_name t = true) [turing; hopper]) as Hn.
  { by repeat constructor. }
  split; [exact Hn|].
  exact (format_authors_apa_names [turing; hopper] Hn).
Defined.

Lemma format_authors_mla_names_witness :
  Forall (fun t => is_name t = true) [turing; hopper]
  /\ _format_authors_mla [full_name turing; full_name hopper]
     = Ok (py "Turing, Alan Mathison, Hopper, Grace").
Proof.
  assert (Forall (fun t => is_name t = true) [turing; hopper]) as Hn.
  { by repeat constructor. }
  split; [exact Hn|].
  exact (format_authors_mla_names [turing; hopper] Hn).
Defined.

Lemma format_reads_four_keys_witness :
  sample_paper !! py "summary" <> paper_with_abstract (py "far") !! py "summary"
  /\ format sample_paper (VStr (py "apa"))
     = format (paper_with_abstract (py "far")) (VStr (py "apa")).
Proof.
  split; [vm_compute; discriminate|].
  apply (@format_reads_four_keys sample_lib); vm_compute; reflexivity.
Defined.

End FormatterSpec.

Module CleanerSpec.
Import ParagraphCleaner PyFacts StrFacts NormaliseFacts FenceFacts.

(** X6. Removing the tags is idempotent: no tag is left in
    the result. The result is a subsequence of the text, and a text
    without [<] is returned as it is. *)
Theorem remove_tags_idempotent (text : str) :
  remove_tags (remove_tags text) = remove_tags text
  /\ remove_tags text `sublist_of` text
  /\ (60%N ∉ text -> remove_tags text = text).
Proof.
  unfold remove_tags. split; [by apply (remove_tags_idem_le (length text))|].
  split; [by apply (remove_tags_sublist_le (length text))|].
  apply remove_tags_plain.
Qed.

(** X7. The text handed to the sentence segmenter is the
    words of the text without its tags, joined by single spaces: it has
    no white space at either end, and splitting it gives those words
    back. *)
Theorem normalise_words (text : str) :
  normalise text = join (py " ") (split (remove_tags text))
  /\ trimmed (normalise text)
  /\ split (normalise text) = split (remove_tags text).
Proof.
  assert (normalise text = join (py " ") (split (remove_tags text))) as E.
  { unfold normalise.
    destruct (collapse_spaces_words (remove_tags text))
      as (lead & trail & -> & Hl & Ht).
    rewrite strip_spaces by done.
    apply strip_trimmed, trimmed_join_words, split_words. }
  rewrite E. split; [done|].
  split; [apply trimmed_join_words, split_words|].
  apply split_join, split_words.
Qed.

(** X8. The cleaned answer of the endpoint holds no code
    fence and no white space at either end; an answer without a fence is
    only stripped. *)
Theorem clean_reply_no_fence (llm_text : str) :
  ~ occurs_in fence (clean_reply llm_text)
  /\ trimmed (clean_reply llm_text)
  /\ (~ occurs_in fence llm_text -> clean_reply llm_text = strip llm_text).
Proof.
  unfold clean_reply. split; [|split; [apply trimmed_strip|]].
  - intros (pre & post & E).
    destruct (strip_infix (remove_fences_from 0 llm_text))
      as (a & b & E' & _ & _).
    apply (remove_fences_free_le (length llm_text) llm_text); [done|].
    exists (a ++ pre), (post ++ b). rewrite E', E.
    by rewrite <- !app_assoc.
  - intros Hf. by rewrite remove_fences_plain.
Qed.

End CleanerSpec.

(* ===================================================================== *)
(** * The extraction of keywords and summaries                            *)
(* ===================================================================== *)

Module ExtractionSpec.
Import Pipeline MFacts HeapFacts PipelineFacts ScenarioFacts.

Lemma answered_all_replies (prompts : list str) (w : world) :
  llm_replies (answered_all prompts w) = drop (length prompts) (llm_replies w)
  /\ llm_prompts (answered_all prompts w) = rev prompts ++ llm_prompts w
  /\ arxiv_replies (answered_all prompts w) = arxiv_replies w
  /\ arxiv_queries (answered_all prompts w) = arxiv_queries w
  /\ heap (answered_all prompts w) = heap w.
Proof.
  revert w. induction prompts as [|p prompts IH]; intros w; [done|].
  unfold answered_all in *. cbn [fold_left].
  destruct (IH (answered p w)) as (-> & -> & -> & -> & ->). simpl.
  split.
  { destruct (llm_replies w) as [|r rs]; [|done]. simpl. by rewrite drop_nil. }
  split; [by rewrite <- app_assoc | done].
Qed.

Section Facts.
Context `{Library}.

(** One step of the extraction. *)
Lemma extract_one_recorded (para : str) (done : list (str * value * value))
    (text : str) (k s : value) (w : world) :
  head (llm_replies w) = Some (Ok text) ->
  recorded (text, k, s) ->
  LLMClient.extract_one true (length done) para
    (keywords_of done, Some (summaries_of done)) w
  = (Ok (keywords_of (done ++ [(text, k, s)]),
         Some (summaries_of (done ++ [(text, k, s)]))),
     answered (LLMClient.extract_prompt true para) w).
Proof.
  intros Hr Hrec. unfold recorded in Hrec.
  unfold LLMClient.extract_one, LLMClient.call.
  rewrite bind_run, bind_run. rewrite (post_answered _ text) by done.
  unfold keywords_of, summaries_of. simpl.
  destruct (json_loads (clean_reply (strip text))) as [data|].
  - destruct Hrec as [Hk Hs].
    unfold lift, ExtractKeyEle.record_parsed. rewrite Hk, Hs. simpl.
    rewrite !index_set_fresh by apply imap_keys_below.
    by rewrite !imap_snoc.
  - destruct Hrec as [-> ->]. simpl.
    rewrite !index_set_fresh by apply imap_keys_below.
    by rewrite !imap_snoc.
Qed.

Lemma extract_loop_recorded (paras : list str) :
  forall (done answers : list (str * value * value)) (w : world),
    length answers = length paras ->
    Forall recorded answers ->
    map Ok (map (fun a => fst (fst a)) answers)
      `prefix_of` llm_replies w ->
    for_each (LLMClient.extract_one true) (length done) paras
             (keywords_of done, Some (summaries_of done)) w
    = (Ok (keywords_of (done ++ answers),
           Some (summaries_of (done ++ answers))),
       answered_all (map (LLMClient.extract_prompt true) paras) w).
Proof.
  induction paras as [|para paras IH]; intros done answers w Hlen Hall Hw.
  - destruct answers; [|discriminate]. by rewrite app_nil_r.
  - destruct answers as [|[[text k] s] answers]; [discriminate|].
    inversion Hall as [|? ? Ha Hall']; subst.
    destruct Hw as [rest Hw]. simpl in Hw.
    cbn [for_each map].
    rewrite (bind_run_ok _ _ w _ _
               (extract_one_recorded para done text k s w
                  ltac:(by rewrite Hw) Ha)).
    replace (S (length done)) with (length (done ++ [(text, k, s)]))
      by (rewrite length_app; simpl; lia).
    rewrite (IH (done ++ [(text, k, s)]) answers).
    + by rewrite <- app_assoc.
    + simpl in Hlen. lia.
    + exact Hall'.
    + exists rest. simpl. by rewrite Hw.
Qed.

Lemma keywords_of_keys (answers : list (str * value * value)) :
  map fst (keywords_of answers) = seq 0 (length answers)
  /\ map fst (summaries_of answers) = seq 0 (length answers).
Proof.
  unfold keywords_of, summaries_of.
  split; apply list_eq; intros i;
    rewrite map_fmap, list_lookup_fmap, list_lookup_imap;
    destruct (answers !! i) as [a|] eqn:Ea; simpl.
  1,3: by rewrite lookup_seq_lt by (by apply lookup_lt_Some in Ea).
  1,2: by rewrite lookup_seq_ge by (by apply lookup_ge_None in Ea).
Qed.

End Facts.
End ExtractionSpec.

Module ExtractionTheorems.
Import Pipeline MFacts HeapFacts PipelineFacts ScenarioFacts ExtractionSpec.
Section Spec.
Context `{Library}.

(** X9. The extraction sends one request per
    paragraph, in order, and records for each paragraph what its answer
    holds: the keywords and the summary of a JSON object (an empty list
    and [None] where the object lacks them), no keyword and the empty
    summary for an answer that is not JSON. Both dictionaries then have
    exactly the indices of the paragraphs as keys. *)
Theorem extraction_records (paragraphs : list str)
    (answers : list (str * value * value)) (w : world) :
  length answers = length paragraphs ->
  Forall recorded answers ->
  map Ok (map (fun a => fst (fst a)) answers) `prefix_of` llm_replies w ->
  LLMClient.extract_keywords_and_summary paragraphs true w
  = (Ok (keywords_of answers, Some (summaries_of answers)),
     answered_all (map (LLMClient.extract_prompt true) paragraphs) w)
  /\ map fst (keywords_of answers) = seq 0 (length paragraphs)
  /\ map fst (summaries_of answers) = seq 0 (length paragraphs).
Proof.
  intros Hlen Hall Hw. split.
  - apply (extract_loop_recorded paragraphs [] answers w Hlen Hall Hw).
  - rewrite <- Hlen. apply keywords_of_keys.
Qed.

(** X10. An answer that is JSON but not an object
    (a list, a number, a string) makes the extraction raise
    [AttributeError] at that paragraph: only a decoding error is
    handled. *)
Theorem extraction_not_object (para : str) (paragraphs : list str)
    (get_summary : bool) (text : str) (data : value) (w : world) :
  head (llm_replies w) = Some (Ok text) ->
  json_loads (clean_reply (strip text)) = Some data ->
  (forall d, data <> VDict d) ->
  LLMClient.extract_keywords_and_summary (para :: paragraphs) get_summary w
  = (Raise AttributeError,
     answered (LLMClient.extract_prompt get_summary para) w).
Proof.
  intros Hr Hj Hd.
  unfold LLMClient.extract_keywords_and_summary. cbn [for_each].
  rewrite bind_run. unfold LLMClient.extract_one, LLMClient.call.
  rewrite bind_run, bind_run. rewrite (post_answered _ text) by done.
  simpl. rewrite Hj. unfold lift, ExtractKeyEle.record_parsed.
  destruct data; try done. by destruct (Hd d).
Qed.

Lemma bind_run_raise {A B} (m : M A) (k : A -> M B) (w w' : world) (e : exn) :
  m w = (Raise e, w') -> (m ≫= k) w = (Raise e, w').
Proof. intros Hm. by rewrite bind_run, Hm. Qed.

Lemma style_ok (citation_style : value) :
  exists st,
    match citation_style with
    | VDict _ =>
        value_get citation_style (py "citation_style") (VStr (py "harvard"))
    | _ => Ok citation_style
    end = Ok st.
Proof. destruct citation_style; simpl; eauto. Qed.

(** The run up to the end of the extraction. *)
Lemma pipeline_run_extracted (file_path doc_type : str) (top_k : Z)
    (export_type citation_style : value) (paragraphs : list str)
    (c0 : str) (cs : list str) (answers : list (str * value * value))
    (w : world) :
  extract_paragraphs file_path doc_type = Ok paragraphs ->
  ParagraphCleaner.clean 10 paragraphs = c0 :: cs ->
  length answers = length (c0 :: cs) ->
  Forall recorded answers ->
  map Ok (map (fun a => fst (fst a)) answers) `prefix_of` llm_replies w ->
  exists st,
    pipeline_run file_path doc_type top_k export_type citation_style w
    = (no_keywords ← lift (all_empty (map (fun a => snd (fst a)) answers));
       if (no_keywords : bool) then raise RuntimeError
       else
         all_results ← for_each (process_paragraph top_k st
                                    (keywords_of answers) (summaries_of answers))
                                 0 (c0 :: cs) [];
         export_content ← lift (export_of export_type all_results);
         mret {| results := all_results; export := export_content |})
        (answered_all (map (LLMClient.extract_prompt true) (c0 :: cs)) w).
Proof.
  intros Hdoc Hcl Hlen Hall Hw.
  destruct (style_ok citation_style) as [st Hst]. exists st.
  unfold pipeline_run.
  rewrite (bind_run_ok _ _ w w st) by (unfold lift; by rewrite Hst).
  rewrite (bind_run_ok _ _ w w paragraphs) by (unfold lift; by rewrite Hdoc).
  destruct paragraphs as [|p0 paragraphs].
  { by vm_compute in Hcl. }
  cbv zeta. rewrite Hcl.
  rewrite (bind_run_ok _ _ w _ _
             (extract_loop_recorded (c0 :: cs) [] answers w Hlen Hall Hw)).
  cbn [app fst snd default]. unfold id.
  destruct answers as [|a answers]; [discriminate|].
  replace (map snd (keywords_of (a :: answers)))
    with (map (fun a : str * value * value => snd (fst a)) (a :: answers))
    by (symmetry; apply (imap_values (fun a : str * value * value => snd (fst a)))).
  reflexivity.
Qed.

(** X11. When no paragraph got a keyword, that is, when
    every extraction answer is not JSON or holds an empty list of
    keywords, the run raises [RuntimeError] right after the extraction:
    one request per cleaned paragraph has been sent to the endpoint, and
    none to the arXiv API. *)
Theorem pipeline_run_no_keywords (file_path doc_type : str) (top_k : Z)
    (export_type citation_style : value) (paragraphs : list str)
    (c0 : str) (cs : list str) (answers : list (str * value * value))
    (w : world) :
  extract_paragraphs file_path doc_type = Ok paragraphs ->
  ParagraphCleaner.clean 10 paragraphs = c0 :: cs ->
  length answers = length (c0 :: cs) ->
  Forall recorded answers ->
  Forall (fun a => len (snd (fst a)) = Ok O) answers ->
  map Ok (map (fun a => fst (fst a)) answers) `prefix_of` llm_replies w ->
  pipeline_run file_path doc_type top_k export_type citation_style w
  = (Raise RuntimeError,
     answered_all (map (LLMClient.extract_prompt true) (c0 :: cs)) w)
  /\ arxiv_queries
       (answered_all (map (LLMClient.extract_prompt true) (c0 :: cs)) w)
     = arxiv_queries w.
Proof.
  intros Hdoc Hcl Hlen Hall Hempty Hw.
  destruct (pipeline_run_extracted file_path doc_type top_k export_type
              citation_style paragraphs c0 cs answers w Hdoc Hcl Hlen Hall Hw)
    as [st ->].
  split; [|apply answered_all_replies].
  assert (all_empty (map (fun a => snd (fst a)) answers) = Ok true) as E.
  { clear -Hempty. induction Hempty as [|a answers Ha _ IH]; [done|].
    simpl. by rewrite Ha. }
  rewrite bind_run. unfold lift. by rewrite E.
Qed.

Lemma build_query_bad_summary (ranked : list (value * value))
    (summary : value) (top_n : Z) :
  (forall s, summary <> VStr s) ->
  ArxivSearcher.build_query ranked summary top_n = Raise TypeError.
Proof.
  intros Hs. unfold ArxivSearcher.build_query.
  assert (forall l, mapM as_str l = Raise TypeError
                    \/ exists kws, mapM as_str l = Ok kws) as Hm.
  { induction l as [|x l [IH|[kws IH]]]; [right; by exists []| |];
      simpl; destruct x; simpl; rewrite ?IH; eauto. }
  destruct (Hm (map fst (slice_to top_n ranked))) as [->|[kws ->]]; [done|].
  simpl. destruct summary; try done. by destruct (Hs s).
Qed.

(** X12. When the answer for the first paragraph holds
    keywords but a summary that is not a string (none at all, or
    [null]), the run raises [TypeError] when it builds the query of that
    paragraph, after one ranking request and before any request to the
    arXiv API. *)
Theorem pipeline_run_bad_summary (file_path doc_type : str) (top_k : Z)
    (export_type citation_style : value) (paragraphs : list str)
    (c0 : str) (cs : list str) (answers : list (str * value * value))
    (text0 : str) (kws : list value) (s0 : value) (ranking : str)
    (w : world) :
  extract_paragraphs file_path doc_type = Ok paragraphs ->
  ParagraphCleaner.clean 10 paragraphs = c0 :: cs ->
  length answers = length (c0 :: cs) ->
  Forall recorded answers ->
  all_empty (map (fun a => snd (fst a)) answers) = Ok false ->
  head answers = Some (text0, VList kws, s0) ->
  (forall s, s0 <> VStr s) ->
  map Ok (map (fun a => fst (fst a)) answers ++ [ranking])
    `prefix_of` llm_replies w ->
  pipeline_run file_path doc_type top_k export_type citation_style w
  = (Raise TypeError,
     answered (LLMClient.rank_prompt c0 (VList kws))
       (answered_all (map (LLMClient.extract_prompt true) (c0 :: cs)) w))
  /\ arxiv_queries
       (answered (LLMClient.rank_prompt c0 (VList kws))
          (answered_all (map (LLMClient.extract_prompt true) (c0 :: cs)) w))
     = arxiv_queries w.
Proof.
  intros Hdoc Hcl Hlen Hall Hkw Hhd Hs0 Hw.
  assert (map Ok (map (fun a => fst (fst a)) answers)
            `prefix_of` llm_replies w) as Hw'.
  { destruct Hw as [rest Hw]. exists (Ok ranking :: rest).
    by rewrite Hw, map_app, <- app_assoc. }
  destruct (pipeline_run_extracted file_path doc_type top_k export_type
              citation_style paragraphs c0 cs answers w Hdoc Hcl Hlen Hall Hw')
    as [st ->].
  set (w1 := answered_all _ w).
  split; [|simpl; apply answered_all_replies].
  rewrite (bind_run_ok _ _ w1 w1 false) by (unfold lift; by rewrite Hkw).
  apply bind_run_raise. cbn [for_each]. apply bind_run_raise.
  assert (answers !! 0%nat = Some (text0, VList kws, s0)) as H0.
  { by destruct answers. }
  assert (head (llm_replies w1) = Some (Ok ranking)) as Hr.
  { unfold w1. destruct (answered_all_replies
                           (map (LLMClient.extract_prompt true) (c0 :: cs)) w)
      as (-> & _).
    destruct Hw as [rest ->]. rewrite length_map, <- Hlen.
    rewrite map_app, <- app_assoc.
    rewrite <- (length_map (fun a => fst (fst a)) answers).
    rewrite <- (length_map Ok). by rewrite drop_app_length. }
  unfold process_paragraph, keywords_of, summaries_of.
  rewrite (bind_run_ok _ _ w1 w1 (VList kws))
    by (unfold lift;
        by rewrite (index_get_imap (fun a : str * value * value => snd (fst a)) _ _ _ H0)).
  rewrite (bind_run_ok _ _ w1 _ _ (rank_keywords_run c0 kws ranking w1 Hr)).
  set (w2 := answered _ w1).
  rewrite (bind_run_ok _ _ w2 w2 s0)
    by (unfold lift; by rewrite (index_get_imap (fun a : str * value * value => snd a) _ _ _ H0)).
  apply bind_run_raise. unfold lift.
  by rewrite build_query_bad_summary.
Qed.

End Spec.
End ExtractionTheorems.

Module ExtractionExamples.
Import Pipeline ExtractionTheorems.

Lemma extraction_records_witness :
  (length prose_answers = length [first_paragraph; second_paragraph]
   /\ Forall recorded prose_answers
   /\ map Ok (map (fun a => fst (fst a)) prose_answers)
        `prefix_of` llm_replies prose_world)
  /\ fst (LLMClient.extract_keywords_and_summary
            [first_paragraph; second_paragraph] true prose_world)
     = Ok ([(0%nat, VList []); (1%nat, VList [])],
           Some [(0%nat, VStr []); (1%nat, VStr [])]).
Proof.
  assert (Forall (@recorded sample_lib) prose_answers) as Hrec.
  { repeat (constructor; [vm_compute; split; reflexivity|]). constructor. }
  assert (map Ok (map (fun a => fst (fst a)) prose_answers)
            `prefix_of` llm_replies prose_world) as Hpre.
  { by exists [Ok keywords_and_summary]. }
  split; [by repeat split|].
  destruct (@extraction_records sample_lib [first_paragraph; second_paragraph]
              prose_answers prose_world eq_refl Hrec Hpre) as [Hrun _].
  by rewrite Hrun.
Defined.

Lemma extraction_not_object_witness :
  (head (llm_replies array_world) = Some (Ok (py "[]"))
   /\ @json_loads array_lib (clean_reply (strip (py "[]"))) = Some (VList []))
  /\ fst (@LLMClient.extract_keywords_and_summary array_lib
            [first_paragraph; second_paragraph] true array_world)
     = Raise AttributeError.
Proof.
  split; [split; reflexivity|].
  by rewrite (@extraction_not_object array_lib first_paragraph
                [second_paragraph] true (py "[]") (VList []) array_world
                eq_refl eq_refl ltac:(done)).
Defined.

Lemma pipeline_run_no_keywords_witness :
  (ParagraphCleaner.clean 10 sample_document
   = [first_paragraph; second_paragraph]
   /\ Forall recorded prose_answers
   /\ Forall (fun a => len (snd (fst a)) = Ok O) prose_answers)
  /\ fst (pipeline_run (py "paper.pdf") (py "pdf") 3 VNone
            (VStr (py "harvard")) prose_world)
     = Raise RuntimeError.
Proof.
  assert (Forall (@recorded sample_lib) prose_answers) as Hrec.
  { repeat (constructor; [vm_compute; split; reflexivity|]). constructor. }
  assert (Forall (fun a => len (snd (fst a)) = Ok O) prose_answers) as Hlen.
  { by repeat constructor. }
  assert (map Ok (map (fun a => fst (fst a)) prose_answers)
            `prefix_of` llm_replies prose_world) as Hpre.
  { by exists [Ok keywords_and_summary]. }
  assert (@ParagraphCleaner.clean sample_lib 10 sample_document
          = [first_paragraph; second_paragraph]) as Hcl.
  { vm_compute. reflexivity. }
  split; [by repeat split|].
  destruct (@pipeline_run_no_keywords sample_lib (py "paper.pdf") (py "pdf") 3
              VNone (VStr (py "harvard")) sample_document first_paragraph
              [second_paragraph] prose_answers prose_world
              eq_refl Hcl eq_refl Hrec Hlen Hpre) as [Hrun _].
  by rewrite Hrun.
Defined.

Lemma pipeline_run_bad_summary_witness :
  (Forall recorded no_summary_answers
   /\ all_empty (map (fun a => snd (fst a)) no_summary_answers) = Ok false
   /\ head no_summary_answers = Some (py "{}", VList [], VNone))
  /\ fst (pipeline_run (py "paper.pdf") (py "pdf") 3 VNone
            (VStr (py "harvard")) no_summary_world)
     = Raise TypeError
  /\ arxiv_queries
       (snd (pipeline_run (py "paper.pdf") (py "pdf") 3 VNone
               (VStr (py "harvard")) no_summary_world))
     = [].
Proof.
  assert (Forall (@recorded sample_lib) no_summary_answers) as Hrec.
  { repeat (constructor; [vm_compute; split; reflexivity|]). constructor. }
  assert (map Ok (map (fun a => fst (fst a)) no_summary_answers
                    ++ [py "graphs first"])
            `prefix_of` llm_replies no_summary_world) as Hpre.
  { by exists []. }
  assert (@ParagraphCleaner.clean sample_lib 10 sample_document
          = [first_paragraph; second_paragraph]) as Hcl.
  { vm_compute. reflexivity. }
  split; [by repeat split|].
  destruct (@pipeline_run_bad_summary sample_lib (py "paper.pdf") (py "pdf") 3
              VNone (VStr (py "harvard")) sample_document first_paragraph
              [second_paragraph] no_summary_answers (py "{}") [] VNone
              (py "graphs first") no_summary_world
              eq_refl Hcl eq_refl Hrec eq_refl eq_refl ltac:(done) Hpre)
    as [Hrun Hq].
  rewrite Hrun. split; [reflexivity | exact Hq].
Defined.

Lemma pipeline_run_no_papers_witness :
  (Forall extraction_of graphs_answers
   /\ Forall (fun t => parsed_ranking t = None)
             [py "graphs first"; py "graphs first"])
  /\ fst (pipeline_run (py "paper.pdf") (py "pdf") 3 VNone
            (VStr (py "harvard")) no_papers_world)
     = Ok {| results := [empty_entry first_paragraph;
                         empty_entry second_paragraph];
             export := ExportNone |}.
Proof.
  assert (Forall (@extraction_of sample_lib) graphs_answers) as Hrec.
  { repeat (constructor;
            [eexists; split; [vm_compute; reflexivity|];
             split; vm_compute; reflexivity|]).
    constructor. }
  assert (Forall (fun t => @parsed_ranking sample_lib t = None)
                 [py "graphs first"; py "graphs first"]) as Hrank.
  { by repeat constructor. }
  assert (@ParagraphCleaner.clean sample_lib 10 sample_document
          = [first_paragraph; second_paragraph]) as Hcl.
  { vm_compute. reflexivity. }
  split; [by split|].
  pose proof (@ScenarioFacts.pipeline_run_no_papers sample_lib (py "paper.pdf")
                (py "pdf") 3 VNone (VStr (py "harvard")) sample_document
                graphs_answers [py "graphs first"; py "graphs first"] [] []
                no_papers_world eq_refl) as Hrun.
  rewrite Hcl in Hrun. apply Hrun.
  - done.
  - reflexivity.
  - exact Hrec.
  - by repeat constructor.
  - reflexivity.
  - exact Hrank.
  - reflexivity.
  - reflexivity.
  - reflexivity.
Defined.

End ExtractionExamples.

(* ===================================================================== *)
(** * The search                                                          *)
(* ===================================================================== *)

Module SearchFacts.
Import ArxivSearcher MFacts HeapFacts ScenarioFacts ExtractionTheorems.

(** The loop over the entries of the feed, from a store that already
    holds the papers [done]; [f] builds the dictionary of an entry. *)
Lemma search_loop (f : entry -> result dict) (w : world) (h : list obj)
    (entries : list entry) :
  forall (done : list dict) (i : nat),
    match mapM f entries with
    | Ok ds =>
        for_each (fun _ e _ =>
                    d ← lift (f e);
                    p ← alloc (ODict d);
                    l ← load_list (length h);
                    store (length h) (OList (l ++ [p])))
                 i entries tt (set_heap (found_heap h done) w)
        = (Ok tt, set_heap (found_heap h (done ++ ds)) w)
    | Raise e =>
        fst (for_each (fun _ e _ =>
                         d ← lift (f e);
                         p ← alloc (ODict d);
                         l ← load_list (length h);
                         store (length h) (OList (l ++ [p])))
                      i entries tt (set_heap (found_heap h done) w))
        = Raise e
    end.
Proof.
  induction entries as [|e entries IH]; intros done i.
  - simpl. by rewrite app_nil_r.
  - cbn [mapM for_each]. destruct (f e) as [d|x] eqn:Ef; cbn [Py.bind].
    2:{ by rewrite bind_run, bind_run. }
    assert ((d0 ← lift (Ok d);
             p ← alloc (ODict d0);
             l ← load_list (length h);
             store (length h) (OList (l ++ [p])))
              (set_heap (found_heap h done) w)
            = (Ok tt, set_heap (found_heap h (done ++ [d])) w)) as Hstep.
    { rewrite (bind_run_ok _ _ _ (set_heap (found_heap h done) w) d) by done.
      rewrite bind_run, alloc_run.
      rewrite bind_run,
        (load_list_run (length h) (seq (S (length h)) (length done))).
      2:{ unfold found_heap. rewrite <- app_assoc. by apply list_lookup_middle. }
      rewrite store_run. do 2 f_equal. unfold found_heap.
      rewrite <- app_assoc. rewrite (insert_app_r_alt h) by lia.
      rewrite Nat.sub_diag. simpl. do 2 f_equal.
      - f_equal. rewrite (length_app done), seq_app. f_equal. simpl. f_equal.
        rewrite length_app. simpl. rewrite length_map. lia.
      - by rewrite map_app. }
    rewrite bind_run, Hstep. specialize (IH (done ++ [d]) (S i)).
    destruct (mapM f entries) as [ds|x]; simpl.
    + by rewrite IH, <- app_assoc.
    + exact IH.
Qed.

Lemma bind_fst_raise {A B} (m : M A) (k : A -> M B) (w : world) (e : exn) :
  fst (m w) = Raise e -> fst ((m ≫= k) w) = Raise e.
Proof.
  intros Hm. rewrite bind_run. destruct (m w) as [[a|x] w']; simpl in *.
  - discriminate Hm.
  - by injection Hm as ->.
Qed.

Lemma get_feed_fed (url : str) (entries : list entry) (w : world) :
  head (arxiv_replies w) = Some (Ok entries) ->
  get_feed url w = (Ok entries, fed url w).
Proof.
  unfold get_feed, fed. destruct (arxiv_replies w) as [|r reps]; [done|].
  by intros [= ->].
Qed.

Lemma paper_of_summary (e : entry) (d : dict) :
  paper_of e = Ok d -> d !! py "summary" = Some (VStr (abstract_of_entry e)).
Proof.
  unfold paper_of, abstract_of_entry. intros Hp.
  destruct (mapM strip_text (e_authors e)) as [authors|]; [|done].
  destruct (e_published e) as [p|]; [|done].
  destruct (e_title e) as [t|]; [|done].
  destruct (e_id e) as [l|]; [|done].
  destruct (e_summary e) as [s|]; [|done].
  simpl in Hp. apply PyFacts.Ok_inj in Hp. subst d.
  repeat (rewrite lookup_insert_ne by (vm_compute; discriminate)).
  apply lookup_insert_eq.
Qed.

Lemma found_heap_lookup (h : list obj) (dicts : list dict) :
  found_heap h dicts !! length h
  = Some (OList (seq (S (length h)) (length dicts)))
  /\ Forall2 (fun p d => found_heap h dicts !! p = Some (ODict d))
             (seq (S (length h)) (length dicts)) dicts.
Proof.
  unfold found_heap. split; [by apply list_lookup_middle|].
  apply Forall2_same_length_lookup_2; [by rewrite length_seq|].
  intros i p d Hp Hd. apply lookup_seq in Hp as [-> Hi].
  rewrite lookup_app_r by lia.
  replace (S (length h) + i - length h)%nat with (S i) by lia.
  simpl. by rewrite map_fmap, list_lookup_fmap, Hd.
Qed.

Lemma mapM_strip_text (l : list (option str)) :
  match mapM strip_text l with
  | Ok _ => forallb (fun a : option str => bool_decide (is_Some a)) l = true
  | Raise x =>
      forallb (fun a : option str => bool_decide (is_Some a)) l = false
      /\ x = AttributeError
  end.
Proof.
  induction l as [|a l IH]; [done|]. simpl.
  destruct a as [s|]; simpl; [|done].
  destruct (mapM strip_text l); simpl; [done|].
  by destruct IH as [-> ->].
Qed.

(** The dictionary of an entry is built exactly when the entry is
    complete; a text that is missing raises [AttributeError], or
    [TypeError] for the date. *)
Lemma paper_of_complete (e : entry) :
  match paper_of e with
  | Ok _ => complete e = true
  | Raise x => complete e = false /\ (x = AttributeError \/ x = TypeError)
  end.
Proof.
  unfold paper_of, complete.
  pose proof (mapM_strip_text (e_authors e)) as Ha.
  destruct (mapM strip_text (e_authors e)) as [authors|x]; simpl.
  2:{ destruct Ha as [-> ->]. eauto. }
  rewrite Ha.
  destruct (e_published e); simpl; [|eauto].
  destruct (e_title e); simpl; [|eauto].
  destruct (e_id e); simpl; [|eauto].
  destruct (e_summary e); simpl; [done | eauto].
Qed.

Lemma mapM_paper_of (entries : list entry) :
  match mapM paper_of entries with
  | Ok _ => forallb complete entries = true
  | Raise x =>
      forallb complete entries = false
      /\ (x = AttributeError \/ x = TypeError)
  end.
Proof.
  induction entries as [|e entries IH]; [done|]. simpl.
  pose proof (paper_of_complete e) as He.
  destruct (paper_of e) as [d|x]; simpl.
  - rewrite He. simpl. by destruct (mapM paper_of entries).
  - destruct He as [-> Hx]. eauto.
Qed.

(** X14. When every entry of the feed is complete, the
    search sends one request and returns a new list with one new
    dictionary per entry, in the order of the feed; the store it found is
    left as it was, and the result is a well-formed input of the ranker:
    every dictionary holds its abstract under the key "summary". *)
Theorem search_feed (query : str) (max_results : Z) (entries : list entry)
    (w : world) :
  head (arxiv_replies w) = Some (Ok entries) ->
  forallb complete entries = true ->
  exists dicts,
    mapM paper_of entries = Ok dicts
    /\ search query max_results w
       = (Ok (length (heap w)),
          set_heap (found_heap (heap w) dicts)
                   (fed (url_of query max_results) w))
    /\ length dicts = length entries
    /\ rank_input
         (set_heap (found_heap (heap w) dicts)
                   (fed (url_of query max_results) w))
         (length (heap w)) (seq (S (length (heap w))) (length dicts)) dicts
         (map abstract_of_entry entries).
Proof.
  intros Hr Hc. pose proof (mapM_paper_of entries) as Hm.
  destruct (mapM paper_of entries) as [dicts|x] eqn:Ed.
  2:{ destruct Hm as [Hm _]. congruence. }
  exists dicts. split; [done|].
  pose proof (RankerFacts.mapM_Forall2 _ _ _ Ed) as Hf.
  split; [|split; [by apply Forall2_length in Hf|]].
  - unfold search.
    rewrite (bind_run_ok _ _ w _ _ (get_feed_fed _ entries w Hr)).
    rewrite bind_run. rewrite <- (set_heap_id (fed _ w)) at 1.
    rewrite alloc_run. cbn [heap fed].
    pose proof (search_loop paper_of (fed (url_of query max_results) w)
                  (heap w) entries [] 0) as Hl.
    rewrite Ed in Hl. unfold found_heap at 1 in Hl. simpl in Hl.
    by rewrite (bind_run_ok _ _ _ _ _ Hl).
  - destruct (found_heap_lookup (heap w) dicts) as [Hl Hd].
    split; [exact Hl | exact Hd|].
    apply Forall2_fmap_r. eapply Forall2_impl; [exact Hf|].
    intros d e He. by apply paper_of_summary.
Qed.

(** X15. One entry with a missing text makes the
    whole search fail, with [AttributeError] or, for the date,
    [TypeError]: no paper of the feed is returned. *)
Theorem search_incomplete_entry (query : str) (max_results : Z)
    (entries : list entry) (w : world) :
  head (arxiv_replies w) = Some (Ok entries) ->
  forallb complete entries = false ->
  exists x,
    fst (search query max_results w) = Raise x
    /\ (x = AttributeError \/ x = TypeError).
Proof.
  intros Hr Hc. pose proof (mapM_paper_of entries) as Hm.
  destruct (mapM paper_of entries) as [dicts|x] eqn:Ed; [congruence|].
  destruct Hm as [_ Hx]. exists x. split; [|exact Hx].
  unfold search.
  rewrite (bind_run_ok _ _ w _ _ (get_feed_fed _ entries w Hr)).
  rewrite bind_run. rewrite <- (set_heap_id (fed _ w)) at 1.
  rewrite alloc_run. cbn [heap fed].
  pose proof (search_loop paper_of (fed (url_of query max_results) w)
                (heap w) entries [] 0) as Hl.
  rewrite Ed in Hl. unfold found_heap at 1 in Hl. simpl in Hl.
  by apply bind_fst_raise.
Qed.

End SearchFacts.

(* ===================================================================== *)
(** * The entries of the result                                           *)
(* ===================================================================== *)

Module ResultFacts.
Import Pipeline MFacts HeapFacts PipelineFacts.

Lemma load_dict_ok_inv (p : loc) (d : dict) (w w' : world) :
  load_dict p w = (Ok d, w') -> w' = w /\ heap w !! p = Some (ODict d).
Proof.
  unfold load_dict, load. rewrite bind_run.
  destruct (heap w !! p) as [[d'|l]|]; try done.
  by intros [= -> ->].
Qed.

Lemma dict_index_ok (d : dict) (k : str) (v : value) :
  dict_index d k = Ok v -> d !! k = Some v.
Proof. unfold dict_index. destruct (d !! k); [by intros [= ->] | done]. Qed.

Section Spec.
Context `{Library}.

(** X16. The entry built for a ranked paper holds the
    citation in the style asked for and copies of the title, authors,
    year, link and relevance of the paper, which must all be present; the
    abstract is dropped. Formatting the entry again in that style gives
    the citation it holds. The world is left as it is. *)
Theorem paper_result_fields (citation_style : value) (paper : loc)
    (w w' : world) (pr : dict) :
  paper_result_of citation_style paper w = (Ok pr, w') ->
  w' = w
  /\ exists d c,
       heap w !! paper = Some (ODict d)
       /\ CitationFormatter.format d citation_style = Ok c
       /\ pr !! py "citation" = Some (VStr c)
       /\ (forall k,
             k ∈ [py "title"; py "authors"; py "year"; py "link";
                  py "relevance"] ->
             is_Some (d !! k) /\ pr !! k = d !! k)
       /\ pr !! py "summary" = None
       /\ CitationFormatter.format pr citation_style = Ok c.
Proof.
  unfold paper_result_of. intros Hr.
  apply bind_ok_inv in Hr as (d & w1 & Hd & Hr).
  apply load_dict_ok_inv in Hd as [-> Hd].
  apply bind_ok_inv in Hr as (c & w1 & Hc & Hr).
  apply lift_ok_inv in Hc as [Hc ->].
  apply bind_ok_inv in Hr as (title & w1 & Ht & Hr).
  apply lift_ok_inv in Ht as [Ht ->]. apply dict_index_ok in Ht.
  apply bind_ok_inv in Hr as (authors & w1 & Ha & Hr).
  apply lift_ok_inv in Ha as [Ha ->]. apply dict_index_ok in Ha.
  apply bind_ok_inv in Hr as (year & w1 & Hy & Hr).
  apply lift_ok_inv in Hy as [Hy ->]. apply dict_index_ok in Hy.
  apply bind_ok_inv in Hr as (link & w1 & Hl & Hr).
  apply lift_ok_inv in Hl as [Hl ->]. apply dict_index_ok in Hl.
  apply bind_ok_inv in Hr as (relevance & w1 & Hv & Hr).
  apply lift_ok_inv in Hv as [Hv ->]. apply dict_index_ok in Hv.
  injection Hr as <- <-. split; [done|]. exists d, c.
  assert (forall k,
            k ∈ [py "title"; py "authors"; py "year"; py "link";
                 py "relevance"] ->
            is_Some (d !! k)
            /\ (<[py "title" := title]>
                  (<[py "authors" := authors]>
                     (<[py "year" := year]>
                        (<[py "link" := link]>
                           (<[py "relevance" := relevance]>
                              (<[py "citation" := VStr c]> (∅ : dict)))))))
                 !! k = d !! k) as Hk.
  { intros k Hk.
    rewrite !elem_of_cons, elem_of_nil in Hk.
    destruct Hk as [->|[->|[->|[->|[->|[]]]]]];
      (split; [eauto|]);
      repeat (rewrite lookup_insert_ne by (vm_compute; discriminate));
      by rewrite lookup_insert_eq. }
  split; [done|]. split; [done|]. split.
  { repeat (rewrite lookup_insert_ne by (vm_compute; discriminate)).
    apply lookup_insert_eq. }
  split; [exact Hk|]. split.
  { repeat (rewrite lookup_insert_ne by (vm_compute; discriminate)).
    apply lookup_empty. }
  rewrite <- Hc.
  apply FormatterMore.format_agree; apply Hk; rewrite !elem_of_cons; eauto.
Qed.

End Spec.
End ResultFacts.

(* ===================================================================== *)
(** * The heuristic fallback and the retry                                *)
(* ===================================================================== *)

Module FallbackSpec.
Import ExtractKeyEle MFacts PyFacts FallbackFacts ScenarioFacts ExtractionSpec.

Lemma split_on_from_cons (sep : char) (s cur : str) :
  exists s0 rest, split_on_from sep cur s = s0 :: rest.
Proof.
  revert cur. induction s as [|c s IH]; intros cur; simpl; [eauto|].
  destruct (c =? sep)%N; [eauto | apply IH].
Qed.

Lemma heuristic_words_ok (paragraph : str) :
  heuristic_keywords (split_on 46%N paragraph) = Ok (heuristic_words paragraph).
Proof.
  unfold heuristic_words.
  by destruct (heuristic_keywords_ok (split_on 46%N paragraph)) as (ks & -> & _).
Qed.

Section Spec.
Context `{Library}.

(** X17. The heuristic fallback never raises. It records at
    most eight keywords, each the first word of a piece of the paragraph
    between full stops, and as summary the first such piece, stripped. *)
Theorem fallback_heuristic (idx : nat) (paragraph : str) (t : tables) :
  exists s0 rest,
    split_on 46%N paragraph = s0 :: rest
    /\ fallback true idx paragraph t
       = Ok (index_set idx (VList (map VStr (heuristic_words paragraph))) (fst t),
             index_set idx (VStr (strip s0)) <$> snd t)
    /\ (length (heuristic_words paragraph) <= 8)%nat
    /\ Forall (fun k => is_word k = true
                        /\ exists s, s ∈ s0 :: rest
                             /\ first (split (strip s)) = Ok k)
              (heuristic_words paragraph).
Proof.
  destruct (split_on_from_cons 46%N paragraph []) as (s0 & rest & Es).
  exists s0, rest. split; [exact Es|].
  unfold fallback. rewrite heuristic_words_ok. cbn [mbind result_bind Py.bind].
  unfold split_on in *. rewrite Es. split; [done|].
  pose proof (heuristic_words_ok paragraph) as Hw. unfold split_on in Hw.
  rewrite Es in Hw.
  destruct (heuristic_keywords_ok (s0 :: rest)) as (ks & Hks & Hlen & Hall).
  rewrite Hks in Hw. apply Ok_inj in Hw. subst ks.
  split; [exact Hlen|].
  eapply Forall_impl; [exact Hall|]. intros k (s & Hs & Hk).
  split; [|by exists s].
  pose proof (NormaliseFacts.split_words (strip s)) as Hsw.
  destruct (split (strip s)) as [|k' ws]; [done|].
  simpl in Hk. apply Ok_inj in Hk. subst k'. simpl in Hsw.
  by apply andb_true_iff in Hsw as [Hsw _].
Qed.

(** One step of ver4_extract_key_ele.py without retry, on an answer
    that is not JSON. *)
Lemma extract_one_fallback (para : str) (done : list str) (text : str)
    (w : world) :
  head (llm_replies w) = Some (Ok text) ->
  json_loads (clean_reply (strip text)) = None ->
  extract_one true false (length done) para (heuristic_tables done) w
  = (Ok (heuristic_tables (done ++ [para])),
     answered (prompt_of true para) w).
Proof.
  intros Hr Hj. rewrite (extract_one_no_retry _ _ text) by done.
  f_equal. unfold fallback. rewrite heuristic_words_ok.
  cbn [mbind result_bind Py.bind]. unfold heuristic_tables. simpl.
  rewrite (index_set_fresh _ _ (imap (fun j p => (j, VList (map VStr (heuristic_words p)))) done))
    by apply (imap_keys_below (fun p => VList (map VStr (heuristic_words p)))).
  rewrite (index_set_fresh _ _ (imap (fun j p => (j, heuristic_summary (split_on 46%N p))) done))
    by apply (imap_keys_below (fun p => heuristic_summary (split_on 46%N p))).
  by rewrite (imap_snoc (fun p => VList (map VStr (heuristic_words p)))),
       (imap_snoc (fun p => heuristic_summary (split_on 46%N p))).
Qed.

Lemma extract_loop_fallback (paras : list str) :
  forall (done : list str) (texts : list str) (w : world),
    length texts = length paras ->
    Forall (fun text => json_loads (clean_reply (strip text)) = None) texts ->
    map Ok texts `prefix_of` llm_replies w ->
    for_each (extract_one true false) (length done) paras
             (heuristic_tables done) w
    = (Ok (heuristic_tables (done ++ paras)),
       answered_all (map (prompt_of true) paras) w).
Proof.
  induction paras as [|para paras IH]; intros done texts w Hlen Hall Hw.
  - by rewrite app_nil_r.
  - destruct texts as [|text texts]; [discriminate|].
    inversion Hall as [|? ? Ht Hall']; subst.
    destruct Hw as [rest Hw]. simpl in Hw. cbn [for_each map].
    rewrite (bind_run_ok _ _ w _ _
               (extract_one_fallback para done text w
                  ltac:(by rewrite Hw) Ht)).
    replace (S (length done)) with (length (done ++ [para]))
      by (rewrite length_app; simpl; lia).
    rewrite (IH (done ++ [para]) texts).
    + by rewrite <- app_assoc.
    + simpl in Hlen. lia.
    + exact Hall'.
    + exists rest. simpl. by rewrite Hw.
Qed.

(** X18. With [retry_on_fail=False], the extraction of
    ver4_extract_key_ele.py never raises on answers that are not JSON: it
    sends one request per paragraph and records the heuristic keywords and
    summary of every paragraph, under the index of the paragraph. *)
Theorem extract_without_retry (paragraphs texts : list str) (w : world) :
  length texts = length paragraphs ->
  Forall (fun text => json_loads (clean_reply (strip text)) = None) texts ->
  map Ok texts `prefix_of` llm_replies w ->
  extract_keywords_and_summary paragraphs true false w
  = (Ok (heuristic_tables paragraphs),
     answered_all (map (prompt_of true) paragraphs) w)
  /\ map fst (fst (heuristic_tables paragraphs)) = seq 0 (length paragraphs).
Proof.
  intros Hlen Hall Hw. split.
  - apply (extract_loop_fallback paragraphs [] texts w Hlen Hall Hw).
  - unfold heuristic_tables. cbn [fst]. apply list_eq. intros i.
    rewrite HeapFacts.map_fmap, list_lookup_fmap, list_lookup_imap.
    destruct (paragraphs !! i) as [p|] eqn:Ep; simpl.
    + by rewrite lookup_seq_lt by (by apply lookup_lt_Some in Ep).
    + by rewrite lookup_seq_ge by (by apply lookup_ge_None in Ep).
Qed.

(** X19. In ver5_rank_keyword.py, after a first answer that
    is not JSON the stricter prompt is sent, once: a second answer that
    is JSON is recorded, and one that is not leads to the heuristic
    fallback, which does not raise. Two requests are sent for the
    paragraph in both cases. *)
Theorem retry_once (idx : nat) (paragraph text1 text2 : str) (t : tables)
    (w : world) :
  head (llm_replies w) = Some (Ok text1) ->
  head (tail (llm_replies w)) = Some (Ok text2) ->
  json_loads (clean_reply (strip text1)) = None ->
  RankKeyword.extract_one true true idx paragraph t w
  = (match json_loads (clean_reply (strip text2)) with
     | Some llm_json => record_parsed true idx llm_json t
     | None => fallback true idx paragraph t
     end,
     answered_twice (prompt_of true paragraph) (prompt_retry_of paragraph) w)
  /\ is_ok (fallback true idx paragraph t) = true.
Proof.
  intros Hr1 Hr2 Hj1. split.
  - unfold RankKeyword.extract_one, RankKeyword.call_llm.
    rewrite bind_run, bind_run, (post_answered _ text1) by done.
    simpl. unfold mret at 1, M_ret at 1. rewrite Hj1.
    rewrite bind_run, bind_run, (post_answered _ text2) by done.
    simpl. unfold mret, M_ret.
    by destruct (json_loads (clean_reply (strip text2))).
  - by destruct (fallback_ok idx paragraph t) as (ks & -> & _).
Qed.

End Spec.
End FallbackSpec.

(* ===================================================================== *)
(** * The keyword ranker of webUI/papers/pipeline.py                      *)
(* ===================================================================== *)

Module WebRankingFacts.
Import MFacts.

Lemma subscript_raise (v : value) (k : str) (e : exn) :
  subscript v k = Raise e -> e = KeyError \/ e = TypeError.
Proof.
  destruct v; simpl; try (intros [= <-]; eauto).
  destruct (assoc k d); [done|]. intros [= <-]. eauto.
Qed.

Lemma iter_of_raise (v : value) (e : exn) :
  iter_of v = Raise e -> e = TypeError.
Proof. by destruct v; simpl; intros [= <-]. Qed.

Lemma mapM_raise {A B} (f : A -> result B) (l : list A) (e : exn) :
  mapM f l = Raise e -> exists x, x ∈ l /\ f x = Raise e.
Proof.
  induction l as [|x l IH]; [done|]. simpl.
  destruct (f x) as [y|e'] eqn:Ex; simpl.
  - destruct (mapM f l) as [ys|e'']; [done|]. simpl. intros [= <-].
    destruct (IH eq_refl) as (x' & Hx' & Hf). exists x'. split; [by right|done].
  - intros [= <-]. exists x. split; [by left | done].
Qed.

(** The comprehension over the ranked keywords raises [KeyError] or
    [TypeError] only. *)
Lemma ranked_of_raise (data : value) (e : exn) :
  LLMClient.ranked_of data = Raise e -> e = KeyError \/ e = TypeError.
Proof.
  unfold LLMClient.ranked_of.
  destruct (subscript data (py "ranked_keywords")) as [rk|e'] eqn:Erk; simpl.
  2:{ intros [= <-]. by eapply subscript_raise. }
  destruct (iter_of rk) as [kws|e'] eqn:Ekws; simpl.
  2:{ intros [= <-]. right. by eapply iter_of_raise. }
  intros Hm. apply mapM_raise in Hm as (kw & _ & Hkw).
  destruct (subscript kw (py "keyword")) as [k|e'] eqn:Ek; simpl in Hkw.
  2:{ injection Hkw as <-. by eapply subscript_raise. }
  destruct (subscript kw (py "relevance")) as [r|e'] eqn:Er; simpl in Hkw.
  2:{ injection Hkw as <-. by eapply subscript_raise. }
  done.
Qed.

Section Spec.
Context `{Library}.

(** X20. In webUI/papers/pipeline.py, an answer that is
    JSON but not of the expected shape (no "ranked_keywords", an item
    without "keyword" or "relevance", a value that cannot be indexed)
    makes the keyword ranker raise [KeyError] or [TypeError]: only a
    decoding error leads to the keywords with null scores. *)
Theorem rank_keywords_llm_wrong_shape (paragraph : str) (keywords : value)
    (text : str) (data : value) (e : exn) (w : world) :
  head (llm_replies w) = Some (Ok text) ->
  json_loads (clean_reply (strip text)) = Some data ->
  LLMClient.ranked_of data = Raise e ->
  WebPipeline.rank_keywords_llm paragraph keywords w
  = (Raise e, answered (WebPipeline.rank_prompt paragraph keywords) w)
  /\ (e = KeyError \/ e = TypeError).
Proof.
  intros Hr Hj He. split; [|by eapply ranked_of_raise].
  unfold WebPipeline.rank_keywords_llm, WebPipeline.call_llm.
  rewrite bind_run, bind_run. rewrite (post_answered _ text) by done.
  simpl. unfold try_except. rewrite Hj. unfold lift. rewrite He.
  by destruct (ranked_of_raise data e He) as [->| ->].
Qed.

End Spec.

Lemma rank_keywords_llm_wrong_shape_witness :
  (head (llm_replies empty_object_world) = Some (Ok (py "{}"))
   /\ json_loads (clean_reply (strip (py "{}"))) = Some (VDict [])
   /\ LLMClient.ranked_of (VDict []) = Raise KeyError)
  /\ fst (WebPipeline.rank_keywords_llm (py "Graphs are everywhere.")
            (VList [VStr (py "trees")]) empty_object_world)
     = Raise KeyError.
Proof.
  split; [by repeat split|].
  destruct (@rank_keywords_llm_wrong_shape sample_lib
              (py "Graphs are everywhere.") (VList [VStr (py "trees")])
              (py "{}") (VDict []) KeyError empty_object_world
              eq_refl eq_refl eq_refl) as [Hrun _].
  by rewrite Hrun.
Defined.

End WebRankingFacts.

Module MoreExamples.
Import Pipeline.

Lemma search_feed_witness :
  (head (arxiv_replies pipeline_world) = Some (Ok [sample_entry])
   /\ forallb complete [sample_entry] = true)
  /\ fst (ArxivSearcher.search (py "graphs") 20 pipeline_world) = Ok 0%nat
  /\ length (heap (snd (ArxivSearcher.search (py "graphs") 20 pipeline_world)))
     = 2%nat.
Proof.
  split; [split; reflexivity|].
  destruct (SearchFacts.search_feed (py "graphs") 20 [sample_entry]
              pipeline_world eq_refl eq_refl)
    as (dicts & _ & Hrun & Hlen & _).
  rewrite Hrun. split; [reflexivity|].
  cbn [snd heap set_heap]. unfold found_heap.
  rewrite length_app. cbn [length]. rewrite length_map, Hlen. reflexivity.
Defined.

Lemma search_incomplete_entry_witness :
  (head (arxiv_replies untitled_world)
   = Some (Ok [sample_entry; untitled_entry])
   /\ forallb complete [sample_entry; untitled_entry] = false)
  /\ exists x,
       fst (ArxivSearcher.search (py "graphs") 20 untitled_world) = Raise x
       /\ (x = AttributeError \/ x = TypeError).
Proof.
  split; [split; reflexivity|].
  exact (SearchFacts.search_incomplete_entry (py "graphs") 20
           [sample_entry; untitled_entry] untitled_world eq_refl eq_refl).
Defined.

Lemma paper_result_fields_witness :
  exists pr,
    paper_result_of (VStr (py "apa")) 0%nat ranked_world = (Ok pr, ranked_world)
    /\ CitationFormatter.format pr (VStr (py "apa"))
       = Ok (py "Lovelace, A., & Turing, A. M. (2020). On Graphs. arXiv. http://arxiv.org/abs/1").
Proof.
  destruct (paper_result_of (VStr (py "apa")) 0%nat ranked_world)
    as [r w'] eqn:Hrun.
  assert (is_ok r = true) as Hok.
  { change r with (fst (r, w')). rewrite <- Hrun. vm_compute. reflexivity. }
  destruct r as [pr|e]; [|discriminate Hok].
  destruct (@ResultFacts.paper_result_fields sample_lib (VStr (py "apa"))
              0%nat ranked_world w' pr Hrun)
    as (-> & d & c & Hd & Hc & _ & _ & _ & Hpr).
  exists pr. split; [reflexivity|].
  injection Hd as <-. rewrite Hpr, <- Hc. vm_compute. reflexivity.
Defined.

Lemma extract_without_retry_witness :
  (Forall (fun text => json_loads (clean_reply (strip text)) = None)
          [py "Sure! The keywords are graphs and trees.";
           py "As I said: graphs and trees."]
   /\ map Ok [py "Sure! The keywords are graphs and trees.";
              py "As I said: graphs and trees."]
        `prefix_of` llm_replies prose_world)
  /\ fst (ExtractKeyEle.extract_keywords_and_summary
            [py "Graphs are everywhere. Trees are graphs."; py "Second paragraph."]
            true false prose_world)
     = Ok ([(0%nat, VList [VStr (py "Graphs"); VStr (py "Trees")]);
            (1%nat, VList [VStr (py "Second")])],
           Some [(0%nat, VStr (py "Graphs are everywhere"));
                 (1%nat, VStr (py "Second paragraph"))]).
Proof.
  assert (Forall (fun text => @json_loads sample_lib
                                (clean_reply (strip text)) = None)
                 [py "Sure! The keywords are graphs and trees.";
                  py "As I said: graphs and trees."]) as Hall.
  { by repeat constructor. }
  assert (map Ok [py "Sure! The keywords are graphs and trees.";
                  py "As I said: graphs and trees."]
            `prefix_of` llm_replies prose_world) as Hpre.
  { by exists [Ok keywords_and_summary]. }
  split; [by split|].
  destruct (@FallbackSpec.extract_without_retry sample_lib
              [py "Graphs are everywhere. Trees are graphs.";
               py "Second paragraph."]
              [py "Sure! The keywords are graphs and trees.";
               py "As I said: graphs and trees."]
              prose_world eq_refl Hall Hpre) as [Hrun _].
  rewrite Hrun. vm_compute. reflexivity.
Defined.

Lemma retry_once_witness :
  (head (llm_replies prose_world)
   = Some (Ok (py "Sure! The keywords are graphs and trees."))
   /\ head (tail (llm_replies prose_world))
      = Some (Ok (py "As I said: graphs and trees."))
   /\ json_loads (clean_reply (strip (py "Sure! The keywords are graphs and trees.")))
      = None)
  /\ length (llm_prompts
               (snd (RankKeyword.extract_one true true 0
                       (py "Graphs are everywhere. Trees are graphs.")
                       ([], Some []) prose_world)))
     = 2%nat.
Proof.
  split; [by repeat split|].
  destruct (@FallbackSpec.retry_once sample_lib 0
              (py "Graphs are everywhere. Trees are graphs.")
              (py "Sure! The keywords are graphs and trees.")
              (py "As I said: graphs and trees.")
              ([], Some []) prose_world eq_refl eq_refl eq_refl) as [Hrun _].
  by rewrite Hrun.
Defined.

End MoreExamples.

(* ===================================================================== *)
(** * The text extractor and the runner                                   *)
(* ===================================================================== *)

Module ExtractorFacts.
Import TextExtractor StrFacts.

Lemma proper_strip (s : str) (c : char) :
  c ∈ s -> isspace c = false -> proper (strip s).
Proof.
  intros Hc Hsp. split; [|apply trimmed_strip].
  intros E. pose proof (elem_of_strip s c Hc Hsp) as H. rewrite E in H.
  by apply elem_of_nil in H.
Qed.

Lemma strip_head (s r : str) (c : char) :
  strip s = c :: r -> isspace c = false.
Proof.
  intros E. destruct (trimmed_strip s) as [Hd _]. rewrite E in Hd.
  by apply (FallbackFacts.drop_space_head (c :: r) r c).
Qed.

Lemma slice_to_last (c : char) (r : str) :
  slice_to (-1) (c :: r) = take (length r) (c :: r).
Proof.
  unfold slice_to. simpl (0 <=? -1). cbv iota. f_equal.
  rewrite length_cons. lia.
Qed.

Lemma solid_app (s t : str) : solid s -> solid t -> solid (s ++ t).
Proof.
  intros [->|(c & Hc & Hsp)] Ht; [done|].
  right. exists c. split; [|done]. apply elem_of_app. by left.
Qed.

Lemma solid_elem (s : str) (c : char) : c ∈ s -> isspace c = false -> solid s.
Proof. intros Hc Hsp. right. by exists c. Qed.

(** The invariant of the loop over the lines. *)
Lemma pdf_line_proper (st : list str * str) (line : str) :
  Forall proper (fst st) -> solid (snd st) ->
  Forall proper (fst (pdf_line st line)) /\ solid (snd (pdf_line st line)).
Proof.
  destruct st as [paras buffer]. simpl. intros Hp Hb. unfold pdf_line.
  destruct (strip line) as [|c r] eqn:El.
  - destruct buffer as [|b buffer]; [done|]. simpl. split; [|by left].
    apply Forall_app. split; [done|]. constructor; [|done].
    destruct Hb as [Hb|(x & Hx & Hsp)]; [done|].
    by apply (proper_strip _ x).
  - pose proof (strip_head line r c El) as Hc.
    destruct (endswith 45%N (c :: r)).
    { simpl. split; [done|]. apply solid_app; [done|].
      rewrite slice_to_last. destruct r as [|c' r]; [by left|].
      simpl. apply (solid_elem _ c); [by left | done]. }
    assert (c ∈ buffer ++ py " " ++ c :: r) as Hin.
    { rewrite !elem_of_app. right. right. by left. }
    destruct (endswith 46%N (c :: r) || endswith 63%N (c :: r)
              || endswith 33%N (c :: r)); simpl.
    + split; [|by left]. apply Forall_app. split; [done|].
      constructor; [|done]. by apply (proper_strip _ c).
    + split; [done|]. by apply (solid_elem _ c).
Qed.

Lemma pdf_lines_proper (lines : list str) (st : list str * str) :
  Forall proper (fst st) -> solid (snd st) ->
  Forall proper (fst (fold_left pdf_line lines st))
  /\ solid (snd (fold_left pdf_line lines st)).
Proof.
  revert st. induction lines as [|line lines IH]; intros st Hp Hb; [done|].
  simpl. destruct (pdf_line_proper st line Hp Hb) as [Hp' Hb'].
  by apply IH.
Qed.

(** X21. Every paragraph the extractor returns, from a PDF
    as from a DOCX file, is non-empty and has no white space at either
    end. *)
Theorem extract_proper (doc_type : str) (pages texts : list str)
    (paras : list str) :
  extract doc_type pages texts = Ok paras -> Forall proper paras.
Proof.
  unfold extract. destruct (bool_decide (doc_type = py "pdf")).
  - intros [= <-]. unfold _extract_pdf.
    destruct (pdf_lines_proper
                (split_on 10%N (concat (map (fun page => page ++ nl) pages)))
                ([], []) ltac:(constructor) ltac:(by left)) as [Hp Hb].
    destruct (fold_left pdf_line _ _) as [ps buffer]. simpl in *.
    destruct buffer as [|b buffer]; [done|].
    apply Forall_app. split; [done|]. constructor; [|done].
    destruct Hb as [Hb|(x & Hx & Hsp)]; [done|]. by apply (proper_strip _ x).
  - destruct (bool_decide (doc_type = py "docx")); [|done].
    intros [= <-]. unfold _extract_docx. apply Forall_forall. intros p Hp.
    apply list_elem_of_fmap in Hp as (t & -> & Ht).
    apply list_elem_of_filter in Ht as [Ht _].
    split; [done | apply trimmed_strip].
Qed.

Lemma split_on_from_line (l cur rest : str) :
  10%N ∉ l ->
  split_on_from 10%N cur (l ++ nl ++ rest)
  = (rev cur ++ l) :: split_on_from 10%N [] rest.
Proof.
  revert cur. induction l as [|c l IH]; intros cur Hl.
  - simpl. by rewrite app_nil_r.
  - apply not_elem_of_cons in Hl as [Hc Hl]. simpl.
    destruct (c =? 10)%N eqn:E; [apply N.eqb_eq in E; congruence|].
    rewrite IH by done. simpl. by rewrite <- app_assoc.
Qed.

Lemma word_no_newline (a : str) : is_word a = true -> 10%N ∉ a.
Proof.
  intros Ha Hin. apply PyFacts.is_word_chars in Ha as [_ Ha].
  rewrite forallb_forall in Ha. apply list_elem_of_In, Ha in Hin.
  discriminate Hin.
Qed.

Lemma trimmed_ends (s : str) :
  (forall c r, s = c :: r -> isspace c = false) ->
  (forall c r, s = r ++ [c] -> isspace c = false) ->
  trimmed s.
Proof.
  intros Hh Hl. split; apply drop_space_keep; [exact Hh|].
  intros c r E. apply (Hl c (rev r)).
  by rewrite <- (rev_involutive s), E.
Qed.

(** A word followed by a character that is not white space. *)
Lemma strip_word_mark (a : str) (x : char) :
  is_word a = true -> isspace x = false -> strip (a ++ [x]) = a ++ [x].
Proof.
  intros Ha Hx. apply strip_trimmed, trimmed_ends.
  - intros c r E. destruct a as [|c' a]; [done|].
    injection E as <- _. simpl in Ha.
    apply andb_true_iff in Ha as [Hc _]. by apply negb_true_iff in Hc.
  - intros c r E. by apply app_inj_tail in E as [_ <-].
Qed.

Lemma slice_to_snoc (a : str) (x : char) : slice_to (-1) (a ++ [x]) = a.
Proof.
  unfold slice_to. simpl (0 <=? -1). cbv iota.
  rewrite length_app. simpl.
  replace (Z.to_nat (Z.of_nat (length a + 1) + -1)) with (length a) by lia.
  by rewrite take_app_length.
Qed.

Lemma pdf_line_cons (paras : list str) (buffer line : str) (c : char)
    (r : str) :
  strip line = c :: r ->
  pdf_line (paras, buffer) line
  = if endswith 45%N (c :: r) then (paras, buffer ++ slice_to (-1) (c :: r))
    else if endswith 46%N (c :: r) || endswith 63%N (c :: r)
            || endswith 33%N (c :: r)
         then (paras ++ [strip (buffer ++ py " " ++ c :: r)], [])
         else (paras, buffer ++ py " " ++ c :: r).
Proof. intros E. unfold pdf_line. by rewrite E. Qed.

Lemma endswith_snoc (c x : char) (a : str) :
  endswith c (a ++ [x]) = (x =? c)%N.
Proof. unfold endswith. by rewrite last_snoc. Qed.

Lemma pdf_line_hyphen (paras : list str) (buffer a : str) :
  is_word a = true ->
  pdf_line (paras, buffer) (a ++ [45%N]) = (paras, buffer ++ a).
Proof.
  intros Ha. destruct a as [|a0 a]; [done|].
  rewrite (pdf_line_cons _ _ _ a0 (a ++ [45%N]))
    by (by apply (strip_word_mark (a0 :: a))).
  change (a0 :: a ++ [45%N]) with ((a0 :: a) ++ [45%N]).
  by rewrite endswith_snoc, slice_to_snoc.
Qed.

Lemma pdf_line_stop (paras : list str) (buffer b : str) :
  is_word b = true ->
  pdf_line (paras, buffer) (b ++ [46%N])
  = (paras ++ [strip (buffer ++ [32%N] ++ b ++ [46%N])], []).
Proof.
  intros Hb. destruct b as [|b0 b]; [done|].
  rewrite (pdf_line_cons _ _ _ b0 (b ++ [46%N]))
    by (by apply (strip_word_mark (b0 :: b))).
  change (b0 :: b ++ [46%N]) with ((b0 :: b) ++ [46%N]).
  rewrite !endswith_snoc. cbn [N.eqb Pos.eqb orb]. reflexivity.
Qed.

(** A text that begins with a word and ends in a full stop has no white
    space to strip. *)
Lemma strip_sentence (a rest s : str) :
  is_word a = true -> s = a ++ rest ++ [46%N] -> strip s = s.
Proof.
  intros Ha ->. apply strip_trimmed, trimmed_ends.
  - intros c r E. destruct a as [|a0 a]; [done|].
    injection E as <- _. simpl in Ha.
    apply andb_true_iff in Ha as [Hc _]. by apply negb_true_iff in Hc.
  - intros c r E. rewrite !app_assoc in E.
    by apply app_inj_tail in E as [_ <-].
Qed.

Lemma line_no_newline (a : str) (x : char) :
  is_word a = true -> x <> 10%N -> 10%N ∉ a ++ [x].
Proof.
  intros Ha Hx. rewrite not_elem_of_app. split; [by apply word_no_newline|].
  intros Hin. apply elem_of_cons in Hin as [Hin|Hin]; [done|].
  by apply elem_of_nil in Hin.
Qed.

(** X22. A line that ends in a hyphen loses the hyphen, and the
    next line is joined to it with a space unless that line ends in a
    hyphen too: the two halves of a word hyphenated across two lines come
    out as two words, and of a word hyphenated across three lines the
    first two parts are joined and the third is set apart. *)
Theorem hyphen_line_joining (a b c : str) :
  is_word a = true -> is_word b = true -> is_word c = true ->
  _extract_pdf [a ++ py "-" ++ nl ++ b ++ py "."]
  = [a ++ py " " ++ b ++ py "."]
  /\ _extract_pdf [a ++ py "-" ++ nl ++ b ++ py "-" ++ nl ++ c ++ py "."]
     = [a ++ b ++ py " " ++ c ++ py "."].
Proof.
  intros Ha Hb Hc. unfold _extract_pdf. cbn [map concat].
  change (py "-") with [45%N]. change (py ".") with [46%N].
  change (py " ") with [32%N]. split.
  - rewrite <- !app_assoc, (app_assoc a [45%N]), (app_assoc b [46%N]).
    unfold split_on.
    rewrite !split_on_from_line by (by apply line_no_newline).
    cbn [rev app split_on_from fold_left].
    rewrite pdf_line_hyphen, pdf_line_stop by done.
    cbn [app]. f_equal. by apply (strip_sentence a ([32%N] ++ b)).
  - rewrite <- !app_assoc, (app_assoc a [45%N]), (app_assoc b [45%N]),
      (app_assoc c [46%N]).
    unfold split_on.
    rewrite !split_on_from_line by (by apply line_no_newline).
    cbn [rev app split_on_from fold_left].
    rewrite !pdf_line_hyphen, pdf_line_stop by done.
    cbn [app]. rewrite <- app_assoc. f_equal.
    apply (strip_sentence a (b ++ [32%N] ++ c)); [done|].
    by rewrite <- !app_assoc.
Qed.

End ExtractorFacts.

Module RunnerFacts.
Import Runner.

Lemma choose_style_valid (int_of : str -> option Z) (chosen : list str)
    (num : str) :
  Forall (fun s => s ∈ styles) chosen ->
  Forall (fun s => s ∈ styles) (choose_style int_of chosen num).
Proof.
  intros Hc. unfold choose_style. destruct (int_of (strip num)) as [n|]; [|done].
  destruct ((0 <=? n - 1) && (n - 1 <? Z.of_nat (length styles))); [|done].
  destruct (styles !! Z.to_nat (n - 1)) as [style|] eqn:Es; [|done].
  apply Forall_app. split; [done|]. constructor; [|done].
  by eapply list_elem_of_lookup_2.
Qed.

Lemma choose_styles_valid (int_of : str -> option Z) (nums : list str)
    (chosen : list str) :
  Forall (fun s => s ∈ styles) chosen ->
  Forall (fun s => s ∈ styles) (fold_left (choose_style int_of) nums chosen).
Proof.
  revert chosen. induction nums as [|num nums IH]; intros chosen Hc; [done|].
  simpl. by apply IH, choose_style_valid.
Qed.

(** X23. Whatever the user types, and whatever [int] makes of
    it, the number of papers chosen is 1 at least, and the list of styles
    chosen is not empty and holds only styles of the list offered. *)
Theorem choices_valid (int_of : str -> option Z) (typed : str) :
  1 <= choose_top_k int_of typed
  /\ choose_citation_styles int_of typed <> []
  /\ Forall (fun s => s ∈ styles) (choose_citation_styles int_of typed).
Proof.
  split; [|split].
  - unfold choose_top_k. destruct (int_of _); lia.
  - unfold choose_citation_styles. destruct (strip typed); [done|].
    by destruct (fold_left _ _ _).
  - assert (Forall (fun s => s ∈ styles) styles) as Hs.
    { apply Forall_forall. auto. }
    unfold choose_citation_styles. destruct (strip typed) as [|c r]; [done|].
    pose proof (choose_styles_valid int_of (split_on 44%N (c :: r)) []
                  ltac:(constructor)) as Hc.
    by destruct (fold_left _ _ _).
Qed.

End RunnerFacts.

Module ExtractorExamples.
Import TextExtractor.

Lemma extract_proper_witness :
  extract (py "pdf")
          [py "One line" ++ nl ++ py "ends here." ++ nl ++ nl ++ py "  Next  "]
          []
  = Ok [py "One line ends here."; py "Next"]
  /\ Forall proper [py "One line ends here."; py "Next"].
Proof.
  split; [vm_compute; reflexivity|].
  apply (ExtractorFacts.extract_proper (py "pdf")
           [py "One line" ++ nl ++ py "ends here." ++ nl ++ nl ++ py "  Next  "]
           []).
  vm_compute; reflexivity.
Defined.

Lemma hyphen_line_joining_witness :
  _extract_pdf [py "exam-" ++ nl ++ py "ple."] = [py "exam ple."]
  /\ _extract_pdf [py "exam-" ++ nl ++ py "ple-" ++ nl ++ py "x."]
     = [py "example x."].
Proof.
  exact (ExtractorFacts.hyphen_line_joining (py "exam") (py "ple") (py "x")
           eq_refl eq_refl eq_refl).
Defined.

End ExtractorExamples.

(* ===================================================================== *)
(** * The query builder: the tokens of the query                          *)
(* ===================================================================== *)

Module QueryTokens.
Import ArxivSearcher PyFacts NormaliseFacts.

Lemma split_on_from_token (sep : char) (w cur s : str) :
  sep ∉ w ->
  split_on_from sep cur (w ++ s) = split_on_from sep (rev w ++ cur) s.
Proof.
  revert cur. induction w as [|c w IH]; intros cur Hw; [done|].
  apply not_elem_of_cons in Hw as [Hc Hw]. simpl.
  destruct (c =? sep)%N eqn:E; [apply N.eqb_eq in E; congruence|].
  rewrite IH by done. by rewrite <- app_assoc.
Qed.

(** Splitting at the separator what was joined with it gives the
    tokens back, when none of them holds the separator. *)
Lemma split_on_join (sep : char) (ws : list str) :
  ws <> [] -> Forall (fun w => sep ∉ w) ws ->
  split_on sep (join [sep] ws) = ws.
Proof.
  unfold split_on. induction ws as [|w ws IH]; [done|]. intros _ Hws.
  inversion Hws as [|? ? Hw Hws']; subst. destruct ws as [|w' ws].
  - simpl. rewrite <- (app_nil_r w) at 1. rewrite split_on_from_token by done.
    simpl. by rewrite app_nil_r, rev_involutive.
  - rewrite join_cons2, split_on_from_token by done. simpl.
    rewrite N.eqb_refl, app_nil_r, rev_involutive. f_equal.
    by apply IH.
Qed.

(** X24. The query is made of non-empty alphanumeric
    tokens joined by single "+" signs: it has no "+" at either end and no
    two of them in a row, and splitting it at "+" gives the tokens
    back. *)
Theorem build_query_tokens (ranked : list (value * value)) (summary : value)
    (top_n : Z) (q : str) :
  build_query ranked summary top_n = Ok q ->
  exists tokens,
    q = join (py "+") tokens
    /\ Forall (fun t => t <> [] /\ Forall (fun c => is_ascii_alnum c = true) t)
              tokens
    /\ (tokens <> [] -> split_on 43%N q = tokens)
    /\ (tokens = [] -> q = []).
Proof.
  unfold build_query. intros Hq.
  destruct (mapM as_str (map fst (slice_to top_n ranked))) as [kws|]; [|done].
  destruct (as_str summary) as [s|]; [|done]. simpl in Hq.
  apply Ok_inj in Hq. subst q.
  set (combined := strip_symbols (join (py " ") kws ++ py " " ++ s)).
  assert (Forall (fun t => t <> [] /\ Forall (fun c => is_ascii_alnum c = true) t)
                 (split combined)) as Htok.
  { pose proof (split_words combined) as Hw.
    pose proof (QueryFacts.split_from_Forall
                  (fun c => is_ascii_alnum c = true) combined []
                  ltac:(constructor)) as Ha.
    assert (Forall (Forall (fun c => is_ascii_alnum c = true)) (split combined))
      as Ha'.
    { apply Ha. apply Forall_forall. intros c Hc Hsp.
      apply list_elem_of_filter in Hc as [Hc _].
      by rewrite Hsp, orb_false_r in Hc. }
    rewrite forallb_forall in Hw. apply Forall_forall. intros t Ht.
    split.
    - apply list_elem_of_In, Hw in Ht. by destruct t.
    - rewrite Forall_forall in Ha'. by apply Ha'. }
  exists (split combined). split; [done|]. split; [exact Htok|].
  split; [|intros E; change (join (py "+") (split combined) = []);
           by rewrite E].
  intros Hne. change (split_on 43%N (join (py "+") (split combined))
                      = split combined). change (py "+") with [43%N]. apply split_on_join; [done|].
  eapply Forall_impl; [exact Htok|]. intros t [_ Ht] Hin.
  rewrite Forall_forall in Ht. by apply Ht in Hin.
Qed.

End QueryTokens.

(* ===================================================================== *)
(** * The semantic ranker: a paper without abstract                       *)
(* ===================================================================== *)

Module RankerErrors.
Import SemanticRanker MFacts HeapFacts ScenarioFacts ExtractionTheorems.
Section Spec.
Context `{Library}.

Lemma abstract_of_run (w : world) (p : loc) (d : dict) :
  heap w !! p = Some (ODict d) ->
  abstract_of p w
  = (match d !! py "summary" with
     | Some v => as_str v
     | None => Raise KeyError
     end, w).
Proof.
  intros Hp. unfold abstract_of.
  rewrite bind_run, <- (set_heap_id w), (load_dict_run _ d) by done.
  rewrite set_heap_id. rewrite bind_run. unfold dict_index, lift.
  by destruct (d !! py "summary").
Qed.

Lemma abstracts_missing (w : world) (ps : list loc) (dicts : list dict) :
  Forall2 (fun p d => heap w !! p = Some (ODict d)) ps dicts ->
  Forall (fun d : dict => d !! py "summary" = None
                          \/ exists a, d !! py "summary" = Some (VStr a)) dicts ->
  Exists (fun d : dict => d !! py "summary" = None) dicts ->
  mapMM abstract_of ps w = (Raise KeyError, w).
Proof.
  induction 1 as [|p d ps dicts Hp Hd IH]; intros Hall Hex.
  - by apply Exists_nil in Hex.
  - inversion Hall as [|? ? Hs Hall']; subst. cbn [mapMM].
    rewrite bind_run, (abstract_of_run w p d Hp).
    destruct Hs as [Hs|[a Hs]]; rewrite Hs; [done|]. simpl.
    apply Exists_cons in Hex as [Hex|Hex]; [congruence|].
    by rewrite bind_run, IH.
Qed.

(** X25. When a paper of the input has no abstract (and
    the others have one, a string), the ranker raises [KeyError] before
    it copies anything: the world is left as it was. *)
Theorem rank_missing_abstract (s : str) (papers : loc) (ps : list loc)
    (dicts : list dict) (top_k : Z) (w : world) :
  heap w !! papers = Some (OList ps) ->
  Forall2 (fun p d => heap w !! p = Some (ODict d)) ps dicts ->
  Forall (fun d : dict => d !! py "summary" = None
                          \/ exists a, d !! py "summary" = Some (VStr a)) dicts ->
  Exists (fun d : dict => d !! py "summary" = None) dicts ->
  rank (VStr s) papers top_k w = (Raise KeyError, w).
Proof.
  intros Hl Hd Hall Hex. unfold rank.
  rewrite bind_run, <- (set_heap_id w), (load_list_run papers ps) by done.
  rewrite set_heap_id.
  destruct ps as [|p ps].
  { inversion Hd; subst. by apply Exists_nil in Hex. }
  rewrite (bind_run_ok _ _ w w s) by done.
  apply bind_run_raise. by eapply abstracts_missing.
Qed.

End Spec.

Lemma rank_missing_abstract_witness :
  (heap bare_world !! 2%nat = Some (OList [0%nat; 1%nat])
   /\ Exists (fun d : dict => d !! py "summary" = None)
             [sample_paper; bare_paper])
  /\ rank (VStr (py "near")) 2%nat 3 bare_world = (Raise KeyError, bare_world).
Proof.
  assert (Exists (fun d : dict => d !! py "summary" = None)
                 [sample_paper; bare_paper]) as Hex.
  { right. left. reflexivity. }
  split; [split; [reflexivity | exact Hex]|].
  apply (@rank_missing_abstract sample_lib (py "near") 2%nat [0%nat; 1%nat]
           [sample_paper; bare_paper] 3 bare_world eq_refl).
  - repeat constructor.
  - constructor; [right; by exists (py "near")|].
    constructor; [by left | constructor].
  - exact Hex.
Defined.

End RankerErrors.

Module QueryExamples.
Import ArxivSearcher.

Lemma build_query_tokens_witness :
  build_query [(VStr (py "graph theory"), VInt 1)] (VStr (py "Trees & co.")) 5
  = Ok (py "graph+theory+Trees+co")
  /\ exists tokens,
       py "graph+theory+Trees+co" = join (py "+") tokens
       /\ Forall (fun t => t <> []
                           /\ Forall (fun c => is_ascii_alnum c = true) t)
                 tokens
       /\ (tokens <> [] -> split_on 43%N (py "graph+theory+Trees+co") = tokens)
       /\ (tokens = [] -> py "graph+theory+Trees+co" = []).
Proof.
  assert (build_query [(VStr (py "graph theory"), VInt 1)]
                      (VStr (py "Trees & co.")) 5
          = Ok (py "graph+theory+Trees+co")) as Hq.
  { vm_compute. reflexivity. }
  split; [exact Hq|].
  exact (QueryTokens.build_query_tokens _ _ _ _ Hq).
Defined.

End QueryExamples.

(* ===================================================================== *)
(** * The export                                                          *)
(* ===================================================================== *)

Module ExportFacts.
Import Pipeline WebRankingFacts.
Section Spec.
Context `{Library}.

Lemma dict_index_raise (d : dict) (k : str) (e : exn) :
  dict_index d k = Raise e -> e = KeyError.
Proof. unfold dict_index. destruct (d !! k); [done | by intros [= <-]]. Qed.

Lemma mapM_as_str_raise (l : list value) (e : exn) :
  mapM as_str l = Raise e -> e = TypeError.
Proof.
  intros Hm. apply mapM_raise in Hm as (x & _ & Hx).
  destruct x; simpl in Hx; by inversion Hx.
Qed.

Lemma csv_row_raise (para_result : paragraph_result) (paper : dict) (e : exn) :
  csv_row para_result paper = Raise e -> e = KeyError \/ e = TypeError.
Proof.
  unfold csv_row.
  destruct (dict_index paper (py "title")) as [t|x] eqn:Et; simpl.
  2:{ intros [= <-]. left. by eapply dict_index_raise. }
  destruct (dict_index paper (py "authors")) as [a|x] eqn:Ea; simpl.
  2:{ intros [= <-]. left. by eapply dict_index_raise. }
  destruct (iter_of a) as [names|x] eqn:Ei; simpl.
  2:{ intros [= <-]. right. by eapply iter_of_raise. }
  destruct (mapM as_str names) as [ns|x] eqn:En; simpl.
  2:{ intros [= <-]. right. by eapply mapM_as_str_raise. }
  destruct (dict_index paper (py "year")) as [y|x] eqn:Ey; simpl.
  2:{ intros [= <-]. left. by eapply dict_index_raise. }
  destruct (dict_index paper (py "link")) as [l|x] eqn:El; simpl.
  2:{ intros [= <-]. left. by eapply dict_index_raise. }
  destruct (dict_index paper (py "relevance")) as [r|x] eqn:Er; simpl.
  2:{ intros [= <-]. left. by eapply dict_index_raise. }
  destruct (dict_index paper (py "citation")) as [c|x] eqn:Ec; simpl.
  2:{ intros [= <-]. left. by eapply dict_index_raise. }
  done.
Qed.

Lemma bibtex_raise (paper : dict) (e : exn) :
  CitationFormatter.bibtex paper = Raise e -> e = TypeError.
Proof.
  unfold CitationFormatter.bibtex.
  destruct (items (CitationFormatter.authors_of paper)) as [l|x] eqn:El; simpl.
  2:{ intros [= <-]. by destruct (CitationFormatter.authors_of paper);
        simpl in El; inversion El. }
  destruct (mapM as_str l) as [ns|x] eqn:En; simpl.
  2:{ intros [= <-]. by eapply mapM_as_str_raise. }
  destruct (as_str (CitationFormatter.title_of paper)) as [t|x] eqn:Et; simpl.
  2:{ intros [= <-]. by destruct (CitationFormatter.title_of paper);
        simpl in Et; inversion Et. }
  destruct (as_str (CitationFormatter.year_of paper)) as [y|x] eqn:Ey; simpl.
  2:{ intros [= <-]. by destruct (CitationFormatter.year_of paper);
        simpl in Ey; inversion Ey. }
  done.
Qed.

Lemma pdf_cells_raise (para_result : paragraph_result) (e : exn) :
  pdf_cells para_result = Raise e -> e = KeyError.
Proof.
  unfold pdf_cells.
  destruct (mapM _ (papers para_result)) as [cs|x] eqn:Ec; simpl; [done|].
  intros [= <-]. apply mapM_raise in Ec as (paper & _ & Hp).
  destruct (dict_index paper (py "citation")) as [c|x'] eqn:Ed; simpl in Hp;
    [done|].
  injection Hp as <-. by eapply dict_index_raise.
Qed.

(** What the writers of the three formats can raise. *)
Lemma export_writers_raise (s : str) (rs : list paragraph_result) (e : exn) :
  lower s ∈ [py "csv"; py "bibtex"; py "pdf"] ->
  export_of (VStr s) rs = Raise e -> e = KeyError \/ e = TypeError.
Proof.
  intros Hs. unfold export_of. destruct (truthy (VStr s)); [|done].
  rewrite !elem_of_cons, elem_of_nil in Hs.
  destruct Hs as [Hs|[Hs|[Hs|[]]]]; rewrite Hs;
    repeat (rewrite bool_decide_eq_false_2 by (vm_compute; discriminate));
    rewrite bool_decide_eq_true_2 by done.
  - destruct (mapM _ rs) as [rows|x] eqn:Er; simpl; [done|]. intros [= <-].
    apply mapM_raise in Er as (pr & _ & Hpr).
    apply mapM_raise in Hpr as (paper & _ & Hp). by eapply csv_row_raise.
  - destruct (mapM _ rs) as [rows|x] eqn:Er; simpl; [done|]. intros [= <-].
    apply mapM_raise in Er as (pr & _ & Hpr).
    apply mapM_raise in Hpr as (paper & _ & Hp). right. by eapply bibtex_raise.
  - destruct (mapM pdf_cells rs) as [rows|x] eqn:Er; simpl; [done|].
    intros [= <-]. apply mapM_raise in Er as (pr & _ & Hpr).
    left. by eapply pdf_cells_raise.
Qed.

(** X26. The export raises [ValueError] exactly for an
    export type that is a non-empty string and, in lower case, none of
    "json", "csv", "bibtex" and "pdf"; no export is made for [None] or the
    empty string, and "json", in any case of the letters, exports the
    results themselves. *)
Theorem export_unsupported (export_type : value)
    (all_results : list paragraph_result) :
  (export_of export_type all_results = Raise ValueError
   <-> exists s, export_type = VStr s /\ s <> [] /\ lower s ∉ export_types)
  /\ (truthy export_type = false
      -> export_of export_type all_results = Ok ExportNone)
  /\ (forall s, export_type = VStr s -> lower s = py "json"
      -> export_of export_type all_results = Ok (ExportJson all_results)).
Proof.
  split; [split|split].
  - intros He.
    destruct export_type as [| | | |s| |];
      try (unfold export_of in He; simpl in He;
           repeat match type of He with
                  | (if ?b then _ else _) = _ => destruct b
                  end; discriminate He).
    exists s. split; [done|].
    assert (s <> []) as Hs.
    { intros ->. discriminate He. }
    split; [done|]. intros Hin. unfold export_types in Hin.
    apply elem_of_cons in Hin as [Hj|Hin].
    + unfold export_of in He. simpl in He.
      rewrite bool_decide_eq_false_2 in He by done. simpl in He.
      by rewrite Hj, bool_decide_eq_true_2 in He.
    + by destruct (export_writers_raise s all_results ValueError Hin He).
  - intros (s & -> & Hs & Hl). unfold export_of. simpl.
    rewrite (bool_decide_eq_false_2 (s = [])) by done. simpl.
    unfold export_types in Hl. rewrite !not_elem_of_cons in Hl.
    destruct Hl as (H1 & H2 & H3 & H4 & _).
    by rewrite !bool_decide_eq_false_2 by done.
  - intros Ht. unfold export_of. by rewrite Ht.
  - intros s -> Hs. unfold export_of. simpl.
    assert (s <> []) as Hne by (by intros ->).
    rewrite (bool_decide_eq_false_2 (s = [])) by done. simpl.
    by rewrite Hs.
Qed.

End Spec.
End ExportFacts.

(* ===================================================================== *)
(** * papers/tasks.py: the pipeline behind an uploaded paper              *)
(* ===================================================================== *)

Module TasksFacts.
Import Pipeline Tasks PipelineFacts MFacts PyFacts.

Section Facts.
Context `{Library}.

(** The dictionary built for a ranked paper has the six keys. *)
Lemma paper_result_keys (citation_style : value) (paper : loc) (d : dict)
    (w w' : world) :
  paper_result_of citation_style paper w = (Ok d, w') ->
  Forall (fun k => is_Some (d !! k)) result_keys.
Proof.
  unfold paper_result_of. intros Hp.
  apply bind_ok_inv in Hp as (d0 & w1 & _ & Hp).
  apply bind_ok_inv in Hp as (c & w2 & _ & Hp).
  apply bind_ok_inv in Hp as (t & w3 & _ & Hp).
  apply bind_ok_inv in Hp as (a & w4 & _ & Hp).
  apply bind_ok_inv in Hp as (y & w5 & _ & Hp).
  apply bind_ok_inv in Hp as (l & w6 & _ & Hp).
  apply bind_ok_inv in Hp as (r & w7 & _ & Hp).
  inversion Hp; subst d w'.
  repeat (constructor; [by eexists|]). constructor.
Qed.

Lemma mapMM_Forall {A B} (f : A -> M B) (P : B -> Prop) (l : list A)
    (ys : list B) (w w' : world) :
  (forall x b w1 w2, f x w1 = (Ok b, w2) -> P b) ->
  mapMM f l w = (Ok ys, w') -> Forall P ys.
Proof.
  intros Hf. revert ys w. induction l as [|x l IH]; intros ys w Hm; simpl in Hm.
  - inversion Hm. constructor.
  - apply bind_ok_inv in Hm as (y & w1 & Hy & Hm).
    apply bind_ok_inv in Hm as (ys' & w2 & Hys & Hm).
    inversion Hm; subst. constructor; [by eapply Hf | by eapply IH].
Qed.

Lemma process_paragraph_keys (top_k : Z) (citation_style : value)
    (keywords_dict summaries_dict : index_dict) (idx : nat) (para : str)
    (acc acc' : list paragraph_result) (w w' : world) :
  process_paragraph top_k citation_style keywords_dict summaries_dict
                    idx para acc w = (Ok acc', w') ->
  exists prs,
    acc' = acc ++ [{| paragraph := para; papers := prs |}]
    /\ Forall (fun d : dict => Forall (fun k => is_Some (d !! k)) result_keys)
              prs.
Proof.
  unfold process_paragraph. intros Hp.
  apply bind_ok_inv in Hp as (kws & w1 & _ & Hp).
  apply bind_ok_inv in Hp as (ranked & w2 & _ & Hp).
  apply bind_ok_inv in Hp as (summary & w3 & _ & Hp).
  apply bind_ok_inv in Hp as (query & w4 & _ & Hp).
  apply bind_ok_inv in Hp as (found & w5 & _ & Hp).
  apply bind_ok_inv in Hp as (summary' & w6 & _ & Hp).
  apply bind_ok_inv in Hp as (top_papers & w7 & _ & Hp).
  apply bind_ok_inv in Hp as (tops & w8 & _ & Hp).
  apply bind_ok_inv in Hp as (prs & w9 & Hm & Hp).
  inversion Hp; subst acc' w'. exists prs. split; [done|].
  eapply mapMM_Forall; [|exact Hm].
  intros x b wa wb. apply paper_result_keys.
Qed.

Lemma loop_keys (top_k : Z) (citation_style : value)
    (keywords_dict summaries_dict : index_dict) (l : list str) (i : nat)
    (acc res : list paragraph_result) (w w' : world) :
  Forall (fun e => Forall (fun d : dict =>
                             Forall (fun k => is_Some (d !! k)) result_keys)
                          (papers e)) acc ->
  for_each (process_paragraph top_k citation_style keywords_dict summaries_dict)
           i l acc w = (Ok res, w') ->
  Forall (fun e => Forall (fun d : dict =>
                             Forall (fun k => is_Some (d !! k)) result_keys)
                          (papers e)) res.
Proof.
  revert i acc w. induction l as [|para l IH]; intros i acc w Hacc Hl;
    simpl in Hl.
  - by inversion Hl; subst.
  - apply bind_ok_inv in Hl as (acc1 & w1 & Hp & Hl).
    apply process_paragraph_keys in Hp as (prs & -> & Hprs).
    eapply IH; [|exact Hl]. apply Forall_app. split; [done|].
    by constructor.
Qed.

(** Every paper of the results of [pipeline_run] has the six keys. *)
Lemma pipeline_run_keys (file_path doc_type : str) (top_k : Z)
    (export_type citation_style : value) (w w' : world) (out : output) :
  pipeline_run file_path doc_type top_k export_type citation_style w
  = (Ok out, w') ->
  Forall (fun e => Forall (fun d : dict =>
                             Forall (fun k => is_Some (d !! k)) result_keys)
                          (papers e)) (results out).
Proof.
  intros Hrun. unfold pipeline_run in Hrun.
  apply bind_ok_inv in Hrun as (style & w1 & _ & Hrun).
  apply bind_ok_inv in Hrun as (ps & w2 & _ & Hrun).
  destruct ps as [|p0 ps].
  { inversion Hrun; subst. constructor. }
  destruct (ParagraphCleaner.clean 10 (p0 :: ps)) as [|c0 cleaned].
  { inversion Hrun; subst. constructor. }
  apply bind_ok_inv in Hrun as (t & w3 & _ & Hrun).
  apply bind_ok_inv in Hrun as (nk & w4 & _ & Hrun).
  destruct nk; [discriminate|].
  apply bind_ok_inv in Hrun as (all_results & w5 & Hloop & Hrun).
  apply bind_ok_inv in Hrun as (content & w6 & _ & Hrun).
  inversion Hrun; subst out w'. simpl.
  eapply loop_keys; [|exact Hloop]. constructor.
Qed.

Lemma citation_of_stored (citation_style : value) (idx : nat)
    (para_result : paragraph_result) (d : dict) (row : citation) :
  Forall (fun k => is_Some (d !! k)) result_keys ->
  citation_of citation_style idx para_result d = Ok row ->
  stored citation_style idx para_result d row.
Proof.
  intros Hk Hc. unfold citation_of in Hc.
  assert (forall k, k ∈ result_keys -> is_Some (d !! k)) as Hin.
  { by apply Forall_forall. }
  destruct (Hin (py "title")) as [t Ht]; [unfold result_keys; set_solver|].
  destruct (Hin (py "authors")) as [a Ha]; [unfold result_keys; set_solver|].
  destruct (Hin (py "year")) as [y Hy]; [unfold result_keys; set_solver|].
  destruct (Hin (py "link")) as [l Hl]; [unfold result_keys; set_solver|].
  destruct (Hin (py "relevance")) as [r Hr]; [unfold result_keys; set_solver|].
  unfold dict_get in Hc. rewrite Ht, Ha, Hy, Hl, Hr in Hc.
  destruct (CitationFormatter.format d citation_style) as [text|] eqn:Hf;
    [|done].
  simpl in Hc. destruct (iter_of a) as [items|] eqn:Hi; [|done].
  simpl in Hc. destruct (mapM as_str items) as [names|] eqn:Hn; [|done].
  simpl in Hc. apply Ok_inj in Hc. subst row.
  unfold stored. simpl. repeat (split; [done|]).
  exists a, names. rewrite Hi. simpl. by rewrite Hn.
Qed.

(** The inner loop keeps the table of the papers and appends rows. *)
Lemma create_papers_run (citation_style : value) (paper_id idx : nat)
    (para_result : paragraph_result) (ps : list dict) (n : nat)
    (db db' : database) (r : result nat) :
  create_papers citation_style paper_id idx para_result ps n db = (r, db') ->
  uploaded_papers db' = uploaded_papers db
  /\ exists rows,
       citations db' = citations db ++ map (pair paper_id) rows
       /\ forall m, r = Ok m ->
            m = (n + length rows)%nat
            /\ Forall2 (fun d row =>
                          citation_of citation_style idx para_result d = Ok row)
                       ps rows.
Proof.
  revert n db. induction ps as [|d ps IH]; intros n db Hc; simpl in Hc.
  - inversion Hc; subst. split; [done|]. exists []. simpl.
    rewrite app_nil_r. split; [done|]. intros m [= <-].
    split; [lia | constructor].
  - destruct (citation_of citation_style idx para_result d) as [row|e] eqn:Hd.
    + apply IH in Hc as (Hu & rows & Hrows & Hok). split; [done|].
      exists (row :: rows). split.
      { rewrite Hrows. simpl. by rewrite <- app_assoc. }
      intros m Hm. destruct (Hok m Hm) as [-> Hall].
      split; [simpl; lia | by constructor].
    + inversion Hc; subst. split; [done|]. exists []. simpl.
      rewrite app_nil_r. split; [done|]. by intros m.
Qed.

(** The outer loop: the rows of the paragraphs, one list for each. *)
Lemma create_all_run (citation_style : value) (paper_id idx : nat)
    (all_results : list paragraph_result) (n : nat) (db db' : database)
    (r : result nat) :
  create_all citation_style paper_id idx all_results n db = (r, db') ->
  uploaded_papers db' = uploaded_papers db
  /\ exists rowss,
       citations db' = citations db ++ map (pair paper_id) (concat rowss)
       /\ forall m, r = Ok m ->
            m = (n + length (concat rowss))%nat
            /\ length rowss = length all_results
            /\ forall j e rows,
                 all_results !! j = Some e -> rowss !! j = Some rows ->
                 Forall2 (fun d row =>
                            citation_of citation_style (idx + j) e d = Ok row)
                         (papers e) rows.
Proof.
  revert idx n db. induction all_results as [|e0 rest IH]; intros idx n db Hc;
    simpl in Hc.
  - inversion Hc; subst. split; [done|]. exists []. simpl.
    rewrite app_nil_r. split; [done|]. intros m [= <-].
    split; [lia|]. split; [done|]. by intros j e rows.
  - destruct (create_papers citation_style paper_id idx e0 (papers e0) n db)
      as [[k|x] db1] eqn:Hp.
    + apply create_papers_run in Hp as (Hu1 & rows0 & Hrows0 & Hok0).
      destruct (Hok0 k eq_refl) as [-> Hall0].
      apply IH in Hc as (Hu & rowss & Hrows & Hok).
      split; [congruence|]. exists (rows0 :: rowss). split.
      { rewrite Hrows, Hrows0. simpl. by rewrite map_app, <- app_assoc. }
      intros m Hm. destruct (Hok m Hm) as (-> & Hlen & Hall).
      split; [simpl; rewrite length_app; lia|].
      split; [simpl; by rewrite Hlen|].
      intros [|j] e rows He Hr; simpl in He, Hr.
      * inversion He; inversion Hr; subst. by rewrite Nat.add_0_r.
      * replace (idx + S j)%nat with (S idx + j)%nat by lia. by eapply Hall.
    + apply create_papers_run in Hp as (Hu1 & rows0 & Hrows0 & _).
      inversion Hc; subst. split; [done|]. exists [rows0]. simpl.
      rewrite app_nil_r. split; [done|]. by intros m.
Qed.

(** Without a paper in any paragraph, nothing is created. *)
Lemma create_all_no_papers (citation_style : value) (paper_id idx : nat)
    (all_results : list paragraph_result) (n : nat) (db : database) :
  Forall (fun e => papers e = []) all_results ->
  create_all citation_style paper_id idx all_results n db = (Ok n, db).
Proof.
  intros Hall. revert idx. induction Hall as [|e rest He Hrest IH]; intros idx.
  - done.
  - simpl. rewrite He. simpl. apply IH.
Qed.

(** The [try] block leaves the table of the papers alone. *)
Lemma process_file_papers (paper_id : nat) (paper : uploaded_paper)
    (citation_style export_type : value) (top_k : Z) (db db' : database)
    (w w' : world) (r : result unit) :
  process_file paper_id paper citation_style export_type top_k db w
  = ((r, db'), w') ->
  uploaded_papers db' = uploaded_papers db.
Proof.
  unfold process_file. intros Hp.
  destruct (bool_decide (file_name paper = [])
            || bool_decide (file_path paper = [])); [by inversion Hp|].
  destruct (rsplit_dot (file_name paper)) as [|root [|ext [|x parts]]];
    try (by inversion Hp).
  destruct (bool_decide (lower ext ∈ [py "pdf"; py "docx"]));
    [|by inversion Hp].
  destruct (pipeline_run (file_path paper) (lower ext) top_k export_type
              citation_style w) as [[out|e] w1]; [|by inversion Hp].
  destruct (results out) as [|e0 rest]; [by inversion Hp|].
  destruct (create_all citation_style paper_id 1 (e0 :: rest) 0
              (delete_citations paper_id db)) as [[n|e] db1] eqn:Hc.
  - apply create_all_run in Hc as [Hu _].
    destruct n; inversion Hp; subst; exact Hu.
  - apply create_all_run in Hc as [Hu _]. inversion Hp; subst; exact Hu.
Qed.

(** X27. For a paper of the table and settings that are
    [None], empty or a dictionary, [process_paper] ends with the paper
    marked as processed, whichever way it ends: its row has
    [processing = False], and [error_message] is [None] after a return and
    the text of the exception after a raise; no other row of the table is
    touched. For settings of another kind [AttributeError] is raised
    before the [try] block, and the paper stays marked as in process. *)
Theorem process_paper_flags (paper_id : nat) (paper : uploaded_paper)
    (settings_dict : value) (top_k : Z) (db db' : database) (w w' : world)
    (r : result unit) :
  uploaded_papers db !! paper_id = Some paper ->
  process_paper paper_id settings_dict top_k db w = ((r, db'), w') ->
  (truthy settings_dict = false \/ (exists d, settings_dict = VDict d) ->
   uploaded_papers db'
   = <[paper_id := {| file_name := file_name paper;
                      file_path := file_path paper;
                      processing := false;
                      error_message := match r with
                                       | Ok _ => None
                                       | Raise e => Some e
                                       end |}]> (uploaded_papers db))
  /\ (truthy settings_dict = true -> (forall d, settings_dict <> VDict d) ->
      r = Raise AttributeError
      /\ w' = w
      /\ citations db' = citations db
      /\ uploaded_papers db'
         = <[paper_id := {| file_name := file_name paper;
                            file_path := file_path paper;
                            processing := true;
                            error_message := None |}]> (uploaded_papers db)).
Proof.
  intros Hpaper Hrun. unfold process_paper in Hrun. rewrite Hpaper in Hrun.
  cbv zeta in Hrun. split.
  - intros Hs.
    assert (exists style export_type,
              setting settings_dict (py "citation_style") (py "harvard")
              = Ok style
              /\ setting settings_dict (py "export_type") (py "csv")
                 = Ok export_type) as (style & export_type & Hst & Hex).
    { unfold setting. destruct Hs as [Hs|[d ->]].
      - rewrite Hs. by eexists _, _.
      - destruct (truthy (VDict d)); simpl; by eexists _, _. }
    rewrite Hst, Hex in Hrun.
    match type of Hrun with
    | context [process_file ?i ?p ?s ?x ?k ?d ?v] =>
        destruct (process_file i p s x k d v) as [[[u|e] db1] w1] eqn:Hf
    end;
      apply process_file_papers in Hf; inversion Hrun; subst; simpl;
      rewrite Hf; simpl; by rewrite insert_insert_eq.
  - intros Ht Hd. unfold setting in Hrun. rewrite Ht in Hrun.
    destruct settings_dict; try (by inversion Hrun).
    by destruct (Hd d).
Qed.

(** X28. When [process_paper] returns, the pipeline has
    returned results for the file of the paper, with the extension of its
    name in lower case as the document type, and the citations of the
    paper are the new rows alone, at least one: one row for each paper of
    the results, in their order, numbered with the position of its
    paragraph counted from 1, and holding the paragraph and the fields of
    that paper. The citations of the other papers stay, before the new
    rows. *)
Theorem process_paper_citations (paper_id : nat) (settings_dict : value)
    (top_k : Z) (db db' : database) (w w' : world) :
  process_paper paper_id settings_dict top_k db w = ((Ok tt, db'), w') ->
  exists paper root ext citation_style export_type out rowss,
    uploaded_papers db !! paper_id = Some paper
    /\ rsplit_dot (file_name paper) = [root; ext]
    /\ setting settings_dict (py "citation_style") (py "harvard")
       = Ok citation_style
    /\ setting settings_dict (py "export_type") (py "csv") = Ok export_type
    /\ pipeline_run (file_path paper) (lower ext) top_k export_type
                    citation_style w = (Ok out, w')
    /\ length rowss = length (results out)
    /\ (forall j e rows,
          results out !! j = Some e -> rowss !! j = Some rows ->
          Forall2 (stored citation_style (S j) e) (papers e) rows)
    /\ concat rowss <> []
    /\ citations db'
       = filter (fun r => fst r <> paper_id) (citations db)
         ++ map (pair paper_id) (concat rowss).
Proof.
  unfold process_paper. intros Hrun.
  destruct (uploaded_papers db !! paper_id) as [paper|] eqn:Hpaper; [|done].
  cbv zeta in Hrun.
  destruct (setting settings_dict (py "citation_style") (py "harvard"))
    as [style|] eqn:Hst; [|done].
  destruct (setting settings_dict (py "export_type") (py "csv"))
    as [export_type|] eqn:Hex; [|done].
  match type of Hrun with
  | context [process_file ?i ?p ?s ?x ?k ?d ?v] =>
      destruct (process_file i p s x k d v) as [[[u|e] db1] w1] eqn:Hf
  end; [|done].
  inversion Hrun; subst db' w'. clear Hrun.
  unfold process_file in Hf. cbn [file_name file_path] in Hf.
  destruct (bool_decide (file_name paper = [])
            || bool_decide (file_path paper = [])); [done|].
  destruct (rsplit_dot (file_name paper)) as [|root [|ext [|x parts]]] eqn:Hn;
    try done.
  cbv zeta in Hf.
  destruct (bool_decide (lower ext ∈ [py "pdf"; py "docx"])); [|done].
  destruct (pipeline_run (file_path paper) (lower ext) top_k export_type
              style w) as [[out|e] w2] eqn:Hp; [|done].
  pose proof (pipeline_run_keys _ _ _ _ _ _ _ _ Hp) as Hkeys.
  destruct (results out) as [|e0 rest] eqn:Hres; [done|].
  rewrite <- Hres in *.
  destruct (create_all style paper_id 1 (results out) 0 _)
    as [[n|e] db2] eqn:Hc; [|done].
  destruct n as [|n]; [done|]. inversion Hf; subst db1 w1. clear Hf.
  apply create_all_run in Hc as (Hu & rowss & Hrows & Hok).
  destruct (Hok _ eq_refl) as (Hn' & Hlen & Hall).
  exists paper, root, ext, style, export_type, out, rowss.
  repeat (split; [done|]). split.
  { intros j e rows He Hr. specialize (Hall j e rows He Hr).
    assert (Forall (fun d : dict =>
                      Forall (fun k => is_Some (d !! k)) result_keys)
                   (papers e)) as Hk.
    { eapply Forall_lookup_1 in Hkeys; [|exact He]. exact Hkeys. }
    clear He Hr. induction Hall as [|d row ds rows' Hd Hds IH];
      [constructor|].
    inversion Hk; subst. constructor; [|by apply IH].
    by apply citation_of_stored. }
  split.
  { intros Hnil. rewrite Hnil in Hn'. simpl in Hn'. lia. }
  simpl. exact Hrows.
Qed.

(** X29. When the pipeline returns results in which no
    paragraph has a paper, [process_paper] raises [RuntimeError] after it
    has deleted the citations that the paper had: the paper is left
    without citations, with the error recorded. *)
Theorem process_paper_no_papers (paper_id : nat) (paper : uploaded_paper)
    (settings_dict citation_style export_type : value) (root ext : str)
    (top_k : Z) (db : database) (w w' : world) (out : output) :
  uploaded_papers db !! paper_id = Some paper ->
  file_path paper <> [] ->
  rsplit_dot (file_name paper) = [root; ext] ->
  lower ext ∈ [py "pdf"; py "docx"] ->
  setting settings_dict (py "citation_style") (py "harvard")
  = Ok citation_style ->
  setting settings_dict (py "export_type") (py "csv") = Ok export_type ->
  pipeline_run (file_path paper) (lower ext) top_k export_type citation_style w
  = (Ok out, w') ->
  results out <> [] ->
  Forall (fun e => papers e = []) (results out) ->
  process_paper paper_id settings_dict top_k db w
  = ((Raise RuntimeError,
      {| uploaded_papers :=
           <[paper_id := {| file_name := file_name paper;
                            file_path := file_path paper;
                            processing := false;
                            error_message := Some RuntimeError |}]>
             (uploaded_papers db);
         citations := filter (fun r => fst r <> paper_id) (citations db) |}),
     w').
Proof.
  intros Hpaper Hpath Hname Hext Hst Hex Hrun Hres Hnone.
  unfold process_paper. rewrite Hpaper. cbv zeta. rewrite Hst, Hex.
  unfold process_file. cbn [file_name file_path].
  assert (file_name paper <> []) as Hfile.
  { intros Hnil. rewrite Hnil in Hname. discriminate Hname. }
  rewrite (bool_decide_eq_false_2 _ Hfile), (bool_decide_eq_false_2 _ Hpath).
  simpl orb. cbv iota. rewrite Hname. cbv zeta.
  rewrite (bool_decide_eq_true_2 _ Hext), Hrun.
  destruct (results out) as [|e0 rest] eqn:Eres; [done|].
  rewrite (create_all_no_papers _ _ _ _ _ _ Hnone).
  unfold save, delete_citations. simpl. by rewrite insert_insert_eq.
Qed.

End Facts.
End TasksFacts.

Module TasksExamples.
Import Pipeline Tasks.

Lemma process_paper_flags_witness :
  uploaded_papers
    (snd (fst (process_paper 7 VNone 3 sample_database pipeline_world)))
  !! 7%nat
  = Some {| file_name := py "uploads/paper.PDF";
            file_path := py "/media/uploads/paper.PDF";
            processing := false;
            error_message := None |}.
Proof.
  destruct (process_paper 7 VNone 3 sample_database pipeline_world)
    as [[r db'] w'] eqn:Hrun.
  assert (is_ok r = true) as Hok.
  { change r with (fst (fst ((r, db'), w'))). rewrite <- Hrun.
    vm_compute. reflexivity. }
  destruct (@TasksFacts.process_paper_flags sample_lib 7%nat
              {| file_name := py "uploads/paper.PDF";
                 file_path := py "/media/uploads/paper.PDF";
                 processing := true;
                 error_message := None |}
              VNone 3 sample_database db' pipeline_world w' r
              eq_refl Hrun) as [Hflags _].
  simpl. rewrite Hflags by (by left).
  destruct r as [u|e]; [|discriminate Hok].
  apply lookup_insert_eq.
Defined.

Lemma process_paper_citations_witness :
  exists db' w' rows,
    process_paper 7 VNone 3 sample_database pipeline_world
    = ((Ok tt, db'), w')
    /\ rows <> []
    /\ citations db' = (8%nat, old_citation) :: map (pair 7%nat) rows.
Proof.
  destruct (process_paper 7 VNone 3 sample_database pipeline_world)
    as [[r db'] w'] eqn:Hrun.
  assert (is_ok r = true) as Hok.
  { change r with (fst (fst ((r, db'), w'))). rewrite <- Hrun.
    vm_compute. reflexivity. }
  destruct r as [[]|e]; [|discriminate Hok].
  destruct (@TasksFacts.process_paper_citations sample_lib 7%nat VNone 3
              sample_database db' pipeline_world w' Hrun)
    as (paper & root & ext & style & export_type & out & rowss & _ & _ & _
        & _ & _ & _ & _ & Hne & Hrows).
  exists db', w', (concat rowss). split; [reflexivity|].
  split; [exact Hne | exact Hrows].
Defined.

Lemma process_paper_no_papers_witness :
  exists w',
    process_paper 7 VNone 3 sample_database no_papers_world
    = ((Raise RuntimeError,
        {| uploaded_papers :=
             <[7%nat := {| file_name := py "uploads/paper.PDF";
                           file_path := py "/media/uploads/paper.PDF";
                           processing := false;
                           error_message := Some RuntimeError |}]>
               (uploaded_papers sample_database);
           citations := [(8%nat, old_citation)] |}),
       w').
Proof.
  destruct (pipeline_run (py "/media/uploads/paper.PDF") (lower (py "PDF")) 3
              (VStr (py "csv")) (VStr (py "harvard")) no_papers_world)
    as [r w'] eqn:Hrun.
  assert (r = Ok {| results := [empty_entry first_paragraph;
                                empty_entry second_paragraph];
                    export := ExportCsv [csv_header] |}) as Hr.
  { change r with (fst (r, w')). rewrite <- Hrun. vm_compute. reflexivity. }
  subst r. exists w'.
  apply (@TasksFacts.process_paper_no_papers sample_lib 7%nat
           {| file_name := py "uploads/paper.PDF";
              file_path := py "/media/uploads/paper.PDF";
              processing := true;
              error_message := None |}
           VNone (VStr (py "harvard")) (VStr (py "csv"))
           (py "uploads/paper") (py "PDF") 3 sample_database
           no_papers_world w'
           {| results := [empty_entry first_paragraph;
                          empty_entry second_paragraph];
              export := ExportCsv [csv_header] |}
           eq_refl).
  - discriminate.
  - vm_compute. reflexivity.
  - change (lower (py "PDF")) with (py "pdf"). apply elem_of_cons. by left.
  - reflexivity.
  - reflexivity.
  - exact Hrun.
  - discriminate.
  - by repeat constructor.
Defined.

End TasksExamples.
